(* ===== verification/_CoqProject ===== *)
-Q . S2P
Prelude.v
Geometry.v
GeometryReal.v
Samples.v
ClusterBuilder.v
ClusterSpec.v
Classifier.v
BlockMerger.v
BlockOrder.v
Summarizer.v
Pipeline.v
Preprocessing.v
QSum.v
Gini.v
EntropyGrid.v
EntropyReal.v
FixedPoints.v
Metrics.v
SessionOrder.v
MetricsFrames.v
PyString.v
Plot.v
Diarizer.v
ErrorResponse.v
Util.v
Demo.v
Scripts.v
