(* ===== verification/Prelude.v ===== *)
(** * Verification of the moodoo preprocessing, stop/transition engine and spatial metrics

    This library models, in Rocq, the trajectory-segmentation engine of the
    moodoo analytics scripts ([src/moodoo-master/scripts/_stopsAndTransitions.py]),
    the preprocessing that feeds it ([scripts/_preprocessing.py]), and two
    of the metrics computed from the positions: the entropy of the
    occupancy grids ([scripts/_entropy.py]) and the visits of the fixed
    points of the classroom with their Gini index
    ([scripts/_classroomObjects.py]), and the table of metrics that merges
    them ([scripts/_metricsMain.py]), with the date parsing of the CSV
    readers ([scripts/_util.py]).  It also models the two small tools of
    the repository: the diarization batch runner
    ([whisper-diarization-main/run_diarizer.py]) and the error response
    helper of the server ([py-server-main/util/error_handling_util.py]).
    It proves the properties
    that make them correct, together with the places where they depart
    from their specification and docstrings.

    ** The program

    [preprocessing] ([_preprocessing.py], lines 32-99) prepares the raw
    localisation table.  [add_phases] gives every row the phase of the
    first entry of the phase table whose interval contains it, or [-100],
    and may drop the unassigned rows.  [add_quantiles] numbers the [N] equal
    parts of every phase.  [add_rotation] converts an angle to degrees.
    [sampling_and_interpolating] resamples every (session, tracker) group to
    one row per second, interpolating x and y linearly; on an empty table it
    raises [KeyError].

    [stops_transitions] ([_stopsAndTransitions.py], lines 35-83) is a
    pipeline of three functions over the table of position samples
    (tracker, session, timestamp, x, y, phase, quantile):

    - [generate_positioning_clusters] (lines 86-237): for every (tracker,
      session) partition, a single forward pass assigns each sample a cluster
      id ("group").  A sample joins the current cluster when its Euclidean
      distance to the cluster's base point is at most the configured
      [distance]; otherwise it opens a new cluster and becomes the new base
      point.  The counter [fix_seq] is initialised once, before the loop over
      partitions, and never reset.
    - [tag_clusters] (lines 239-374) does three things.  It converts the time
      difference to the base point into a time of day, through a regular
      expression on its string form, and takes the per-group maximum.  It
      labels every row "stop" or "transition" against the configured
      [duration].  It numbers the maximal runs of equal labels inside each
      partition as "blocks", and recomputes the time difference to the
      previous row inside each block ([delta]).
    - [get_stops_and_transitions] (lines 376-502) works per block.  It
      computes the duration (last timestamp minus first).  For stop blocks it
      also computes the centroid, the sample standard deviation of the
      coordinates, the minimum phase and the first quantile.  Transition
      blocks keep one row per sample.

    [calculate_entropy_session_tracker_phase] ([_entropy.py], lines 36-129)
    and its variant per (session, tracker) (lines 133-230) divide the room
    into [m] by [n] cells of [size_of_grid_cells], count every group's
    samples per cell, turn the counts into percentages of the group's size,
    and [get_entropy] (lines 233-265) computes the base-2 Shannon entropy of
    each flattened grid with [scipy.stats.entropy].
    [plot_charts_per_tracker] (lines 268-410) saves, for every (session,
    tracker, phase) with more than two stops, a Voronoi diagram, a
    Voronoi diagram coloured by the stops' durations, the convex hull and
    the Delaunay triangulation, as PNG files named after the group; a
    group whose stops all lie on one line makes [Voronoi] raise
    [QhullError], which ends the function.

    [generate_fixed_points_stats] ([_classroomObjects.py], lines 35-157)
    joins every stop with the fixed points (students, zones) of its
    session, keeps the nearest ones ([get_closer_fixedpoint_stop], lines
    271-319) within [distance_tracker_fixed_point], and counts the visits
    and their duration per (session, tracker, phase, fixed point), with a
    zero row for every point, phase and tracker of the session.
    [calculate_gini_by_tracker] and [calculate_gini_trackers_together]
    (lines 159-235) apply [gini] (lines 237-269) to the visit counts of
    the student points of each group.

    [get_metrics] ([_metricsMain.py], lines 30-237) aggregates all of these
    per (session, tracker, phase): stop counts and durations, the distance
    walked between consecutive rows and the speed during transitions, the
    attention given to students and zones, the entropy and Gini indices.
    It merges the tables, keeps the selected phase and can weight the
    metrics by the ratio of the shortest duration of the phase to its
    duration in the session.

    [open_csv] and [open_csv_gui] ([_util.py]) read a CSV file with
    [read_csv], parsing the listed date columns with
    [strptime(x, "%d/%m/%Y %H:%M:%S")]; [open_csv_gui] asks for the file
    in the Qt dialog of [gui_open_file].  [run_diarization] runs
    [diarize.py] through PowerShell on every audio file of a folder, and
    [build_error_response] validates a message and a status code, logs
    the message and returns the pair.  [test/demoMAIN.py] runs the
    whole analysis on one dataset.

    ** The files

    - [Prelude] (this file) holds what the components share:
      - the notation scope [mmla_scope], the hint databases [mmla] and
        [mmla_rw], and the tactic [zbool];
      - the generic list functions with their lemmas: pandas' [unique],
        consecutive runs ([chunk_by]), selection by key, integer ranges
        ([zrange]), maxima and sums.
    - [Geometry] defines the squared Euclidean distance over [Q] and the
      threshold test [within], which stands for
      [math.sqrt(...) <= distance].
    - [GeometryReal] is the bridge to the real square root:
      [within d2 D = true] iff [sqrt d2 <= D] in [R].  This justifies
      comparing squares.
    - [Samples] holds the input row type and the partitioning by (tracker,
      session) the way the three passes enumerate it.
    - [ClusterBuilder] models [generate_positioning_clusters].
      - The state is [cstate] (counter, base point, previous row).
      - One row is handled by [first_step] or [step].
      - [run_partition] is the loop over the rows of a partition, and
        [run_partitions] threads [fix_seq] across partitions.
    - [ClusterSpec] is the abstract specification of a partition's
      clustering: an inductive relation, with no loop state.  It proves the
      refinement theorem and the consecutive numbering of ids.
    - [Classifier] models the labelling half of [tag_clusters]:
      [time_of_day], [group_max], [classify] and [tag].
    - [BlockMerger] models the block half of [tag_clusters].
      - [number_blocks] numbers the runs of a partition, and [assign_blocks]
        applies it to every partition.
      - [deltas] computes the delta column of one block.
      - [block_deltas] is the loop over partitions and block ids, and
        [tag_clusters] composes the passes.
    - [BlockOrder] proves that the delta loop over the table's block ids
      keeps every partition in order, block by block.
    - [Summarizer] models [get_stops_and_transitions]: block spans, stop
      records, transition rows and the final sort.
    - [Pipeline] holds [stops_transitions] in the option monad of stdpp
      ([None] where [tag_clusters] raises on a table without rows), the
      end-to-end coverage theorem, where the [(tracker, session)] and phase
      columns of the result come from, and the scenarios of the
      specification, checked by evaluation.
    - [Preprocessing] models the six functions of [_preprocessing.py].
      - The errors of [add_quantiles] (a [TypeError] or a [math.floor] on
        inf or NaN) are values of a [result] monad.
      - The resampling is split into the date range, the left merge, the
        column fills ([interp_from], [ffill], [bfill]) and the assembly of
        the rows ([assemble]).
    - [QSum] holds the sum of a list of rationals ([np.sum]) with its
      lemmas and its [Proper] instances for permutations and [Qeq].
    - [Gini] models [gini]: [shift_min], [prepare] (the [1e-7] smoothing),
      the sort [sort_q] and the index-weighted sum [weighted_from].  It
      proves the formula equal to the mean-absolute-difference coefficient
      [gini_mad].
    - [EntropyGrid] models the grids of [_entropy.py]: [py_round] (Python's
      round half to even), [zero_grid], [py_index] (Python's negative
      indices and [IndexError]), [incr_cell], the fill loop [fill_grid],
      [proportions], and the loop over the groups ([group_counts],
      [group_grid], [grids]) in a Section over the grouping key.
    - [FixedPoints] models [_classroomObjects.py] apart from [gini]: the
      joins, the distances (squared), the [isin] filter, the summary, the
      zero table and its update loop, the in-place sort of the caller's
      table, and the Gini index per group.  pandas' [sort_values] by
      [session] with its default, unstable quicksort is the type class
      [SessionSort] (a permutation sorted by the key), of which the stable
      [insertion_sort] is one instance.
    - [Metrics] models [get_metrics]: the distance loop [walk], the
      aggregates ([df_stops], [df_transitions], [df_students],
      [df_objects], [sum_by]), the merges ([merge_on], [merged_rows]),
      [select_phase] and the weighting ([weight_factor], [weight_rows]).
      [np.sqrt] is a parameter of the Section.
    - [SessionOrder] proves the orders of the [groupby] keys strict and
      total, and compares the results of [generate_fixed_points_stats]
      under any two instances of [SessionSort].
    - [MetricsFrames] models what [get_metrics] does to its arguments:
      the columns it assigns ([columns], [set_col], [set_each],
      [set_distances]), the in-place sorts, and [get_metrics_inplace],
      which returns the caller's [df_fs], [df_points] and [df_phases]
      after the call together with its result.
    - [EntropyReal] models [scipy.stats.entropy] from its definition
      ([normalize], [entr], [scipy_entropy]: [0.0] for an empty vector,
      [None] for [nan] and [-inf]), [get_entropy] and the two entry points
      ([entropy_entry]: the [ZeroDivisionError] of cells of size [0], the
      [IndexError] of the fill loop), with logarithms in [R].
    - [PyString] models Python's [str] of an integer (through the
      Standard Library's decimal [Z.to_int]) and reads it back
      ([read_int]).
    - [Plot] models [plot_charts_per_tracker] as the list of its effects
      ([effect]: the directory, the saved figures with their axis limits,
      and the colour levels of the coloured diagram) and how it ends
      ([plot_result]: normally, or with the [QhullError] that [Voronoi]
      raises on a group of stops on one line, [collinear]), with the file
      names of [figure_name] and their parser [parse_figure_name].
    - [Diarizer] models [run_diarization]: [splitext_ext] and [lower] (the
      listing filter, with Windows paths), [join_path], [command], and the
      loop [process] as a trace of events.  The outcome of the [i]-th
      subprocess call is the environment [env i].
    - [ErrorResponse] models [build_error_response] against the typeclass
      [Validation] of the two validators, which are not in the
      repository, with an instance from the docstring.
    - [Util] models the date parser [strptime_dmY_HMS] (the field
      patterns of CPython's [_strptime] and the checks of [datetime]),
      the seconds since 0001-01-01 of a time ([to_seconds], through
      [_ymd2ord]), and the three readers: [read_csv] as pandas 0.25 runs
      it (the version the scripts need), with the names the C parser gives
      the header ([header_names]: [Unnamed: i], [x.1] for a repeated
      [x]), its [ValueError] for the first name of [parse_dates] missing
      from the header and its conversion of the listed columns in order,
      [open_csv], [gui_open_file] and [open_csv_gui].  The file system
      and the dialog are the type classes [FileSystem] and [Dialog];
      [to_csv] is the writer of the demos, which writes the index first.
    - [Demo] composes the modules as [demoMAIN.py] does ([demo_main]),
      with the frames the calls share: the raw [df] into which
      [add_phases] writes the phase column, and the table of stops that
      [generate_fixed_points_stats] sorts in place.
    - [Scripts] runs [demo1_preprocessing.py] to [demo4_entropy.py] in a
      monad of files written and exceptions raised ([script]), over the
      readers of [Util]; the types pandas gives the columns it read are
      parameters of the section (one decoder per table).

    ** What is proved

    - Refinement: the clusters of a partition are exactly its unique
      clustering.  The blocks of a partition are exactly its maximal runs of
      equal label.  The delta loop emits every partition in order, block by
      block.
    - Coverage: no sample is lost or duplicated by clustering, tagging, the
      whole engine, or the 1 Hz resampling of time-ordered groups.
    - Functional behaviour:
      - the stop label, with ties counted as stops;
      - the threshold tie;
      - block adjacency;
      - the telescoping sum of deltas;
      - the sort;
      - one row per second after resampling;
      - the equal parts of a phase.
    - Bounds:
      - the centroid lies within its members' range;
      - variances are non-negative;
      - interpolated coordinates stay within the data;
      - quantiles lie in [1..N].
    - Errors:
      - preprocessing from a well-formed phase table raises only the
        [KeyError] of [df2['interpolated']] on an empty [df2] (line 172),
        exactly when [add_phases] keeps no row;
      - a single ambiguous row makes [add_quantiles] raise;
      - [stops_transitions] raises [AttributeError] ([df_dur.tracker],
        line 339) exactly on a table without rows.  On a table with rows an
        empty (tracker, session) partition gives no row and no error, which
        is Scenario D of the specification ([scenario_D_empty]).
    - Divergences from the spec, each shown by a theorem or by evaluation on
      a concrete table:
      - cluster ids are shared across partitions, so a lone sample can be
        labelled stop;
      - the time difference wraps at 24 h;
      - delta is stepwise, not elapsed time;
      - an out-of-order row is dropped by the resampling.
    - Entropy grids: a successful fill keeps the [m]-by-[n] shape and adds
      one per counted row; it raises [IndexError] exactly when a cell index
      is below [-n]; the percentages of a group add up to at most 100.
      [calculate_entropy_session_tracker_phase] raises
      [ZeroDivisionError] exactly when the cells have size [0]; every row
      it returns has its group's size as [count] and an entropy that is
      [nan] exactly when the grid has a cell and none of the group's
      samples is in it, and otherwise lies in [[0, log2(m n)]] (Gibbs'
      inequality, from [ln x <= x - 1]; [0.0] for a grid of no cell); a
      grid of equal cells reaches [log2(m n)].  Rounding of the grid size drops
      samples, and small negative coordinates wrap to the last cell.
    - Gini: the sorted-index formula equals the mean-absolute-difference
      coefficient, lies in [[0, 1 - 1/n]], and is 0 on equal values.
    - Fixed points: [generate_fixed_points_stats] never raises and gives
      every row the number and total duration of the visits of its key;
      the nearest fixed point of a stop is always kept; through it,
      [calculate_gini_by_tracker] computes each index over exactly one
      count per student point of the session.  The [isin] test against
      the minima of all stops also counts farther points.
    - Order of equal sessions: the statistics of
      [generate_fixed_points_stats] are the same under every order the
      quicksort may leave (equivalence), but the distance walked that
      [get_metrics] reads from the table sorted in place is not (a
      counterexample of three samples).
    - Frames after [get_metrics]: [df_fs] is sorted by (session, tracker,
      block) and holds exactly the distances the transition metrics
      summed, [df_points] is a sorted permutation of its rows with the
      derived columns, [df_phases] gets [diff] exactly when [weighted = 1];
      a second call changes none of the frames (idempotence).
    - Metrics: the distance loop restarts at every new session or tracker;
      the weighting keeps the key columns and multiplies every other one
      by a factor in [(0, 1]], and raises [IndexError] exactly when a
      (session, phase) is missing from the phase table.  Its [while] loop,
      modelled with fuel ([weight_while]), stops after exactly [n - 3]
      iterations on a row of [n] columns.  The first row of
      a transition is measured from the preceding stop's centroid, and a
      [NaN] entropy is reported as 0.
    - Plotting: every saved file name reads back to its (session, tracker,
      phase) and chart, the group has more than two stops, no two charts
      share a file name (four per group reached); the function returns
      exactly when no group of more than two stops lies on one line, and
      then saves every chart of every such group, and otherwise raises
      [QhullError] at the first such group, after the charts of the groups
      before it; the colour levels lie in [[0, 1]].
    - Diarization: as long as only [CalledProcessError] is raised, every
      audio file of the listing is processed, in order (liveness); another
      exception stops the batch after the file that raised; a file is
      processed exactly when its lower-cased extension is an audio one.
    - Error response: for every implementation of the validators, the
      pair is returned and the message logged exactly when both accept,
      and the message is checked first.
    - Scripts: [demo4_entropy.py] never draws a chart; it writes the
      entropy table and raises [AttributeError] on [entropy.plot_charts],
      a name [_entropy.py] does not define.  [demo2] raises exactly on a
      table without rows.
    - Composition: in the whole analysis no row of the final metrics is
      for the unassigned phase [-100], although the entropy table,
      computed on the shared raw frame, has such groups.
    - Readers: [open_csv] raises for a missing file, raises [ValueError]
      for the first listed date column absent from the header before
      parsing, and otherwise returns the file's columns, under pairwise
      distinct names, with the listed ones parsed; a frame written by
      [to_csv] with the date format is read back as the same frame after
      a first column [Unnamed: 0] holding its index (round trip).
    - Dates: parsed times are ordered, and equal, exactly
      as their whole seconds are, which justifies the integer timestamps
      of the model.

    ** Modelling choices

    - Coordinates, thresholds and angles are rationals ([Q]).  The
      resampling interpolates linearly, so coordinates need not be integers.
      Floating-point rounding is not modelled: the arithmetic is exact.
      Distances and standard deviations are kept squared.
    - Timestamps are whole seconds ([Z]): the preprocessing resamples on a
      one-second grid.  Tracker, session, phase and quantile are integers.
      [numberOfQuantiles] is a positive integer.
    - pandas row order is list order, and a boolean mask is [List.filter].
      [groupby] keys are sorted, and [unique] keeps the order of first
      appearance.  [sort_values] on several keys is a stable insertion
      sort; on the single key [session] of [_classroomObjects.py] it is any
      instance of [SessionSort], since numpy's quicksort is not stable.
    - A frame changed in place is the list of its rows, each with the
      columns added to it in order; assigning a column that exists
      replaces its value, a new one goes last.  The [weighted] flag read
      from [info.ini] is a parameter of [get_metrics].
    - The merge of the resampling is modelled with the grid second as the
      timestamp of an added row.
    - The entropy grids count integers ([Z]); their percentages are exact
      rationals; entropies are real numbers ([R]) with [ln] from the
      Standard Library.  [scipy.stats.entropy] is library code, modelled
      from its definition.
    - Every loop of the code walks a finite table, and the model recurses
      structurally on lists, except the [while] loop of the weighting in
      [get_metrics], whose counter [col] grows to the number of columns:
      [weight_while] takes fuel, and [weight_while_terminates] shows that
      [n - 3] iterations are enough, and needed, on a row of [n] columns.

    ** Not modelled

    - In [get_metrics], the exact column layout pandas gives the merged
      frames (key columns or index, the MultiIndex of the pivot table).
    - In [plot_charts_per_tracker], the geometry scipy computes (Voronoi
      regions, hull, triangulation) and the drawing by matplotlib: the
      model keeps which files are saved, with which limits and colour
      levels, and the [QhullError] of input on one line; Qhull's
      precision errors on nearly degenerate floating-point input are not
      modelled, the coordinates being exact.
    - Missing values ([NaN]) in the typed columns of the tables: an empty
      [session] or [tag] cell of [df_fixed_points] is the one way the
      lookup of [_classroomObjects.py] line 95, whose key comes from the
      same table, finds no row and raises [IndexError] ([obj_type_of]
      returns [None] there, but integer sessions and string tags cannot
      be [NaN]); a phase of length 0 in the weighting of [get_metrics]
      gives an infinite factor, modelled as [NaN].
    - Pure I/O: the CSV syntax of the files and the drawing of the Qt
      dialog of [_util.py] (both interfaces of the model), the
      listing of the folder and the work of [diarize.py] (the outcome of
      each call is a parameter), the logging configuration, and in the
      demo scripts the types pandas infers for the columns of a file, the
      clock in the output names and the [print] calls.
    - Python's [\d] and [\s] match non-ASCII digits and spaces, and
      [ntpath] knows UNC drives: the model of strings is ASCII, with drive
      letters only.
    - The first loop of [generate_positioning_clusters] (lines 113-141)
      computes a table [df_dist] that is never used afterwards.
*)

From stdpp Require Import base list decidable.
From stdpp Require sorting.
From Stdlib Require Import Sorted.
From Stdlib Require Import ZArith Lia.

Declare Scope mmla_scope.
Delimit Scope mmla_scope with mmla.

Create HintDb mmla discriminated.
Create Rewrite HintDb mmla_rw.

Open Scope Z_scope.

(** Turns the boolean tests of a pandas mask, as found in the hypotheses,
    into propositions on [Z]. *)
Ltac zbool :=
  repeat match goal with
  | H : (_ && _)%bool = true |- _ => apply andb_prop in H as [? ?]
  | H : negb _ = true |- _ => apply Bool.negb_true_iff in H
  | H : (_ =? _) = true |- _ => apply Z.eqb_eq in H
  | H : (_ =? _) = false |- _ => apply Z.eqb_neq in H
  | H : (_ <=? _) = true |- _ => apply Z.leb_le in H
  | H : (_ <=? _) = false |- _ => apply Z.leb_gt in H
  | H : (_ <? _) = true |- _ => apply Z.ltb_lt in H
  | H : (_ <? _) = false |- _ => apply Z.ltb_ge in H
  end.

(** ** Sums and maxima over lists *)

(** [sumZ f l] is the sum of [f] over [l] (pandas' [sum] aggregate). *)
Definition sumZ {A} (f : A -> Z) (l : list A) : Z :=
  fold_right (fun a acc => f a + acc) 0 l.

Notation "'Σ[' x '<-' l ']' e" := (sumZ (fun x => e) l)
  (at level 35, x name, l at level 200, e at level 35) : mmla_scope.

(** [maxZ d l] is the maximum of [l], [d] when [l] is empty. *)
Definition maxZ (d : Z) (l : list Z) : Z := fold_right Z.max d l.

Lemma sumZ_app {A} (f : A -> Z) (l1 l2 : list A) :
  sumZ f (l1 ++ l2) = sumZ f l1 + sumZ f l2.
Proof. induction l1 as [|a l1 IH]; simpl; lia. Qed.

(** Selecting rows commutes with reordering them. *)
#[export] Instance filter_Permutation {A} (f : A -> bool) :
  Proper (Permutation ==> Permutation) (List.filter f).
Proof.
  intros l1 l2 Hp. induction Hp as [| x l1 l2 _ IH | x y l | l1 l2 l3 _ IH1 _ IH2]; cbn.
  - reflexivity.
  - destruct (f x); [constructor |]; exact IH.
  - destruct (f x), (f y); try constructor; reflexivity.
  - rewrite IH1. exact IH2.
Qed.

(** The sum does not depend on the order of the rows. *)
#[export] Instance sumZ_Permutation {A} (f : A -> Z) : Proper (Permutation ==> eq) (sumZ f).
Proof. intros l1 l2 Hp. induction Hp; simpl; lia. Qed.

Lemma maxZ_ge_default (d : Z) (l : list Z) : d <= maxZ d l.
Proof. induction l as [|a l IH]; simpl; lia. Qed.

Lemma maxZ_ge_elem (d : Z) (l : list Z) (x : Z) : In x l -> x <= maxZ d l.
Proof. induction l as [|a l IH]; simpl; [tauto | intros [<-|H]; [lia | specialize (IH H); lia]]. Qed.

Lemma maxZ_cases (d : Z) (l : list Z) : maxZ d l = d \/ In (maxZ d l) l.
Proof.
  induction l as [|a l IH]; simpl; [auto |].
  destruct (Z.max_spec a (maxZ d l)) as [[_ ->]|[_ ->]]; tauto.
Qed.

Lemma maxZ_le (d b : Z) (l : list Z) :
  d <= b -> Forall (fun x => x <= b) l -> maxZ d l <= b.
Proof. intros Hd HF. induction HF; simpl; lia. Qed.

#[export] Hint Resolve maxZ_ge_default maxZ_ge_elem maxZ_le : mmla.
#[export] Hint Rewrite @sumZ_app : mmla_rw.

(** ** pandas' [Series.unique]: distinct values in order of first appearance *)

Section Unique.
Context {A : Type} `{EqDecision A}.

Fixpoint unique_from (seen : list A) (l : list A) : list A :=
  match l with
  | [] => []
  | x :: l' =>
      if decide (x ∈ seen) then unique_from seen l'
      else x :: unique_from (x :: seen) l'
  end.

Definition unique (l : list A) : list A := unique_from [] l.

Lemma in_unique_from (seen l : list A) (x : A) :
  In x (unique_from seen l) <-> In x l /\ ~ In x seen.
Proof.
  revert seen. induction l as [|y l IH]; intros seen; simpl; [tauto |].
  case_decide as Hy; rewrite list_elem_of_In in Hy.
  - rewrite IH. split; [tauto |].
    intros [[<-|Hl] Hs]; [contradiction | tauto].
  - simpl. rewrite IH. simpl.
    split; [intros [<-|[Hl Hs]]; tauto |].
    intros [[<-|Hl] Hs]; [tauto |].
    destruct (decide (y = x)); [tauto | right; tauto].
Qed.

Lemma in_unique (l : list A) (x : A) : In x (unique l) <-> In x l.
Proof. unfold unique. rewrite in_unique_from. simpl. tauto. Qed.

Lemma NoDup_unique_from (seen l : list A) : List.NoDup (unique_from seen l).
Proof.
  revert seen. induction l as [|y l IH]; intros seen; simpl; [constructor |].
  case_decide as Hy; rewrite list_elem_of_In in Hy; [auto |].
  constructor; [| auto].
  rewrite in_unique_from. simpl. tauto.
Qed.

Lemma NoDup_unique (l : list A) : List.NoDup (unique l).
Proof. apply NoDup_unique_from. Qed.
End Unique.

#[export] Hint Resolve NoDup_unique : mmla.

(** ** pandas' [groupby]: the distinct keys in ascending order *)

Section SortedKeys.
Context {K : Type} (ltb : K -> K -> bool).

Fixpoint insert_by (k : K) (l : list K) : list K :=
  match l with
  | [] => [k]
  | k' :: l' => if ltb k' k then k' :: insert_by k l' else k :: l
  end.

Lemma insert_by_perm (k : K) (l : list K) : Permutation (insert_by k l) (k :: l).
Proof.
  induction l as [|k' l IH]; cbn; [reflexivity |].
  destruct (ltb k' k); [| reflexivity].
  rewrite IH. apply perm_swap.
Qed.

Lemma fold_insert_by_perm (l : list K) : Permutation (fold_right insert_by [] l) l.
Proof. induction l as [|k l IH]; cbn; [reflexivity |]. rewrite insert_by_perm, IH. reflexivity. Qed.

Lemma in_fold_insert_by (a : K) (l : list K) : In a (fold_right insert_by [] l) <-> In a l.
Proof. split; apply Permutation_in; [| symmetry]; apply fold_insert_by_perm. Qed.

Lemma NoDup_fold_insert_by (l : list K) : List.NoDup l -> List.NoDup (fold_right insert_by [] l).
Proof. apply Permutation_NoDup. symmetry. apply fold_insert_by_perm. Qed.

(** The insertion sort leaves a sorted list as it is, and sorts: no
    element is followed by a smaller one. *)
Lemma fold_insert_by_id (l : list K) :
  Sorted (fun a b => ltb b a = false) l -> fold_right insert_by [] l = l.
Proof.
  induction 1 as [|a l Hl IH Hd]; cbn; [reflexivity |]. rewrite IH.
  destruct l as [|b l]; cbn; [reflexivity |]. inversion Hd as [|? ? Hb]; subst. rewrite Hb. reflexivity.
Qed.

Section Asym.
Hypothesis ltb_asym : forall a b, ltb a b = true -> ltb b a = false.

Lemma insert_by_sorted_le (k : K) (l : list K) :
  Sorted (fun a b => ltb b a = false) l -> Sorted (fun a b => ltb b a = false) (insert_by k l).
Proof.
  induction 1 as [|b l Hl IH Hd]; cbn; [repeat constructor |].
  destruct (ltb b k) eqn:E.
  - constructor; [exact IH |]. destruct l as [|c l]; cbn; [constructor; apply ltb_asym, E |].
    inversion Hd; subst. destruct (ltb c k); constructor; [assumption | apply ltb_asym, E].
  - constructor; [constructor; assumption | constructor; exact E].
Qed.

Lemma fold_insert_by_sorted_le (l : list K) : Sorted (fun a b => ltb b a = false) (fold_right insert_by [] l).
Proof. induction l as [|a l IH]; cbn; [constructor | apply insert_by_sorted_le, IH]. Qed.
End Asym.
End SortedKeys.

#[export] Hint Resolve NoDup_fold_insert_by : mmla.

(** Sorting commutes with a map that keeps the order of the keys. *)
Lemma insert_by_map {A B : Type} (ltbA : A -> A -> bool) (ltbB : B -> B -> bool) (g : A -> B)
    (Hg : forall a b, ltbA a b = ltbB (g a) (g b)) (k : A) (l : list A) :
  map g (insert_by ltbA k l) = insert_by ltbB (g k) (map g l).
Proof.
  induction l as [|a l IH]; cbn; [reflexivity |]. rewrite <- Hg.
  destruct (ltbA a k); cbn; [rewrite IH |]; reflexivity.
Qed.

Lemma fold_insert_by_map {A B : Type} (ltbA : A -> A -> bool) (ltbB : B -> B -> bool) (g : A -> B)
    (Hg : forall a b, ltbA a b = ltbB (g a) (g b)) (l : list A) :
  map g (fold_right (insert_by ltbA) [] l) = fold_right (insert_by ltbB) [] (map g l).
Proof.
  induction l as [|a l IH]; cbn; [reflexivity |]. rewrite (insert_by_map ltbA ltbB g Hg), IH. reflexivity.
Qed.

(** A list is sorted on a key when its keys are sorted. *)
Lemma Sorted_map_key {A B : Type} (R : B -> B -> Prop) (g : A -> B) (l : list A) :
  Sorted R (map g l) -> Sorted (fun a b => R (g a) (g b)) l.
Proof.
  induction l as [|a l IH]; cbn; intros H; [constructor |].
  inversion H as [|? ? Hl Hd]; subst. constructor; [apply IH, Hl |].
  destruct l as [|b l]; constructor. inversion Hd; assumption.
Qed.

(** With a strict total order, the keys in ascending order do not depend
    on the order the keys were met in. *)
Section StrictKeys.
Context {K : Type} (ltb : K -> K -> bool).
Hypothesis ltb_irrefl : forall a, ltb a a = false.
Hypothesis ltb_trans : forall a b c, ltb a b = true -> ltb b c = true -> ltb a c = true.
Hypothesis ltb_total : forall a b, a <> b -> ltb a b = true \/ ltb b a = true.

Lemma insert_by_sorted (k : K) (l : list K) :
  ~ In k l -> Sorted (fun a b => ltb a b = true) l -> Sorted (fun a b => ltb a b = true) (insert_by ltb k l).
Proof.
  intros Hk Hs. induction Hs as [|k' l Hl IH Hd]; cbn; [repeat constructor |].
  destruct (ltb k' k) eqn:E.
  - constructor; [apply IH; intros Hin; apply Hk; right; exact Hin |].
    destruct l as [|k'' l]; cbn; [constructor; exact E |].
    inversion Hd; subst. destruct (ltb k'' k); constructor; assumption.
  - constructor; [constructor; assumption |]. constructor.
    destruct (ltb_total k k') as [H | H]; [intros ->; apply Hk; left; reflexivity | exact H | congruence].
Qed.

Lemma fold_insert_by_sorted (l : list K) :
  List.NoDup l -> Sorted (fun a b => ltb a b = true) (fold_right (insert_by ltb) [] l).
Proof.
  induction 1 as [|k l Hk Hnd IH]; cbn; [constructor |].
  apply insert_by_sorted; [rewrite in_fold_insert_by; exact Hk | exact IH].
Qed.

Lemma fold_insert_by_unique (l1 l2 : list K) :
  List.NoDup l1 -> Permutation l1 l2 -> fold_right (insert_by ltb) [] l1 = fold_right (insert_by ltb) [] l2.
Proof.
  intros Hnd Hp. assert (Hnd2 : List.NoDup l2) by (eapply Permutation_NoDup; eassumption).
  assert (Htr : Transitive (fun a b => ltb a b = true)) by (intros a b c; apply ltb_trans).
  apply (sorting.StronglySorted_unique_strong (fun a b => ltb a b = true)).
  - intros x1 x2 _ _ H1 H2. pose proof (ltb_trans _ _ _ H1 H2) as H. rewrite ltb_irrefl in H. discriminate.
  - apply (Sorted.Sorted_StronglySorted Htr), fold_insert_by_sorted, Hnd.
  - apply (Sorted.Sorted_StronglySorted Htr), fold_insert_by_sorted, Hnd2.
  - rewrite !fold_insert_by_perm. exact Hp.
Qed.
End StrictKeys.

(** Lexicographic order on integer pairs and triples. *)
Definition lex2_ltb (a b : Z * Z) : bool :=
  (fst a <? fst b) || ((fst a =? fst b) && (snd a <? snd b)).

Definition lex3_ltb (a b : Z * Z * Z) : bool :=
  lex2_ltb (fst a) (fst b) || (bool_decide (fst a = fst b) && (snd a <? snd b)).

Lemma lex3_ltb_spec (a1 a2 a3 b1 b2 b3 : Z) :
  lex3_ltb (a1, a2, a3) (b1, b2, b3) = true
  <-> a1 < b1 \/ (a1 = b1 /\ (a2 < b2 \/ (a2 = b2 /\ a3 < b3))).
Proof.
  unfold lex3_ltb, lex2_ltb. cbn. rewrite orb_true_iff, andb_true_iff, orb_true_iff, andb_true_iff,
    bool_decide_eq_true, Z.eqb_eq, !Z.ltb_lt.
  split; [intros [[? | [? ?]] | [[= ? ?] ?]]; subst; lia |].
  intros [? | [? [? | [? ?]]]]; subst; auto.
Qed.

Lemma lex3_ltb_asym (a b : Z * Z * Z) : lex3_ltb a b = true -> lex3_ltb b a = false.
Proof.
  destruct a as [[a1 a2] a3], b as [[b1 b2] b3]. rewrite lex3_ltb_spec. intros H.
  destruct (lex3_ltb _ _) eqn:E; [| reflexivity]. rewrite lex3_ltb_spec in E. lia.
Qed.

(** The nested loops [for a in l1: for b in l2] visit distinct pairs. *)
Lemma NoDup_list_prod {A B : Type} (l1 : list A) (l2 : list B) :
  List.NoDup l1 -> List.NoDup l2 -> List.NoDup (list_prod l1 l2).
Proof.
  intros H1 H2. induction H1 as [|a l1 Ha H1 IH]; simpl; [constructor |].
  apply NoDup_app; [| exact IH |].
  - apply Finite.Injective_map_NoDup; [intros b1 b2 E; congruence | exact H2].
  - intros [a' b] Hin Hin'.
    apply in_map_iff in Hin as (b' & E & _). injection E as <- <-.
    apply in_prod_iff in Hin' as [Ha' _]. contradiction.
Qed.

(** ** Maximal runs of consecutive elements with the same key *)

(** [chunk_by k l] cuts [l] into its maximal runs of consecutive elements
    with equal key [k]; it is how the cluster ids and block ids of the source
    partition a table into clusters and blocks. *)
Section ChunkBy.
Context {A : Type} (k : A -> Z).

Fixpoint chunk_by (l : list A) : list (list A) :=
  match l with
  | [] => []
  | x :: l' =>
      match chunk_by l' with
      | (y :: c) :: cs => if k x =? k y then (x :: y :: c) :: cs
                          else [x] :: (y :: c) :: cs
      | cs => [x] :: cs
      end
  end.

Lemma concat_chunk_by (l : list A) : concat (chunk_by l) = l.
Proof.
  induction l as [|x l IH]; simpl; [reflexivity |].
  destruct (chunk_by l) as [|[|y c] cs]; simpl in *; rewrite <- IH;
    [reflexivity | reflexivity |].
  destruct (k x =? k y); reflexivity.
Qed.

Lemma chunk_by_cons_head (y : A) (l : list A) :
  exists c cs, chunk_by (y :: l) = (y :: c) :: cs.
Proof.
  simpl. destruct (chunk_by l) as [|[|y' c] cs]; eauto.
  destruct (k y =? k y'); eauto.
Qed.

Lemma chunk_by_cons_same (x y : A) (l c : list A) (cs : list (list A)) :
  chunk_by l = (y :: c) :: cs -> k x = k y -> chunk_by (x :: l) = (x :: y :: c) :: cs.
Proof. intros E H. simpl. rewrite E, H, Z.eqb_refl. reflexivity. Qed.

Lemma chunk_by_cons_diff (x y : A) (l c : list A) (cs : list (list A)) :
  chunk_by l = (y :: c) :: cs -> k x <> k y -> chunk_by (x :: l) = [x] :: (y :: c) :: cs.
Proof. intros E H. simpl. rewrite E, (proj2 (Z.eqb_neq _ _) H). reflexivity. Qed.

(** A run of elements of key [g], followed by a list that does not start
    with key [g], is the first chunk. *)
Lemma chunk_by_app_run (g : Z) (xs rest : list A) :
  xs <> [] -> Forall (fun x => k x = g) xs ->
  (match rest with [] => True | y :: _ => k y <> g end) ->
  chunk_by (xs ++ rest) = xs :: chunk_by rest.
Proof.
  intros Hne HF Hr. induction HF as [|x xs Hx HF IH]; [congruence |].
  simpl. destruct xs as [|x' xs'].
  - simpl. destruct rest as [|y rest]; [reflexivity |].
    destruct (chunk_by_cons_head y rest) as (c & cs & ->).
    rewrite (proj2 (Z.eqb_neq _ _)) by lia. reflexivity.
  - rewrite IH by discriminate. inversion HF; subst.
    rewrite (proj2 (Z.eqb_eq _ _)) by lia. reflexivity.
Qed.
End ChunkBy.

Lemma chunk_by_map {A B : Type} (k : B -> Z) (f : A -> B) (l : list A) :
  chunk_by k (map f l) = map (map f) (chunk_by (fun a => k (f a)) l).
Proof.
  induction l as [|a l IH]; simpl; [reflexivity |]. rewrite IH.
  destruct (chunk_by (fun a => k (f a)) l) as [|[|b c] cs]; simpl; try reflexivity.
  destruct (k (f a) =? k (f b)); reflexivity.
Qed.

(** ** Grouping a table by a key *)

(** Selecting, for every key of a duplicate-free list that covers the table,
    the rows with that key, and concatenating the selections, reorders the
    table without losing or duplicating a row. *)
Section GroupByKey.
Context {A K : Type} `{EqDecision K} (key : A -> K).

Definition select (l : list A) (k : K) : list A :=
  List.filter (fun a => bool_decide (key a = k)) l.

Lemma concat_select_nil (ks : list K) :
  concat (map (select []) ks) = [].
Proof. induction ks; simpl; auto. Qed.

Lemma concat_select_other (a : A) (l : list A) (ks : list K) :
  ~ In (key a) ks ->
  concat (map (select (a :: l)) ks) = concat (map (select l) ks).
Proof.
  intros Hn. f_equal. apply map_ext_in. intros k Hk. unfold select. simpl.
  rewrite bool_decide_false; [reflexivity | intros E; subst; contradiction].
Qed.

Lemma concat_select_perm (ks : list K) (l : list A) :
  List.NoDup ks -> (forall a, In a l -> In (key a) ks) ->
  Permutation (concat (map (select l) ks)) l.
Proof.
  intros Hnd. induction l as [|a l IH]; intros Hin.
  - rewrite concat_select_nil. constructor.
  - destruct (in_split (key a) ks (Hin a (or_introl eq_refl))) as (ks1 & ks2 & E).
    subst ks. pose proof (NoDup_remove_2 _ _ _ Hnd) as Hnin.
    rewrite in_app_iff in Hnin.
    specialize (IH (fun b Hb => Hin b (or_intror Hb))).
    rewrite map_app, concat_app in IH |- *. simpl in IH |- *.
    rewrite !concat_select_other by tauto.
    unfold select at 2. simpl. rewrite bool_decide_true by reflexivity.
    simpl. fold (select l (key a)).
    rewrite <- Permutation_middle. constructor. exact IH.
Qed.
End GroupByKey.

(** [index_chunks k cs] tags every element of the [i]-th chunk (from 0)
    with the id [k + i]: the numbering of clusters and blocks. *)
Fixpoint index_chunks {A : Type} (k : Z) (cs : list (list A)) : list (list (Z * A)) :=
  match cs with
  | [] => []
  | c :: cs' => map (pair k) c :: index_chunks (k + 1) cs'
  end.

Lemma index_chunks_snd {A : Type} (k : Z) (cs : list (list A)) :
  map (map snd) (index_chunks k cs) = cs.
Proof.
  revert k. induction cs as [|c cs IH]; intros k; simpl; [reflexivity |].
  rewrite IH, map_map. simpl. rewrite map_id. reflexivity.
Qed.

Lemma chunk_by_nonempty {A : Type} (k : A -> Z) (l : list A) :
  Forall (fun c => c <> []) (chunk_by k l).
Proof.
  induction l as [|a l IH]; simpl; [constructor |].
  destruct (chunk_by k l) as [|[|b c] cs]; inversion IH; subst;
    try (destruct (k a =? k b)); repeat constructor; try discriminate; assumption.
Qed.

Lemma Forall_pair_fst {A : Type} (k : Z) (c : list A) :
  Forall (fun p => fst p = k) (map (pair k) c).
Proof. induction c; simpl; constructor; auto. Qed.

(** Numbering non-empty chunks and flattening them loses nothing: the runs
    of equal id are the chunks again. *)
Lemma chunk_by_concat_index {A : Type} (k : Z) (cs : list (list A)) :
  Forall (fun c => c <> []) cs ->
  chunk_by fst (concat (index_chunks k cs)) = index_chunks k cs.
Proof.
  intros H. revert k. induction H as [|c cs Hc H IH]; intros k; simpl; [reflexivity |].
  rewrite (chunk_by_app_run fst k); [rewrite IH; reflexivity | | apply Forall_pair_fst |].
  - destruct c; [congruence | discriminate].
  - destruct H as [|c' cs' Hc' _]; simpl; [exact I |].
    destruct c' as [|a c'']; [congruence |]. simpl. lia.
Qed.


Lemma perm_concat_map {A B : Type} (f g : A -> list B) (l : list A) :
  (forall a, In a l -> Permutation (f a) (g a)) ->
  Permutation (concat (map f l)) (concat (map g l)).
Proof.
  induction l as [|a l IH]; intros H; simpl; [constructor |].
  apply Permutation_app; [apply H; left; reflexivity | apply IH; intros b Hb; apply H; right; exact Hb].
Qed.

(** ** Ranges of consecutive ids and [unique] over them *)

(** [zrange a n = [a; a+1; ...; a+n-1]]. *)
Fixpoint zrange (a : Z) (n : nat) : list Z :=
  match n with
  | O => []
  | S n' => a :: zrange (a + 1) n'
  end.

Lemma in_zrange (a : Z) (n : nat) (x : Z) : In x (zrange a n) <-> a <= x < a + Z.of_nat n.
Proof.
  revert a. induction n as [|n IH]; intros a; simpl; [lia |].
  rewrite IH. lia.
Qed.

Section UniqueZ.

Lemma unique_from_ext (s1 s2 l : list Z) :
  (forall x, In x s1 <-> In x s2) -> unique_from s1 l = unique_from s2 l.
Proof.
  revert s1 s2. induction l as [|a l IH]; intros s1 s2 H; simpl; [reflexivity |].
  case_decide as H1; case_decide as H2; rewrite list_elem_of_In in H1, H2.
  - apply IH, H.
  - exfalso. apply H2, H, H1.
  - exfalso. apply H1, H, H2.
  - f_equal. apply IH. intros y. simpl. rewrite H. reflexivity.
Qed.

Lemma unique_from_app (s l1 l2 : list Z) :
  unique_from s (l1 ++ l2) = unique_from s l1 ++ unique_from (l1 ++ s) l2.
Proof.
  revert s. induction l1 as [|a l1 IH]; intros s; simpl; [reflexivity |].
  case_decide as H; rewrite list_elem_of_In in H.
  - rewrite IH. f_equal. apply unique_from_ext. intros y.
    simpl. rewrite !in_app_iff. intuition (subst; auto).
  - simpl. rewrite IH. f_equal. f_equal. apply unique_from_ext. intros y.
    simpl. rewrite !in_app_iff. simpl. intuition (subst; auto).
Qed.

Lemma unique_from_seen (s l : list Z) :
  (forall x, In x l -> In x s) -> unique_from s l = [].
Proof.
  revert s. induction l as [|a l IH]; intros s H; simpl; [reflexivity |].
  case_decide as Ha; rewrite list_elem_of_In in Ha.
  - apply IH. intros y Hy. apply H. right. exact Hy.
  - exfalso. apply Ha, H. left. reflexivity.
Qed.

End UniqueZ.

(** The ids of numbered chunks, [k] to [k + length cs - 1], in order. *)
Lemma ids_index_chunks {A : Type} (k : Z) (cs : list (list A)) (x : Z) :
  In x (map fst (concat (index_chunks k cs))) -> k <= x < k + Z.of_nat (length cs).
Proof.
  revert k. induction cs as [|c cs IH]; intros k; simpl; [tauto |].
  rewrite map_app, in_app_iff. intros [H|H].
  - apply in_map_iff in H as ([j a] & <- & Hj). apply in_map_iff in Hj as (? & E & _).
    injection E as <- _. simpl. lia.
  - specialize (IH (k + 1) H). lia.
Qed.

Lemma map_fst_pair {A : Type} (k : Z) (c : list A) : map fst (map (pair k) c) = repeat k (length c).
Proof. induction c; simpl; f_equal; auto. Qed.

Lemma in_repeat_iff (k x : Z) (n : nat) : In x (repeat k n) <-> x = k /\ (n > 0)%nat.
Proof.
  induction n as [|n IH]; simpl; [lia |]. rewrite IH. lia.
Qed.

(** [unique] over the ids of numbered non-empty chunks, after the ids
    [1..m] have been seen, yields the ids above [m], in increasing order. *)
Lemma unique_from_index_chunks {A : Type} (cs : list (list A)) (k m : Z) (s : list Z) :
  Forall (fun c => c <> []) cs -> 1 <= k <= m + 1 ->
  (forall x, In x s <-> 1 <= x <= m) ->
  unique_from s (map fst (concat (index_chunks k cs))) =
  zrange (m + 1) (Z.to_nat (k + Z.of_nat (length cs) - 1 - m)).
Proof.
  intros Hne. revert k m s. induction Hne as [|c cs Hc Hne IH]; intros k m s Hk Hs.
  - cbn [length]. replace (Z.to_nat (k + Z.of_nat 0 - 1 - m)) with O by lia. reflexivity.
  - cbn [index_chunks concat]. rewrite map_app, map_fst_pair, unique_from_app.
    destruct c as [|a c]; [congruence |]. cbn [length repeat].
    destruct (Z.eq_dec k (m + 1)) as [->|Hlt].
    + cbn [unique_from]. case_decide as Ha; rewrite list_elem_of_In, Hs in Ha; [lia |].
      rewrite unique_from_seen by (intros y Hy; apply in_repeat_iff in Hy; left; lia).
      rewrite (IH (m + 1 + 1) (m + 1)); [| lia |].
      * cbn [length].
        replace (Z.to_nat (m + 1 + Z.of_nat (S (length cs)) - 1 - m))
          with (S (Z.to_nat (m + 1 + 1 + Z.of_nat (length cs) - 1 - (m + 1)))) by lia.
        reflexivity.
      * intros y. rewrite in_app_iff. simpl. rewrite in_repeat_iff, Hs. lia.
    + cbn [unique_from]. case_decide as Ha; rewrite list_elem_of_In, Hs in Ha; [| lia].
      rewrite unique_from_seen by (intros y Hy; apply in_repeat_iff in Hy; apply Hs; lia).
      rewrite (IH (k + 1) m); [| lia |].
      * cbn [length app]. f_equal. lia.
      * intros y. rewrite in_app_iff. simpl. rewrite in_repeat_iff, Hs. lia.
Qed.

Lemma in_ids_index_chunks {A : Type} (k : Z) (cs : list (list A)) (x : Z) :
  Forall (fun c => c <> []) cs ->
  In x (map fst (concat (index_chunks k cs))) <-> k <= x < k + Z.of_nat (length cs).
Proof.
  intros Hne. split; [apply ids_index_chunks |]. revert k.
  induction Hne as [|c cs Hc Hne IH]; intros k Hx; cbn [length] in Hx; [lia |].
  cbn [index_chunks concat]. rewrite map_app, in_app_iff, map_fst_pair, in_repeat_iff.
  destruct (Z.eq_dec x k) as [->|Hxk].
  - left. split; [reflexivity |]. destruct c; [congruence | simpl; lia].
  - right. apply IH. lia.
Qed.

Lemma filter_fst_none {A : Type} (j : Z) (l : list (Z * A)) :
  ~ In j (map fst l) -> List.filter (fun q => fst q =? j) l = [].
Proof.
  induction l as [|[a v] l IH]; intros H; simpl; [reflexivity |].
  simpl in H. destruct (Z.eqb_spec a j); [tauto |]. apply IH. tauto.
Qed.

Lemma filter_fst_pair {A : Type} (j k : Z) (c : list A) :
  List.filter (fun q => fst q =? j) (map (pair k) c) = if k =? j then map (pair k) c else [].
Proof.
  induction c as [|a c IH]; simpl; [destruct (k =? j); reflexivity |].
  rewrite IH. destruct (k =? j); reflexivity.
Qed.

(** Selecting the rows of every id [k..k+M-1] in turn, from numbered chunks
    of at most [M] ids, and processing each selection with [f], processes
    the chunks in their order. *)
Lemma regroup_index_chunks {A B : Type} (f : list (Z * A) -> list B) (k : Z) (M : nat)
    (cs : list (list A)) :
  f [] = [] -> (length cs <= M)%nat ->
  concat (map (fun j => f (List.filter (fun q => fst q =? j) (concat (index_chunks k cs))))
              (zrange k M)) =
  concat (map f (index_chunks k cs)).
Proof.
  intros Hf. revert k M. induction cs as [|c cs IH]; intros k M HM.
  - cbn [index_chunks concat]. clear HM.
    induction (zrange k M) as [|j js IHj]; [reflexivity |].
    cbn [map concat List.filter] in *. rewrite Hf in *. exact IHj.
  - destruct M as [|M]; [simpl in HM; lia |]. cbn [zrange map concat index_chunks].
    rewrite filter_app, filter_fst_pair, Z.eqb_refl.
    rewrite (filter_fst_none k) by (intros Hk; apply ids_index_chunks in Hk; lia).
    rewrite app_nil_r. f_equal.
    rewrite <- (IH (k + 1) M) by (simpl in HM; lia).
    f_equal. apply map_ext_in. intros j Hj. apply in_zrange in Hj.
    rewrite filter_app, filter_fst_pair, (proj2 (Z.eqb_neq k j)) by lia. reflexivity.
Qed.

Lemma maxZ_shift (m a : Z) (l : list Z) : maxZ (Z.max m a) l = Z.max a (maxZ m l).
Proof. induction l as [|b l IH]; simpl; [lia | rewrite IH; lia]. Qed.

Lemma zrange_app (a : Z) (n1 n2 : nat) :
  zrange a n1 ++ zrange (a + Z.of_nat n1) n2 = zrange a (n1 + n2).
Proof.
  revert a. induction n1 as [|n1 IH]; intros a; simpl; [f_equal; lia |].
  f_equal. rewrite <- IH. do 2 f_equal. lia.
Qed.

Lemma filter_concat {A : Type} (f : A -> bool) (L : list (list A)) :
  List.filter f (concat L) = concat (map (List.filter f) L).
Proof. induction L as [|l L IH]; simpl; [reflexivity | rewrite filter_app, IH; reflexivity]. Qed.

Lemma Forall2_Forall_snd {A B : Type} (P : A -> B -> Prop) (Q : B -> Prop)
    (l : list A) (k : list B) :
  Forall2 P l k -> (forall a b, P a b -> Q b) -> Forall Q k.
Proof. induction 1 as [|a b l k Hab _ IH]; intros HPQ; constructor; eauto. Qed.

Lemma Forall2_Forall_in {A B : Type} (P : A -> B -> Prop) (Q : B -> Prop)
    (l : list A) (k : list B) :
  Forall2 P l k -> (forall a b, In a l -> P a b -> Q b) -> Forall Q k.
Proof.
  induction 1 as [|a b l k Hab _ IH]; intros HPQ; constructor.
  - apply (HPQ a b); [left; reflexivity | exact Hab].
  - apply IH. intros a' b' Ha'. apply HPQ. right. exact Ha'.
Qed.

Lemma Forall2_rev {A B : Type} (P : A -> B -> Prop) (l : list A) (k : list B) :
  Forall2 P l k -> Forall2 P (rev l) (rev k).
Proof.
  induction 1 as [|a b l k Hab _ IH]; cbn [rev]; [constructor |].
  apply Forall2_app; [exact IH | constructor; [exact Hab | constructor]].
Qed.

Lemma flat_map_ext_in {A B : Type} (f g : A -> list B) (l : list A) :
  (forall a, In a l -> f a = g a) -> flat_map f l = flat_map g l.
Proof.
  induction l as [|a l IH]; intros H; cbn; [reflexivity |].
  rewrite H by (left; reflexivity). f_equal. apply IH. intros b Hb. apply H. right. exact Hb.
Qed.

Lemma Permutation_concat_map {A B : Type} (f : A -> list B) (l l' : list A) :
  Permutation l l' -> Permutation (concat (map f l)) (concat (map f l')).
Proof.
  induction 1 as [| x l l' _ IH | x y l | l l' l'' _ IH1 _ IH2]; cbn [map concat].
  - constructor.
  - apply Permutation_app_head. exact IH.
  - rewrite !app_assoc. apply Permutation_app_tail, Permutation_app_comm.
  - etransitivity; [exact IH1 | exact IH2].
Qed.

(** The sum after replacing the [i]-th element of a list. *)
Lemma sumZ_insert {A : Type} (f : A -> Z) (l : list A) (i : nat) (a b : A) :
  l !! i = Some b -> sumZ f (<[i := a]> l) = sumZ f l + f a - f b.
Proof.
  assert (Hc : forall c l', sumZ f (c :: l') = f c + sumZ f l') by reflexivity.
  revert i. induction l as [|c l IH]; intros [|i] H; try discriminate.
  - cbn in H. injection H as <-. change (<[0%nat := a]> (c :: l)) with (a :: l). rewrite !Hc. lia.
  - change (<[S i := a]> (c :: l)) with (c :: <[i := a]> l). rewrite !Hc, (IH i H). lia.
Qed.

Lemma filter_all {A : Type} (f : A -> bool) (l : list A) :
  (forall a, In a l -> f a = true) -> List.filter f l = l.
Proof. induction l as [|a l IH]; intros H; simpl; [reflexivity |]. rewrite H, IH; auto with datatypes. Qed.

Lemma filter_none {A : Type} (f : A -> bool) (l : list A) :
  (forall a, In a l -> f a = false) -> List.filter f l = [].
Proof. induction l as [|a l IH]; intros H; simpl; [reflexivity |]. rewrite H, IH; auto with datatypes. Qed.
