(* ===== verification/Geometry.v ===== *)
(** * Geometry: Euclidean distances and the distance threshold

    The source computes [math.sqrt((x2-x1)**2+(y2-y1)**2)] and compares it
    with the configured [distance] ([_stopsAndTransitions.py], lines
    197-203).  This file keeps the squared distance [sqdist] over [Q] and the
    threshold test [within d2 D], which holds exactly when the real square
    root of [d2] is at most [D] ([GeometryReal.within_sqrt]). *)

From Stdlib Require Import QArith Lqa Lia.
From S2P Require Import Prelude.

Open Scope Q_scope.

(** [(x2-x1)**2+(y2-y1)**2]: the square of the Euclidean distance. *)
Definition sqdist (x1 y1 x2 y2 : Q) : Q :=
  (x2 - x1) * (x2 - x1) + (y2 - y1) * (y2 - y1).

(** [math.sqrt(d2) <= distance], decided on squares. *)
Definition within (d2 D : Q) : bool := Qle_bool 0 D && Qle_bool d2 (D * D).

Lemma Qsquare_nonneg (a : Q) : 0 <= a * a.
Proof. nra. Qed.

Lemma sqdist_nonneg (x1 y1 x2 y2 : Q) : 0 <= sqdist x1 y1 x2 y2.
Proof.
  unfold sqdist.
  pose proof (Qsquare_nonneg (x2 - x1)). pose proof (Qsquare_nonneg (y2 - y1)).
  lra.
Qed.

Lemma within_iff (d2 D : Q) : within d2 D = true <-> 0 <= D /\ d2 <= D * D.
Proof.
  unfold within. rewrite andb_true_iff, !Qle_bool_iff. reflexivity.
Qed.

Lemma within_false_iff (d2 D : Q) :
  within d2 D = false <-> ~ (0 <= D /\ d2 <= D * D).
Proof. rewrite <- within_iff. destruct (within d2 D); split; congruence. Qed.

(** A point is within any non-negative threshold of itself. *)
Lemma within_self (x y D : Q) : 0 <= D -> within (sqdist x y x y) D = true.
Proof.
  intros HD. apply within_iff. split; [exact HD |].
  unfold sqdist. pose proof (Qsquare_nonneg D).
  lra.
Qed.

(** A negative threshold admits nothing: every sample opens a new cluster
    (the configuration error of the specification, section 4.1). *)
Lemma within_neg (d2 D : Q) : D < 0 -> within d2 D = false.
Proof.
  intros HD. apply within_false_iff. intros [H _].
  apply (Qlt_not_le _ _ HD H).
Qed.

#[export] Hint Resolve sqdist_nonneg within_self : mmla.
