(* ===== verification/GeometryReal.v ===== *)
(** * GeometryReal: the threshold test against the real square root

    The source compares [math.sqrt(d2)] with the threshold.  This file shows
    that the squared comparison [Geometry.within] used by the model decides
    exactly that comparison in the real numbers, so that no behaviour of the
    source is lost by keeping distances squared. *)

From Stdlib Require Import QArith Qreals Reals Lra.
From S2P Require Import Prelude Geometry.

(** The Euclidean distance the source stores in [base_dist] and
    [intra_dist], as a real number. *)
Definition euclid (x1 y1 x2 y2 : Q) : R := sqrt (Q2R (sqdist x1 y1 x2 y2)).

Lemma Q2R_0 : Q2R 0 = 0%R.
Proof. unfold Q2R. simpl. lra. Qed.

(** For a non-negative squared distance [d2], [within d2 D] holds exactly
    when [sqrt d2 <= D] in the reals. *)
Lemma within_sqrt (d2 D : Q) :
  (0 <= d2)%Q -> within d2 D = true <-> (sqrt (Q2R d2) <= Q2R D)%R.
Proof.
  intros H0. apply Qle_Rle in H0. rewrite Q2R_0 in H0.
  rewrite within_iff. split.
  - intros [HD Hd]. apply Qle_Rle in HD, Hd. rewrite Q2R_mult in Hd.
    rewrite Q2R_0 in HD.
    rewrite <- (sqrt_square (Q2R D)) by exact HD.
    apply sqrt_le_1_alt. exact Hd.
  - intros Hs. pose proof (sqrt_pos (Q2R d2)) as Hp.
    split; apply Rle_Qle; rewrite ?Q2R_0, ?Q2R_mult; [lra |].
    rewrite <- (sqrt_sqrt (Q2R d2)) by exact H0.
    apply Rmult_le_compat; lra.
Qed.

(** Comparing squares is faithful: the branch condition
    [dist_b <= distance] of the source, with
    [dist_b = math.sqrt((x2-b_x1)**2+(y2-b_y1)**2)] computed in the reals,
    holds exactly when the squared test [within] does. *)
Lemma within_euclid (x1 y1 x2 y2 D : Q) :
  within (sqdist x1 y1 x2 y2) D = true <-> (euclid x1 y1 x2 y2 <= Q2R D)%R.
Proof. apply within_sqrt, sqdist_nonneg. Qed.
