(* ===== verification/Samples.v ===== *)
(** * Samples: the input table and its (tracker, session) partitions

    The preprocessed table that [stops_transitions] receives
    ([_stopsAndTransitions.py], lines 35-55): one row per position sample.
    The three passes of the engine enumerate the partitions the same way: the
    distinct trackers of the table in order of first appearance, and for each
    of them the distinct sessions of the whole table (lines 115-128,
    160-168), selecting each partition with two boolean masks. *)

From Stdlib Require Import ZArith QArith Lia.
From stdpp Require Import base list decidable.
From S2P Require Import Prelude.

Open Scope Z_scope.

(** A row of the preprocessed table: the columns the engine reads. *)
Record sample := mk_sample {
  tracker : Z;
  session : Z;
  timestamp : Z;          (** seconds *)
  x : Q;                  (** millimetres *)
  y : Q;
  phase : Z;              (** [-100] when unassigned *)
  quantile : Z            (** [-100] when unassigned *)
}.

(** The partitioning is the same in the three passes, over tables of
    different row types; [tr_of] and [ss_of] read the tracker and session
    columns of a row. *)
Section Partition.
Context {A : Type} (tr_of ss_of : A -> Z).

(** [tracker_df = df[df['tracker'] == tracker]] then
    [session_df = tracker_df[tracker_df['session'] == session]]. *)
Definition partition (df : list A) (tr ss : Z) : list A :=
  List.filter (fun s => ss_of s =? ss)
    (List.filter (fun s => tr_of s =? tr) df).

(** The nested loops [for tracker in df.tracker.unique(): for session in
    df.session.unique(): ...]: tracker-major order. *)
Definition partition_keys (df : list A) : list (Z * Z) :=
  list_prod (unique (map tr_of df)) (unique (map ss_of df)).

Definition partitions (df : list A) : list (list A) :=
  map (fun '(tr, ss) => partition df tr ss) (partition_keys df).

Definition key (s : A) : Z * Z := (tr_of s, ss_of s).

Lemma partition_filter_key (df : list A) (tr ss : Z) :
  partition df tr ss = List.filter (fun s => bool_decide (key s = (tr, ss))) df.
Proof.
  unfold partition, key. induction df as [|s df IH]; simpl; [reflexivity |].
  destruct (Z.eqb_spec (tr_of s) tr) as [<-|Htr]; simpl.
  - destruct (Z.eqb_spec (ss_of s) ss) as [<-|Hss].
    + rewrite bool_decide_true by reflexivity. f_equal. exact IH.
    + rewrite bool_decide_false by congruence. exact IH.
  - rewrite bool_decide_false by congruence. exact IH.
Qed.

Lemma in_partition_keys (df : list A) (s : A) :
  In s df -> In (key s) (partition_keys df).
Proof.
  intros H. unfold partition_keys, key. apply in_prod; apply in_unique, in_map; exact H.
Qed.

Lemma NoDup_partition_keys (df : list A) : List.NoDup (partition_keys df).
Proof. apply NoDup_list_prod; apply NoDup_unique. Qed.

(** Every row lies in exactly one partition: concatenating the
    partitions the loops visit is a permutation of the table. *)
Lemma partitions_perm (df : list A) :
  Permutation (concat (partitions df)) df.
Proof.
  unfold partitions.
  rewrite (map_ext _ (select key df)) by (intros [tr ss]; apply partition_filter_key).
  apply concat_select_perm;
    [apply NoDup_partition_keys | intros s Hs; apply in_partition_keys, Hs].
Qed.

(** Every row of a partition has the partition's key. *)
Lemma in_partition (df : list A) (tr ss : Z) (s : A) :
  In s (partition df tr ss) <-> In s df /\ tr_of s = tr /\ ss_of s = ss.
Proof.
  unfold partition. rewrite !filter_In, !Z.eqb_eq. tauto.
Qed.
End Partition.
