(* ===== verification/ClusterBuilder.v ===== *)
(** * ClusterBuilder: [generate_positioning_clusters]

    [_stopsAndTransitions.py], lines 144-237.  The loop over the rows of a
    partition is a state machine: the state [cstate] holds the cluster
    counter [fix_seq], the base point [(b_x1, b_y1, b_time)] and
    [previous_row].  The first row of a partition ([count == 1], lines
    226-233) is [first_step]; every later row ([count > 1], lines 185-224)
    is [step].  [run_partition] folds them over one partition and
    [run_partitions] threads [fix_seq] from one partition to the next, as
    the source does: [fix_seq = 1] is set once, before the loops (line 152).

    The base point and [previous_row] of the source survive from one
    partition to the next, but the first row of every partition overwrites
    them before they are read, so the model starts each partition from a
    fresh state with the current counter. *)

From Stdlib Require Import ZArith QArith Lia.
From stdpp Require Import base list decidable.
From S2P Require Import Prelude Geometry Samples.

Open Scope Z_scope.

(** ** Data *)

(** [b_x1, b_y1, b_time]: the sample that anchors the current cluster. *)
Record base_point := mk_base { b_x1 : Q; b_y1 : Q; b_time : Z }.

Definition base_of (s : sample) : base_point := mk_base (x s) (y s) (timestamp s).

(** The loop state. *)
Record cstate := mk_cstate {
  fix_seq : Z;
  base : base_point;
  previous_row : sample
}.

(** A row of [data1] (line 236): [group, tracker, session, phase, quantile,
    timestamp, x, y, base_dist, intra_dist, time_diff].  The seven columns
    copied from the sample are kept as the sample [row]; the distances are
    squared (see [GeometryReal.euclid]); [time_diff] is [None] where the
    source appends a row of ten values and pandas fills the missing cell. *)
Record crow := mk_crow {
  group : Z;
  row : sample;
  base_dist : Q;
  intra_dist : Q;
  time_diff : option Z
}.

(** ** Operations *)

(** [count == 1]: the sample is the base point of a cluster numbered with
    the current [fix_seq]; distances [0, 0] and no time difference. *)
Definition first_step (seq : Z) (s : sample) : cstate * crow :=
  (mk_cstate seq (base_of s) s, mk_crow seq s 0 0 None).

(** [count > 1], with the threshold [distance]: [dist_b <= distance] joins
    the current cluster; [dist_b > distance] opens cluster [fix_seq + 1]
    with the sample as its base point. *)
Definition step (distance : Q) (st : cstate) (s : sample) : cstate * crow :=
  let prev := previous_row st in
  let b := base st in
  let dist_p := sqdist (x prev) (y prev) (x s) (y s) in
  let dist_b := sqdist (b_x1 b) (b_y1 b) (x s) (y s) in
  let t_diff := timestamp s - b_time b in
  if within dist_b distance then
    (mk_cstate (fix_seq st) b s, mk_crow (fix_seq st) s dist_b dist_p (Some t_diff))
  else
    let seq' := fix_seq st + 1 in
    (mk_cstate seq' (base_of s) s, mk_crow seq' s dist_b dist_p None).

(** The rows after the first one of a partition. *)
Fixpoint run_rest (distance : Q) (st : cstate) (l : list sample) : cstate * list crow :=
  match l with
  | [] => (st, [])
  | s :: l' =>
      let '(st1, r) := step distance st s in
      let '(st2, rs) := run_rest distance st1 l' in
      (st2, r :: rs)
  end.

(** One partition ([for k, row_pair in data.iterrows()]): the counter after
    the partition, and the rows appended to [data1]. *)
Definition run_partition (distance : Q) (seq : Z) (l : list sample) : Z * list crow :=
  match l with
  | [] => (seq, [])
  | s :: l' =>
      let '(st, r) := first_step seq s in
      let '(st', rs) := run_rest distance st l' in
      (fix_seq st', r :: rs)
  end.

(** The partitions in the order the loops visit them, threading [fix_seq]. *)
Fixpoint run_partitions (distance : Q) (seq : Z) (ps : list (list sample)) : list crow :=
  match ps with
  | [] => []
  | p :: ps' =>
      let '(seq', rs) := run_partition distance seq p in
      rs ++ run_partitions distance seq' ps'
  end.

Definition generate_positioning_clusters (distance : Q) (df : list sample) : list crow :=
  run_partitions distance 1 (partitions tracker session df).

(** ** The observable part of the output: cluster id and sample *)

Definition gview (rs : list crow) : list (Z * sample) :=
  map (fun r => (group r, row r)) rs.

(** The clusters a table of rows describes: its maximal runs of equal
    [group], as lists of samples. *)
Definition segments_of (rs : list crow) : list (list sample) :=
  map (map row) (chunk_by group rs).

(** The [group] test of [step]: does [s] stay within [distance] of [b]? *)
Definition near (distance : Q) (b : base_point) (s : sample) : bool :=
  within (sqdist (b_x1 b) (b_y1 b) (x s) (y s)) distance.

Section Lemmas.
Variable distance : Q.

Lemma step_row (st : cstate) (s : sample) : row (snd (step distance st s)) = s.
Proof. unfold step. destruct (within _ _); reflexivity. Qed.

Lemma step_near (st : cstate) (s : sample) :
  near distance (base st) s = true ->
  step distance st s =
    (mk_cstate (fix_seq st) (base st) s,
     mk_crow (fix_seq st) s
       (sqdist (b_x1 (base st)) (b_y1 (base st)) (x s) (y s))
       (sqdist (x (previous_row st)) (y (previous_row st)) (x s) (y s))
       (Some (timestamp s - b_time (base st)))).
Proof. unfold step, near. intros ->. reflexivity. Qed.

Lemma step_far (st : cstate) (s : sample) :
  near distance (base st) s = false ->
  step distance st s =
    (mk_cstate (fix_seq st + 1) (base_of s) s,
     mk_crow (fix_seq st + 1) s
       (sqdist (b_x1 (base st)) (b_y1 (base st)) (x s) (y s))
       (sqdist (x (previous_row st)) (y (previous_row st)) (x s) (y s))
       None).
Proof. unfold step, near. intros ->. reflexivity. Qed.

Lemma run_rest_rows (st : cstate) (l : list sample) :
  map row (snd (run_rest distance st l)) = l.
Proof.
  revert st. induction l as [|s l IH]; intros st; simpl; [reflexivity |].
  destruct (step distance st s) as [st1 r] eqn:E.
  destruct (run_rest distance st1 l) as [st2 rs] eqn:E2. simpl.
  rewrite <- (step_row st s), E. f_equal. rewrite <- (IH st1), E2. reflexivity.
Qed.

Lemma run_partition_rows (seq : Z) (l : list sample) :
  map row (snd (run_partition distance seq l)) = l.
Proof.
  destruct l as [|s l]; simpl; [reflexivity |].
  destruct (run_rest distance (mk_cstate seq (base_of s) s) l) as [st' rs] eqn:E.
  simpl. f_equal. rewrite <- (run_rest_rows (mk_cstate seq (base_of s) s) l), E.
  reflexivity.
Qed.

Lemma run_partitions_rows (seq : Z) (ps : list (list sample)) :
  map row (run_partitions distance seq ps) = concat ps.
Proof.
  revert seq. induction ps as [|p ps IH]; intros seq; simpl; [reflexivity |].
  destruct (run_partition distance seq p) as [seq' rs] eqn:E.
  rewrite map_app, IH. f_equal.
  rewrite <- (run_partition_rows seq p), E. reflexivity.
Qed.

(** The cluster ids and samples [run_rest] emits depend on the state only
    through [fix_seq] and the base point, not through [previous_row]. *)
Lemma run_rest_view (st1 st2 : cstate) (l : list sample) :
  fix_seq st1 = fix_seq st2 -> base st1 = base st2 ->
  fix_seq (fst (run_rest distance st1 l)) = fix_seq (fst (run_rest distance st2 l)) /\
  gview (snd (run_rest distance st1 l)) = gview (snd (run_rest distance st2 l)).
Proof.
  revert st1 st2. induction l as [|s l IH]; intros st1 st2 Hs Hb; simpl; [auto |].
  destruct (near distance (base st1) s) eqn:En.
  - rewrite (step_near st1 s En), (step_near st2 s) by congruence.
    destruct (IH (mk_cstate (fix_seq st1) (base st1) s) (mk_cstate (fix_seq st2) (base st2) s))
      as [IH1 IH2]; [simpl; congruence .. |].
    destruct (run_rest _ (mk_cstate (fix_seq st1) _ _) l) as [a1 r1].
    destruct (run_rest _ (mk_cstate (fix_seq st2) _ _) l) as [a2 r2].
    simpl in *. split; [exact IH1 | rewrite Hs, IH2; reflexivity].
  - rewrite (step_far st1 s En), (step_far st2 s) by congruence.
    destruct (IH (mk_cstate (fix_seq st1 + 1) (base_of s) s) (mk_cstate (fix_seq st2 + 1) (base_of s) s))
      as [IH1 IH2]; [simpl; congruence .. |].
    destruct (run_rest _ (mk_cstate (fix_seq st1 + 1) _ _) l) as [a1 r1].
    destruct (run_rest _ (mk_cstate (fix_seq st2 + 1) _ _) l) as [a2 r2].
    simpl in *. split; [exact IH1 | rewrite Hs, IH2; reflexivity].
Qed.

(** A run of samples near the base point stays in the current cluster. *)
Lemma run_rest_near_prefix (st : cstate) (ms rest : list sample) :
  Forall (fun m => near distance (base st) m = true) ms ->
  exists st', fix_seq st' = fix_seq st /\ base st' = base st /\
    fst (run_rest distance st (ms ++ rest)) = fst (run_rest distance st' rest) /\
    gview (snd (run_rest distance st (ms ++ rest))) =
      map (pair (fix_seq st)) ms ++ gview (snd (run_rest distance st' rest)).
Proof.
  intros HF. revert st HF. induction ms as [|m ms IH]; intros st HF.
  - exists st. auto.
  - inversion HF as [|? ? Hm HF']; subst. simpl.
    rewrite (step_near st m Hm).
    destruct (IH (mk_cstate (fix_seq st) (base st) m) HF') as (st' & H1 & H2 & H3 & H4).
    exists st'. simpl in *. split; [congruence | split; [congruence |]].
    destruct (run_rest distance (mk_cstate (fix_seq st) (base st) m) (ms ++ rest)) as [a r].
    simpl in *. split; [exact H3 | rewrite H4; reflexivity].
Qed.

(** A sample beyond the threshold starts the rest of the partition as if
    it were a fresh partition numbered [fix_seq + 1]. *)
Lemma run_rest_far_head (st : cstate) (h : sample) (rest : list sample) :
  near distance (base st) h = false ->
  fix_seq (fst (run_rest distance st (h :: rest))) =
    fst (run_partition distance (fix_seq st + 1) (h :: rest)) /\
  gview (snd (run_rest distance st (h :: rest))) =
    gview (snd (run_partition distance (fix_seq st + 1) (h :: rest))).
Proof.
  intros Hf. simpl. rewrite (step_far st h Hf).
  destruct (run_rest distance (mk_cstate (fix_seq st + 1) (base_of h) h) rest) as [a r].
  split; reflexivity.
Qed.

Lemma run_partition_first_group (seq : Z) (h : sample) (t : list sample) :
  exists r rs, snd (run_partition distance seq (h :: t)) = r :: rs /\ group r = seq.
Proof.
  simpl. destruct (run_rest distance (mk_cstate seq (base_of h) h) t) as [a r].
  eauto.
Qed.
End Lemmas.

(** ** Properties of the cluster builder *)

Section Properties.
Variable distance : Q.

Lemma run_rest_last (st : cstate) (l : list sample) :
  l <> [] ->
  exists r, list.last (snd (run_rest distance st l)) = Some r /\
            group r = fix_seq (fst (run_rest distance st l)).
Proof.
  revert st. induction l as [|s l IH]; intros st Hne; [congruence |]. simpl.
  destruct (step distance st s) as [st1 r] eqn:E.
  destruct l as [|s' l'].
  - simpl. exists r. split; [reflexivity |].
    unfold step in E. destruct (within _ _); injection E as <- <-; reflexivity.
  - destruct (IH st1 ltac:(discriminate)) as (r' & H1 & H2).
    destruct (run_rest distance st1 (s' :: l')) as [st2 [|r0 rs]] eqn:E2;
      [discriminate |].
    exists r'. simpl in *. split; assumption.
Qed.

(** The last row of a partition carries the counter the partition hands
    over to the next one. *)
Lemma run_partition_last (sq : Z) (l : list sample) :
  l <> [] ->
  exists r, list.last (snd (run_partition distance sq l)) = Some r /\
            group r = fst (run_partition distance sq l).
Proof.
  destruct l as [|s l]; intros Hne; [congruence |]. simpl.
  destruct l as [|s' l'].
  - simpl. eexists; split; reflexivity.
  - destruct (run_rest_last (mk_cstate sq (base_of s) s) (s' :: l') ltac:(discriminate))
      as (r & H1 & H2).
    destruct (run_rest distance (mk_cstate sq (base_of s) s) (s' :: l'))
      as [st' [|r0 rs]]; [discriminate |].
    exists r. simpl in *. split; assumption.
Qed.

(** Coverage: the rows [generate_positioning_clusters] appends carry
    every sample of the table exactly once. *)
Theorem generate_rows_perm (df : list sample) :
  Permutation (map row (generate_positioning_clusters distance df)) df.
Proof.
  unfold generate_positioning_clusters. rewrite run_partitions_rows.
  apply partitions_perm.
Qed.

(** Tie-break: a sample at exactly [distance] from the base point
    stays in the current cluster ([dist_b <= distance], not [<]). *)
Theorem step_tie (st : cstate) (s : sample) :
  (0 <= distance)%Q ->
  (sqdist (b_x1 (base st)) (b_y1 (base st)) (x s) (y s) == distance * distance)%Q ->
  group (snd (step distance st s)) = fix_seq st /\
  base (fst (step distance st s)) = base st.
Proof.
  intros HD Heq. rewrite step_near; [split; reflexivity |].
  unfold near. apply within_iff. split; [exact HD | rewrite Heq; apply Qle_refl].
Qed.

(** C9. The counter is not reset between partitions (line 152): when two
    non-empty partitions follow each other, the last cluster of the first
    and the first cluster of the second get the same id. *)
Theorem partitions_share_boundary_id (sq : Z) (p1 p2 : list sample)
    (ps : list (list sample)) :
  p1 <> [] -> p2 <> [] ->
  exists pre r1 r2 post,
    run_partitions distance sq (p1 :: p2 :: ps) = pre ++ r1 :: r2 :: post /\
    list.last p1 = Some (row r1) /\ head p2 = Some (row r2) /\ group r1 = group r2.
Proof.
  intros H1 H2. simpl.
  destruct (run_partition_last sq p1 H1) as (r1 & Hl & Hg).
  destruct (run_partition distance sq p1) as [sq1 rs1] eqn:E1.
  destruct p2 as [|s2 p2']; [congruence |].
  destruct (run_partition_first_group distance sq1 s2 p2') as (r2 & rs2 & Er & Eg).
  destruct (run_partition distance sq1 (s2 :: p2')) as [sq2 rs] eqn:E2.
  simpl in Er, Hl, Hg. subst rs.
  destruct (exists_last (l := rs1)) as (pre & r1' & ->);
    [intros ->; discriminate |].
  rewrite last_snoc in Hl. injection Hl as ->.
  exists pre, r1, r2, (rs2 ++ run_partitions distance sq2 ps).
  split; [rewrite <- app_assoc; reflexivity |].
  split; [| split; [| congruence]].
  - pose proof (run_partition_rows distance sq p1) as R. rewrite E1 in R. simpl in R.
    rewrite <- R, map_app. cbn [map]. apply last_snoc.
  - pose proof (run_partition_rows distance sq1 (s2 :: p2')) as R.
    rewrite E2 in R. simpl in R. injection R as R _. rewrite R. reflexivity.
Qed.

(** C10. Rows after the first of a partition: the [time_diff] cell is empty
    exactly on the rows that open a cluster, and there [base_dist] is the
    distance to the base point of the previous cluster, beyond the
    threshold; on the other rows it is the time elapsed since the base
    point and [base_dist] is within the threshold. *)
Theorem run_rest_time_diff (st : cstate) (l : list sample) :
  Forall (fun r =>
    match time_diff r with
    | None => within (base_dist r) distance = false
    | Some t => within (base_dist r) distance = true
    end) (snd (run_rest distance st l)).
Proof.
  revert st. induction l as [|s l IH]; intros st; simpl; [constructor |].
  destruct (near distance (base st) s) eqn:En;
    [rewrite (step_near distance st s En) | rewrite (step_far distance st s En)];
    match goal with |- context [run_rest distance ?st1 l] =>
      specialize (IH st1); destruct (run_rest distance st1 l) as [st2 rs] end;
    simpl; constructor; assumption.
Qed.
End Properties.

(** ** Witnesses *)

(** A sample of tracker 1, session 1, phase 1, quantile 1. *)
Definition smp (t : Z) (x0 y0 : Q) : sample := mk_sample 1 1 t x0 y0 1 1.

Definition origin_state : cstate := mk_cstate 1 (base_of (smp 0 0 0)) (smp 0 0 0).

Lemma step_tie_witness :
  (0 <= 5)%Q /\
  (sqdist (b_x1 (base origin_state)) (b_y1 (base origin_state)) (x (smp 1 3 4)) (y (smp 1 3 4))
     == 5 * 5)%Q /\
  (group (snd (step 5 origin_state (smp 1 3 4))) = fix_seq origin_state /\
   base (fst (step 5 origin_state (smp 1 3 4))) = base origin_state).
Proof.
  assert (H1 : (0 <= 5)%Q) by (vm_compute; discriminate).
  assert (H2 : (sqdist (b_x1 (base origin_state)) (b_y1 (base origin_state))
                 (x (smp 1 3 4)) (y (smp 1 3 4)) == 5 * 5)%Q) by reflexivity.
  split; [exact H1 | split; [exact H2 |]].
  exact (step_tie 5 origin_state (smp 1 3 4) H1 H2).
Defined.

Lemma partitions_share_boundary_id_witness :
  [smp 0 0 0] <> [] /\ [smp 5 0 0] <> [] /\
  exists pre r1 r2 post,
    run_partitions 1 1 [[smp 0 0 0]; [smp 5 0 0]] = pre ++ r1 :: r2 :: post /\
    list.last [smp 0 0 0] = Some (row r1) /\ head [smp 5 0 0] = Some (row r2) /\
    group r1 = group r2.
Proof.
  assert (H1 : [smp 0 0 0] <> []) by discriminate.
  assert (H2 : [smp 5 0 0] <> []) by discriminate.
  split; [exact H1 | split; [exact H2 |]].
  exact (partitions_share_boundary_id 1 1 [smp 0 0 0] [smp 5 0 0] [] H1 H2).
Defined.
