(* ===== verification/ClusterSpec.v ===== *)
(** * ClusterSpec: what [generate_positioning_clusters] computes

    An abstract specification of the clustering of one partition, stated
    without any loop state: a clustering cuts the ordered samples into
    segments, each made of an anchor sample followed by every following
    sample within [distance] of the anchor, up to the first sample that is
    not (which anchors the next segment).  The refinement theorem
    [run_partition_refines] shows that the clusters the state machine of
    [ClusterBuilder] emits are exactly the clustering of the partition, that
    the clustering exists and is unique, and that the cluster ids are the
    consecutive integers from the starting counter. *)

From Stdlib Require Import ZArith QArith Lia.
From stdpp Require Import base list decidable.
From S2P Require Import Prelude Geometry Samples ClusterBuilder.

Open Scope Z_scope.

Section Spec.
Variable distance : Q.

(** [m] may belong to the cluster anchored at [h]. *)
Definition joins (h m : sample) : bool := near distance (base_of h) m.

Inductive clustering : list sample -> list (list sample) -> Prop :=
| clustering_nil : clustering [] []
| clustering_cons (h : sample) (ms rest : list sample) (segs : list (list sample)) :
    Forall (fun m => joins h m = true) ms ->
    match rest with [] => True | h' :: _ => joins h h' = false end ->
    clustering rest segs ->
    clustering (h :: ms ++ rest) ((h :: ms) :: segs).

Definition last_id (seq : Z) (segs : list (list sample)) : Z :=
  match segs with [] => seq | _ => seq + Z.of_nat (length segs) - 1 end.

(** ** The specification, by itself *)

(** The longest prefix of [t] within [distance] of the anchor [h]. *)
Fixpoint split_near (h : sample) (t : list sample) : list sample * list sample :=
  match t with
  | [] => ([], [])
  | m :: t' =>
      if joins h m then let '(a, b) := split_near h t' in (m :: a, b) else ([], t)
  end.

Lemma split_near_spec (h : sample) (t : list sample) :
  fst (split_near h t) ++ snd (split_near h t) = t /\
  Forall (fun m => joins h m = true) (fst (split_near h t)) /\
  match snd (split_near h t) with [] => True | h' :: _ => joins h h' = false end /\
  (length (snd (split_near h t)) <= length t)%nat.
Proof.
  induction t as [|m t IH]; simpl; [auto |].
  destruct (joins h m) eqn:E; simpl; [| auto].
  destruct (split_near h t) as [a b]. simpl in *.
  destruct IH as (H1 & H2 & H3 & H4). rewrite H1. auto.
Qed.

Lemma clustering_exists (l : list sample) : exists segs, clustering l segs.
Proof.
  induction l as [l IH] using (induction_ltof1 _ (@length sample)).
  destruct l as [|h t]; [eexists; constructor |].
  destruct (split_near_spec h t) as (H1 & H2 & H3 & H4).
  destruct (IH (snd (split_near h t))) as [segs Hs].
  { unfold ltof. simpl. lia. }
  exists ((h :: fst (split_near h t)) :: segs).
  rewrite <- H1 at 1. constructor; assumption.
Qed.

Lemma clustering_nonempty (l : list sample) (segs : list (list sample)) :
  clustering l segs -> l <> [] -> segs <> [].
Proof. intros Hc. destruct Hc; congruence. Qed.

Lemma segments_of_gview (rs : list crow) :
  segments_of rs = map (map snd) (chunk_by fst (gview rs)).
Proof.
  unfold segments_of, gview. rewrite chunk_by_map, map_map.
  apply map_ext. intros c. rewrite map_map. reflexivity.
Qed.

(** ** The state machine against the specification *)

Lemma gview_cons (r : crow) (rs : list crow) : gview (r :: rs) = (group r, row r) :: gview rs.
Proof. reflexivity. Qed.

(** Along a clustering derivation, the state machine labels the [k]-th
    segment with [seq + k] and ends with the counter at the last id. *)
Lemma clustering_run (l : list sample) (segs : list (list sample)) :
  clustering l segs -> forall sq,
    chunk_by fst (gview (snd (run_partition distance sq l))) = index_chunks sq segs /\
    fst (run_partition distance sq l) = last_id sq segs.
Proof.
  induction 1 as [|h ms rest segs HF Hr Hc IH]; intros sq; [split; reflexivity |].
  cbn [run_partition first_step].
  destruct (run_rest_near_prefix distance (mk_cstate sq (base_of h) h) ms rest HF)
    as (st' & Hs & Hb & Hfst & Hg).
  destruct (run_rest distance (mk_cstate sq (base_of h) h) (ms ++ rest)) as [stf rs].
  cbn [fst snd] in Hs, Hb, Hfst, Hg |- *. rewrite gview_cons. cbn [group row].
  rewrite Hg, Hfst. cbn [fix_seq index_chunks map] in *.
  assert (Hrun : Forall (fun p => fst p = sq) ((sq, h) :: map (pair sq) ms)).
  { constructor; [reflexivity |]. apply Forall_forall.
    intros p Hp. apply in_map_iff in Hp as (? & <- & _). reflexivity. }
  destruct rest as [|h' rest'].
  - assert (segs = []) as -> by (inversion Hc; reflexivity).
    cbn [run_rest snd fst index_chunks] in *. rewrite app_nil_r, Hs.
    split; [| unfold last_id; simpl; lia].
    rewrite <- (app_nil_r ((sq, h) :: map (pair sq) ms)).
    rewrite (chunk_by_app_run fst sq) by (exact Hrun || discriminate || exact I).
    rewrite app_nil_r. reflexivity.
  - assert (Hn : near distance (base st') h' = false) by (rewrite Hb; exact Hr).
    destruct (run_rest_far_head distance st' h' rest' Hn) as [Hf1 Hf2].
    rewrite Hf2, Hf1, Hs.
    destruct (IH (sq + 1)) as [IH1 IH2].
    destruct (run_partition_first_group distance (sq + 1) h' rest') as (r & rs' & Er & Eg).
    assert (Hne : segs <> []) by (apply (clustering_nonempty _ _ Hc); discriminate).
    split.
    + change ((sq, h) :: map (pair sq) ms ++ ?G) with (((sq, h) :: map (pair sq) ms) ++ G).
      rewrite (chunk_by_app_run fst sq); [rewrite IH1; reflexivity | discriminate | exact Hrun |].
      rewrite Er. simpl. lia.
    + rewrite IH2. unfold last_id. destruct segs; [congruence |]. simpl. lia.
Qed.

(** ** Refinement *)

(** C1. The clusters [generate_positioning_clusters] emits for a partition
    (its maximal runs of equal [group]) are exactly the clusterings of the
    partition: the specification has one solution and the state machine
    computes it, whatever the starting counter. *)
Theorem run_partition_refines (sq : Z) (l : list sample) (segs : list (list sample)) :
  clustering l segs <-> segs = segments_of (snd (run_partition distance sq l)).
Proof.
  split.
  - intros Hc. rewrite segments_of_gview, (proj1 (clustering_run l segs Hc sq)).
    symmetry. apply index_chunks_snd.
  - intros ->. destruct (clustering_exists l) as [segs Hc].
    rewrite segments_of_gview, (proj1 (clustering_run l segs Hc sq)),
      index_chunks_snd.
    exact Hc.
Qed.

(** C7. Cluster ids are consecutive: every sample of the [k]-th cluster of
    a partition (from 0) carries the id [sq + k], and the counter after the
    partition is the id of its last cluster. *)
Theorem cluster_ids_consecutive (sq : Z) (l : list sample) :
  let rs := snd (run_partition distance sq l) in
  chunk_by fst (gview rs) = index_chunks sq (segments_of rs) /\
  fst (run_partition distance sq l) = last_id sq (segments_of rs).
Proof.
  intros rs. destruct (clustering_exists l) as [segs Hc].
  pose proof Hc as Hc'. rewrite (run_partition_refines sq) in Hc'.
  subst rs. rewrite <- Hc'. apply clustering_run, Hc.
Qed.
End Spec.
