(* ===== verification/Classifier.v ===== *)
(** * Classifier: the labelling half of [tag_clusters]

    [_stopsAndTransitions.py], lines 268-297.  The [time_diff] column (a
    [Timedelta], or empty) is turned into a string and the first
    [..:..:..] is extracted (line 271), which keeps the time of day of the
    difference and drops whole days and fractions of a second; empty cells
    become [00:00:00] (line 272).  [max_duration] is the maximum of that
    column over all rows with the same [group] (line 277) - over the whole
    table, not per partition.  A row is a "stop" when [max_duration] is at
    least the configured [duration] (lines 287-294).

    For a whole number of seconds [t] the string of [pd.Timedelta(t)] is
    ["D days HH:MM:SS"], and for negative [t] it is ["-D days +HH:MM:SS"]
    with the time of day counted forward from the day boundary: in both
    cases the extracted field is [t mod 86400] ([Z.modulo] rounds towards
    minus infinity, as the day count does). *)

From Stdlib Require Import ZArith QArith Lia.
From stdpp Require Import base list decidable.
From S2P Require Import Prelude Geometry Samples ClusterBuilder.

Open Scope Z_scope.

(** ** Data *)

Inductive label := stop | transition.

#[export] Instance label_eq_dec : EqDecision label.
Proof. solve_decision. Defined.

(** A row after line 297: the cluster row (its [time_diff] column is
    dropped at line 274), [time_diff2], [max_duration] and [type]. *)
Record lrow := mk_lrow {
  lr : crow;
  time_diff2 : Z;
  max_duration : Z;
  type : label
}.

(** ** Operations *)

Definition seconds_per_day : Z := 86400.

(** Lines 269-273: [str.extract('(..:..:..)')], [fillna('00:00:00')],
    [pd.to_timedelta]. *)
Definition time_of_day (td : option Z) : Z :=
  match td with
  | Some t => t mod seconds_per_day
  | None => 0
  end.

(** Line 277: [groupby(['group'])['time_diff2'].transform(max)].  Every
    value is non-negative and the group of a row contains the row, so the
    maximum seeded with [0] is the maximum of the group
    ([group_max_attained]). *)
Definition group_max (df : list crow) (g : Z) : Z :=
  maxZ 0 (map (fun r => time_of_day (time_diff r)) (List.filter (fun r => group r =? g) df)).

(** Lines 290-294: [if row >= stop: 'stop' else: 'transition']. *)
Definition classify (duration : Z) (md : Z) : label :=
  if duration <=? md then stop else transition.

(** Lines 268-297 over the whole cluster table. *)
Definition tag (duration : Z) (df : list crow) : list lrow :=
  map (fun r =>
         let md := group_max df (group r) in
         mk_lrow r (time_of_day (time_diff r)) md (classify duration md)) df.

(** ** Lemmas *)

Lemma time_of_day_bounds (td : option Z) : 0 <= time_of_day td < seconds_per_day.
Proof.
  unfold time_of_day, seconds_per_day. destruct td as [t|]; [apply Z.mod_pos_bound |]; lia.
Qed.

Lemma group_max_ge (df : list crow) (r : crow) :
  In r df -> time_of_day (time_diff r) <= group_max df (group r).
Proof.
  intros H. apply maxZ_ge_elem, (in_map (fun r => time_of_day (time_diff r))), filter_In.
  rewrite Z.eqb_refl. auto.
Qed.

Lemma group_max_le (df : list crow) (g b : Z) :
  0 <= b ->
  (forall r, In r df -> group r = g -> time_of_day (time_diff r) <= b) ->
  group_max df g <= b.
Proof.
  intros Hb H. apply maxZ_le; [exact Hb |]. apply Forall_forall.
  intros v (r & <- & Hr)%in_map_iff. apply filter_In in Hr as [Hr Hg].
  apply Z.eqb_eq in Hg. auto.
Qed.

(** The maximum is attained by a member of the group. *)
Lemma group_max_attained (df : list crow) (r : crow) :
  In r df ->
  exists r', In r' df /\ group r' = group r /\
             time_of_day (time_diff r') = group_max df (group r).
Proof.
  intros H. unfold group_max.
  destruct (maxZ_cases 0 (map (fun r => time_of_day (time_diff r))
              (List.filter (fun r' => group r' =? group r) df))) as [E|E].
  - exists r. split; [exact H | split; [reflexivity |]].
    pose proof (group_max_ge df r H) as G. unfold group_max in G.
    pose proof (time_of_day_bounds (time_diff r)). lia.
  - apply in_map_iff in E as (r' & E & Hr'). apply filter_In in Hr' as [Hr' Hg].
    apply Z.eqb_eq in Hg. eauto.
Qed.

Lemma in_tag (duration : Z) (df : list crow) (t : lrow) :
  In t (tag duration df) <->
  exists r, In r df /\ t = mk_lrow r (time_of_day (time_diff r)) (group_max df (group r))
                            (classify duration (group_max df (group r))).
Proof.
  unfold tag. rewrite in_map_iff.
  split; intros (r & H1 & H2); exists r; split; auto.
Qed.

(** ** Properties *)

(** C8. A row is labelled "stop" exactly when some row of its cluster (some
    row of the whole table with the same [group]) has a time of day since
    its base point of at least [duration]: ties are stops. *)
Theorem tag_stop_iff (duration : Z) (df : list crow) (t : lrow) :
  In t (tag duration df) ->
  (type t = stop <->
   exists r', In r' df /\ group r' = group (lr t) /\
              duration <= time_of_day (time_diff r')).
Proof.
  intros (r & Hr & ->)%in_tag. simpl. unfold classify.
  destruct (Z.leb_spec duration (group_max df (group r))) as [Hle|Hlt].
  - split; [intros _ | reflexivity].
    destruct (group_max_attained df r Hr) as (r' & H1 & H2 & H3).
    exists r'. rewrite H3. auto.
  - split; [discriminate |].
    intros (r' & H1 & H2 & H3). rewrite <- H2 in Hlt.
    pose proof (group_max_ge df r' H1). lia.
Qed.

(** Labels and maxima are uniform per [group]: two rows with the same
    cluster id get the same [max_duration] and the same label, whichever
    partition they come from. *)
Theorem tag_uniform (duration : Z) (df : list crow) (t1 t2 : lrow) :
  In t1 (tag duration df) -> In t2 (tag duration df) ->
  group (lr t1) = group (lr t2) ->
  max_duration t1 = max_duration t2 /\ type t1 = type t2.
Proof.
  intros (r1 & _ & ->)%in_tag (r2 & _ & ->)%in_tag. simpl. intros ->. auto.
Qed.

(** The conversion keeps a difference of less than a day and wraps
    longer ones: whole days are dropped. *)
Theorem time_of_day_wraps (t : Z) :
  0 <= t < seconds_per_day ->
  time_of_day (Some t) = t /\ time_of_day (Some (t + seconds_per_day)) = t.
Proof.
  intros H. unfold time_of_day. split.
  - apply Z.mod_small. exact H.
  - rewrite <- Z.add_mod_idemp_r by (unfold seconds_per_day; lia).
    rewrite Z.mod_same, Z.add_0_r by (unfold seconds_per_day; lia).
    apply Z.mod_small. exact H.
Qed.

(** ** Witnesses and counterexamples *)

(** A sample of tracker [tr], session 1, phase 1, quantile 1. *)
Definition smp_at (tr t : Z) (x0 y0 : Q) : sample := mk_sample tr 1 t x0 y0 1 1.

(** One tracker standing still for 20 seconds: one cluster of two rows. *)
Definition still_20 : list sample := [smp_at 1 0 0 0; smp_at 1 20 0 0].

Lemma tag_stop_iff_witness :
  let df := generate_positioning_clusters 1000 still_20 in
  (exists t, In t (tag 10 df) /\
   (type t = stop <->
    exists r', In r' df /\ group r' = group (lr t) /\ 10 <= time_of_day (time_diff r'))).
Proof.
  intros df.
  set (t := mk_lrow (mk_crow 1 (smp_at 1 20 0 0) 0 0 (Some 20)) 20 20 stop).
  assert (Ht : In t (tag 10 df)) by (vm_compute; right; left; reflexivity).
  exists t. split; [exact Ht | exact (tag_stop_iff 10 df t Ht)].
Defined.

Lemma tag_uniform_witness :
  let df := generate_positioning_clusters 1000 still_20 in
  let t1 := mk_lrow (mk_crow 1 (smp_at 1 0 0 0) 0 0 None) 0 20 stop in
  let t2 := mk_lrow (mk_crow 1 (smp_at 1 20 0 0) 0 0 (Some 20)) 20 20 stop in
  In t1 (tag 10 df) /\ In t2 (tag 10 df) /\ group (lr t1) = group (lr t2) /\
  (max_duration t1 = max_duration t2 /\ type t1 = type t2).
Proof.
  intros df t1 t2.
  assert (H1 : In t1 (tag 10 df)) by (vm_compute; left; reflexivity).
  assert (H2 : In t2 (tag 10 df)) by (vm_compute; right; left; reflexivity).
  assert (H3 : group (lr t1) = group (lr t2)) by reflexivity.
  split; [exact H1 | split; [exact H2 | split; [exact H3 |]]].
  exact (tag_uniform 10 df t1 t2 H1 H2 H3).
Defined.

Lemma time_of_day_wraps_witness :
  0 <= 5 < seconds_per_day /\
  (time_of_day (Some 5) = 5 /\ time_of_day (Some (5 + seconds_per_day)) = 5).
Proof.
  assert (H : 0 <= 5 < seconds_per_day) by (unfold seconds_per_day; lia).
  split; [exact H | exact (time_of_day_wraps 5 H)].
Defined.

(** A tracker that stands still for a day and five seconds is labelled
    "transition" with a ten-second [duration]: the extracted time of day of
    the difference is five seconds. *)
Theorem day_long_stop_is_transition :
  map type (tag 10 (generate_positioning_clusters 1000
                      [smp_at 1 0 0 0; smp_at 1 86405 0 0])) = [transition; transition].
Proof. vm_compute. reflexivity. Qed.

(** Partitions are not independent: tracker 1 stands still for 20
    seconds, then tracker 2 has a single sample.  The single sample gets
    the cluster id of tracker 1's last cluster, shares its [max_duration]
    and is labelled "stop" although it lasts no time at all. *)
Theorem boundary_cluster_mislabelled :
  map (fun t => (tracker (row (lr t)), max_duration t, type t))
    (tag 10 (generate_positioning_clusters 1000 (still_20 ++ [smp_at 2 100 5000 5000]))) =
  [(1, 20, stop); (1, 20, stop); (2, 20, stop)].
Proof. vm_compute. reflexivity. Qed.
