(* ===== verification/BlockMerger.v ===== *)
(** * BlockMerger: the block half of [tag_clusters]

    [_stopsAndTransitions.py], lines 299-374.  Inside every partition the
    labelled rows are numbered with a block id that grows by one at every
    change of label: [(type.shift(1) != type).astype(int).cumsum()]
    (line 328).  Then, for every partition and every block id of the whole
    table, the rows of that block get [delta], the time since the previous
    row of the block (0 for its first row, line 369).  The rows come out
    partition by partition and, inside a partition, block by block. *)

From Stdlib Require Import ZArith QArith Lia.
From stdpp Require Import base list decidable.
From S2P Require Import Prelude Geometry Samples ClusterBuilder Classifier.

Open Scope Z_scope.

(** ** Data *)

(** A row after line 369: the labelled row, [block] and [delta]. *)
Record brow := mk_brow { bl : lrow; block : Z; delta : Z }.

Definition ltracker (r : lrow) : Z := tracker (row (lr r)).
Definition lsession (r : lrow) : Z := session (row (lr r)).
Definition lts (r : lrow) : Z := timestamp (row (lr r)).

Definition label_code (l : label) : Z := match l with stop => 0 | transition => 1 end.

(** ** Operations *)

(** Line 328 on one partition: [prev] is [type.shift(1)] ([None] on the
    first row, where the shifted value is missing and compares unequal),
    [b] the running sum. *)
Fixpoint number_blocks (prev : option label) (b : Z) (l : list lrow) : list (Z * lrow) :=
  match l with
  | [] => []
  | r :: l' =>
      let b' := if decide (prev = Some (type r)) then b else b + 1 in
      (b', r) :: number_blocks (Some (type r)) b' l'
  end.

(** Lines 310-331: the partitions of the labelled table, each numbered from
    block 1, appended in loop order ([df_new_group]). *)
Definition assign_blocks (df : list lrow) : list (Z * lrow) :=
  concat (map (number_blocks None 0) (partitions ltracker lsession df)).

(** Line 369 on the rows of one block:
    [(timestamp - timestamp.shift()).fillna(0)]. *)
Fixpoint deltas (prev : option Z) (l : list (Z * lrow)) : list brow :=
  match l with
  | [] => []
  | (b, r) :: l' =>
      mk_brow r b (match prev with None => 0 | Some t => lts r - t end)
        :: deltas (Some (lts r)) l'
  end.

Definition btracker (p : Z * lrow) : Z := ltracker (snd p).
Definition bsession (p : Z * lrow) : Z := lsession (snd p).

(** Lines 337-372: for every partition of [df_dur] and every block id of
    the whole table ([df_dur.block.unique()]), the rows of the block. *)
Definition block_deltas (g : list (Z * lrow)) : list brow :=
  let blocks := unique (map fst g) in
  concat (map (fun '(tr, ss) =>
                 concat (map (fun k =>
                                deltas None (List.filter (fun p => fst p =? k)
                                               (partition btracker bsession g tr ss)))
                             blocks))
              (partition_keys btracker bsession g)).

(** [tag_clusters] (lines 239-374). *)
Definition tag_clusters (duration : Z) (df : list crow) : list brow :=
  block_deltas (assign_blocks (tag duration df)).

(** ** Block numbering: the blocks are the maximal runs of equal label *)

Definition start_inc (prev : option label) (l : list lrow) : Z :=
  match l with
  | r :: _ => if decide (prev = Some (type r)) then 0 else 1
  | [] => 1
  end.

Lemma label_code_inj (a b : label) : label_code a = label_code b -> a = b.
Proof. destruct a, b; simpl; congruence. Qed.

Lemma number_blocks_chunks (prev : option label) (b : Z) (l : list lrow) :
  number_blocks prev b l =
  concat (index_chunks (b + start_inc prev l) (chunk_by (fun r => label_code (type r)) l)).
Proof.
  revert prev b. induction l as [|r l IH]; intros prev b; [reflexivity |].
  cbn [number_blocks]. rewrite IH.
  destruct l as [|r' l'].
  - simpl. destruct (decide (prev = Some (type r))); simpl; rewrite ?Z.add_0_r; reflexivity.
  - destruct (chunk_by_cons_head (fun r => label_code (type r)) r' l') as (c & cs & Ec).
    rewrite Ec. unfold start_inc.
    destruct (decide (Some (type r) = Some (type r'))) as [E|E].
    + injection E as E.
      rewrite (chunk_by_cons_same _ r r' (r' :: l') c cs Ec) by (rewrite E; reflexivity).
      simpl. rewrite E. destruct (decide (prev = Some (type r'))); simpl; rewrite ?Z.add_0_r; reflexivity.
    + rewrite (chunk_by_cons_diff _ r r' (r' :: l') c cs Ec)
        by (intros Hc; apply E; f_equal; apply label_code_inj; exact Hc).
      simpl. destruct (decide (prev = Some (type r))); simpl; rewrite ?Z.add_0_r; reflexivity.
Qed.

Lemma start_inc_None (l : list lrow) : start_inc None l = 1.
Proof.
  unfold start_inc. destruct l as [|r l]; [reflexivity |].
  destruct (decide (None = Some (type r))); [discriminate | reflexivity].
Qed.

(** C2. Within a partition, the rows sharing a block id are exactly the
    maximal runs of rows with the same label, numbered 1, 2, 3, ... in
    order: a block boundary occurs at every label change and nowhere else. *)
Theorem blocks_are_label_runs (l : list lrow) :
  chunk_by fst (number_blocks None 0 l) =
  index_chunks 1 (chunk_by (fun r => label_code (type r)) l).
Proof.
  rewrite number_blocks_chunks, start_inc_None.
  apply chunk_by_concat_index, chunk_by_nonempty.
Qed.

(** The cumulative sum of line 328 row by row: the first row of a
    partition is in block 1, and a row is in the block of the row before
    it when their labels agree and in the next block otherwise. *)
Theorem number_blocks_adjacent (prev : option label) (b : Z) (pre : list lrow)
    (r1 r2 : lrow) (post : list lrow) :
  exists b1 xs ys,
    number_blocks prev b (pre ++ r1 :: r2 :: post) = xs ++ (b1, r1) :: (b1 + (if decide (type r1 = type r2) then 0 else 1), r2) :: ys.
Proof.
  revert prev b. induction pre as [|r pre IH]; intros prev b.
  - simpl. set (b1 := if decide (prev = Some (type r1)) then b else b + 1).
    exists b1, [], (number_blocks (Some (type r2)) (if decide (Some (type r1) = Some (type r2)) then b1 else b1 + 1) post).
    simpl. do 3 f_equal.
    destruct (decide (type r1 = type r2)) as [E|E].
    + case_decide; [lia | congruence].
    + case_decide; [congruence | reflexivity].
  - simpl. set (b' := if decide (prev = Some (type r)) then b else b + 1).
    destruct (IH (Some (type r)) b') as (b1 & xs & ys & E).
    exists b1, ((b', r) :: xs), ys. rewrite E. reflexivity.
Qed.

Lemma number_blocks_first (l : list lrow) (r : lrow) :
  head (number_blocks None 0 (r :: l)) = Some (1, r).
Proof.
  cbn [number_blocks]. destruct (decide (None = Some (type r))); [discriminate | reflexivity].
Qed.

(** ** Coverage: every labelled row is in exactly one block row *)

Lemma number_blocks_snd (prev : option label) (b : Z) (l : list lrow) :
  map snd (number_blocks prev b l) = l.
Proof. revert prev b. induction l as [|r l IH]; intros prev b; simpl; [| rewrite IH]; reflexivity. Qed.

Definition bview (x : brow) : Z * lrow := (block x, bl x).

Lemma deltas_view (prev : option Z) (l : list (Z * lrow)) :
  map bview (deltas prev l) = l.
Proof. revert prev. induction l as [|[b r] l IH]; intros prev; simpl; [| rewrite IH]; reflexivity. Qed.

Lemma assign_blocks_perm (df : list lrow) :
  Permutation (map snd (assign_blocks df)) df.
Proof.
  unfold assign_blocks. rewrite concat_map, map_map.
  erewrite map_ext by (intros p; apply number_blocks_snd).
  rewrite map_id. apply partitions_perm.
Qed.

Lemma select_fst (k : Z) (p : list (Z * lrow)) :
  List.filter (fun q => fst q =? k) p = select fst p k.
Proof.
  unfold select. apply filter_ext. intros [a r]. simpl.
  destruct (Z.eqb_spec a k); [rewrite bool_decide_true | rewrite bool_decide_false]; auto.
Qed.

Lemma block_deltas_perm (g : list (Z * lrow)) :
  Permutation (map bview (block_deltas g)) g.
Proof.
  unfold block_deltas. rewrite concat_map, map_map.
  etransitivity; [| apply (partitions_perm btracker bsession g)].
  unfold partitions.
  apply perm_concat_map. intros [tr ss] Hk.
  rewrite concat_map, map_map.
  erewrite map_ext by (intros k; rewrite deltas_view, select_fst; reflexivity).
  apply concat_select_perm; [apply NoDup_unique |].
  intros p Hp. apply in_unique, in_map. apply in_partition in Hp. tauto.
Qed.

(** [tag_clusters] keeps every labelled row exactly once: the blocks
    partition the table. *)
Theorem tag_clusters_perm (duration : Z) (df : list crow) :
  Permutation (map bl (tag_clusters duration df)) (tag duration df).
Proof.
  unfold tag_clusters.
  replace (map bl (block_deltas (assign_blocks (tag duration df))))
    with (map snd (map bview (block_deltas (assign_blocks (tag duration df)))))
    by (rewrite map_map; reflexivity).
  rewrite block_deltas_perm. apply assign_blocks_perm.
Qed.

(** ** The [delta] column *)

(** The timestamp of the last row of [l], [t0] when [l] is empty. *)
Fixpoint last_time (t0 : Z) (l : list (Z * lrow)) : Z :=
  match l with
  | [] => t0
  | (_, r) :: l' => last_time (lts r) l'
  end.

Lemma deltas_sum_from (t0 : Z) (l : list (Z * lrow)) :
  sumZ delta (deltas (Some t0) l) = last_time t0 l - t0.
Proof.
  revert t0. induction l as [|[b r] l IH]; intros t0; simpl; [lia |].
  rewrite IH. lia.
Qed.

(** Duration conservation inside a block: the [delta] values of the
    rows of a block add up to the time between its first and its last row. *)
Theorem block_deltas_telescope (b : Z) (r : lrow) (l : list (Z * lrow)) :
  sumZ delta (deltas None ((b, r) :: l)) = last_time (lts r) l - lts r.
Proof. simpl. rewrite deltas_sum_from. lia. Qed.

(** [delta] is the time since the previous row of the block, not the
    time elapsed since the start of the block: three rows one second apart
    get [0, 1, 1], where an elapsed-time column would hold [0, 1, 2]. *)
Theorem delta_is_stepwise :
  let r (t : Z) := mk_lrow (mk_crow 1 (smp_at 1 t 0 0) 0 0 None) 0 0 transition in
  map delta (deltas None [(1, r 0); (1, r 1); (1, r 2)]) = [0; 1; 1].
Proof. reflexivity. Qed.
