(* ===== verification/BlockOrder.v ===== *)
(** * BlockOrder: the delta pass of [tag_clusters] keeps every partition in order

    The loop of lines 351-372 visits, for each partition of [df_dur], every
    block id of the whole table ([df_dur.block.unique()]) and selects the
    rows of that block.  Because every partition is numbered 1, 2, 3, ...
    in row order, [unique()] lists exactly the ids [1..M] in increasing
    order ([unique_block_ids]), and the selections give back each
    partition's rows in their original order, block after block
    ([tag_clusters_blocks]); [delta] is therefore computed between
    consecutive rows of the same block. *)

From Stdlib Require Import ZArith QArith Lia.
From stdpp Require Import base list decidable.
From S2P Require Import Prelude Samples ClusterBuilder Classifier BlockMerger.

Open Scope Z_scope.

Definition kc (r : lrow) : Z := label_code (type r).

(** The number of blocks of a partition. *)
Definition nblocks (p : list lrow) : nat := length (chunk_by kc p).

Lemma nb_index (p : list lrow) :
  number_blocks None 0 p = concat (index_chunks 1 (chunk_by kc p)).
Proof. rewrite number_blocks_chunks, start_inc_None. reflexivity. Qed.

(** ** [df_dur.block.unique()] *)

Lemma unique_ids (P : list (list lrow)) (m : Z) (s : list Z) :
  0 <= m -> (forall x, In x s <-> 1 <= x <= m) ->
  unique_from s (map fst (concat (map (number_blocks None 0) P))) =
  zrange (m + 1) (Z.to_nat (maxZ m (map (fun p => Z.of_nat (nblocks p)) P) - m)).
Proof.
  revert m s. induction P as [|p P IH]; intros m s Hm Hs.
  - simpl. replace (Z.to_nat (m - m)) with O by lia. reflexivity.
  - cbn [map concat]. rewrite map_app, unique_from_app, nb_index.
    rewrite (unique_from_index_chunks _ 1 m s (chunk_by_nonempty _ _)) by (lia || exact Hs).
    rewrite (IH (Z.max m (Z.of_nat (nblocks p)))); [| lia |].
    + rewrite maxZ_shift. cbn [maxZ fold_right].
      fold (maxZ m (map (fun p => Z.of_nat (nblocks p)) P)).
      pose proof (maxZ_ge_default m (map (fun p => Z.of_nat (nblocks p)) P)).
      unfold nblocks in *.
      set (n := Z.of_nat (length (chunk_by kc p))) in *.
      set (M := maxZ m (map (fun p => Z.of_nat (length (chunk_by kc p))) P)) in *.
      replace (Z.max m n + 1) with (m + 1 + Z.of_nat (Z.to_nat (1 + n - 1 - m))) by lia.
      rewrite zrange_app. f_equal. lia.
    + intros y. rewrite in_app_iff, in_ids_index_chunks by apply chunk_by_nonempty.
      rewrite Hs. unfold nblocks. lia.
Qed.

Definition max_blocks (df' : list lrow) : nat :=
  Z.to_nat (maxZ 0 (map (fun p => Z.of_nat (nblocks p)) (partitions ltracker lsession df'))).

(** [unique()] of the block column after line 331 is [1, 2, ..., M]. *)
Lemma unique_block_ids (df' : list lrow) :
  unique (map fst (assign_blocks df')) = zrange 1 (max_blocks df').
Proof.
  unfold unique, assign_blocks, max_blocks. rewrite (unique_ids _ 0 []) by (simpl; lia).
  f_equal. lia.
Qed.

(** ** The partitions of [df_new_group] *)

Lemma number_blocks_keys (p : list lrow) (k : Z * Z) :
  (forall r, In r p -> key ltracker lsession r = k) ->
  forall q, In q (number_blocks None 0 p) -> key btracker bsession q = k.
Proof.
  intros H q Hq. apply (in_map snd) in Hq. rewrite number_blocks_snd in Hq.
  apply H in Hq. exact Hq.
Qed.

(** Selecting a partition of the numbered table is numbering the partition
    of the labelled table. *)
Lemma partition_assign_blocks (df' : list lrow) (tr ss : Z) :
  partition btracker bsession (assign_blocks df') tr ss =
  number_blocks None 0 (partition ltracker lsession df' tr ss).
Proof.
  rewrite !partition_filter_key. fold (select (key ltracker lsession) df' (tr, ss)).
  unfold assign_blocks, partitions.
  rewrite (map_ext _ (select (key ltracker lsession) df'))
    by (intros [a b]; apply partition_filter_key).
  rewrite filter_concat, map_map.
  assert (Hk : forall k, select (key btracker bsession)
                   (number_blocks None 0 (select (key ltracker lsession) df' k)) (tr, ss) =
                 if decide (k = (tr, ss))
                 then number_blocks None 0 (select (key ltracker lsession) df' k) else []).
  { intros k. unfold select at 1.
    assert (Hin : forall q, In q (number_blocks None 0 (select (key ltracker lsession) df' k)) ->
                   key btracker bsession q = k).
    { apply number_blocks_keys. intros r Hr. unfold select in Hr.
      apply filter_In in Hr as [_ Hr]. apply bool_decide_eq_true in Hr. exact Hr. }
    case_decide as E.
    - apply filter_all. intros q Hq. apply bool_decide_eq_true. rewrite (Hin q Hq). exact E.
    - apply filter_none. intros q Hq. apply bool_decide_eq_false. rewrite (Hin q Hq). exact E. }
  rewrite map_map.
  rewrite (map_ext _ (fun k => if decide (k = (tr, ss))
                 then number_blocks None 0 (select (key ltracker lsession) df' k) else []))
    by (intros k; apply Hk).
  destruct (in_dec (decide_rel eq) (tr, ss) (partition_keys ltracker lsession df'))
    as [Hin|Hnin].
  - destruct (in_split _ _ Hin) as (K1 & K2 & EK).
    pose proof (NoDup_partition_keys ltracker lsession df') as Hnd. rewrite EK in Hnd |- *.
    pose proof (NoDup_remove_2 _ _ _ Hnd) as Hn. rewrite in_app_iff in Hn.
    rewrite map_app, concat_app. cbn [map concat]. rewrite decide_True by reflexivity.
    assert (Hnil : forall K, ~ In (tr, ss) K ->
              concat (map (fun k => if decide (k = (tr, ss))
                 then number_blocks None 0 (select (key ltracker lsession) df' k) else []) K) = []).
    { intros K HK. induction K as [|k K IHK]; [reflexivity |]. simpl.
      rewrite decide_False by (intros ->; apply HK; left; reflexivity).
      apply IHK. intros H. apply HK. right. exact H. }
    rewrite !Hnil by tauto. rewrite app_nil_r. reflexivity.
  - assert (E0 : select (key ltracker lsession) df' (tr, ss) = []).
    { apply filter_none. intros r Hr. apply bool_decide_eq_false. intros E. apply Hnin.
      rewrite <- E. apply in_partition_keys, Hr. }
    rewrite E0. clear E0 Hk.
    induction (partition_keys ltracker lsession df') as [|k K IHK]; [reflexivity |].
    simpl. rewrite IHK by (intros H; apply Hnin; right; exact H).
    rewrite decide_False by (intros ->; apply Hnin; left; reflexivity). reflexivity.
Qed.

Lemma nblocks_le_max (df' : list lrow) (tr ss : Z) :
  (nblocks (partition ltracker lsession df' tr ss) <= max_blocks df')%nat.
Proof.
  unfold max_blocks.
  destruct (in_dec (decide_rel eq) (tr, ss) (partition_keys ltracker lsession df')) as [Hin|Hnin].
  - assert (H : In (Z.of_nat (nblocks (partition ltracker lsession df' tr ss)))
                  (map (fun p => Z.of_nat (nblocks p)) (partitions ltracker lsession df'))).
    { apply (in_map (fun p => Z.of_nat (nblocks p))).
      apply (in_map (fun '(tr, ss) => partition ltracker lsession df' tr ss) _ (tr, ss) Hin). }
    apply maxZ_ge_elem with (d := 0) in H. lia.
  - replace (partition ltracker lsession df' tr ss) with (@nil lrow); [apply Nat.le_0_l |].
    symmetry. rewrite partition_filter_key. apply filter_none. intros r Hr.
    apply bool_decide_eq_false. intros E. apply Hnin. rewrite <- E.
    apply in_partition_keys, Hr.
Qed.

(** C3. Order: [tag_clusters] emits, partition after partition, the
    numbered rows of each partition in their original order, each maximal
    run of one block id passed whole to the [delta] computation.  The block
    loop over [df_dur.block.unique()] neither reorders nor splits a
    partition, so [delta] is always taken between consecutive rows. *)
Theorem tag_clusters_blocks (duration : Z) (df : list crow) :
  let g := assign_blocks (tag duration df) in
  tag_clusters duration df =
  concat (map (fun p => concat (map (deltas None) (chunk_by fst p)))
              (partitions btracker bsession g)).
Proof.
  intros g. unfold tag_clusters, block_deltas. fold g. subst g.
  rewrite unique_block_ids. unfold partitions. rewrite map_map. f_equal.
  apply map_ext. intros [tr ss].
  rewrite partition_assign_blocks, nb_index, chunk_by_concat_index by apply chunk_by_nonempty.
  apply (regroup_index_chunks (deltas None)); [reflexivity |].
  apply nblocks_le_max.
Qed.
