(* ===== verification/Summarizer.v ===== *)
(** * Summarizer: [get_stops_and_transitions]

    [_stopsAndTransitions.py], lines 376-502.  For every partition the
    [max_duration] column is overwritten with the duration of the row's
    block, last timestamp minus first (line 424).  Every stop block becomes
    one record (lines 432-493): the duration, the minimum phase, the first
    quantile, the centroid (mean of x and y), the sample standard deviation
    of x and y ([std], ddof 1, missing for a single row and filled with 0 at
    line 499), and the first and last timestamps.  Transition rows are kept
    one per sample (line 496).  The result is sorted by tracker, session,
    block and timestamp (line 498).

    Standard deviations are kept squared (sample variances), as distances
    are in [Geometry]. *)

From Stdlib Require Import ZArith QArith Lqa Lia Sorted.
From stdpp Require Import base list decidable.
From S2P Require Import Prelude Geometry Samples ClusterBuilder Classifier BlockMerger.

Open Scope Z_scope.

(** ** Data *)

Definition btr (r : brow) : Z := ltracker (bl r).
Definition bss (r : brow) : Z := lsession (bl r).
Definition bts (r : brow) : Z := lts (bl r).
Definition bx (r : brow) : Q := x (row (lr (bl r))).
Definition by_ (r : brow) : Q := y (row (lr (bl r))).
Definition bphase (r : brow) : Z := phase (row (lr (bl r))).
Definition bquantile (r : brow) : Z := quantile (row (lr (bl r))).

(** One row per stop block (the merge of lines 490-493). *)
Record stop_record := mk_stop {
  sr_tracker : Z;
  sr_session : Z;
  sr_block : Z;
  sr_max_duration : Z;
  sr_phase : Z;
  sr_quantile : Z;
  sr_x : Q;
  sr_y : Q;
  sr_x_var : Q;          (** square of [x_stdev] *)
  sr_y_var : Q;          (** square of [y_stdev] *)
  sr_timestamp : Z;      (** first timestamp of the block *)
  sr_last : Z            (** last timestamp of the block *)
}.

(** A row of the result: a stop record, or a transition row with the
    duration of its block. *)
Inductive out_row :=
| out_stop (s : stop_record)
| out_transition (r : brow) (max_duration : Z).

(** ** Aggregates *)

Definition qsum (l : list Q) : Q := fold_right Qplus 0%Q l.

(** [mean]. *)
Definition qmean (l : list Q) : Q := (qsum l / inject_Z (Z.of_nat (length l)))%Q.

(** [std] squared, with ddof 1, and 0 where pandas gives NaN (one row). *)
Definition qvar (l : list Q) : Q :=
  match l with
  | [] | [_] => 0%Q
  | _ => let m := qmean l in
         (qsum (map (fun v => (v - m) * (v - m)) l) / inject_Z (Z.of_nat (length l) - 1))%Q
  end.

(** Line 424: [x.iat[-1] - x.iat[0]] over the timestamps of a block. *)
Definition span (ts : list Z) : Z :=
  match ts with
  | [] => 0
  | t0 :: _ => List.last ts t0 - t0
  end.

(** ** Operations *)

(** Line 424 on one partition: every row with the span of its block. *)
Definition with_span (p : list brow) : list (brow * Z) :=
  map (fun r => (r, span (map bts (List.filter (fun r' => block r' =? block r) p)))) p.

(** Lines 412-429: [df_max_duration]. *)
Definition df_max_duration (df : list brow) : list (brow * Z) :=
  concat (map with_span (partitions btr bss df)).

Definition key3 (q : brow * Z) : Z * Z * Z := (btr (fst q), bss (fst q), block (fst q)).

Definition is_stop (q : brow * Z) : bool :=
  match type (bl (fst q)) with stop => true | transition => false end.

(** The record of one stop block from its rows (in table order): lines
    438-449 ([phase: min], [quantile: first], [max_duration]), 457
    ([first], [last] timestamps), 467 ([mean]) and 474 ([std]). *)
Definition summarize_stop (k : Z * Z * Z) (q0 : brow * Z) (rows : list (brow * Z)) : stop_record :=
  let '(tr, ss, b) := k in
  let rs := map fst rows in
  mk_stop tr ss b (snd q0)
    (fold_right Z.min (bphase (fst q0)) (map bphase rs))
    (bquantile (fst q0))
    (qmean (map bx rs)) (qmean (map by_ rs))
    (qvar (map bx rs)) (qvar (map by_ rs))
    (bts (fst q0)) (List.last (map bts rs) (bts (fst q0))).

Definition stop_records (dm : list (brow * Z)) : list stop_record :=
  let stops := List.filter is_stop dm in
  flat_map (fun k =>
              match List.filter (fun q => bool_decide (key3 q = k)) stops with
              | [] => []
              | q0 :: rest => [summarize_stop k q0 (q0 :: rest)]
              end)
           (unique (map key3 stops)).

(** Line 498: [sort_values(['tracker','session','block','timestamp'])]. *)
Definition out_key (o : out_row) : Z * Z * Z * Z :=
  match o with
  | out_stop s => (sr_tracker s, sr_session s, sr_block s, sr_timestamp s)
  | out_transition r _ => (btr r, bss r, block r, bts r)
  end.

Definition key_lt (a b : Z * Z * Z * Z) : bool :=
  let '(a1, a2, a3, a4) := a in
  let '(b1, b2, b3, b4) := b in
  (a1 <? b1) || ((a1 =? b1) && ((a2 <? b2) || ((a2 =? b2) &&
    ((a3 <? b3) || ((a3 =? b3) && (a4 <? b4)))))).

(** A stable insertion: [o] goes before the first row whose key is not
    smaller. *)
Fixpoint insert_row (o : out_row) (l : list out_row) : list out_row :=
  match l with
  | [] => [o]
  | o' :: l' => if key_lt (out_key o') (out_key o) then o' :: insert_row o l' else o :: o' :: l'
  end.

Definition sort_rows (l : list out_row) : list out_row := fold_right insert_row [] l.

(** [get_stops_and_transitions]. *)
Definition get_stops_and_transitions (df : list brow) : list out_row :=
  let dm := df_max_duration df in
  sort_rows (map out_stop (stop_records dm) ++
             map (fun q => out_transition (fst q) (snd q))
                 (List.filter (fun q => negb (is_stop q)) dm)).

(** ** Aggregates *)

Open Scope Q_scope.

Lemma qsum_bounds (lo hi : Q) (l : list Q) :
  Forall (fun v => lo <= v <= hi) l ->
  inject_Z (Z.of_nat (length l)) * lo <= qsum l <= inject_Z (Z.of_nat (length l)) * hi.
Proof.
  induction 1 as [|v l Hv HF IH]; cbn [length qsum fold_right];
    [change (inject_Z (Z.of_nat 0)) with 0; lra |].
  unfold qsum in *. rewrite Nat2Z.inj_succ, <- Z.add_1_r, inject_Z_plus.
  change (inject_Z 1) with 1. lra.
Qed.

Lemma length_pos_Q {A : Type} (l : list A) : l <> [] -> 0 < inject_Z (Z.of_nat (length l)).
Proof.
  intros H. change 0 with (inject_Z 0); rewrite <- Zlt_Qlt. destruct l; [congruence | simpl; lia].
Qed.

(** The centroid of a stop block lies within the range of its
    members' coordinates. *)
Theorem qmean_bounds (lo hi : Q) (l : list Q) :
  l <> [] -> Forall (fun v => lo <= v <= hi) l -> lo <= qmean l <= hi.
Proof.
  intros Hne HF. pose proof (length_pos_Q l Hne) as Hn.
  destruct (qsum_bounds lo hi l HF) as [H1 H2]. unfold qmean. split.
  - apply Qle_shift_div_l; [exact Hn |]. rewrite Qmult_comm. exact H1.
  - apply Qle_shift_div_r; [exact Hn |]. rewrite Qmult_comm. exact H2.
Qed.

Lemma qsum_nonneg (l : list Q) : Forall (fun v => 0 <= v) l -> 0 <= qsum l.
Proof. induction 1; simpl; lra. Qed.

(** The squared standard deviation of a block is non-negative, and it
    is 0 for a block of one sample, whose centroid is that sample. *)
Theorem qvar_spec (l : list Q) :
  0 <= qvar l /\ (forall v, l = [v] -> qvar l == 0 /\ qmean l == v).
Proof.
  split.
  - destruct l as [|a [|b l]]; [apply Qle_refl | apply Qle_refl |].
    unfold qvar. cbv beta iota zeta.
    apply Qle_shift_div_l; [change 0 with (inject_Z 0); rewrite <- Zlt_Qlt; cbn [length]; lia |].
    rewrite Qmult_0_l. apply qsum_nonneg.
    apply Forall_forall. intros w (v & <- & _)%in_map_iff. apply Qsquare_nonneg.
  - intros v ->. split; [reflexivity |]. unfold qmean, qsum. cbn [fold_right length].
    change (inject_Z (Z.of_nat 1)) with 1. field.
Qed.

Lemma qmean_bounds_witness :
  [1; 3] <> [] /\ Forall (fun v => 0 <= v <= 5) [1; 3] /\ 0 <= qmean [1; 3] <= 5.
Proof.
  assert (H1 : [1; 3] <> []) by discriminate.
  assert (H2 : Forall (fun v => 0 <= v <= 5) [1; 3])
    by (repeat constructor; vm_compute; discriminate).
  split; [exact H1 | split; [exact H2 | exact (qmean_bounds 0 5 [1; 3] H1 H2)]].
Defined.

Lemma qvar_spec_witness :
  0 <= qvar [7] /\ (forall v, [7] = [v] -> qvar [7] == 0 /\ qmean [7] == v).
Proof. exact (qvar_spec [7]). Defined.

Close Scope Q_scope.

(** ** The final sort *)

Lemma key_lt_asym (a b : Z * Z * Z * Z) : key_lt a b = true -> key_lt b a = false.
Proof.
  destruct a as [[[a1 a2] a3] a4], b as [[[b1 b2] b3] b4]. unfold key_lt.
  rewrite !orb_true_iff, !andb_true_iff, !Z.ltb_lt, !Z.eqb_eq.
  intros H. apply not_true_is_false.
  rewrite !orb_true_iff, !andb_true_iff, !Z.ltb_lt, !Z.eqb_eq. lia.
Qed.

(** [b] does not sort before [a]. *)
Definition sorted_le (a b : out_row) : Prop := key_lt (out_key b) (out_key a) = false.

Lemma insert_row_perm (o : out_row) (l : list out_row) : Permutation (insert_row o l) (o :: l).
Proof.
  induction l as [|o' l IH]; simpl; [reflexivity |].
  destruct (key_lt (out_key o') (out_key o)); [| reflexivity].
  rewrite IH. apply perm_swap.
Qed.

Lemma insert_row_sorted (o : out_row) (l : list out_row) :
  Sorted sorted_le l -> Sorted sorted_le (insert_row o l).
Proof.
  induction 1 as [|o' l Hs IH Hhd]; simpl; [repeat constructor |].
  destruct (key_lt (out_key o') (out_key o)) eqn:E.
  - constructor; [exact IH |].
    destruct l as [|o'' l]; simpl.
    + constructor. unfold sorted_le. apply key_lt_asym, E.
    + inversion Hhd; subst.
      destruct (key_lt (out_key o'') (out_key o)); constructor;
        [assumption | unfold sorted_le; apply key_lt_asym, E].
  - repeat constructor; assumption.
Qed.

(** Line 498: the result is sorted by (tracker, session, block,
    timestamp) and holds exactly the rows it was given. *)
Theorem sort_rows_spec (l : list out_row) :
  Sorted sorted_le (sort_rows l) /\ Permutation (sort_rows l) l.
Proof.
  induction l as [|o l [IH1 IH2]]; simpl; [split; constructor |].
  split; [apply insert_row_sorted, IH1 |].
  rewrite insert_row_perm, IH2. reflexivity.
Qed.
