(* ===== verification/Pipeline.v ===== *)
(** * Pipeline: [stops_transitions]

    [_stopsAndTransitions.py], lines 35-83: the three passes composed.  This
    file states the end-to-end coverage property and checks the scenarios of
    the specification (section 8) on the model by evaluation. *)

From Stdlib Require Import ZArith QArith Lia.
From stdpp Require Import base list decidable.
From S2P Require Import Prelude Geometry Samples ClusterBuilder Classifier BlockMerger Summarizer.

Open Scope Z_scope.

(** [tag_clusters] (lines 239-374) as it behaves on the table it is
    given: on a table without rows the loops of lines 316-331 append
    nothing, [df_new_group] stays the [pd.DataFrame()] of line 311, which
    has no column, and [df_dur.tracker] (line 339) raises
    [AttributeError] ([None]).  A table with rows has a tracker and a
    session, so the loops append at least one frame. *)
Definition tag_clusters_result (duration : Z) (df : list crow) : option (list brow) :=
  match df with
  | [] => None
  | _ => Some (tag_clusters duration df)
  end.

(** [stops_transitions(df_preprocessed)] (lines 35-83) with the two
    configuration values the passes read from [info.ini]: [distance] and
    [duration]; [None] where it raises. *)
Definition stops_transitions (distance : Q) (duration : Z) (df : list sample) : option (list out_row) :=
  tagged ← tag_clusters_result duration (generate_positioning_clusters distance df);
  Some (get_stops_and_transitions tagged).

(** The columns [type, block, timestamp, max_duration] of a result row. *)
Definition out_view (o : out_row) : label * Z * Z * Z :=
  match o with
  | out_stop s => (stop, sr_block s, sr_timestamp s, sr_max_duration s)
  | out_transition r md => (transition, block r, bts r, md)
  end.

(** The [tracker, session] and [phase] columns of a result row. *)
Definition out_group (o : out_row) : Z * Z :=
  match o with out_stop s => (sr_tracker s, sr_session s) | out_transition r _ => (btr r, bss r) end.

Definition out_phase (o : out_row) : Z :=
  match o with out_stop s => sr_phase s | out_transition r _ => bphase r end.

Lemma tagged_rows_perm (distance : Q) (duration : Z) (df : list sample) :
  Permutation (map (fun b => row (lr (bl b))) (tag_clusters duration (generate_positioning_clusters distance df))) df.
Proof.
  rewrite <- (map_map bl (fun t => row (lr t))), tag_clusters_perm.
  unfold tag. rewrite map_map. simpl. apply generate_rows_perm.
Qed.

(** C4. Coverage of the segmentation: after clustering and tagging, every
    input sample is in exactly one block row. *)
Theorem segmentation_perm (distance : Q) (duration : Z) (df : list sample) :
  Permutation (map (fun b => row (lr (bl b))) (tag_clusters duration (generate_positioning_clusters distance df))) df.
Proof. apply tagged_rows_perm. Qed.

(** ** The scenarios of the specification *)

(** Scenario A: five samples at one place, one second apart, distance 1000,
    duration 3 seconds: one stop of 4 seconds at that place, with standard
    deviations 0. *)
Definition scenario_A : list sample := map (fun t => smp_at 1 t 0 0) [0; 1; 2; 3; 4].

(** Scenario A gives a single stop record of duration 4 at (0, 0) with
    zero dispersion. *)
Theorem scenario_A_single_stop :
  exists s, stops_transitions 1000 3 scenario_A = Some [out_stop s] /\
    sr_max_duration s = 4 /\ sr_timestamp s = 0 /\
    (sr_x s == 0 /\ sr_y s == 0 /\ sr_x_var s == 0 /\ sr_y_var s == 0)%Q.
Proof. vm_compute. eexists. split; [reflexivity |]. repeat split; reflexivity. Qed.

(** Scenario B: five samples one second apart, a jump of 2000 after the
    third, distance 1000, duration 10 seconds. *)
Definition scenario_B : list sample :=
  [smp_at 1 0 0 0; smp_at 1 1 0 0; smp_at 1 2 0 0; smp_at 1 3 2000 0; smp_at 1 4 2000 0].

(** Scenario B: two clusters, [{1,2,3}] and [{4,5}], both too short to
    be stops, merged into a single transition block of all five samples. *)
Theorem scenario_B_one_transition_block :
  map group (generate_positioning_clusters 1000 scenario_B) = [1; 1; 1; 2; 2] /\
  option_map (map out_view) (stops_transitions 1000 10 scenario_B) =
    Some [(transition, 1, 0, 4); (transition, 1, 1, 4); (transition, 1, 2, 4);
          (transition, 1, 3, 4); (transition, 1, 4, 4)].
Proof. split; vm_compute; reflexivity. Qed.

(** Scenario C: 13 samples over 12 seconds at one place, then 3 samples over
    2 seconds 5 metres away; distance 1000, duration 5 seconds. *)
Definition scenario_C : list sample :=
  map (fun t => smp_at 1 t 0 0) (zrange 0 13) ++ map (fun t => smp_at 1 t 5000 0) (zrange 13 3).

(** Scenario C: a stop block of 12 seconds then a transition block,
    the boundary exactly at the label change. *)
Theorem scenario_C_stop_then_transition :
  option_map (map out_view) (stops_transitions 1000 5 scenario_C) =
    Some [(stop, 1, 0, 12); (transition, 2, 13, 2); (transition, 2, 14, 2); (transition, 2, 15, 2)].
Proof. vm_compute. reflexivity. Qed.

(** ** Where the columns of the result come from *)

Lemma fold_right_min_in (d : Z) (l : list Z) : fold_right Z.min d l = d \/ In (fold_right Z.min d l) l.
Proof.
  induction l as [|a l IH]; cbn [fold_right In]; [auto |].
  destruct (Z.min_spec a (fold_right Z.min d l)) as [[_ ->] | [_ ->]]; tauto.
Qed.

(** A property of the [(tracker, session)] pair and the phase of every
    input sample holds of every result row: a stop takes the pair of its
    block and the smallest phase of the block, a transition row the
    columns of its sample. *)
Lemma stops_and_transitions_columns (P : Z * Z -> Z -> Prop) (distance : Q) (duration : Z)
    (df : list sample) :
  Forall (fun s => P (tracker s, session s) (phase s)) df ->
  Forall (fun o => P (out_group o) (out_phase o))
    (get_stops_and_transitions (tag_clusters duration (generate_positioning_clusters distance df))).
Proof.
  intros Hdf. rewrite Forall_forall in Hdf.
  set (tc := tag_clusters duration (generate_positioning_clusters distance df)).
  assert (Htc : forall b, In b tc -> P (btr b, bss b) (bphase b)).
  { intros b Hb. unfold btr, bss, bphase, ltracker, lsession. apply Hdf.
    eapply Permutation_in; [apply (tagged_rows_perm distance duration df) |].
    apply in_map_iff. eauto. }
  assert (Hdm : forall q, In q (df_max_duration tc) -> P (btr (fst q), bss (fst q)) (bphase (fst q))).
  { intros [b sp] Hq. apply Htc. unfold df_max_duration in Hq.
    apply in_concat in Hq as (p & Hp & Hq). apply in_map_iff in Hp as (p' & <- & Hp').
    unfold with_span in Hq. apply in_map_iff in Hq as (b' & [= <- _] & Hb').
    eapply Permutation_in; [apply (partitions_perm btr bss tc) |]. apply in_concat. eauto. }
  apply Forall_forall. intros o Ho. unfold get_stops_and_transitions in Ho.
  eapply Permutation_in in Ho; [| apply sort_rows_spec].
  apply in_app_or in Ho as [Ho | Ho]; apply in_map_iff in Ho as (q & <- & Hq).
  - unfold stop_records in Hq. apply in_flat_map in Hq as (k & _ & Hq).
    destruct (List.filter _ _) as [|q0 rest] eqn:Ef; [destruct Hq |].
    destruct Hq as [<- | []]. destruct k as [[tr ss] b]. cbn [summarize_stop out_phase out_group sr_phase].
    assert (Hin : forall q', In q' (q0 :: rest) -> P (tr, ss) (bphase (fst q'))).
    { intros q' Hq'. rewrite <- Ef in Hq'. apply filter_In in Hq' as [Hq' Hk].
      apply bool_decide_eq_true in Hk. unfold key3 in Hk. simplify_eq.
      apply filter_In in Hq' as [Hq' _]. apply Hdm, Hq'. }
    destruct (fold_right_min_in (bphase (fst q0)) (map bphase (map fst (q0 :: rest)))) as [-> | Hm];
      [apply Hin; left; reflexivity |].
    rewrite map_map in Hm |- *. apply in_map_iff in Hm as (q' & <- & Hq'). apply Hin, Hq'.
  - apply filter_In in Hq as [Hq _]. apply Hdm, Hq.
Qed.

(** The result rows of [stops_transitions], when it returns. *)
Lemma stops_transitions_columns (P : Z * Z -> Z -> Prop) (distance : Q) (duration : Z)
    (df : list sample) (out : list out_row) :
  stops_transitions distance duration df = Some out ->
  Forall (fun s => P (tracker s, session s) (phase s)) df ->
  Forall (fun o => P (out_group o) (out_phase o)) out.
Proof.
  unfold stops_transitions, tag_clusters_result.
  destruct (generate_positioning_clusters distance df) eqn:Eg; [try discriminate |];
    intros [= <-]; rewrite <- Eg; apply stops_and_transitions_columns.
Qed.

(** On a table with rows, [tag_clusters] is given rows and returns. *)
Lemma stops_transitions_some (distance : Q) (duration : Z) (df : list sample) :
  df <> [] -> exists out, stops_transitions distance duration df = Some out.
Proof.
  pose proof (Permutation_length (generate_rows_perm distance df)) as Hl.
  unfold stops_transitions, tag_clusters_result. intros Hne.
  destruct (generate_positioning_clusters distance df); [destruct df; cbn in Hl; congruence | eauto].
Qed.

(** C13. Scenario D, the empty partition: a (tracker, session) pair without
    samples in a table that has some gives no result row, and no error.
    A table without any row, which the specification does not cover,
    makes [tag_clusters] raise [AttributeError] (line 339). *)
Theorem scenario_D_empty (distance : Q) (duration : Z) (df : list sample) (tr ss : Z) :
  stops_transitions distance duration [] = None
  /\ (df <> [] -> exists out, stops_transitions distance duration df = Some out
        /\ (partition tracker session df tr ss = [] ->
            forall o, In o out -> out_group o <> (tr, ss))).
Proof.
  split; [reflexivity |]. intros Hne.
  destruct (stops_transitions_some distance duration df Hne) as [out E].
  exists out. split; [exact E |]. intros Hp.
  apply Forall_forall, (stops_transitions_columns (fun g _ => g <> (tr, ss)) distance duration df); [exact E |].
  apply Forall_forall. intros s Hs [= Ht Hs'].
  assert (Hin : In s (partition tracker session df tr ss)) by (apply in_partition; auto).
  rewrite Hp in Hin. destruct Hin.
Qed.

(** Scenario A has no sample of tracker 2: no result row is for it. *)
Lemma scenario_D_empty_witness :
  scenario_A <> [] /\ partition tracker session scenario_A 2 1 = []
  /\ exists out, stops_transitions 1000 3 scenario_A = Some out
       /\ forall o, In o out -> out_group o <> (2, 1).
Proof.
  destruct (scenario_D_empty 1000 3 scenario_A 2 1) as [_ H].
  assert (Hne : scenario_A <> []) by discriminate.
  assert (Hp : partition tracker session scenario_A 2 1 = []) by reflexivity.
  destruct (H Hne) as (out & E & Ho).
  split; [exact Hne |]. split; [exact Hp |]. exists out. split; [exact E | apply Ho, Hp].
Defined.
