(* ===== verification/Preprocessing.v ===== *)
(** * Preprocessing: phases, quantiles, rotation and 1 Hz resampling

    [scripts/_preprocessing.py]: [preprocessing] (lines 32-99) runs
    [add_phases], [add_quantiles], [add_rotation] and
    [sampling_and_interpolating] in this order on the raw localisation
    table.  A row is the record [prow]; the columns the script adds
    ([phase], [quantile], [rotation], [interpolated]) are fields whose input
    value is overwritten.  Timestamps are whole seconds ([Z]), coordinates
    and angles rationals ([Q]); the float arithmetic of the script is exact
    here.  [math.floor] raising on an infinite or NaN argument, and the
    [TypeError] of [float(Series)] on a Series of two or more values, are the
    errors of the [result] monad. *)

From Stdlib Require Import ZArith QArith Qround Lqa Lia Sorted.
From stdpp Require Import base list decidable.
From S2P Require Import Prelude.

Open Scope Z_scope.

(** A row of the localisation table. *)
Record prow := mk_prow {
  p_tracker : Z;
  p_session : Z;
  p_timestamp : Z;
  p_x : Q;
  p_y : Q;
  p_pitch : Q;
  p_roll : Q;
  p_yaw : Q;
  p_phase : Z;
  p_quantile : Z;
  p_rotation : Q;
  p_interpolated : bool       (** ['1'] when true, ['0'] when false *)
}.

(** A row of [dfPhases]: session, phase number, start and end. *)
Record phase_row := mk_phase_row {
  ph_session : Z;
  ph_phase : Z;
  ph_start : Z;
  ph_end : Z
}.

(** The parameters read from [info.ini]. *)
Inductive rot_axis := axis_pitch | axis_roll | axis_yaw.

Record config := mk_config {
  target_column : rot_axis;
  north : Q;
  numberOfQuantiles : positive
}.

(** ** Errors raised by [add_quantiles] *)

Inductive prep_error :=
  | ambiguous_phase (session phase : Z)   (** [float(Series)] of length >= 2 *)
  | zero_duration (session phase : Z)     (** [math.floor] of inf or NaN *)
  | key_error_interpolated.               (** [df2['interpolated']] of an empty [df2] *)

Inductive result (A : Type) :=
  | Ok (a : A)
  | Err (e : prep_error).
Arguments Ok {A} a.
Arguments Err {A} e.

Definition rbind {A B} (m : result A) (k : A -> result B) : result B :=
  match m with Ok a => k a | Err e => Err e end.

Declare Scope result_scope.
Notation "'let*' x := m 'in' k" := (rbind m (fun x => k))
  (at level 10, x name, m at level 100, k at level 200) : result_scope.
Open Scope result_scope.

(** A Python loop over the rows that raises at the first failing row. *)
Fixpoint mapM {A B} (f : A -> result B) (l : list A) : result (list B) :=
  match l with
  | [] => Ok []
  | a :: l' => let* b := f a in let* bs := mapM f l' in Ok (b :: bs)
  end.

(** ** [add_phases] (lines 226-267) *)

(** [res = dfPhases.loc[(session match) & (start <= timestamp) &
    (timestamp <= end) & (phase != 0)]]. *)
Definition phase_matches (phases : list phase_row) (r : prow) : list phase_row :=
  List.filter (fun p => (p_session r =? ph_session p) && (ph_start p <=? p_timestamp r)
                        && (p_timestamp r <=? ph_end p) && negb (ph_phase p =? 0)) phases.

(** [res['phase'].values[0]] if [len(res) > 0], else [-100]. *)
Definition phase_of (phases : list phase_row) (r : prow) : Z :=
  match phase_matches phases r with
  | p :: _ => ph_phase p
  | [] => -100
  end.

Definition set_phase (ph : Z) (r : prow) : prow :=
  mk_prow (p_tracker r) (p_session r) (p_timestamp r) (p_x r) (p_y r) (p_pitch r)
    (p_roll r) (p_yaw r) ph (p_quantile r) (p_rotation r) (p_interpolated r).

Definition add_phases (phases : list phase_row) (include_all_data : Z) (df : list prow)
    : list prow :=
  let df' := map (fun r => set_phase (phase_of phases r) r) df in
  if include_all_data =? 0 then List.filter (fun r => negb (p_phase r =? -100)) df'
  else df'.

(** ** [add_quantiles] (lines 270-316) *)

(** [res = dfPhases.loc[(session match) & (phase match)]]; no test on phase 0. *)
Definition quantile_matches (phases : list phase_row) (r : prow) : list phase_row :=
  List.filter (fun p => (p_session r =? ph_session p) && (p_phase r =? ph_phase p)) phases.

(** [quantile_duration = (end - start) / _numberOfQuantiles] (line 300). *)
Definition quantile_duration (n : positive) (p : phase_row) : Q :=
  inject_Z (ph_end p - ph_start p) / inject_Z (Zpos n).

(** [q = math.floor((timestamp - start) / quantile_duration + 1)], clamped to
    [_numberOfQuantiles] (lines 307-310).  A zero duration gives inf or NaN
    and [math.floor] raises. *)
Definition quantile_of (n : positive) (phases : list phase_row) (r : prow) : result Z :=
  match quantile_matches phases r with
  | [] => Ok (-100)
  | [p] =>
      if ph_end p - ph_start p =? 0 then Err (zero_duration (ph_session p) (ph_phase p))
      else
        let q := Qfloor (inject_Z (p_timestamp r - ph_start p) / quantile_duration n p + 1) in
        Ok (if q >? Zpos n then Zpos n else q)
  | p :: _ :: _ => Err (ambiguous_phase (ph_session p) (ph_phase p))
  end.

Definition set_quantile (q : Z) (r : prow) : prow :=
  mk_prow (p_tracker r) (p_session r) (p_timestamp r) (p_x r) (p_y r) (p_pitch r)
    (p_roll r) (p_yaw r) (p_phase r) q (p_rotation r) (p_interpolated r).

Definition add_quantiles (n : positive) (phases : list phase_row) (df : list prow)
    : result (list prow) :=
  mapM (fun r => let* q := quantile_of n phases r in Ok (set_quantile q r)) df.

(** ** [calculate_rotation] (lines 208-224) and [add_rotation] (177-206) *)

Definition deg_per_rad : Q := 572958 # 10000.

Definition calculate_rotation (radians north : Q) : Q :=
  radians * deg_per_rad - north * deg_per_rad.

Definition target (a : rot_axis) (r : prow) : Q :=
  match a with axis_pitch => p_pitch r | axis_roll => p_roll r | axis_yaw => p_yaw r end.

Definition set_rotation (rot : Q) (r : prow) : prow :=
  mk_prow (p_tracker r) (p_session r) (p_timestamp r) (p_x r) (p_y r) (p_pitch r)
    (p_roll r) (p_yaw r) (p_phase r) (p_quantile r) rot (p_interpolated r).

Definition add_rotation (cfg : config) (df : list prow) : list prow :=
  map (fun r => set_rotation (calculate_rotation (target (target_column cfg) r) (north cfg)) r) df.

(** ** [sampling_and_interpolating] (lines 101-175) *)

(** [df['interpolated'] = '0'] (line 134). *)
Definition mark0 (r : prow) : prow :=
  mk_prow (p_tracker r) (p_session r) (p_timestamp r) (p_x r) (p_y r) (p_pitch r)
    (p_roll r) (p_yaw r) (p_phase r) (p_quantile r) (p_rotation r) false.

(** [df.groupby(['session','tracker']).size().reset_index()] (line 141):
    the distinct (session, tracker) pairs in ascending lexicographic order. *)
Definition key_ltb (a b : Z * Z) : bool :=
  (fst a <? fst b) || ((fst a =? fst b) && (snd a <? snd b)).

Fixpoint insert_key (k : Z * Z) (l : list (Z * Z)) : list (Z * Z) :=
  match l with
  | [] => [k]
  | k' :: l' => if key_ltb k' k then k' :: insert_key k l' else k :: l
  end.

Definition session_tracker (df : list prow) : list (Z * Z) :=
  fold_right insert_key [] (unique (map (fun r => (p_session r, p_tracker r)) df)).

(** [pd.date_range(start=first, end=last, freq='S')] (line 153): every second
    from [first] to [last], empty when [last < first]. *)
Definition date_range (first last : Z) : list Z :=
  zrange first (Z.to_nat (last - first + 1)).

(** [pd.merge(df_time.to_frame(), session_df, left_index=True,
    right_on='timestamp', how='left')] (line 157): for each second of the
    range, the rows of the group stamped with it, or one empty row. *)
Definition merge_left (grid : list Z) (g : list prow) : list (Z * option prow) :=
  flat_map (fun t =>
    match List.filter (fun r => p_timestamp r =? t) g with
    | [] => [(t, None)]
    | ms => map (fun r => (t, Some r)) ms
    end) grid.

(** Distance to, and value of, the next known entry of a column. *)
Fixpoint next_known (l : list (option Q)) : option (nat * Q) :=
  match l with
  | [] => None
  | Some v :: _ => Some (0%nat, v)
  | None :: l' => option_map (fun '(d, v) => (S d, v)) (next_known l')
  end.

(** [interpolate(method='linear', axis=0)]: a missing entry [d] places after
    a known value [a] and [e+1] places before a known value [b] becomes
    [a + (b - a) * d / (d + e + 1)]; missing entries after the last known one
    take its value, those before the first known one stay missing.
    [prev] is the distance back to the last known value and that value. *)
Fixpoint interp_from (prev : option (nat * Q)) (l : list (option Q)) : list (option Q) :=
  match l with
  | [] => []
  | Some v :: l' => Some v :: interp_from (Some (1%nat, v)) l'
  | None :: l' =>
      let here :=
        match prev, next_known l' with
        | Some (d, a), Some (e, b) =>
            Some (a + (b - a) * (inject_Z (Z.of_nat d) / inject_Z (Z.of_nat (d + e + 1))))%Q
        | Some (_, a), None => Some a
        | None, _ => None
        end in
      here :: interp_from (option_map (fun '(d, a) => (S d, a)) prev) l'
  end.

Definition interpolate (l : list (option Q)) : list (option Q) := interp_from None l.

(** [ffill()]: a missing entry takes the last known value before it. *)
Fixpoint ffill_from (prev : option Q) (l : list (option Q)) : list (option Q) :=
  match l with
  | [] => []
  | Some v :: l' => Some v :: ffill_from (Some v) l'
  | None :: l' => prev :: ffill_from prev l'
  end.

Definition ffill (l : list (option Q)) : list (option Q) := ffill_from None l.

(** [bfill()]: a missing entry takes the first known value after it. *)
Definition bfill (l : list (option Q)) : list (option Q) := rev (ffill (rev l)).

(** [m[['x','y']].interpolate(method='linear', axis=0).ffill().bfill()]
    (line 165). *)
Definition fill_column (l : list (option Q)) : list (option Q) :=
  bfill (ffill (interpolate l)).

(** An original row with its filled coordinates. *)
Definition set_xy (xv yv : Q) (r : prow) : prow :=
  mk_prow (p_tracker r) (p_session r) (p_timestamp r) xv yv (p_pitch r)
    (p_roll r) (p_yaw r) (p_phase r) (p_quantile r) (p_rotation r) (p_interpolated r).

(** A row the merge added: its second, its filled coordinates,
    [interpolated = '1'] (line 172) and the other columns copied from the
    row above by [df2.fillna(method='ffill')] (line 174). *)
Definition new_row (t : Z) (xv yv : Q) (prev : prow) : prow :=
  mk_prow (p_tracker prev) (p_session prev) t xv yv (p_pitch prev)
    (p_roll prev) (p_yaw prev) (p_phase prev) (p_quantile prev) (p_rotation prev) true.

(** The rows of [m], the previous output row threaded for the forward fill.
    A coordinate left missing (a column with no known value) keeps the value
    of the row; this does not happen, as the first second of the range
    carries the group's first row. *)
Fixpoint assemble (prev : prow) (m : list (Z * option prow)) (xs ys : list (option Q))
    : list prow :=
  match m, xs, ys with
  | (_, Some r) :: m', xv :: xs', yv :: ys' =>
      let r' := set_xy (default (p_x r) xv) (default (p_y r) yv) r in
      r' :: assemble r' m' xs' ys'
  | (t, None) :: m', xv :: xs', yv :: ys' =>
      let r' := new_row t (default (p_x prev) xv) (default (p_y prev) yv) prev in
      r' :: assemble r' m' xs' ys'
  | _, _, _ => []
  end.

(** [m['x']], [m['y']]: a column of the merged frame, missing on the rows
    the merge added. *)
Definition column (f : prow -> Q) (m : list (Z * option prow)) : list (option Q) :=
  map (fun '(_, o) => option_map f o) m.

(** The body of the loop over [session_tracker] (lines 143-169) for the
    group [session_df]. *)
Definition resample_group (g : list prow) : list prow :=
  match g with
  | [] => []
  | r0 :: _ =>
      let m := merge_left (date_range (p_timestamp r0) (p_timestamp (List.last g r0))) g in
      assemble r0 m (fill_column (column p_x m)) (fill_column (column p_y m))
  end.

Definition group_of (df : list prow) (ss tr : Z) : list prow :=
  List.filter (fun r => (p_tracker r =? tr) && (p_session r =? ss)) df.

(** Lines 134-169: the loop over the (session, tracker) groups. *)
Definition resample_groups (df : list prow) : list prow :=
  let df := map mark0 df in
  flat_map (fun '(ss, tr) => resample_group (group_of df ss tr)) (session_tracker df).

(** [sampling_and_interpolating] (lines 112-175).  [_fill_NaN_Values] is
    assigned to [Fill_NaN_Values] (line 129) and never read.  On a table
    without rows the loop appends nothing, [df2] stays the
    [pd.DataFrame()] of line 132, which has no column, and
    [df2['interpolated']] (line 172) raises [KeyError]. *)
Definition sampling_and_interpolating (df : list prow) (fill_NaN_Values : Z) : result (list prow) :=
  match df with
  | [] => Err key_error_interpolated
  | _ => Ok (resample_groups df)
  end.

(** ** [preprocessing] (lines 32-99) *)

Definition preprocessing (cfg : config) (df : list prow) (dfPhases : list phase_row)
    (fill_NaN_Values include_all_data : Z) : result (list prow) :=
  let df := add_phases dfPhases include_all_data df in
  let* df := add_quantiles (numberOfQuantiles cfg) dfPhases df in
  let df := add_rotation cfg df in
  sampling_and_interpolating df fill_NaN_Values.

(** ** The result monad *)

Lemma mapM_ok {A B} (f : A -> result B) (P : A -> B -> Prop) (l : list A) :
  (forall a, In a l -> exists b, f a = Ok b /\ P a b) ->
  exists bs, mapM f l = Ok bs /\ Forall2 P l bs.
Proof.
  induction l as [|a l IH]; intros Hf; [exists []; split; constructor |].
  destruct (Hf a (or_introl eq_refl)) as [b [Hb HP]].
  destruct IH as [bs [Hbs HPs]]; [intros a' Ha'; apply Hf; right; exact Ha' |].
  exists (b :: bs). cbn [mapM]. rewrite Hb, Hbs. split; [reflexivity | constructor; assumption].
Qed.

Lemma mapM_err_head {A B} (f : A -> result B) (a : A) (l : list A) (e : prep_error) :
  f a = Err e -> mapM f (a :: l) = Err e.
Proof. intros H. cbn [mapM]. rewrite H. reflexivity. Qed.

(** ** Quantile arithmetic *)

(** The float expression of line 308 is the integer division
    [(timestamp - start) * N / (end - start) + 1] when the phase has a
    positive duration. *)
Lemma quantile_floor (n : positive) (p : phase_row) (a : Z) :
  0 < ph_end p - ph_start p ->
  Qfloor (inject_Z a / quantile_duration n p + 1) =
  a * Zpos n / (ph_end p - ph_start p) + 1.
Proof.
  unfold quantile_duration. set (D := ph_end p - ph_start p). intros HD.
  assert (Hq : (inject_Z a / (inject_Z D / inject_Z (Zpos n)) + 1 ==
                (a * Zpos n + 1 * D) # Z.to_pos D)%Q).
  { rewrite (Qmake_Qdiv (a * Zpos n + 1 * D)), Z2Pos.id by exact HD. rewrite inject_Z_plus, !inject_Z_mult.
    field. split; intro H; change 0%Q with (inject_Z 0) in H;
      rewrite inject_Z_injective in H; first [lia | discriminate]. }
  rewrite Hq.
  change (Qfloor ((a * Zpos n + 1 * D) # Z.to_pos D))
    with ((a * Zpos n + 1 * D) / Zpos (Z.to_pos D)).
  rewrite Z2Pos.id by exact HD.
  rewrite Z.div_add by lia. reflexivity.
Qed.

Lemma quantile_of_single (n : positive) (phases : list phase_row) (r : prow) (p : phase_row) :
  quantile_matches phases r = [p] -> 0 < ph_end p - ph_start p ->
  quantile_of n phases r =
  Ok (Z.min (Zpos n) ((p_timestamp r - ph_start p) * Zpos n / (ph_end p - ph_start p) + 1)).
Proof.
  intros Hm HD. unfold quantile_of. rewrite Hm.
  rewrite (proj2 (Z.eqb_neq _ _)) by lia. cbv zeta.
  rewrite quantile_floor by exact HD. rewrite Z.gtb_ltb.
  destruct (Z.ltb_spec (Zpos n) ((p_timestamp r - ph_start p) * Zpos n / (ph_end p - ph_start p) + 1));
    f_equal; lia.
Qed.

Lemma quantile_of_range (n : positive) (phases : list phase_row) (r : prow) (p : phase_row) :
  quantile_matches phases r = [p] -> ph_start p < ph_end p ->
  ph_start p <= p_timestamp r <= ph_end p ->
  exists k, quantile_of n phases r = Ok k /\ 1 <= k <= Zpos n.
Proof.
  intros Hm HD Hts. rewrite (quantile_of_single n phases r p Hm) by lia. eexists; split; [reflexivity |].
  assert (0 <= (p_timestamp r - ph_start p) * Zpos n / (ph_end p - ph_start p))
    by (apply Z.div_pos; nia).
  lia.
Qed.

(** ** Phases *)

Lemma phase_of_spec (phases : list phase_row) (r : prow) :
  phase_of phases r = -100 \/
  exists p, In p phases /\ ph_session p = p_session r /\
            ph_start p <= p_timestamp r <= ph_end p /\
            ph_phase p = phase_of phases r /\ ph_phase p <> 0.
Proof.
  unfold phase_of. destruct (phase_matches phases r) as [|p ps] eqn:E; [left; reflexivity | right].
  assert (Hp : In p (phase_matches phases r)) by (rewrite E; left; reflexivity).
  unfold phase_matches in Hp. apply filter_In in Hp as [Hin Hb]. zbool.
  exists p. repeat split; auto; lia.
Qed.

Lemma in_add_phases (phases : list phase_row) (inc : Z) (df : list prow) (r : prow) :
  In r (add_phases phases inc df) ->
  exists r0, In r0 df /\ r = set_phase (phase_of phases r0) r0 /\
             (inc = 0 -> phase_of phases r0 <> -100).
Proof.
  unfold add_phases. destruct (Z.eqb_spec inc 0) as [->|Hinc]; intros Hr.
  - apply filter_In in Hr as [Hr Hb]. apply in_map_iff in Hr as [r0 [<- Hr0]].
    exists r0. cbn in Hb. zbool. auto.
  - apply in_map_iff in Hr as [r0 [<- Hr0]]. exists r0. split; [exact Hr0 | split; [reflexivity | lia]].
Qed.

(** A phase table the quantile pass accepts: every phase that can be
    assigned (number not 0) is not numbered [-100], has a positive duration
    and is the only entry of its session with its number. *)
Definition wf_phases (phases : list phase_row) : Prop :=
  forall p, In p phases -> ph_phase p <> 0 ->
    ph_phase p <> -100 /\ ph_start p < ph_end p /\
    List.filter (fun p' => (ph_session p =? ph_session p') && (ph_phase p =? ph_phase p'))
      phases = [p].

Lemma quantile_matches_unassigned (phases : list phase_row) (r : prow) :
  wf_phases phases -> p_phase r = -100 -> quantile_matches phases r = [].
Proof.
  intros Hwf Hr. unfold quantile_matches. apply filter_none. intros p Hp.
  apply Bool.not_true_iff_false. intros Hb. zbool.
  destruct (Z.eq_dec (ph_phase p) 0) as [Hz|Hz]; [lia |].
  destruct (Hwf p Hp Hz) as [Hn _]. lia.
Qed.

(** The entry an assigned row matches in the quantile pass is the one that
    gave it its phase. *)
Lemma quantile_matches_assigned (phases : list phase_row) (r : prow) (p : phase_row) :
  wf_phases phases -> In p phases -> ph_phase p <> 0 ->
  ph_session p = p_session r -> ph_phase p = p_phase r ->
  quantile_matches phases r = [p].
Proof.
  intros Hwf Hp H0 Hs Hph. destruct (Hwf p Hp H0) as (_ & _ & Hu).
  rewrite <- Hu. unfold quantile_matches. rewrite Hs, Hph. reflexivity.
Qed.

(** C14. Each phase is divided into [N] parts of equal duration: a row of the
    phase gets quantile [k] exactly when [(timestamp - start) * N] lies in
    [[(k-1) * (end - start), k * (end - start))], the last part also taking
    the end of the phase. *)
Theorem quantile_equal_parts (n : positive) (phases : list phase_row) (r : prow)
    (p : phase_row) (k : Z) :
  quantile_matches phases r = [p] -> ph_start p < ph_end p ->
  ph_start p <= p_timestamp r <= ph_end p -> 1 <= k <= Zpos n ->
  quantile_of n phases r = Ok k <->
  (k - 1) * (ph_end p - ph_start p) <= (p_timestamp r - ph_start p) * Zpos n /\
  ((p_timestamp r - ph_start p) * Zpos n < k * (ph_end p - ph_start p) \/ k = Zpos n).
Proof.
  intros Hm HD Hts Hk. rewrite (quantile_of_single n phases r p Hm) by lia.
  set (D := ph_end p - ph_start p). set (a := (p_timestamp r - ph_start p) * Zpos n).
  assert (HD' : 0 < D) by lia.
  pose proof (Z.mul_div_le a D HD') as H1. pose proof (Z.mul_succ_div_gt a D HD') as H2.
  assert (Ha : a <= D * Zpos n) by (subst a D; nia).
  assert (Hm0 : 0 <= a / D <= Zpos n)
    by (split; [apply Z.div_pos; subst a; nia | apply Z.div_le_upper_bound; lia]).
  split.
  - intros Heq. injection Heq as <-. destruct (Z.min_spec (Zpos n) (a / D + 1)) as [[_ E]|[_ E]];
      rewrite E; split; nia.
  - intros [Hlo Hhi]. f_equal.
    assert (k - 1 <= a / D) by (apply Z.div_le_lower_bound; lia).
    destruct Hhi as [Hhi | ->]; [| lia].
    assert (a / D < k) by (apply Z.div_lt_upper_bound; lia). lia.
Qed.

Lemma quantile_equal_parts_witness :
  let ph := [mk_phase_row 1 1 0 100] in
  let r := mk_prow 7 1 25 0 0 0 0 0 1 (-100) 0 false in
  quantile_matches ph r = [mk_phase_row 1 1 0 100] /\
  (quantile_of 4 ph r = Ok 2 <->
   (2 - 1) * (100 - 0) <= (25 - 0) * 4 /\ ((25 - 0) * 4 < 2 * (100 - 0) \/ 2 = 4)).
Proof.
  intros ph r. split; [reflexivity |].
  apply (quantile_equal_parts 4 ph r (mk_phase_row 1 1 0 100) 2); cbn; first [reflexivity | lia].
Defined.

(** C15. With [_include_all_data = 0], every row [add_phases] keeps lies in a
    phase of its session numbered like the row, the phase's interval
    containing the row's timestamp. *)
Theorem add_phases_in_phase (phases : list phase_row) (df : list prow) (r : prow) :
  In r (add_phases phases 0 df) ->
  p_phase r <> -100 /\
  exists p, In p phases /\ ph_session p = p_session r /\ ph_phase p = p_phase r /\
            ph_phase p <> 0 /\ ph_start p <= p_timestamp r <= ph_end p.
Proof.
  intros Hr. destruct (in_add_phases phases 0 df r Hr) as (r0 & _ & -> & Hk).
  specialize (Hk eq_refl). cbn. split; [exact Hk |].
  destruct (phase_of_spec phases r0) as [E | (p & Hp & Hs & Hts & Hph & H0)]; [contradiction |].
  exists p. auto.
Qed.

Lemma add_phases_in_phase_witness :
  let ph := [mk_phase_row 1 1 0 100] in
  let df := [mk_prow 7 1 25 0 0 0 0 0 0 0 0 false] in
  In (mk_prow 7 1 25 0 0 0 0 0 1 0 0 false) (add_phases ph 0 df) /\
  p_phase (mk_prow 7 1 25 0 0 0 0 0 1 0 0 false) <> -100.
Proof.
  intros ph df. assert (H : In (mk_prow 7 1 25 0 0 0 0 0 1 0 0 false) (add_phases ph 0 df))
    by (left; reflexivity).
  split; [exact H | exact (proj1 (add_phases_in_phase ph df _ H))].
Defined.

(** The quantile a row receives after [add_phases] from a well-formed
    table. *)
Lemma quantile_after_phases (n : positive) (phases : list phase_row) (r0 : prow) :
  wf_phases phases ->
  let r := set_phase (phase_of phases r0) r0 in
  exists q, quantile_of n phases r = Ok q /\
    ((p_phase r = -100 /\ q = -100) \/ (p_phase r <> -100 /\ 1 <= q <= Zpos n)).
Proof.
  intros Hwf r. destruct (phase_of_spec phases r0) as [E | (p & Hp & Hs & Hts & Hph & H0)].
  - exists (-100). unfold quantile_of. rewrite quantile_matches_unassigned by assumption.
    auto.
  - destruct (Hwf p Hp H0) as (Hn & HD & _).
    destruct (quantile_of_range n phases r p) as (q & Hq & Hb); auto.
    + apply quantile_matches_assigned; auto.
    + exists q. split; [exact Hq | right; cbn; split; lia].
Qed.

(** From a well-formed phase table, [add_quantiles] after [add_phases]
    raises no error: it returns the same rows with only their quantile set,
    [-100] on rows outside every phase and a part number between 1 and [N]
    on the others. *)
Lemma add_quantiles_after_phases (n : positive) (phases : list phase_row) (inc : Z)
    (df : list prow) :
  wf_phases phases ->
  exists df', add_quantiles n phases (add_phases phases inc df) = Ok df' /\
    Forall2 (fun r r' => r' = set_quantile (p_quantile r') r) (add_phases phases inc df) df' /\
    Forall (fun r => (p_phase r = -100 /\ p_quantile r = -100) \/
                     (p_phase r <> -100 /\ 1 <= p_quantile r <= Zpos n)) df'.
Proof.
  intros Hwf.
  destruct (mapM_ok (fun r => let* q := quantile_of n phases r in Ok (set_quantile q r))
    (fun r r' => r' = set_quantile (p_quantile r') r /\
       ((p_phase r' = -100 /\ p_quantile r' = -100) \/
        (p_phase r' <> -100 /\ 1 <= p_quantile r' <= Zpos n)))
    (add_phases phases inc df)) as (df' & Hok & H2).
  - intros r Hr. destruct (in_add_phases phases inc df r Hr) as (r0 & _ & -> & _).
    destruct (quantile_after_phases n phases r0 Hwf) as (q & Hq & Hb).
    exists (set_quantile q (set_phase (phase_of phases r0) r0)). rewrite Hq. auto.
  - exists df'. split; [exact Hok | split].
    + revert H2. apply Forall2_impl. intros a b [H _]. exact H.
    + eapply Forall2_Forall_snd; [exact H2 | intros a b [_ H]; exact H].
Qed.

(** ** The [x] and [y] columns: interpolation and fills *)

(** [o'] keeps the value of [o] when [o] has one. *)
Definition agree (o o' : option Q) : Prop := forall v, o = Some v -> o' = Some v.

Lemma Forall2_agree_trans (l k m : list (option Q)) :
  Forall2 agree l k -> Forall2 agree k m -> Forall2 agree l m.
Proof.
  intros H1. revert m. induction H1 as [|o o' l k Ho _ IH]; intros m H2; inversion H2; subst;
    constructor; [intros v Hv; auto | auto].
Qed.

Lemma interp_from_agree (prev : option (nat * Q)) (l : list (option Q)) :
  Forall2 agree l (interp_from prev l).
Proof.
  revert prev. induction l as [|[v|] l IH]; intros prev; cbn; constructor; auto;
    intros w Hw; [exact Hw | discriminate].
Qed.

Lemma ffill_from_agree (prev : option Q) (l : list (option Q)) :
  Forall2 agree l (ffill_from prev l).
Proof.
  revert prev. induction l as [|[v|] l IH]; intros prev; cbn; constructor; auto;
    intros w Hw; [exact Hw | discriminate].
Qed.

(** The filled column keeps every known value at its place. *)
Lemma fill_column_agree (l : list (option Q)) : Forall2 agree l (fill_column l).
Proof.
  unfold fill_column, bfill, ffill. eapply Forall2_agree_trans; [eapply Forall2_agree_trans |].
  - apply interp_from_agree.
  - apply ffill_from_agree.
  - rewrite <- (rev_involutive (ffill_from None (interp_from None l))) at 1.
    apply Forall2_rev, ffill_from_agree.
Qed.

Lemma fill_column_length (l : list (option Q)) : length (fill_column l) = length l.
Proof. symmetry. exact (Forall2_length (fill_column_agree l)). Qed.

(** Every known value of a column lies in [[lo, hi]]. *)
Definition col_in (lo hi : Q) (l : list (option Q)) : Prop :=
  Forall (fun o => forall v, o = Some v -> (lo <= v <= hi)%Q) l.

Lemma next_known_in (lo hi : Q) (l : list (option Q)) (e : nat) (b : Q) :
  col_in lo hi l -> next_known l = Some (e, b) -> (lo <= b <= hi)%Q.
Proof.
  revert e. induction l as [|[v|] l IH]; intros e Hl Hn; cbn in Hn; [discriminate | |].
  - injection Hn as _ <-. inversion Hl; auto.
  - destruct (next_known l) as [[e' b']|] eqn:E; cbn in Hn; [| discriminate].
    injection Hn as _ <-. inversion Hl. eapply IH; eauto.
Qed.

Lemma inject_nat_nonneg (k : nat) : (0 <= inject_Z (Z.of_nat k))%Q.
Proof. change 0%Q with (inject_Z 0). rewrite <- Zle_Qle. lia. Qed.

(** A point of the segment between two values of [[lo, hi]] is in [[lo, hi]]. *)
Lemma interpolant_in (lo hi a b : Q) (d e : nat) :
  (lo <= a <= hi)%Q -> (lo <= b <= hi)%Q ->
  (lo <= a + (b - a) * (inject_Z (Z.of_nat d) / inject_Z (Z.of_nat (d + e + 1))) <= hi)%Q.
Proof.
  intros Ha Hb. set (u := inject_Z (Z.of_nat (d + e + 1))).
  assert (Hu : (0 < u)%Q) by (unfold u; change 0%Q with (inject_Z 0); rewrite <- Zlt_Qlt; lia).
  assert (Hdu : (inject_Z (Z.of_nat d) <= u)%Q) by (unfold u; rewrite <- Zle_Qle; lia).
  pose proof (inject_nat_nonneg d) as Hd.
  set (t := (inject_Z (Z.of_nat d) / u)%Q).
  assert (Ht0 : (0 <= t)%Q) by (apply Qle_shift_div_l; [exact Hu | lra]).
  assert (Ht1 : (t <= 1)%Q) by (apply Qle_shift_div_r; [exact Hu | lra]).
  split; nra.
Qed.

Lemma interp_from_in (lo hi : Q) (prev : option (nat * Q)) (l : list (option Q)) :
  (forall d a, prev = Some (d, a) -> (lo <= a <= hi)%Q) -> col_in lo hi l ->
  col_in lo hi (interp_from prev l).
Proof.
  revert prev. induction l as [|[v|] l IH]; intros prev Hp Hl; cbn; [constructor | |];
    inversion Hl as [|? ? Ho Hl']; subst; constructor.
  - exact Ho.
  - apply IH; [intros d a E; injection E as _ <-; apply Ho; reflexivity | exact Hl'].
  - intros w Hw. destruct prev as [[d a]|]; [| discriminate].
    destruct (next_known l) as [[e b]|] eqn:E; injection Hw as <-.
    + apply interpolant_in; [eapply Hp; reflexivity | eapply next_known_in; eauto].
    + eapply Hp; reflexivity.
  - apply IH; [| exact Hl']. intros d' a' E. destruct prev as [[d a]|]; [| discriminate].
    injection E as _ <-. eapply Hp; reflexivity.
Qed.

Lemma ffill_from_in (lo hi : Q) (prev : option Q) (l : list (option Q)) :
  (forall a, prev = Some a -> (lo <= a <= hi)%Q) -> col_in lo hi l ->
  col_in lo hi (ffill_from prev l).
Proof.
  revert prev. induction l as [|[v|] l IH]; intros prev Hp Hl; cbn; [constructor | |];
    inversion Hl as [|? ? Ho Hl']; subst; constructor.
  - exact Ho.
  - apply IH; [intros a E; injection E as <-; apply Ho; reflexivity | exact Hl'].
  - exact Hp.
  - apply IH; [exact Hp | exact Hl'].
Qed.

(** Interpolating and filling a column creates no value outside the range of
    its known values. *)
Lemma fill_column_in (lo hi : Q) (l : list (option Q)) :
  col_in lo hi l -> col_in lo hi (fill_column l).
Proof.
  intros Hl. unfold fill_column, bfill, ffill. apply Forall_rev.
  apply ffill_from_in; [discriminate |]. apply Forall_rev.
  apply ffill_from_in; [discriminate |]. apply interp_from_in; [discriminate | exact Hl].
Qed.

(** ** The merged frame *)

Lemma in_merge_left (grid : list Z) (g : list prow) (t : Z) (r : prow) :
  In (t, Some r) (merge_left grid g) -> p_timestamp r = t /\ In r g.
Proof.
  unfold merge_left. rewrite in_flat_map. intros (t' & _ & Ht).
  destruct (List.filter (fun r => p_timestamp r =? t') g) as [|r1 ms] eqn:E.
  - destruct Ht as [Ht|[]]. discriminate.
  - rewrite <- E in Ht. apply in_map_iff in Ht as (r2 & Heq & Hr2).
    injection Heq as -> ->. apply filter_In in Hr2 as [Hr Hb]. zbool. auto.
Qed.

Lemma filter_ts_le1 (g : list prow) (t : Z) :
  List.NoDup (map p_timestamp g) ->
  (length (List.filter (fun r => (p_timestamp r =? t)%Z) g) <= 1)%nat.
Proof.
  induction g as [|r g IH]; intros Hnd; cbn; [lia |].
  inversion Hnd as [|? ? Hn Hnd']; subst.
  destruct (Z.eqb_spec (p_timestamp r) t) as [<-|]; [| auto].
  rewrite filter_none; [cbn; lia |]. intros r' Hr'. apply Z.eqb_neq. intros E.
  apply Hn. rewrite <- E. apply in_map; exact Hr'.
Qed.

(** With distinct timestamps the merged frame has one row per second of the
    range. *)
Lemma merge_left_fst (grid : list Z) (g : list prow) :
  List.NoDup (map p_timestamp g) -> map fst (merge_left grid g) = grid.
Proof.
  intros Hnd. induction grid as [|t grid IH]; [reflexivity |].
  unfold merge_left in *. cbn [flat_map]. rewrite map_app, IH.
  pose proof (filter_ts_le1 g t Hnd) as Hle.
  destruct (List.filter (fun r => p_timestamp r =? t) g) as [|r1 [|r2 ms]]; cbn in *;
    [reflexivity | reflexivity | lia].
Qed.

(** The original rows of the merged frame, in order. *)
Lemma omap_merge_left (grid : list Z) (g : list prow) :
  omap snd (merge_left grid g) =
  flat_map (fun t => List.filter (fun r => p_timestamp r =? t) g) grid.
Proof.
  induction grid as [|t grid IH]; [reflexivity |].
  unfold merge_left in *. cbn [flat_map]. rewrite omap_app, IH. f_equal.
  destruct (List.filter (fun r => p_timestamp r =? t) g) as [|r1 ms]; [reflexivity |].
  cbn. f_equal. induction ms as [|r ms IHm]; cbn; [reflexivity | rewrite IHm; reflexivity].
Qed.

Lemma sorted_ts_head (r : prow) (g : list prow) :
  Sorted Z.lt (map p_timestamp (r :: g)) -> Forall (fun r' => p_timestamp r < p_timestamp r') g.
Proof.
  intros Hs. apply Sorted_StronglySorted in Hs; [| intros a b c; lia].
  inversion Hs as [|? ? _ Hf]. rewrite List.Forall_map in Hf. exact Hf.
Qed.

(** Scanning the seconds [a, a+1, ...] in order and collecting the rows
    stamped with each gives back a group sorted by timestamp. *)
Lemma flat_map_filter_sorted (a : Z) (n : nat) (g : list prow) :
  Sorted Z.lt (map p_timestamp g) ->
  Forall (fun r => a <= p_timestamp r < a + Z.of_nat n) g ->
  flat_map (fun t => List.filter (fun r => p_timestamp r =? t) g) (zrange a n) = g.
Proof.
  revert a g. induction n as [|n IH]; intros a g Hs Hb.
  - destruct g as [|r g]; [reflexivity | inversion Hb; lia].
  - cbn [zrange flat_map]. destruct g as [|r g].
    + rewrite (IH (a + 1) []); auto.
    + pose proof (sorted_ts_head r g Hs) as Hh. pose proof Hs as Hs0.
      apply Sorted_inv in Hs as [Hs _].
      inversion Hb as [|? ? Hr Hg]; subst. cbn [List.filter].
      destruct (Z.eqb_spec (p_timestamp r) a) as [Ea|Ea].
      * rewrite filter_none; [| intros r' Hr'; apply Z.eqb_neq;
          rewrite Forall_forall in Hh; specialize (Hh r' Hr'); lia].
        cbn [app]. f_equal.
        transitivity (flat_map (fun t => List.filter (fun r => p_timestamp r =? t) g)
                        (zrange (a + 1) n)); [| apply IH; [exact Hs |]].
        -- apply flat_map_ext_in. intros t Ht. apply in_zrange in Ht. cbn [List.filter].
           rewrite (proj2 (Z.eqb_neq _ _)) by lia. reflexivity.
        -- rewrite Forall_forall in Hh, Hg |- *. intros r' Hr'.
           specialize (Hh r' Hr'); specialize (Hg r' Hr'). lia.
      * rewrite filter_none; [| intros r' Hr'; apply Z.eqb_neq;
          rewrite Forall_forall in Hh; specialize (Hh r' Hr'); lia].
        cbn [app]. apply (IH (a + 1) (r :: g)); [exact Hs0 |].
        constructor; [lia |]. rewrite Forall_forall in Hh, Hg |- *. intros r' Hr'.
        specialize (Hh r' Hr'); specialize (Hg r' Hr'). lia.
Qed.

(** ** Assembling the output rows *)

Lemma set_xy_id (r : prow) : set_xy (p_x r) (p_y r) r = r.
Proof. destruct r; reflexivity. Qed.

(** A property of rows that the original rows of the frame and the row
    above have, and that filling the coordinates or copying a row into a
    new second keep, holds of every output row. *)
Lemma assemble_Forall (Pc : prow -> Prop) (prev : prow) (m : list (Z * option prow))
    (xs ys : list (option Q)) :
  Pc prev -> (forall t r, In (t, Some r) m -> Pc r) ->
  (forall r xo yo, In xo xs -> In yo ys -> Pc r ->
     Pc (set_xy (default (p_x r) xo) (default (p_y r) yo) r)) ->
  (forall r t xo yo, In xo xs -> In yo ys -> Pc r ->
     Pc (new_row t (default (p_x r) xo) (default (p_y r) yo) r)) ->
  Forall Pc (assemble prev m xs ys).
Proof.
  revert prev xs ys. induction m as [|[t [r|]] m IH]; intros prev xs ys Hp Hm Hset Hnew;
    [constructor |  |]; (destruct xs as [|xo xs]; [constructor |]);
    (destruct ys as [|yo ys]; [constructor |]); cbn [assemble].
  - assert (Hr : Pc (set_xy (default (p_x r) xo) (default (p_y r) yo) r))
      by (apply Hset; [left | left | apply (Hm t); left]; reflexivity).
    constructor; [exact Hr |]. apply IH; [exact Hr | intros t' r' H; apply (Hm t'); right; exact H
      | intros; apply Hset; auto with datatypes | intros; apply Hnew; auto with datatypes].
  - assert (Hr : Pc (new_row t (default (p_x prev) xo) (default (p_y prev) yo) prev))
      by (apply Hnew; [left | left | exact Hp]; reflexivity).
    constructor; [exact Hr |]. apply IH; [exact Hr | intros t' r' H; apply (Hm t'); right; exact H
      | intros; apply Hset; auto with datatypes | intros; apply Hnew; auto with datatypes].
Qed.

Lemma assemble_ts (prev : prow) (m : list (Z * option prow)) (xs ys : list (option Q)) :
  length xs = length m -> length ys = length m ->
  (forall t r, In (t, Some r) m -> p_timestamp r = t) ->
  map p_timestamp (assemble prev m xs ys) = map fst m.
Proof.
  revert prev xs ys. induction m as [|[t o] m IH]; intros prev xs ys Hx Hy Hm; [reflexivity |].
  destruct xs as [|xo xs]; [discriminate |]. destruct ys as [|yo ys]; [discriminate |].
  cbn in Hx, Hy. destruct o as [r|]; cbn [assemble map fst].
  - rewrite (IH _ xs ys) by auto with datatypes lia. f_equal. apply (Hm t r). left; reflexivity.
  - rewrite (IH _ xs ys) by auto with datatypes lia. reflexivity.
Qed.

(** The rows of the output not flagged as interpolated are the original
    rows of the frame, unchanged and in order. *)
Lemma assemble_originals (prev : prow) (m : list (Z * option prow)) (xs ys : list (option Q)) :
  Forall2 agree (column p_x m) xs -> Forall2 agree (column p_y m) ys ->
  (forall t r, In (t, Some r) m -> p_interpolated r = false) ->
  List.filter (fun r => negb (p_interpolated r)) (assemble prev m xs ys) = omap snd m.
Proof.
  revert prev xs ys. induction m as [|[t o] m IH]; intros prev xs ys Hx Hy Hm; [reflexivity |].
  inversion Hx as [|ox xo ? xs' Hxo Hx']; subst. inversion Hy as [|oy yo ? ys' Hyo Hy']; subst.
  destruct o as [r|]; cbn [assemble List.filter omap snd].
  - rewrite (Hxo (p_x r) eq_refl), (Hyo (p_y r) eq_refl). cbn [default id]. rewrite set_xy_id.
    rewrite (Hm t r (or_introl eq_refl)). cbn. f_equal.
    apply IH; auto. intros t' r' H. apply (Hm t'). right. exact H.
  - cbn. apply IH; auto. intros t' r' H. apply (Hm t'). right. exact H.
Qed.

Lemma sorted_le_last (g : list prow) (d r : prow) :
  Sorted Z.lt (map p_timestamp g) -> In r g -> p_timestamp r <= p_timestamp (List.last g d).
Proof.
  revert r. induction g as [|r1 g IH]; intros r Hs Hr; [destruct Hr |].
  pose proof (sorted_ts_head r1 g Hs) as Hh. apply Sorted_inv in Hs as [Hs _].
  destruct g as [|r2 g].
  - destruct Hr as [<-|[]]. reflexivity.
  - change (List.last (r1 :: r2 :: g) d) with (List.last (r2 :: g) d).
    destruct Hr as [<-|Hr]; [| apply IH; auto].
    inversion Hh as [|? ? H12 _]. specialize (IH r2 Hs (or_introl eq_refl)). lia.
Qed.

Lemma column_in (lo hi : Q) (f : prow -> Q) (m : list (Z * option prow)) :
  (forall t r, In (t, Some r) m -> (lo <= f r <= hi)%Q) -> col_in lo hi (column f m).
Proof.
  intros Hm. unfold col_in, column. rewrite List.Forall_map. apply Forall_forall.
  intros [t [r|]] Hin v Hv; cbn in Hv; [injection Hv as <-; exact (Hm t r Hin) | discriminate].
Qed.

Lemma default_in (lo hi d : Q) (xs : list (option Q)) (xo : option Q) :
  col_in lo hi xs -> In xo xs -> (lo <= d <= hi)%Q -> (lo <= default d xo <= hi)%Q.
Proof.
  intros Hxs Hin Hd. destruct xo as [v|]; [| exact Hd].
  unfold col_in in Hxs. rewrite Forall_forall in Hxs. exact (Hxs _ Hin v eq_refl).
Qed.

Lemma sorted_first_le (r0 : prow) (g : list prow) (r : prow) :
  Sorted Z.lt (map p_timestamp (r0 :: g)) -> In r (r0 :: g) -> p_timestamp r0 <= p_timestamp r.
Proof.
  intros Hs [<-|Hr]; [lia |]. pose proof (sorted_ts_head r0 g Hs) as Hh.
  rewrite Forall_forall in Hh. specialize (Hh r Hr). lia.
Qed.

(** ** The resampled group *)

(** Resampling to 1 Hz: when the rows of a (session, tracker) group have
    distinct timestamps, the output of the loop body has exactly one row per
    second, for every second from the group's first row to its last row. *)
Theorem resample_one_per_second (r0 : prow) (g : list prow) :
  List.NoDup (map p_timestamp (r0 :: g)) ->
  map p_timestamp (resample_group (r0 :: g)) =
  date_range (p_timestamp r0) (p_timestamp (List.last (r0 :: g) r0)).
Proof.
  intros Hnd. unfold resample_group.
  rewrite assemble_ts; [apply merge_left_fst; exact Hnd | | |].
  - rewrite fill_column_length. apply length_map.
  - rewrite fill_column_length. apply length_map.
  - intros t r H. exact (proj1 (in_merge_left _ _ _ _ H)).
Qed.

(** Resampling keeps the data: for a group sorted by strictly increasing
    timestamp, the rows flagged [interpolated = '0'] in the output are the
    group's rows, unchanged and in their order. *)
Theorem resample_keeps_originals (g : list prow) :
  Sorted Z.lt (map p_timestamp g) -> Forall (fun r => p_interpolated r = false) g ->
  List.filter (fun r => negb (p_interpolated r)) (resample_group g) = g.
Proof.
  intros Hs Hi. destruct g as [|r0 g']; [reflexivity |]. unfold resample_group.
  rewrite assemble_originals; [| apply fill_column_agree | apply fill_column_agree |].
  - rewrite omap_merge_left. unfold date_range. apply flat_map_filter_sorted; [exact Hs |].
    apply Forall_forall. intros r Hr.
    pose proof (sorted_first_le r0 g' r Hs Hr). pose proof (sorted_le_last _ r0 r Hs Hr). lia.
  - intros t r H. apply in_merge_left in H as [_ H]. rewrite Forall_forall in Hi. auto.
Qed.

(** Interpolation stays within the data: if the coordinates of a group
    lie in a box, so do the coordinates of every resampled row. *)
Theorem resample_within_bounds (lo hi lo' hi' : Q) (g : list prow) :
  Forall (fun r => (lo <= p_x r <= hi)%Q /\ (lo' <= p_y r <= hi')%Q) g ->
  Forall (fun r => (lo <= p_x r <= hi)%Q /\ (lo' <= p_y r <= hi')%Q) (resample_group g).
Proof.
  intros Hg. destruct g as [|r0 g']; [constructor |]. unfold resample_group.
  set (m := merge_left _ _). rewrite Forall_forall in Hg.
  assert (Hm : forall t r, In (t, Some r) m -> (lo <= p_x r <= hi)%Q /\ (lo' <= p_y r <= hi')%Q)
    by (intros t r H; apply in_merge_left in H as [_ H]; auto).
  assert (Hx : col_in lo hi (fill_column (column p_x m)))
    by (apply fill_column_in, column_in; intros t r H; exact (proj1 (Hm t r H))).
  assert (Hy : col_in lo' hi' (fill_column (column p_y m)))
    by (apply fill_column_in, column_in; intros t r H; exact (proj2 (Hm t r H))).
  apply assemble_Forall; [apply Hg; left; reflexivity | exact Hm | |];
    intros *; cbn; intros Hxo Hyo [Hrx Hry]; split; eapply default_in; eauto.
Qed.

Definition prow_at (t : Z) (x0 y0 : Q) : prow := mk_prow 1 1 t x0 y0 0 0 0 1 1 0 false.

Lemma resample_one_per_second_witness :
  List.NoDup (map p_timestamp [prow_at 10 0 0; prow_at 13 3 6; prow_at 14 3 6]) /\
  map p_timestamp (resample_group [prow_at 10 0 0; prow_at 13 3 6; prow_at 14 3 6]) =
  date_range 10 14.
Proof.
  assert (H : List.NoDup (map p_timestamp [prow_at 10 0 0; prow_at 13 3 6; prow_at 14 3 6]))
    by (cbn; repeat constructor; cbn; lia).
  split; [exact H | exact (resample_one_per_second _ _ H)].
Defined.

Lemma resample_keeps_originals_witness :
  Sorted Z.lt (map p_timestamp [prow_at 10 0 0; prow_at 13 3 6]) /\
  List.filter (fun r => negb (p_interpolated r)) (resample_group [prow_at 10 0 0; prow_at 13 3 6])
  = [prow_at 10 0 0; prow_at 13 3 6].
Proof.
  assert (H : Sorted Z.lt (map p_timestamp [prow_at 10 0 0; prow_at 13 3 6]))
    by (cbn; repeat constructor).
  split; [exact H | apply (resample_keeps_originals _ H); repeat constructor].
Defined.

Lemma resample_within_bounds_witness :
  Forall (fun r => (0 <= p_x r <= 3)%Q /\ (0 <= p_y r <= 6)%Q)
    (resample_group [prow_at 10 0 0; prow_at 13 3 6]).
Proof.
  apply resample_within_bounds. repeat constructor; cbn; discriminate.
Defined.

(** The script does not sort a group by time: when a row is stamped
    earlier than the one before it, the range runs from the first to the last
    row of the table order and a row outside it is dropped.  Here the rows
    at 10, 12 and 11 s give two rows, at 10 and 11 s; the row at 12 s is
    lost. *)
Example resample_unsorted_drops_row :
  map (fun r => (p_timestamp r, p_interpolated r))
    (resample_group [prow_at 10 0 0; prow_at 12 2 2; prow_at 11 1 1]) =
  [(10, false); (11, false)].
Proof. vm_compute. reflexivity. Qed.

(** ** The whole table *)

Lemma resample_Forall (P : Z -> Z -> Prop) (g : list prow) :
  Forall (fun r => P (p_phase r) (p_quantile r)) g ->
  Forall (fun r => P (p_phase r) (p_quantile r)) (resample_group g).
Proof.
  intros Hg. destruct g as [|r0 g']; [constructor |]. unfold resample_group.
  rewrite Forall_forall in Hg.
  apply assemble_Forall; [apply Hg; left; reflexivity | | intros *; cbn; auto | intros *; cbn; auto].
  intros t r H. apply in_merge_left in H as [_ H]. auto.
Qed.

Lemma in_group_of (df : list prow) (ss tr : Z) (r : prow) :
  In r (group_of df ss tr) -> In r df /\ p_tracker r = tr /\ p_session r = ss.
Proof. unfold group_of. rewrite filter_In. intros [H Hb]. zbool. auto. Qed.

(** The columns [phase] and [quantile] of every output row of the
    resampling are those of an input row. *)
Lemma sampling_Forall (P : Z -> Z -> Prop) (df : list prow) :
  Forall (fun r => P (p_phase r) (p_quantile r)) df ->
  Forall (fun r => P (p_phase r) (p_quantile r)) (resample_groups df).
Proof.
  intros Hdf. unfold resample_groups. apply Forall_forall. intros r Hr.
  apply in_flat_map in Hr as ([ss tr] & _ & Hr). revert r Hr. apply Forall_forall.
  apply resample_Forall. apply Forall_forall. intros r Hr.
  apply in_group_of in Hr as [Hr _]. apply in_map_iff in Hr as (r0 & <- & Hr0).
  rewrite Forall_forall in Hdf. exact (Hdf r0 Hr0).
Qed.

Lemma add_rotation_Forall (P : Z -> Z -> Prop) (cfg : config) (df : list prow) :
  Forall (fun r => P (p_phase r) (p_quantile r)) df ->
  Forall (fun r => P (p_phase r) (p_quantile r)) (add_rotation cfg df).
Proof. intros H. unfold add_rotation. rewrite List.Forall_map. exact H. Qed.

(** C12. [preprocessing] from a well-formed phase table raises [KeyError]
    exactly when [add_phases] keeps no row, and otherwise returns a table
    in which every row has phase and quantile [-100], or a phase and a
    quantile between 1 and [numberOfQuantiles]. *)
Theorem preprocessing_quantiles (cfg : config) (df : list prow) (phases : list phase_row)
    (fill inc : Z) :
  wf_phases phases ->
  (add_phases phases inc df = [] -> preprocessing cfg df phases fill inc = Err key_error_interpolated)
  /\ (add_phases phases inc df <> [] ->
      exists out, preprocessing cfg df phases fill inc = Ok out /\
        Forall (fun r => (p_phase r = -100 /\ p_quantile r = -100) \/
                         (p_phase r <> -100 /\ 1 <= p_quantile r <= Zpos (numberOfQuantiles cfg))) out).
Proof.
  intros Hwf. destruct (add_quantiles_after_phases (numberOfQuantiles cfg) phases inc df Hwf)
    as (df' & Hok & H2 & Hb).
  unfold preprocessing. cbv zeta. rewrite Hok. cbn [rbind].
  apply Forall2_length in H2. unfold sampling_and_interpolating.
  split; intros Hne.
  - rewrite Hne in H2. destruct df'; [reflexivity | discriminate].
  - destruct (add_rotation cfg df') as [|r rs] eqn:Er.
    + apply map_eq_nil in Er. subst df'. destruct (add_phases phases inc df); [congruence | discriminate].
    + rewrite <- Er. eexists. split; [reflexivity |].
      set (P := fun ph q => (ph = -100 /\ q = -100) \/
                            (ph <> -100 /\ 1 <= q <= Zpos (numberOfQuantiles cfg))).
      apply (sampling_Forall P), (add_rotation_Forall P). exact Hb.
Qed.

Lemma preprocessing_quantiles_witness :
  wf_phases [mk_phase_row 1 1 0 100] /\
  (add_phases [mk_phase_row 1 1 0 100] 0 [prow_at 10 0 0; prow_at 13 3 6] = [] ->
   preprocessing (mk_config axis_yaw 0 4) [prow_at 10 0 0; prow_at 13 3 6]
     [mk_phase_row 1 1 0 100] 1 0 = Err key_error_interpolated) /\
  (add_phases [mk_phase_row 1 1 0 100] 0 [prow_at 10 0 0; prow_at 13 3 6] <> [] ->
   exists out, preprocessing (mk_config axis_yaw 0 4) [prow_at 10 0 0; prow_at 13 3 6]
                 [mk_phase_row 1 1 0 100] 1 0 = Ok out /\
     Forall (fun r => (p_phase r = -100 /\ p_quantile r = -100) \/
                      (p_phase r <> -100 /\ 1 <= p_quantile r <= 4)) out).
Proof.
  assert (H : wf_phases [mk_phase_row 1 1 0 100]).
  { intros p [<-|[]] _. cbn. repeat split; first [discriminate | reflexivity | lia]. }
  split; [exact H | exact (preprocessing_quantiles (mk_config axis_yaw 0 4) _ _ 1 0 H)].
Defined.

Lemma insert_key_perm (k : Z * Z) (l : list (Z * Z)) : Permutation (insert_key k l) (k :: l).
Proof.
  induction l as [|k' l IH]; cbn; [reflexivity |].
  destruct (key_ltb k' k); [| reflexivity].
  etransitivity; [apply perm_skip, IH | apply perm_swap].
Qed.

(** The key of a row in [groupby(['session','tracker'])]. *)
Definition st_key (r : prow) : Z * Z := (p_session r, p_tracker r).

Lemma session_tracker_perm (df : list prow) :
  Permutation (session_tracker df) (unique (map st_key df)).
Proof.
  unfold session_tracker. fold st_key. induction (unique (map st_key df)) as [|k ks IH];
    cbn [fold_right]; [reflexivity |].
  etransitivity; [apply insert_key_perm | apply perm_skip, IH].
Qed.

Lemma group_of_select (df : list prow) (ss tr : Z) :
  group_of df ss tr = select st_key df (ss, tr).
Proof.
  unfold group_of, select, st_key. apply filter_ext_in. intros r _.
  destruct (Z.eqb_spec (p_tracker r) tr), (Z.eqb_spec (p_session r) ss); cbn;
    [rewrite bool_decide_true | rewrite bool_decide_false | rewrite bool_decide_false
    | rewrite bool_decide_false]; congruence.
Qed.

Lemma group_of_mark0 (df : list prow) (ss tr : Z) :
  group_of (map mark0 df) ss tr = map mark0 (group_of df ss tr).
Proof.
  unfold group_of. induction df as [|r df IH]; cbn; [reflexivity |].
  destruct ((p_tracker r =? tr) && (p_session r =? ss)); cbn; rewrite IH; reflexivity.
Qed.

(** C11. No sample is lost by the resampling: on a table with rows whose
    (session, tracker) groups are each sorted by strictly increasing
    timestamp, [sampling_and_interpolating] returns, and the rows of its
    output flagged [interpolated = '0'] are the rows of the input, each
    once. *)
Theorem sampling_keeps_originals (df : list prow) (f : Z) :
  df <> [] -> (forall ss tr, Sorted Z.lt (map p_timestamp (group_of df ss tr))) ->
  exists out, sampling_and_interpolating df f = Ok out /\
    Permutation (List.filter (fun r => negb (p_interpolated r)) out) (map mark0 df).
Proof.
  intros Hne Hs. exists (resample_groups df).
  split; [destruct df; [congruence | reflexivity] |].
  unfold resample_groups. rewrite flat_map_concat_map, filter_concat, map_map.
  rewrite (map_ext_in _ (select st_key (map mark0 df))).
  2:{ intros [ss tr] _. rewrite <- group_of_select.
      apply resample_keeps_originals.
      - rewrite group_of_mark0, map_map. exact (Hs ss tr).
      - apply Forall_forall. intros r Hr. apply in_group_of in Hr as [Hr _].
        apply in_map_iff in Hr as (r0 & <- & _). reflexivity. }
  etransitivity; [apply Permutation_concat_map, session_tracker_perm |].
  apply concat_select_perm; [apply NoDup_unique |].
  intros r Hr. apply in_unique, in_map. exact Hr.
Qed.

Lemma sampling_keeps_originals_witness :
  [prow_at 10 0 0; prow_at 13 3 6] <> [] /\
  (forall ss tr, Sorted Z.lt (map p_timestamp (group_of [prow_at 10 0 0; prow_at 13 3 6] ss tr))) /\
  exists out, sampling_and_interpolating [prow_at 10 0 0; prow_at 13 3 6] 1 = Ok out /\
    Permutation (List.filter (fun r => negb (p_interpolated r)) out)
                (map mark0 [prow_at 10 0 0; prow_at 13 3 6]).
Proof.
  assert (H0 : [prow_at 10 0 0; prow_at 13 3 6] <> []) by discriminate.
  assert (H : forall ss tr,
    Sorted Z.lt (map p_timestamp (group_of [prow_at 10 0 0; prow_at 13 3 6] ss tr))).
  { intros ss tr. unfold group_of, prow_at. cbn [List.filter p_tracker p_session andb].
    destruct (1 =? tr), (1 =? ss); cbn; repeat constructor. }
  split; [exact H0 | split; [exact H | exact (sampling_keeps_originals _ 1 H0 H)]].
Defined.

(** ** Errors *)

Lemma mapM_err {A B} (f : A -> result B) (l : list A) (a : A) (e : prep_error) :
  In a l -> f a = Err e -> exists e', mapM f l = Err e'.
Proof.
  induction l as [|a' l IH]; intros Hin Hf; [destruct Hin |]. cbn [mapM].
  destruct (f a') as [b|e'] eqn:E; cbn [rbind]; [| eauto].
  destruct Hin as [->|Hin]; [congruence |].
  destruct (IH Hin Hf) as [e' He']. rewrite He'. eauto.
Qed.

Lemma quantile_of_ambiguous (n : positive) (phases : list phase_row) (r : prow) :
  (2 <= length (quantile_matches phases r))%nat ->
  exists s ph, quantile_of n phases r = Err (ambiguous_phase s ph).
Proof.
  unfold quantile_of. destruct (quantile_matches phases r) as [|p [|p' ps]]; cbn; [lia | lia |].
  eauto.
Qed.

(** A row whose session and phase match two entries of the phase table
    (a phase listed twice) makes the whole [add_quantiles] call raise: no
    table is returned, whatever the other rows. *)
Theorem add_quantiles_ambiguous_fails (n : positive) (phases : list phase_row)
    (df : list prow) (r : prow) :
  In r df -> (2 <= length (quantile_matches phases r))%nat ->
  exists e, add_quantiles n phases df = Err e.
Proof.
  intros Hin H2. destruct (quantile_of_ambiguous n phases r H2) as (s & ph & Hq).
  apply (mapM_err _ df r (ambiguous_phase s ph) Hin). cbn. rewrite Hq. reflexivity.
Qed.

Lemma add_quantiles_ambiguous_fails_witness :
  let ph := [mk_phase_row 1 1 0 100; mk_phase_row 1 1 200 300] in
  let df := [prow_at 10 0 0; prow_at 250 3 6] in
  In (prow_at 250 3 6) df /\ (2 <= length (quantile_matches ph (prow_at 250 3 6)))%nat /\
  exists e, add_quantiles 4 ph df = Err e.
Proof.
  intros ph df.
  assert (Hin : In (prow_at 250 3 6) df) by (right; left; reflexivity).
  assert (H2 : (2 <= length (quantile_matches ph (prow_at 250 3 6)))%nat) by (vm_compute; lia).
  split; [exact Hin | split; [exact H2 | exact (add_quantiles_ambiguous_fails 4 ph df _ Hin H2)]].
Defined.

(** ** The phases of the result *)

Lemma add_quantiles_phase (n : positive) (phases : list phase_row) (df df' : list prow) :
  add_quantiles n phases df = Ok df' -> map p_phase df' = map p_phase df.
Proof.
  revert df'. induction df as [|r df IH]; intros df' H; cbn in H; [now injection H as <- |].
  destruct (quantile_of n phases r); [| discriminate]. cbn in H.
  destruct (mapM _ df) as [bs|] eqn:E; [| discriminate]. cbn in H. injection H as <-.
  cbn. f_equal. apply IH. exact E.
Qed.

(** With [_include_all_data = 0], no row of the result of
    [preprocessing] is left with the phase [-100]. *)
Lemma preprocessing_assigned (cfg : config) (df : list prow) (phases : list phase_row) (fill : Z)
    (out : list prow) :
  preprocessing cfg df phases fill 0 = Ok out -> Forall (fun r => p_phase r <> -100) out.
Proof.
  unfold preprocessing. cbv zeta.
  destruct (add_quantiles _ phases _) as [df'|] eqn:E; [| discriminate]. cbn [rbind].
  unfold sampling_and_interpolating. destruct (add_rotation cfg df') eqn:Erot; [discriminate |].
  rewrite <- Erot. intros [= <-].
  apply (sampling_Forall (fun ph _ => ph <> -100)), (add_rotation_Forall (fun ph _ => ph <> -100)).
  apply add_quantiles_phase in E. apply Forall_forall. intros r Hr.
  assert (Hp : In (p_phase r) (map p_phase (add_phases phases 0 df))) by (rewrite <- E; now apply in_map).
  apply in_map_iff in Hp as (r' & Er & Hr'). unfold add_phases in Hr'. cbn in Hr'.
  apply filter_In in Hr' as [_ Hr']. rewrite <- Er. apply negb_true_iff, Z.eqb_neq in Hr'. exact Hr'.
Qed.
