(* ===== verification/QSum.v ===== *)
(** * QSum: sums of rationals

    [sumq], the [sum] of a pandas Series or a numpy array of floats, over
    [Q], with the lemmas the Gini and entropy files share.  [sumq] respects
    permutations up to [Qeq] ([sumq_perm]), so sums can be rewritten along a
    reordering of the rows. *)

From Stdlib Require Import ZArith QArith Lqa List Permutation Morphisms.
Import ListNotations.

Open Scope Q_scope.

Definition sumq (l : list Q) : Q := fold_right Qplus 0 l.

Lemma sumq_cons (a : Q) (l : list Q) : sumq (a :: l) = a + sumq l.
Proof. reflexivity. Qed.

Lemma sumq_nil : sumq [] = 0.
Proof. reflexivity. Qed.

Lemma sumq_app (l1 l2 : list Q) : sumq (l1 ++ l2) == sumq l1 + sumq l2.
Proof.
  induction l1 as [|a l1 IH]; cbn [app]; rewrite ?sumq_nil, ?sumq_cons; [ring | rewrite IH; ring].
Qed.

Lemma sumq_map_ext {A} (f g : A -> Q) (l : list A) :
  (forall a, In a l -> f a == g a) -> sumq (map f l) == sumq (map g l).
Proof.
  induction l as [|a l IH]; intros H; cbn [map]; rewrite ?sumq_cons; [reflexivity |].
  rewrite (H a (or_introl eq_refl)), IH; [reflexivity | intros b Hb; apply H; right; exact Hb].
Qed.

(** The sum of a list depends only on its elements: [sumq] respects
    permutations. *)
#[export] Instance sumq_perm : Proper (@Permutation Q ==> Qeq) sumq.
Proof.
  intros l l' Hp. induction Hp as [| a l l' _ IH | a b l | l l' l'' _ IH1 _ IH2];
    rewrite ?sumq_cons; [reflexivity | rewrite IH; reflexivity | ring |].
  rewrite IH1. exact IH2.
Qed.

Lemma sumq_map_plus {A} (f g : A -> Q) (l : list A) :
  sumq (map (fun a => f a + g a) l) == sumq (map f l) + sumq (map g l).
Proof. induction l as [|a l IH]; cbn [map]; rewrite ?sumq_nil, ?sumq_cons; [ring | rewrite IH; ring]. Qed.

Lemma sumq_map_scale {A} (c : Q) (f : A -> Q) (l : list A) :
  sumq (map (fun a => c * f a) l) == c * sumq (map f l).
Proof. induction l as [|a l IH]; cbn [map]; rewrite ?sumq_nil, ?sumq_cons; [ring | rewrite IH; ring]. Qed.

Lemma sumq_nonneg {A} (f : A -> Q) (l : list A) :
  (forall a, In a l -> 0 <= f a) -> 0 <= sumq (map f l).
Proof.
  induction l as [|a l IH]; intros H; cbn [map]; rewrite ?sumq_nil, ?sumq_cons; [lra |].
  specialize (H a (or_introl eq_refl)) as Ha.
  assert (0 <= sumq (map f l)) by (apply IH; intros b Hb; apply H; right; exact Hb). lra.
Qed.

Lemma sumq_pos (l : list Q) :
  l <> [] -> (forall a, In a l -> 0 < a) -> 0 < sumq l.
Proof.
  destruct l as [|a l]; [congruence |]. intros _ H. rewrite sumq_cons.
  assert (0 <= sumq l).
  { rewrite <- (map_id l). apply sumq_nonneg. intros b Hb. apply Qlt_le_weak, H. right; exact Hb. }
  specialize (H a (or_introl eq_refl)). lra.
Qed.

Lemma sumq_zeros {A} (l : list A) : sumq (map (fun _ => 0) l) == 0.
Proof. induction l as [|a l IH]; cbn [map]; rewrite ?sumq_nil, ?sumq_cons; [reflexivity | rewrite IH; ring]. Qed.


Lemma sumq_concat (L : list (list Q)) : sumq (concat L) == sumq (map sumq L).
Proof. induction L as [|l L IH]; cbn [concat map]; [reflexivity | rewrite sumq_app, sumq_cons, IH; reflexivity]. Qed.

Lemma sumq_ge_elem (l : list Q) (a : Q) : Forall (Qle 0) l -> In a l -> a <= sumq l.
Proof.
  induction l as [|b l IH]; intros H Ha; [destruct Ha |].
  inversion H as [|? ? Hb Hl]; subst. rewrite sumq_cons.
  assert (0 <= sumq l).
  { rewrite <- (map_id l). apply sumq_nonneg. intros c Hc. exact (proj1 (Forall_forall _ _) Hl c Hc). }
  destruct Ha as [<-|Ha]; [lra | specialize (IH Hl Ha); lra].
Qed.

Lemma sumq_repeat (a : Q) (n : nat) : sumq (repeat a n) == inject_Z (Z.of_nat n) * a.
Proof.
  induction n as [|n IH]; cbn [repeat]; rewrite ?sumq_nil, ?sumq_cons; [reflexivity |].
  rewrite IH, Nat2Z.inj_succ. unfold Z.succ. rewrite inject_Z_plus. ring.
Qed.

(** Lists equal entry by entry up to [Qeq]. *)
Lemma Forall2_map_Qeq {A} (f g : A -> Q) (l : list A) :
  (forall a, In a l -> f a == g a) -> Forall2 Qeq (map f l) (map g l).
Proof.
  induction l as [|a l IH]; intros H; cbn [map]; constructor.
  - apply H. left. reflexivity.
  - apply IH. intros b Hb. apply H. right. exact Hb.
Qed.

#[export] Instance sumq_Forall2 : Proper (Forall2 Qeq ==> Qeq) sumq.
Proof. intros l l' H. induction H as [|a b l l' Hab _ IH]; [reflexivity |]. rewrite !sumq_cons, Hab, IH. reflexivity. Qed.

#[export] Instance Qle_bool_proper : Proper (Qeq ==> Qeq ==> eq) Qle_bool.
Proof.
  intros x x' Hx y y' Hy. destruct (Qle_bool x y) eqn:E, (Qle_bool x' y') eqn:E'; try reflexivity.
  - apply Qle_bool_iff in E. rewrite Hx, Hy in E. apply Qle_bool_iff in E. congruence.
  - apply Qle_bool_iff in E'. rewrite <- Hx, <- Hy in E'. apply Qle_bool_iff in E'. congruence.
Qed.
