(* ===== verification/Gini.v ===== *)
(** * Gini: the Gini coefficient of [_classroomObjects.py]

    [gini] (lines 237-269) takes a Series of numbers.  It shifts the values
    by their minimum when that is negative, adds [0.0000001] to every value,
    sorts them ([np.sort]) and returns
    [sum((2 * i - n - 1) * a_i) / (n * sum(a))] over the indices
    [i = 1..n] of the sorted values.  This file proves that this is the Gini
    mean-difference coefficient [sum_i sum_j |a_i - a_j| / (2 n sum(a))] of
    the shifted values, hence that it does not depend on the order of the
    Series, and that it lies in [[0, 1 - 1/n]].  Values are rationals; the
    comparisons of the coefficient are up to [Qeq]. *)

From Stdlib Require Import ZArith QArith Qminmax Qabs Lqa Lia Sorted Permutation.
From Stdlib Require Import List Morphisms.
Import ListNotations.
From S2P Require Import Prelude QSum.

Open Scope Q_scope.

(** ** The function *)

(** [if np.amin(array) < 0: array -= np.amin(array)] (lines 257-259). *)
Definition shift_min (array : list Q) : list Q :=
  match array with
  | [] => []
  | a0 :: rest =>
      let m := fold_right Qmin a0 rest in
      if Qle_bool 0 m then array else map (fun a => a - m) array
  end.

(** [array += 0.0000001] (line 261). *)
Definition gini_eps : Q := 1 # 10000000.

Definition prepare (array : list Q) : list Q := map (fun a => a + gini_eps) (shift_min array).

(** [np.sort] (line 263), as an insertion sort. *)
Fixpoint insert_q (x : Q) (l : list Q) : list Q :=
  match l with
  | [] => [x]
  | h :: t => if Qle_bool x h then x :: l else h :: insert_q x t
  end.

Definition sort_q (l : list Q) : list Q := fold_right insert_q [] l.

(** [np.sum((2 * index - n - 1) * array)] with [index] counted from [i]. *)
Fixpoint weighted_from (i n : Z) (l : list Q) : Q :=
  match l with
  | [] => 0
  | a :: l' => inject_Z (2 * i - n - 1) * a + weighted_from (i + 1) n l'
  end.

(** Line 269.  An empty Series makes [np.amin] raise. *)
Definition gini (array : list Q) : option Q :=
  match array with
  | [] => None
  | _ :: _ =>
      let s := sort_q (prepare array) in
      let n := Z.of_nat (length s) in
      Some (weighted_from 1 n s / (inject_Z n * sumq s))
  end.

(** ** The reference definition *)

(** [sum_i sum_j |a_i - a_j|]. *)
Definition mad_sum (l : list Q) : Q :=
  sumq (map (fun a => sumq (map (fun b => Qabs (a - b)) l)) l).

(** The Gini coefficient as the relative mean absolute difference. *)
Definition gini_mad (l : list Q) : Q :=
  mad_sum l / (2 * inject_Z (Z.of_nat (length l)) * sumq l).

(** ** The sort *)

Lemma insert_q_perm (x : Q) (l : list Q) : Permutation (insert_q x l) (x :: l).
Proof.
  induction l as [|h t IH]; cbn; [reflexivity |].
  destruct (Qle_bool x h); [reflexivity |].
  etransitivity; [apply perm_skip, IH | apply perm_swap].
Qed.

Lemma sort_q_perm (l : list Q) : Permutation (sort_q l) l.
Proof.
  induction l as [|a l IH]; cbn; [reflexivity |].
  etransitivity; [apply insert_q_perm | apply perm_skip, IH].
Qed.

Lemma insert_q_sorted (x : Q) (l : list Q) : Sorted Qle l -> Sorted Qle (insert_q x l).
Proof.
  induction 1 as [|h t Ht IH Hh]; cbn; [repeat constructor |].
  destruct (Qle_bool x h) eqn:E; [apply Qle_bool_iff in E; repeat constructor; assumption |].
  assert (Hhx : h <= x) by (apply Qlt_le_weak, Qnot_le_lt; intros C; apply Qle_bool_iff in C; congruence).
  constructor; [exact IH |]. destruct t as [|h' t']; cbn; [constructor; exact Hhx |].
  inversion Hh; subst. destruct (Qle_bool x h'); constructor; assumption.
Qed.

Lemma sort_q_sorted (l : list Q) : Sorted Qle (sort_q l).
Proof. induction l as [|a l IH]; cbn; [constructor | apply insert_q_sorted, IH]. Qed.

Lemma length_sort_q (l : list Q) : length (sort_q l) = length l.
Proof. apply Permutation_length, sort_q_perm. Qed.

(** ** The weighted sum of sorted values is half the mean-difference sum *)

Lemma coef_Q (i n : Z) : inject_Z (2 * i - n - 1) == 2 * inject_Z i - inject_Z n - 1.
Proof. unfold Qeq; cbn. lia. Qed.

Lemma weighted_shift_i (i n : Z) (l : list Q) :
  weighted_from (i + 1) n l == weighted_from i n l + 2 * sumq l.
Proof.
  revert i. induction l as [|a l IH]; intros i; cbn [weighted_from]; rewrite ?sumq_nil, ?sumq_cons;
    [ring |]. rewrite IH, !coef_Q, inject_Z_plus. ring.
Qed.

Lemma weighted_shift_n (i n : Z) (l : list Q) :
  weighted_from i (n + 1) l == weighted_from i n l - sumq l.
Proof.
  revert i. induction l as [|a l IH]; intros i; cbn [weighted_from]; rewrite ?sumq_nil, ?sumq_cons;
    [ring |]. rewrite IH, !coef_Q, inject_Z_plus. ring.
Qed.

Lemma weighted_cons (x : Q) (t : list Q) :
  weighted_from 1 (Z.of_nat (length (x :: t))) (x :: t) ==
  weighted_from 1 (Z.of_nat (length t)) t + sumq t - inject_Z (Z.of_nat (length t)) * x.
Proof.
  cbn [weighted_from length]. rewrite Nat2Z.inj_succ. unfold Z.succ.
  set (m := Z.of_nat (length t)).
  rewrite weighted_shift_n. replace (1 + 1)%Z with 2%Z by reflexivity.
  replace 2%Z with (1 + 1)%Z at 2 by reflexivity.
  rewrite weighted_shift_i, coef_Q, inject_Z_plus. ring.
Qed.

Lemma mad_sum_cons (x : Q) (t : list Q) :
  mad_sum (x :: t) == mad_sum t + 2 * sumq (map (fun b => Qabs (x - b)) t).
Proof.
  assert (E : sumq (map (fun a => sumq (map (fun b => Qabs (a - b)) (x :: t))) t) ==
              sumq (map (fun b => Qabs (x - b)) t) + mad_sum t).
  { unfold mad_sum. rewrite <- sumq_map_plus. apply sumq_map_ext. intros a _.
    cbn [map]. rewrite sumq_cons, Qabs_Qminus. reflexivity. }
  unfold mad_sum at 1. cbn [map]. rewrite sumq_cons. fold (map (fun b => Qabs (x - b)) t).
  assert (Hxx : Qabs (x - x) == 0) by (rewrite Qabs_pos; [ring | lra]).
  rewrite E, sumq_cons, Hxx. ring.
Qed.

Lemma sum_abs_below (x : Q) (t : list Q) :
  Forall (Qle x) t ->
  sumq (map (fun b => Qabs (x - b)) t) == sumq t - inject_Z (Z.of_nat (length t)) * x.
Proof.
  induction 1 as [|b t Hb _ IH]; cbn [map length]; rewrite ?sumq_nil, ?sumq_cons; [ring |].
  rewrite IH, Nat2Z.inj_succ, <- Z.add_1_r, inject_Z_plus, Qabs_Qminus, Qabs_pos by lra. ring.
Qed.

(** Line 269's numerator: for values sorted in increasing order,
    [sum((2 i - n - 1) a_i)] is half of [sum_i sum_j |a_i - a_j|]. *)
Lemma weighted_mad (s : list Q) :
  Sorted Qle s -> 2 * weighted_from 1 (Z.of_nat (length s)) s == mad_sum s.
Proof.
  intros Hs. apply Sorted_StronglySorted in Hs; [| intros a b c; apply Qle_trans].
  induction Hs as [|x t _ IH Hx]; [reflexivity |].
  rewrite weighted_cons, mad_sum_cons, sum_abs_below by exact Hx. rewrite <- IH. ring.
Qed.

(** The mean-difference sum depends only on the elements. *)
#[export] Instance mad_sum_perm : Proper (@Permutation Q ==> Qeq) mad_sum.
Proof.
  intros l l' Hp. unfold mad_sum.
  transitivity (sumq (map (fun a => sumq (map (fun b => Qabs (a - b)) l')) l)).
  - apply sumq_map_ext. intros a _. apply sumq_perm, Permutation_map, Hp.
  - apply sumq_perm, Permutation_map, Hp.
Qed.

Lemma mad_sum_nonneg (l : list Q) : 0 <= mad_sum l.
Proof. apply sumq_nonneg. intros a _. apply sumq_nonneg. intros b _. apply Qabs_nonneg. Qed.

(** ** The prepared values are positive *)

Lemma fold_min_le (a0 : Q) (rest : list Q) (a : Q) :
  In a (a0 :: rest) -> fold_right Qmin a0 rest <= a.
Proof.
  induction rest as [|r rest IH]; intros Ha; cbn [fold_right].
  - destruct Ha as [<-|[]]. apply Qle_refl.
  - destruct Ha as [<-|[<-|Ha]].
    + eapply Qle_trans; [apply Q.le_min_r | apply IH; left; reflexivity].
    + apply Q.le_min_l.
    + eapply Qle_trans; [apply Q.le_min_r | apply IH; right; exact Ha].
Qed.

Lemma shift_min_nonneg (array : list Q) (a : Q) : In a (shift_min array) -> 0 <= a.
Proof.
  destruct array as [|a0 rest]; [intros [] |]. unfold shift_min.
  destruct (Qle_bool 0 (fold_right Qmin a0 rest)) eqn:E.
  - apply Qle_bool_iff in E. intros Ha. pose proof (fold_min_le a0 rest a Ha). lra.
  - intros Ha. apply in_map_iff in Ha as (b & <- & Hb). pose proof (fold_min_le a0 rest b Hb). lra.
Qed.

Lemma prepare_pos (array : list Q) (a : Q) : In a (prepare array) -> 0 < a.
Proof.
  unfold prepare, gini_eps. intros Ha. apply in_map_iff in Ha as (b & <- & Hb).
  pose proof (shift_min_nonneg array b Hb). lra.
Qed.

Lemma length_prepare (array : list Q) : length (prepare array) = length array.
Proof.
  unfold prepare, shift_min. rewrite length_map. destruct array as [|a0 rest]; [reflexivity |].
  destruct (Qle_bool 0 _); [reflexivity | apply length_map].
Qed.

(** ** Line 269 in terms of the prepared values *)

Lemma gini_value (array : list Q) :
  array <> [] ->
  gini array = Some (weighted_from 1 (Z.of_nat (length (sort_q (prepare array)))) (sort_q (prepare array))
                     / (inject_Z (Z.of_nat (length (sort_q (prepare array)))) * sumq (sort_q (prepare array)))).
Proof. destruct array; [congruence | reflexivity]. Qed.

(** The value of line 269 is the relative mean difference of the prepared
    values. *)
Lemma sorted_formula_mad (p : list Q) :
  weighted_from 1 (Z.of_nat (length (sort_q p))) (sort_q p)
    / (inject_Z (Z.of_nat (length (sort_q p))) * sumq (sort_q p)) == gini_mad p.
Proof.
  unfold gini_mad. rewrite <- (mad_sum_perm _ _ (sort_q_perm p)), <- (weighted_mad _ (sort_q_sorted p)).
  rewrite <- (sumq_perm _ _ (sort_q_perm p)), <- (length_sort_q p).
  unfold Qdiv. rewrite !Qinv_mult_distr. change (/ 2) with (1 # 2). ring.
Qed.

Lemma weighted_le (i n : Z) (l : list Q) :
  (forall a, In a l -> 0 <= a) -> (i + Z.of_nat (length l) - 1 <= n)%Z ->
  weighted_from i n l <= inject_Z (n - 1) * sumq l.
Proof.
  revert i. induction l as [|a l IH]; intros i Hl Hi; cbn [weighted_from length] in *;
    rewrite ?sumq_nil, ?sumq_cons; [lra |].
  assert (Hc : inject_Z (2 * i - n - 1) <= inject_Z (n - 1)) by (rewrite <- Zle_Qle; lia).
  assert (Ha : 0 <= a) by (apply Hl; left; reflexivity).
  assert (IH' : weighted_from (i + 1) n l <= inject_Z (n - 1) * sumq l)
    by (apply IH; [intros b Hb; apply Hl; right; exact Hb | lia]).
  assert (inject_Z (2 * i - n - 1) * a <= inject_Z (n - 1) * a) by (apply Qmult_le_compat_r; assumption).
  lra.
Qed.

(** ** Properties *)

(** C19. The sorted-index formula of line 269 computes the Gini mean
    difference: for a non-empty Series, [gini] returns
    [sum_i sum_j |a_i - a_j| / (2 n sum(a))] of the shifted values. *)
Theorem gini_mean_difference (array : list Q) :
  array <> [] -> exists g, gini array = Some g /\ g == gini_mad (prepare array).
Proof.
  intros Hne. eexists. split; [exact (gini_value array Hne) | apply sorted_formula_mad].
Qed.

Lemma gini_mean_difference_witness :
  [1; 2; 3] <> [] /\ exists g, gini [1; 2; 3] = Some g /\ g == gini_mad (prepare [1; 2; 3]).
Proof.
  assert (H : [1; 2; 3] <> []) by discriminate.
  split; [exact H | exact (gini_mean_difference _ H)].
Defined.

(** The coefficient of a non-empty Series lies between 0 and
    [1 - 1/n], [n] the number of values. *)
Theorem gini_bounds (array : list Q) :
  array <> [] ->
  exists g, gini array = Some g /\ 0 <= g /\ g <= 1 - 1 / inject_Z (Z.of_nat (length array)).
Proof.
  intros Hne. eexists. split; [exact (gini_value array Hne) |].
  set (s := sort_q (prepare array)).
  assert (Hn : length s = length array) by (unfold s; rewrite length_sort_q; apply length_prepare).
  assert (Hpos : forall a, In a s -> 0 < a)
    by (intros a Ha; apply (prepare_pos array), (Permutation_in _ (sort_q_perm _)), Ha).
  assert (HS : 0 < sumq s).
  { apply sumq_pos; [| exact Hpos]. intros E. apply Hne, length_zero_iff_nil.
    rewrite <- Hn, E. reflexivity. }
  set (n := Z.of_nat (length s)).
  assert (Hn1 : (1 <= n)%Z) by (unfold n; rewrite Hn; destruct array; [congruence | cbn; lia]).
  assert (HnQ : 1 <= inject_Z n) by (change 1 with (inject_Z 1); rewrite <- Zle_Qle; exact Hn1).
  assert (HW0 : 0 <= weighted_from 1 n s).
  { pose proof (weighted_mad s (sort_q_sorted _)). pose proof (mad_sum_nonneg s). unfold n. lra. }
  assert (HW1 : weighted_from 1 n s <= inject_Z (n - 1) * sumq s)
    by (apply weighted_le; [intros a Ha; apply Qlt_le_weak, Hpos, Ha | unfold n; lia]).
  assert (HnS : 0 < inject_Z n * sumq s) by (apply Qmult_lt_0_compat; lra).
  rewrite <- Hn. fold n. split.
  - apply Qle_shift_div_l; [exact HnS | lra].
  - apply Qle_shift_div_r; [exact HnS |].
    assert (E1 : inject_Z (n - 1) == inject_Z n - 1) by (unfold Qeq; cbn; lia).
    assert (E2 : (1 - 1 / inject_Z n) * (inject_Z n * sumq s) == (inject_Z n - 1) * sumq s)
      by (field; lra).
    rewrite E2, <- E1. exact HW1.
Qed.

Lemma gini_bounds_witness :
  [0; 5; 5] <> [] /\
  exists g, gini [0; 5; 5] = Some g /\ 0 <= g /\ g <= 1 - 1 / inject_Z (Z.of_nat (length [0; 5; 5])).
Proof.
  assert (H : [0; 5; 5] <> []) by discriminate.
  split; [exact H | exact (gini_bounds _ H)].
Defined.

Lemma mad_sum_const (l : list Q) : (forall a b, In a l -> In b l -> a = b) -> mad_sum l == 0.
Proof.
  intros H. unfold mad_sum. rewrite <- (sumq_zeros l). apply sumq_map_ext. intros a Ha.
  rewrite <- (sumq_zeros l). apply sumq_map_ext. intros b Hb. rewrite (H a b Ha Hb).
  rewrite Qabs_pos; [ring | lra].
Qed.

Lemma prepare_repeat_const (c : Q) (k : nat) (a b : Q) :
  In a (prepare (repeat c (S k))) -> In b (prepare (repeat c (S k))) -> a = b.
Proof.
  unfold prepare, shift_min. cbn [repeat].
  destruct (Qle_bool 0 (fold_right Qmin c (repeat c k)));
    intros (a' & <- & Ha)%in_map_iff (b' & <- & Hb)%in_map_iff;
    [| apply in_map_iff in Ha as (a'' & <- & Ha); apply in_map_iff in Hb as (b'' & <- & Hb)];
    repeat match goal with H : In _ (_ :: repeat _ _) |- _ =>
      destruct H as [<-|H%repeat_spec]; [| subst] end; reflexivity.
Qed.

(** Perfect equality: a Series of equal values has coefficient 0. *)
Theorem gini_equal_values (c : Q) (k : nat) :
  exists g, gini (repeat c (S k)) = Some g /\ g == 0.
Proof.
  eexists. split; [apply gini_value; discriminate |]. rewrite sorted_formula_mad.
  unfold gini_mad. rewrite mad_sum_const by apply prepare_repeat_const. apply Qmult_0_l.
Qed.
