(* ===== verification/EntropyGrid.v ===== *)
(** * EntropyGrid: the occupancy grids of [_entropy.py]

    [calculate_entropy_session_tracker_phase] (lines 36-129) and
    [calculate_entropy_session_tracker] (lines 133-230) cut the room into
    [m] rows and [n] columns of square cells, [n = int(round(room_x /
    size_of_grid_cells, 0))] with Python's round-half-to-even, and count,
    for every group of the table (session, tracker and phase, or session and
    tracker), the samples of the group in each cell.  The cell of a sample
    is [(floor(y / size), floor(x / size))]; the only test is
    [x_var < n and y_var < m], so a negative index is read the Python way,
    from the end of the list, and an index below [-n] raises [IndexError]
    (here [None]).  The counts are then turned into percentages of the
    group's size.  The grid is a [list (list Z)] updated with stdpp's list
    [insert]. *)

From Stdlib Require Import ZArith QArith Qround Lia Lqa List.
From stdpp Require Import base list decidable.
From S2P Require Import Prelude Samples QSum.

Open Scope Z_scope.

(** The parameters read from [info.ini]. *)
Record grid_config := mk_grid_config {
  room_x : Q;
  room_y : Q;
  size_of_grid_cells : Q
}.

(** [int(round(q, 0))]: round half to even. *)
Definition py_round (q : Q) : Z :=
  let f := Qfloor q in
  let r := (q - inject_Z f)%Q in
  if negb (Qle_bool (1 # 2) r) then f
  else if negb (Qle_bool r (1 # 2)) then f + 1
  else if Z.even f then f else f + 1.

(** Lines 75-76. *)
Definition n_gridsquares (c : grid_config) : Z := py_round (room_x c / size_of_grid_cells c).
Definition m_gridsquares (c : grid_config) : Z := py_round (room_y c / size_of_grid_cells c).

Abbreviation grid := (list (list Z)).

(** Lines 84-86: [m] rows of [n] zeros ([[0] * k] is empty for [k <= 0]). *)
Definition zero_grid (m n : Z) : grid := repeat (repeat 0 (Z.to_nat n)) (Z.to_nat m).

(** Python's [l[i]] on a list of length [len]: a negative index counts from
    the end; out of range raises [IndexError] ([None]). *)
Definition py_index (len : nat) (i : Z) : option nat :=
  if (0 <=? i) && (i <? Z.of_nat len) then Some (Z.to_nat i)
  else if (- Z.of_nat len <=? i) && (i <? 0) then Some (Z.to_nat (Z.of_nat len + i))
  else None.

(** [(new_grid[y_var])[x_var] = (new_grid[y_var])[x_var] + 1] (line 99). *)
Definition incr_cell (g : grid) (yv xv : Z) : option grid :=
  r ← py_index (length g) yv;
  row ← g !! r;
  c ← py_index (length row) xv;
  v ← row !! c;
  Some (<[r := <[c := v + 1]> row]> g).

(** [int(math.floor(v / size_of_grid_cells))] (lines 91-92). *)
Definition cell_of (size v : Q) : Z := Qfloor (v / size).

(** The test of lines 93-98 for a row. *)
Definition counted (size : Q) (n m : Z) (sel : sample -> bool) (r : sample) : bool :=
  (cell_of size (x r) <? n) && (cell_of size (y r) <? m) && sel r.

(** The loop of lines 90-99 over every row of the table. *)
Fixpoint fill_grid (size : Q) (n m : Z) (sel : sample -> bool) (df : list sample) (g : grid)
    : option grid :=
  match df with
  | [] => Some g
  | r :: df' =>
      if counted size n m sel r then
        g' ← incr_cell g (cell_of size (y r)) (cell_of size (x r));
        fill_grid size n m sel df' g'
      else fill_grid size n m sel df' g
  end.

(** Lines 107-116: every cell as a percentage of the group's size. *)
Definition proportions (count : Z) (g : grid) : list (list Q) :=
  map (map (fun c => inject_Z c * 100 / inject_Z count)%Q) g.

(** ** The groups *)

(** [df.groupby(keys).size().reset_index()]: the distinct keys in ascending
    order with the number of rows of each. *)
Section Groups.
Context {K : Type} `{EqDecision K} (key : sample -> K) (ltb : K -> K -> bool).

Definition group_counts (df : list sample) : list (K * Z) :=
  map (fun k => (k, Z.of_nat (length (List.filter (fun r => bool_decide (key r = k)) df))))
    (fold_right (insert_by ltb) [] (unique (map key df))).

(** The grid of one group (lines 84-116). *)
Definition group_grid (c : grid_config) (df : list sample) (k : K) (count : Z)
    : option (list (list Q)) :=
  let n := n_gridsquares c in
  let m := m_gridsquares c in
  g ← fill_grid (size_of_grid_cells c) n m (fun r => bool_decide (key r = k)) df (zero_grid m n);
  Some (proportions count g).

(** The loop over the groups (lines 82-121): the grids, or [IndexError]. *)
Definition grids (c : grid_config) (df : list sample) : option (list (K * Z * list (list Q))) :=
  mapM (fun '(k, count) => g ← group_grid c df k count; Some (k, count, g)) (group_counts df).

End Groups.

(** The keys [['session','tracker','phase']] (line 78) and
    [['session','tracker']] (line 182), compared lexicographically
    ([lex3_ltb], [lex2_ltb] of [Prelude]). *)
Definition key_stp (r : sample) : Z * Z * Z := (session r, tracker r, phase r).
Definition key_st (r : sample) : Z * Z := (session r, tracker r).

(** ** Shape and total of a grid *)

(** [m] rows of [n] cells. *)
Definition grid_shape (m n : nat) (g : grid) : Prop :=
  length g = m /\ Forall (fun row => length row = n) g.

(** The number of samples counted in a grid. *)
Definition grid_total (g : grid) : Z := sumZ (sumZ (fun v => v)) g.

Lemma zero_grid_shape (m n : Z) : grid_shape (Z.to_nat m) (Z.to_nat n) (zero_grid m n).
Proof.
  unfold grid_shape, zero_grid. rewrite repeat_length. split; [reflexivity |].
  apply Forall_forall. intros row Hrow. apply repeat_spec in Hrow as ->. apply repeat_length.
Qed.

Lemma zero_grid_total (m n : Z) : grid_total (zero_grid m n) = 0.
Proof.
  assert (H0 : forall k, sumZ (fun v : Z => v) (repeat 0 k) = 0)
    by (induction k as [|k IHk]; [reflexivity | exact IHk]).
  unfold grid_total, zero_grid. induction (Z.to_nat m) as [|k IH]; [reflexivity |].
  change (sumZ (sumZ (fun v => v)) (repeat (repeat 0 (Z.to_nat n)) (S k)))
    with (sumZ (fun v => v) (repeat 0 (Z.to_nat n)) + sumZ (sumZ (fun v => v)) (repeat (repeat 0 (Z.to_nat n)) k)).
  rewrite IH, H0. reflexivity.
Qed.

Lemma py_index_none (len : nat) (i : Z) :
  py_index len i = None <-> i < - Z.of_nat len \/ Z.of_nat len <= i.
Proof.
  unfold py_index.
  destruct (Z.leb_spec 0 i), (Z.ltb_spec i (Z.of_nat len)), (Z.leb_spec (- Z.of_nat len) i),
    (Z.ltb_spec i 0); cbn; split; intros; try discriminate; try reflexivity; lia.
Qed.

Lemma py_index_lt (len : nat) (i : Z) (k : nat) : py_index len i = Some k -> (k < len)%nat.
Proof.
  unfold py_index.
  destruct (Z.leb_spec 0 i), (Z.ltb_spec i (Z.of_nat len)), (Z.leb_spec (- Z.of_nat len) i),
    (Z.ltb_spec i 0); cbn; intros Hk; try discriminate; injection Hk as <-; lia.
Qed.

(** An increment raises [IndexError] exactly when a coordinate of the cell
    is out of Python's index range. *)
Lemma incr_cell_none (m n : nat) (g : grid) (yv xv : Z) :
  grid_shape m n g ->
  incr_cell g yv xv = None <->
  (yv < - Z.of_nat m \/ Z.of_nat m <= yv \/ xv < - Z.of_nat n \/ Z.of_nat n <= xv).
Proof.
  intros [Hm Hn]. unfold incr_cell. destruct (py_index (length g) yv) as [r|] eqn:Er; cbn.
  - pose proof (py_index_lt _ _ _ Er) as Hr.
    destruct (lookup_lt_is_Some_2 g r Hr) as [row Hrow]. rewrite Hrow. cbn.
    assert (Hlen : length row = n) by (eapply (Forall_lookup_1 (fun row => length row = n)); eauto).
    destruct (py_index (length row) xv) as [c|] eqn:Ec; cbn.
    + pose proof (py_index_lt _ _ _ Ec) as Hc.
      destruct (lookup_lt_is_Some_2 row c Hc) as [v Hv]. rewrite Hv. cbn.
      split; [discriminate |]. intros H.
      assert (Hy : ~ (yv < - Z.of_nat m \/ Z.of_nat m <= yv))
        by (rewrite <- Hm, <- py_index_none, Er; discriminate).
      assert (Hx : ~ (xv < - Z.of_nat n \/ Z.of_nat n <= xv))
        by (rewrite <- Hlen, <- py_index_none, Ec; discriminate).
      lia.
    + apply py_index_none in Ec. rewrite Hlen in Ec. split; [lia | reflexivity].
  - apply py_index_none in Er. rewrite Hm in Er. split; [lia | reflexivity].
Qed.

(** A successful increment keeps the shape and adds one sample. *)
Lemma incr_cell_some (m n : nat) (g g' : grid) (yv xv : Z) :
  grid_shape m n g -> incr_cell g yv xv = Some g' ->
  grid_shape m n g' /\ grid_total g' = grid_total g + 1.
Proof.
  intros [Hm Hn]. unfold incr_cell.
  destruct (py_index (length g) yv) as [r|] eqn:Er; cbn; [| discriminate].
  destruct (g !! r) as [row|] eqn:Hrow; cbn; [| discriminate].
  destruct (py_index (length row) xv) as [c|] eqn:Ec; cbn; [| discriminate].
  destruct (row !! c) as [v|] eqn:Hv; cbn; [| discriminate].
  intros [= <-]. split; [split |].
  - rewrite length_insert. exact Hm.
  - apply Forall_insert; [exact Hn |]. rewrite length_insert.
    eapply (Forall_lookup_1 (fun row => length row = n)); eauto.
  - unfold grid_total. rewrite (sumZ_insert _ _ _ _ _ Hrow), (sumZ_insert _ _ _ _ _ Hv). lia.
Qed.

(** ** The fill loop *)

Lemma fill_grid_some (size : Q) (n m : Z) (sel : sample -> bool) (df : list sample)
    (mn nn : nat) (g g' : grid) :
  grid_shape mn nn g -> fill_grid size n m sel df g = Some g' ->
  grid_shape mn nn g' /\
  grid_total g' = grid_total g + Z.of_nat (length (List.filter (counted size n m sel) df)).
Proof.
  revert g. induction df as [|r df IH]; intros g Hg Hf; cbn [fill_grid List.filter] in *.
  - injection Hf as <-. cbn. split; [exact Hg | lia].
  - destruct (counted size n m sel r) eqn:Ec; [| exact (IH g Hg Hf)].
    destruct (incr_cell g (cell_of size (y r)) (cell_of size (x r))) as [g1|] eqn:Ei;
      cbn in Hf; [| discriminate].
    destruct (incr_cell_some _ _ _ _ _ _ Hg Ei) as [Hg1 Ht1].
    destruct (IH g1 Hg1 Hf) as [Hg' Ht']. split; [exact Hg' |]. cbn [length]. lia.
Qed.

Lemma fill_grid_none (size : Q) (n m : Z) (sel : sample -> bool) (df : list sample) (g : grid) :
  0 <= m -> 0 <= n -> grid_shape (Z.to_nat m) (Z.to_nat n) g ->
  fill_grid size n m sel df g = None <->
  exists r, In r df /\ counted size n m sel r = true /\
            (cell_of size (y r) < - m \/ cell_of size (x r) < - n).
Proof.
  intros Hm Hn. revert g. induction df as [|r df IH]; intros g Hg; cbn [fill_grid].
  - split; [discriminate | intros (r & [] & _)].
  - destruct (counted size n m sel r) eqn:Ec.
    + pose proof (incr_cell_none _ _ g (cell_of size (y r)) (cell_of size (x r)) Hg) as Hnone.
      rewrite !Z2Nat.id in Hnone by assumption.
      assert (Hc := Ec). unfold counted in Hc. zbool.
      destruct (incr_cell g (cell_of size (y r)) (cell_of size (x r))) as [g1|] eqn:Ei; cbn -[cell_of].
      * destruct (incr_cell_some _ _ _ _ _ _ Hg Ei) as [Hg1 _]. rewrite (IH g1 Hg1).
        split; [intros (r' & A1 & A2); exists r'; split; [right; exact A1 | exact A2] |].
        intros (r' & [<-|A1] & A2 & A3); [| exists r'; auto].
        assert (Some g1 = None) by (apply Hnone; lia). discriminate.
      * split; [intros _ | reflexivity].
        exists r. split; [left; reflexivity | split; [exact Ec |]].
        destruct (proj1 Hnone eq_refl) as [?|[?|[?|?]]]; lia.
    + rewrite (IH g Hg). split; [intros (r' & A1 & A2); exists r'; split; [right; exact A1 | exact A2] |].
      intros (r' & [<-|A1] & A2 & A3); [congruence | exists r'; auto].
Qed.

Lemma filter_counted_le (size : Q) (n m : Z) (sel : sample -> bool) (df : list sample) :
  (length (List.filter (counted size n m sel) df) <= length (List.filter sel df))%nat.
Proof.
  induction df as [|r df IH]; cbn; [lia |]. unfold counted at 1.
  destruct (sel r); rewrite ?andb_true_r, ?andb_false_r; [destruct (_ && _); cbn |]; lia.
Qed.

(** Cells count samples: they stay non-negative. *)
Definition grid_nonneg (g : grid) : Prop := Forall (Forall (fun v => 0 <= v)) g.

Lemma zero_grid_nonneg (m n : Z) : grid_nonneg (zero_grid m n).
Proof.
  apply Forall_forall. intros row Hrow. apply repeat_spec in Hrow as ->.
  apply Forall_forall. intros v Hv. apply repeat_spec in Hv as ->. lia.
Qed.

Lemma incr_cell_nonneg (g g' : grid) (yv xv : Z) :
  grid_nonneg g -> incr_cell g yv xv = Some g' -> grid_nonneg g'.
Proof.
  intros Hg. unfold incr_cell.
  destruct (py_index (length g) yv) as [r|]; cbn; [| discriminate].
  destruct (g !! r) as [row|] eqn:Hrow; cbn; [| discriminate].
  destruct (py_index (length row) xv) as [c|]; cbn; [| discriminate].
  destruct (row !! c) as [v|] eqn:Hv; cbn; [| discriminate]. intros [= <-].
  assert (Hr : Forall (fun v => 0 <= v) row)
    by (eapply (Forall_lookup_1 (fun row => Forall (fun v => 0 <= v) row)); eauto).
  assert (0 <= v) by (eapply (Forall_lookup_1 (fun v => 0 <= v)); eauto).
  apply Forall_insert; [exact Hg |]. apply Forall_insert; [exact Hr | lia].
Qed.

Lemma fill_grid_nonneg (size : Q) (n m : Z) (sel : sample -> bool) (df : list sample) (g g' : grid) :
  grid_nonneg g -> fill_grid size n m sel df g = Some g' -> grid_nonneg g'.
Proof.
  revert g. induction df as [|r df IH]; intros g Hg Hf; cbn [fill_grid] in Hf.
  - injection Hf as <-. exact Hg.
  - destruct (counted size n m sel r); [| exact (IH g Hg Hf)].
    destruct (incr_cell g _ _) as [g1|] eqn:Ei; cbn in Hf; [| discriminate].
    exact (IH g1 (incr_cell_nonneg _ _ _ _ Hg Ei) Hf).
Qed.

Lemma grid_total_concat (g : grid) : grid_total g = sumZ (fun v => v) (concat g).
Proof.
  unfold grid_total. induction g as [|row g IH]; [reflexivity |].
  cbn [concat]. rewrite sumZ_app, <- IH. reflexivity.
Qed.

Lemma grid_shape_concat_length (m n : nat) (g : grid) :
  grid_shape m n g -> length (concat g) = (m * n)%nat.
Proof.
  intros [Hm Hn]. subst m. induction Hn as [|row g Hrow _ IH]; [reflexivity |].
  cbn [concat length]. rewrite length_app, Hrow, IH. lia.
Qed.

(** Every group of [groupby(...).size()] has its size as [count], and it
    is not empty. *)
Lemma group_counts_in {K : Type} `{EqDecision K} (key : sample -> K) (ltb : K -> K -> bool)
    (df : list sample) (k : K) (count : Z) :
  In (k, count) (group_counts key ltb df) ->
  count = Z.of_nat (length (List.filter (fun r => bool_decide (key r = k)) df)) /\ 0 < count.
Proof.
  unfold group_counts. rewrite List.in_map_iff. intros (k' & Heq & Hk). injection Heq as -> <-.
  split; [reflexivity |].
  apply in_fold_insert_by, in_unique, List.in_map_iff in Hk as (r & Hr & Hin).
  assert (Hf : In r (List.filter (fun r => bool_decide (key r = k)) df))
    by (apply filter_In; split; [exact Hin | apply bool_decide_eq_true; exact Hr]).
  assert (Hl : (0 < length (List.filter (fun r => bool_decide (key r = k)) df))%nat)
    by (destruct (List.filter (fun r => bool_decide (key r = k)) df); [destruct Hf | cbn; lia]).
  lia.
Qed.

(** ** Properties of the grids *)

(** The grid keeps its type: filling the [m]-by-[n] grid of zeros, when
    it does not raise, gives a grid of [m] rows of [n] cells. *)
Theorem fill_grid_shape (size : Q) (n m : Z) (sel : sample -> bool) (df : list sample) (g : grid) :
  fill_grid size n m sel df (zero_grid m n) = Some g -> grid_shape (Z.to_nat m) (Z.to_nat n) g.
Proof. intros H. exact (proj1 (fill_grid_some _ _ _ _ _ _ _ _ _ (zero_grid_shape m n) H)). Qed.

(** C17. The cells of a filled grid add up to the number of rows of the
    table that pass the test of lines 93-98 (in the room by the upper
    bounds, and in the group). *)
Theorem fill_grid_counts (size : Q) (n m : Z) (sel : sample -> bool) (df : list sample) (g : grid) :
  fill_grid size n m sel df (zero_grid m n) = Some g ->
  grid_total g = Z.of_nat (length (List.filter (counted size n m sel) df)).
Proof.
  intros H. destruct (fill_grid_some _ _ _ _ _ _ _ _ _ (zero_grid_shape m n) H) as [_ Ht].
  rewrite Ht, zero_grid_total. lia.
Qed.

(** C18. The fill raises [IndexError] exactly when a row that passes the
    test has a cell index below [-m] or [-n]: the test checks only the upper
    bounds. *)
Theorem fill_grid_index_error (size : Q) (n m : Z) (sel : sample -> bool) (df : list sample) :
  0 <= m -> 0 <= n ->
  fill_grid size n m sel df (zero_grid m n) = None <->
  exists r, In r df /\ counted size n m sel r = true /\
            (cell_of size (y r) < - m \/ cell_of size (x r) < - n).
Proof. intros Hm Hn. apply fill_grid_none; [exact Hm | exact Hn | apply zero_grid_shape]. Qed.

Definition smp_xy (tr : Z) (x0 y0 : Q) : sample := mk_sample tr 1 0 x0 y0 1 1.

Lemma fill_grid_shape_witness :
  fill_grid 1000 2 3 (fun _ => true) [smp_xy 1 500 2500] (zero_grid 3 2) = Some [[0; 0]; [0; 0]; [1; 0]] /\
  grid_shape 3 2 [[0; 0]; [0; 0]; [1; 0]].
Proof.
  assert (H : fill_grid 1000 2 3 (fun _ => true) [smp_xy 1 500 2500] (zero_grid 3 2) =
              Some [[0; 0]; [0; 0]; [1; 0]]) by reflexivity.
  split; [exact H | exact (fill_grid_shape _ _ _ _ _ _ H)].
Defined.

Lemma fill_grid_counts_witness :
  fill_grid 1000 2 3 (fun _ => true) [smp_xy 1 500 2500] (zero_grid 3 2) = Some [[0; 0]; [0; 0]; [1; 0]] /\
  grid_total [[0; 0]; [0; 0]; [1; 0]] =
  Z.of_nat (length (List.filter (counted 1000 2 3 (fun _ => true)) [smp_xy 1 500 2500])).
Proof.
  assert (H : fill_grid 1000 2 3 (fun _ => true) [smp_xy 1 500 2500] (zero_grid 3 2) =
              Some [[0; 0]; [0; 0]; [1; 0]]) by reflexivity.
  split; [exact H | exact (fill_grid_counts _ _ _ _ _ _ H)].
Defined.

Lemma fill_grid_index_error_witness :
  0 <= 3 /\ 0 <= 2 /\
  (fill_grid 1000 2 3 (fun _ => true) [smp_xy 1 (-3000) 500] (zero_grid 3 2) = None <->
   exists r, In r [smp_xy 1 (-3000) 500] /\ counted 1000 2 3 (fun _ => true) r = true /\
             (cell_of 1000 (y r) < - 3 \/ cell_of 1000 (x r) < - 2)).
Proof.
  split; [lia | split; [lia | apply fill_grid_index_error; lia]].
Defined.

(** A sample left of the room's origin is counted in the last column:
    at [x = -10] the column index is [-1], which passes [x_var < n] and
    reads [new_grid[y_var][-1]]. *)
Example negative_coordinate_wraps :
  fill_grid 1000 2 3 (fun _ => true) [smp_xy 1 (-10) 500] (zero_grid 3 2) =
  Some [[0; 1]; [0; 0]; [0; 0]].
Proof. reflexivity. Qed.

(** ** The proportions *)

Lemma sumq_proportions (cnt : Z) (g : grid) :
  (sumq (concat (proportions cnt g)) == inject_Z (grid_total g) * 100 / inject_Z cnt)%Q.
Proof.
  unfold proportions, grid_total. rewrite sumq_concat, map_map.
  induction g as [|row g IH]; [unfold Qdiv; cbn; ring |].
  cbn [map]. rewrite sumq_cons, IH.
  change (sumZ (sumZ (fun v => v)) (row :: g)) with (sumZ (fun v => v) row + sumZ (sumZ (fun v => v)) g).
  assert (Hrow : (sumq (map (fun c => inject_Z c * 100 / inject_Z cnt) row) ==
                  inject_Z (sumZ (fun v => v) row) * 100 / inject_Z cnt)%Q).
  { induction row as [|v row IHr]; [unfold Qdiv; cbn; ring |].
    cbn [map]. rewrite sumq_cons, IHr.
    change (sumZ (fun v => v) (v :: row)) with (v + sumZ (fun v => v) row).
    rewrite inject_Z_plus. unfold Qdiv. ring. }
  rewrite Hrow, inject_Z_plus. unfold Qdiv. ring.
Qed.

(** C37. The percentages of a group's grid add up to [100 * k / count],
    [k] the rows counted in the grid, hence to at most 100: samples outside
    the grid are in [count] but in no cell. *)
Theorem group_grid_total {K : Type} `{EqDecision K} (key : sample -> K) (c : grid_config)
    (df : list sample) (k : K) (pg : list (list Q)) :
  let sel := fun r => bool_decide (key r = k) in
  let cnt := Z.of_nat (length (List.filter sel df)) in
  0 < cnt -> group_grid key c df k cnt = Some pg ->
  (sumq (concat pg) ==
   inject_Z (Z.of_nat (length (List.filter
     (counted (size_of_grid_cells c) (n_gridsquares c) (m_gridsquares c) sel) df))) * 100 / inject_Z cnt
   /\ sumq (concat pg) <= 100)%Q.
Proof.
  intros sel cnt Hcnt. subst sel cnt. unfold group_grid.
  destruct (fill_grid _ _ _ _ df _) as [g|] eqn:E; cbn; [| discriminate]. intros [= <-].
  destruct (fill_grid_some _ _ _ _ _ _ _ _ _ (zero_grid_shape _ _) E) as [_ Ht].
  rewrite zero_grid_total, Z.add_0_l in Ht. rewrite sumq_proportions, Ht. split; [reflexivity |].
  assert (Hle := filter_counted_le (size_of_grid_cells c) (n_gridsquares c) (m_gridsquares c)
                  (fun r => bool_decide (key r = k)) df).
  apply Qle_shift_div_r; [change 0%Q with (inject_Z 0); rewrite <- Zlt_Qlt; exact Hcnt |].
  assert (inject_Z (Z.of_nat (length (List.filter (counted (size_of_grid_cells c)
            (n_gridsquares c) (m_gridsquares c) (fun r => bool_decide (key r = k))) df)))
          <= inject_Z (Z.of_nat (length (List.filter (fun r => bool_decide (key r = k)) df))))%Q
    by (rewrite <- Zle_Qle; lia).
  lra.
Qed.

Definition room_2500 : grid_config := mk_grid_config 2500 3000 1000.

Lemma group_grid_total_witness :
  (sumq (concat (proportions 2 [[1; 0]; [0; 0]; [0; 0]]%Z)) <= 100)%Q.
Proof.
  refine (proj2 (group_grid_total key_st room_2500 [smp_xy 1 500 500; smp_xy 1 2200 500] (1, 1) _ _ _));
    [vm_compute; reflexivity | reflexivity].
Defined.

(** [int(round(2500 / 1000, 0))] is 2 (round half to even), so in a
    room 2500 mm wide with 1000 mm cells a sample at [x = 2200] falls in no
    cell and the percentages of its group add up to 50 instead of 100. *)
Example rounded_room_drops_sample :
  n_gridsquares room_2500 = 2 /\
  option_map (fun pg => Qeq_bool (sumq (concat pg)) 50)
    (group_grid key_st room_2500 [smp_xy 1 500 500; smp_xy 1 2200 500] (1, 1) 2) = Some true.
Proof. split; vm_compute; reflexivity. Qed.
