(* ===== verification/EntropyReal.v ===== *)
(** * Shannon entropy of the occupancy grids ([_entropy.py])

    [get_entropy] flattens each group's grid of percentages and calls
    [scipy.stats.entropy(flat_grid, base=2)].  That library routine is
    modelled from its documented definition ([scipy_entropy], marked as
    library code in the map): the vector is divided by its sum, each
    entry contributes [entr(x) = -x ln x] ([0] at [0]), and the total is
    divided by [ln 2]; an empty vector gives [0.0], a zero sum of a
    non-empty vector makes [0/0 = nan] and a negative normalised entry
    makes [-inf], both [None] here.  The grids come from
    [EntropyGrid]; this file adds [get_entropy] and the two entry points
    [calculate_entropy_session_tracker_phase] and
    [calculate_entropy_session_tracker].  The percentages are exact
    rationals and the logarithms real numbers: floating-point rounding is
    not modelled. *)

From Stdlib Require Import ZArith QArith Reals Lra Qreals List Morphisms.
From stdpp Require Import base list.
From S2P Require Import Prelude Samples QSum EntropyGrid.

(** ** The library routine and the script's functions *)

Definition sumR (l : list R) : R := fold_right Rplus 0%R l.

(** [scipy.special.entr] on a non-negative entry. *)
Definition entr (x : Q) : R :=
  if Qle_bool x 0 then 0%R else (- (Q2R x * ln (Q2R x)))%R.

(** [pk = 1.0*pk / np.sum(pk)]. *)
Definition normalize (pk : list Q) : list Q := map (fun p => p / sumq pk)%Q pk.

(** [scipy.stats.entropy(pk, base=2)] on a non-empty vector: [None] for
    [nan] (a zero sum) and [-inf] (a negative entry). *)
Definition entropy_nonempty (pk : list Q) : option R :=
  if Qeq_bool (sumq pk) 0 then None
  else if forallb (Qle_bool 0) (normalize pk)
       then Some (sumR (map entr (normalize pk)) / ln 2)%R
       else None.

(** [scipy.stats.entropy(pk, base=2)]: an empty vector normalises to an
    empty vector, whose [np.sum] of [entr] is [0.0]. *)
Definition scipy_entropy (pk : list Q) : option R :=
  match pk with
  | [] => Some 0%R
  | _ :: _ => entropy_nonempty pk
  end.

(** [get_entropy] (lines 233-265): one entropy per row, computed on the
    row's grid flattened row by row. *)
Definition get_entropy {K : Type} (rows : list (K * Z * list (list Q)))
    : list (K * Z * list (list Q) * option R) :=
  map (fun '(k, count, g) => (k, count, g, scipy_entropy (concat g))) rows.

(** The exceptions of the two entry points: [room_x/size_of_grid_cells]
    with cells of size [0.0] (lines 75 and 180), and the [IndexError] of
    the fill loop. *)
Inductive entropy_error := ZeroDivisionError | IndexError.

(** The grids of the entry points, after the division of lines 75-76
    (180-181), then their entropies. *)
Definition entropy_entry {K : Type} (grids_of : grid_config -> list sample -> option (list (K * Z * list (list Q))))
    (c : grid_config) (df : list sample) : entropy_error + list (K * Z * list (list Q) * option R) :=
  if Qeq_bool (size_of_grid_cells c) 0 then inl ZeroDivisionError
  else match grids_of c df with
       | Some rows => inr (get_entropy rows)
       | None => inl IndexError
       end.

(** [calculate_entropy_session_tracker_phase] (lines 36-129). *)
Definition calculate_entropy_session_tracker_phase (c : grid_config) (df : list sample) :=
  entropy_entry (grids key_stp lex3_ltb) c df.

(** [calculate_entropy_session_tracker] (lines 133-230). *)
Definition calculate_entropy_session_tracker (c : grid_config) (df : list sample) :=
  entropy_entry (grids key_st lex2_ltb) c df.

(** ** Sums of reals *)

Local Open Scope R_scope.

Lemma sumR_cons (a : R) (l : list R) : sumR (a :: l) = a + sumR l.
Proof. reflexivity. Qed.

Lemma sumR_Q2R (l : list Q) : sumR (map Q2R l) = Q2R (sumq l).
Proof.
  induction l as [|a l IH]; cbn [map]; [unfold Q2R; cbn; lra |].
  rewrite sumR_cons, sumq_cons, Q2R_plus, IH. reflexivity.
Qed.

Lemma sumR_le {A} (f g : A -> R) (l : list A) :
  (forall a, In a l -> f a <= g a) -> sumR (map f l) <= sumR (map g l).
Proof.
  induction l as [|a l IH]; intros H; cbn [map]; [unfold sumR; cbn; lra |].
  rewrite !sumR_cons. apply Rplus_le_compat; [apply H; left; reflexivity |].
  apply IH. intros b Hb. apply H. right. exact Hb.
Qed.

Lemma sumR_affine {A} (a b : R) (f : A -> R) (l : list A) :
  sumR (map (fun x => a * f x + b) l) = a * sumR (map f l) + INR (length l) * b.
Proof.
  induction l as [|x l IH]; cbn [map length]; [unfold sumR; cbn; lra |].
  rewrite !sumR_cons, IH, S_INR. ring.
Qed.

Lemma sumR_const {A} (c : R) (l : list A) : sumR (map (fun _ => c) l) = INR (length l) * c.
Proof.
  induction l as [|x l IH]; cbn [map length]; [unfold sumR; cbn; lra |].
  rewrite sumR_cons, IH, S_INR. ring.
Qed.

(** ** Logarithms *)

Lemma ln_le_sub1 (x : R) : 0 < x -> ln x <= x - 1.
Proof. intros Hx. pose proof (exp_ineq1_le (ln x)) as H. rewrite exp_ln in H; lra. Qed.

Lemma ln_nonpos (x : R) : 0 < x -> x <= 1 -> ln x <= 0.
Proof.
  intros Hx H1. destruct (Rle_lt_or_eq_dec x 1 H1) as [Hlt|Heq].
  - rewrite <- ln_1. left. apply ln_increasing; lra.
  - rewrite Heq, ln_1. lra.
Qed.

Lemma ln2_pos : 0 < ln 2.
Proof. pose proof ln_lt_2. lra. Qed.

Lemma Q2R_pos (x : Q) : Qle_bool x 0 = false -> 0 < Q2R x.
Proof.
  intros H. assert (Hlt : (0 < x)%Q).
  { apply Qnot_le_lt. intros Hle. apply Qle_bool_iff in Hle. congruence. }
  clear H. rename Hlt into H. unfold Q2R. rewrite <- (Rmult_0_l (/ IZR (Zpos (Qden x)))).
  apply Rmult_lt_compat_r; [apply Rinv_0_lt_compat, IZR_lt; reflexivity |].
  apply IZR_lt. unfold Qlt in H. cbn in H. lia.
Qed.

(** [entr] is non-negative on [[0, 1]]. *)
Lemma entr_nonneg (x : Q) : (x <= 1)%Q -> 0 <= entr x.
Proof.
  intros H1. unfold entr. destruct (Qle_bool x 0) eqn:E; [lra |].
  pose proof (Q2R_pos x E) as Hx. pose proof (Qle_Rle _ _ H1) as H1'.
  replace (Q2R 1) with 1 in H1' by (unfold Q2R; cbn; field).
  pose proof (ln_nonpos _ Hx H1'). nra.
Qed.

(** The tangent bound behind Gibbs' inequality, one entry at a time. *)
Lemma entr_le (n : R) (x : Q) :
  0 < n -> (0 <= x)%Q -> entr x <= Q2R x * ln n + / n - Q2R x.
Proof.
  intros Hn H0. unfold entr. destruct (Qle_bool x 0) eqn:E.
  - apply Qle_bool_iff in E. assert (Hx : x == 0) by (apply Qle_antisym; assumption).
    rewrite (Qeq_eqR _ _ Hx). replace (Q2R 0) with 0 by (unfold Q2R; cbn; field).
    pose proof (Rinv_0_lt_compat n Hn). lra.
  - pose proof (Q2R_pos x E) as Hx.
    assert (Hnx : 0 < n * Q2R x) by nra.
    assert (Hi : 0 < / (n * Q2R x)) by (apply Rinv_0_lt_compat; exact Hnx).
    pose proof (ln_le_sub1 _ Hi) as Hl.
    rewrite ln_Rinv, ln_mult in Hl by assumption.
    assert (Hinv : Q2R x * / (n * Q2R x) = / n) by (field; split; lra).
    apply Rmult_le_compat_l with (r := Q2R x) in Hl; [| lra].
    rewrite Rmult_minus_distr_l, Hinv, Rmult_1_r in Hl. nra.
Qed.

Lemma Q2R_inject_Z (z : Z) : Q2R (inject_Z z) = IZR z.
Proof. unfold Q2R, inject_Z. cbn [Qnum Qden]. field. Qed.

#[export] Instance Q2R_proper : Proper (Qeq ==> eq) Q2R.
Proof. intros x y H. exact (Qeq_eqR x y H). Qed.

#[export] Instance entr_proper : Proper (Qeq ==> eq) entr.
Proof.
  intros x y H. unfold entr. rewrite (Qeq_eqR x y H), (Qle_bool_proper x y H 0%Q 0%Q (Qeq_refl 0)).
  reflexivity.
Qed.

(** ** Normalisation *)

Lemma length_normalize (pk : list Q) : length (normalize pk) = length pk.
Proof. apply length_map. Qed.

Lemma normalize_sum (pk : list Q) : ~ (sumq pk == 0)%Q -> (sumq (normalize pk) == 1)%Q.
Proof.
  intros Hs. unfold normalize.
  rewrite (sumq_map_ext _ (fun p => / sumq pk * p)%Q) by (intros; unfold Qdiv; ring).
  rewrite (sumq_map_scale (/ sumq pk) (fun p => p)), map_id. field. exact Hs.
Qed.

Lemma forallb_Qle (l : list Q) : forallb (Qle_bool 0) l = true <-> Forall (Qle 0) l.
Proof.
  rewrite forallb_forall, List.Forall_forall.
  split; intros H a Ha; apply Qle_bool_iff, H, Ha.
Qed.

Lemma entropy_nonempty_some (pk : list Q) (h : R) :
  entropy_nonempty pk = Some h ->
  ~ (sumq pk == 0)%Q /\ Forall (Qle 0) (normalize pk) /\ h = sumR (map entr (normalize pk)) / ln 2.
Proof.
  unfold entropy_nonempty. destruct (Qeq_bool (sumq pk) 0) eqn:Es; [discriminate |].
  destruct (forallb (Qle_bool 0) (normalize pk)) eqn:Ef; [| discriminate]. intros [= <-].
  split; [apply Qeq_bool_neq, Es |]. split; [apply forallb_Qle, Ef | reflexivity].
Qed.

Lemma forallb_Forall2 (l l' : list Q) :
  Forall2 Qeq l l' -> forallb (Qle_bool 0) l = forallb (Qle_bool 0) l'.
Proof. induction 1 as [|a b l l' Hab _ IH]; [reflexivity |]. cbn. rewrite Hab, IH. reflexivity. Qed.

Lemma map_entr_Forall2 (l l' : list Q) : Forall2 Qeq l l' -> map entr l = map entr l'.
Proof. induction 1 as [|a b l l' Hab _ IH]; [reflexivity |]. cbn. rewrite Hab, IH. reflexivity. Qed.

(** [entropy_nonempty] depends on its argument only through whether the sum
    is zero and the normalised vector, up to [Qeq]. *)
Lemma entropy_nonempty_ext (pk pk' : list Q) :
  (sumq pk == 0 <-> sumq pk' == 0)%Q ->
  (~ (sumq pk == 0)%Q -> Forall2 Qeq (normalize pk) (normalize pk')) ->
  entropy_nonempty pk = entropy_nonempty pk'.
Proof.
  intros Hz Hn. unfold entropy_nonempty.
  destruct (Qeq_bool (sumq pk) 0) eqn:E1, (Qeq_bool (sumq pk') 0) eqn:E2; try reflexivity;
    [apply Qeq_bool_iff in E1; apply Qeq_bool_neq in E2; tauto
    | apply Qeq_bool_neq in E1; apply Qeq_bool_iff in E2; tauto |].
  apply Qeq_bool_neq in E1. specialize (Hn E1).
  rewrite (forallb_Forall2 _ _ Hn), (map_entr_Forall2 _ _ Hn). reflexivity.
Qed.

#[export] Instance entropy_nonempty_proper : Proper (Forall2 Qeq ==> eq) entropy_nonempty.
Proof.
  intros pk pk' H. apply entropy_nonempty_ext; [rewrite H; reflexivity |]. intros _.
  unfold normalize. pose proof (sumq_Forall2 _ _ H) as Hs. revert Hs.
  generalize (sumq pk) (sumq pk'). intros s s' Hs.
  induction H as [|a b l l' Hab _ IH]; cbn [map]; constructor; [| exact IH].
  rewrite Hab, Hs. reflexivity.
Qed.

#[export] Instance scipy_entropy_proper : Proper (Forall2 Qeq ==> eq) scipy_entropy.
Proof.
  intros pk pk' H. destruct H as [|a b l l' Hab Hl]; [reflexivity |].
  apply entropy_nonempty_proper. constructor; assumption.
Qed.

(** ** Bounds *)

(** Gibbs' inequality for a probability vector: its entropy in nats lies
    between [0] and [ln n]. *)
Lemma entropy_sum_bounds (q : list Q) :
  Forall (Qle 0) q -> (sumq q == 1)%Q -> 0 <= sumR (map entr q) <= ln (INR (length q)).
Proof.
  intros H0 H1.
  assert (Hn : (0 < length q)%nat) by (destruct q; [compute in H1; discriminate | cbn; lia]).
  set (N := INR (length q)). assert (HN : 0 < N) by (apply lt_0_INR; exact Hn).
  split.
  - apply Rle_trans with (sumR (map (fun _ => 0) q)); [rewrite sumR_const; lra |].
    apply sumR_le. intros a Ha. apply entr_nonneg.
    rewrite <- H1. exact (sumq_ge_elem _ _ H0 Ha).
  - apply Rle_trans with (sumR (map (fun x => (ln N - 1) * Q2R x + / N) q)).
    + apply sumR_le. intros a Ha.
      pose proof (entr_le N a HN (proj1 (List.Forall_forall _ _) H0 a Ha)). lra.
    + rewrite sumR_affine, sumR_Q2R, (Qeq_eqR _ _ H1). fold N.
      replace (Q2R 1) with 1 by (unfold Q2R; cbn; field).
      rewrite Rinv_r by lra. lra.
Qed.

(** Whenever [entropy(pk, base=2)] returns a number, it lies between [0]
    and [log2] of the length of [pk]. *)
Theorem entropy_nonempty_bounds (pk : list Q) (h : R) :
  entropy_nonempty pk = Some h -> 0 <= h <= ln (INR (length pk)) / ln 2.
Proof.
  intros E. destruct (entropy_nonempty_some _ _ E) as (Hs & H0 & ->).
  destruct (entropy_sum_bounds _ H0 (normalize_sum _ Hs)) as [Hl Hu].
  rewrite length_normalize in Hu. pose proof ln2_pos as H2.
  assert (Hi : 0 < / ln 2) by (apply Rinv_0_lt_compat; exact H2).
  unfold Rdiv. split; [apply Rmult_le_pos; lra | apply Rmult_le_compat_r; lra].
Qed.

(** The same bound for [scipy_entropy]: an empty vector gives [0], and
    [ln 0] is [0] in the Standard Library. *)
Theorem scipy_entropy_bounds (pk : list Q) (h : R) :
  scipy_entropy pk = Some h -> 0 <= h <= ln (INR (length pk)) / ln 2.
Proof.
  destruct pk as [|p pk]; [| apply entropy_nonempty_bounds].
  cbn [scipy_entropy length INR]. intros E. injection E as <-.
  replace (ln 0) with 0 by (unfold ln; destruct (Rlt_dec 0 0) as [H0|]; [destruct (Rlt_irrefl _ H0) | reflexivity]).
  unfold Rdiv. rewrite Rmult_0_l. lra.
Qed.

Lemma sumR_repeat (c : R) (n : nat) : sumR (repeat c n) = INR n * c.
Proof. induction n as [|n IH]; cbn [repeat]; [unfold sumR; cbn; lra | rewrite sumR_cons, IH, S_INR; ring]. Qed.

Lemma Q2R_inv_nat (n : nat) : (0 < n)%nat -> Q2R (/ inject_Z (Z.of_nat n)) = / INR n.
Proof.
  intros Hn. rewrite Q2R_inv, Q2R_inject_Z, <- INR_IZR_INZ; [reflexivity |].
  intros H. apply Qeq_bool_iff in H. vm_compute in H.
  destruct n; [lia | discriminate].
Qed.

(** A vector of [n] equal positive values has entropy [log2 n], the upper
    bound. *)
Theorem entropy_nonempty_uniform (a : Q) (n : nat) :
  (0 < a)%Q -> (0 < n)%nat -> entropy_nonempty (repeat a n) = Some (ln (INR n) / ln 2).
Proof.
  intros Ha Hn. set (v := (/ inject_Z (Z.of_nat n))%Q).
  assert (HnQ : (0 < inject_Z (Z.of_nat n))%Q)
    by (change 0%Q with (inject_Z 0); rewrite <- Zlt_Qlt; lia).
  assert (Hs : (sumq (repeat a n) == inject_Z (Z.of_nat n) * a)%Q) by apply sumq_repeat.
  assert (Hv : (0 < v)%Q) by (apply Qinv_lt_0_compat, HnQ).
  assert (Hnorm : Forall2 Qeq (normalize (repeat a n)) (repeat v n)).
  { unfold normalize. rewrite map_repeat.
    assert (Hav : (a / sumq (repeat a n) == v)%Q)
      by (rewrite Hs; unfold v; field; split; [apply Qnot_eq_sym, Qlt_not_eq, HnQ
                                            | apply Qnot_eq_sym, Qlt_not_eq, Ha]).
    clear -Hav. revert Hav. generalize (a / sumq (repeat a n))%Q v. intros w u Hw.
    induction n as [|n IH]; constructor; assumption. }
  unfold entropy_nonempty. rewrite (map_entr_Forall2 _ _ Hnorm), (forallb_Forall2 _ _ Hnorm).
  destruct (Qeq_bool (sumq (repeat a n)) 0) eqn:E.
  { apply Qeq_bool_iff in E. rewrite Hs in E. exfalso. apply (Qlt_irrefl 0).
    apply Qmult_integral in E as [E|E]; [rewrite E in HnQ | rewrite E in Ha]; assumption. }
  assert (Hf : forallb (Qle_bool 0) (repeat v n) = true).
  { apply forallb_Qle, List.Forall_forall. intros x Hx. apply repeat_spec in Hx. subst x.
    apply Qlt_le_weak, Hv. }
  rewrite Hf, map_repeat, sumR_repeat. f_equal.
  unfold entr. destruct (Qle_bool v 0) eqn:Ev.
  { apply Qle_bool_iff in Ev. exfalso. exact (Qlt_not_le _ _ Hv Ev). }
  unfold v. rewrite (Q2R_inv_nat n Hn), ln_Rinv by (apply lt_0_INR; exact Hn).
  pose proof ln2_pos. assert (0 < INR n) by (apply lt_0_INR; exact Hn). field. lra.
Qed.

Lemma scipy_entropy_uniform (a : Q) (n : nat) :
  (0 < a)%Q -> (0 < n)%nat -> scipy_entropy (repeat a n) = Some (ln (INR n) / ln 2).
Proof. intros Ha Hn. destruct n as [|n]; [lia |]. apply entropy_nonempty_uniform; assumption. Qed.

Lemma concat_repeat {A : Type} (a : A) (m n : nat) :
  concat (repeat (repeat a n) m) = repeat a (m * n).
Proof. induction m as [|m IH]; [reflexivity |]. cbn [repeat concat]. rewrite IH. change (S m * n)%nat with (n + m * n)%nat. rewrite repeat_app. reflexivity. Qed.

(** [get_entropy] gives a grid of [m] rows of [n] cells that all hold
    the same positive percentage the entropy [log2(m * n)] bits, the
    largest possible. *)
Theorem get_entropy_uniform {K : Type} (k : K) (count : Z) (a : Q) (m n : nat) :
  (0 < a)%Q -> (0 < m)%nat -> (0 < n)%nat ->
  get_entropy [(k, count, repeat (repeat a n) m)]
  = [(k, count, repeat (repeat a n) m, Some (ln (INR (m * n)) / ln 2))].
Proof.
  intros Ha Hm Hn. cbn. rewrite concat_repeat, scipy_entropy_uniform by (assumption || lia).
  reflexivity.
Qed.

Lemma get_entropy_uniform_witness :
  (0 < 25)%Q /\ (0 < 2)%nat /\ (0 < 2)%nat /\
  get_entropy [((1, 1, 1)%Z, 4%Z, repeat (repeat 25%Q 2) 2)]
  = [((1, 1, 1)%Z, 4%Z, repeat (repeat 25%Q 2) 2, Some (ln (INR (2 * 2)) / ln 2))].
Proof.
  split; [reflexivity | split; [lia | split; [lia | apply get_entropy_uniform; [reflexivity | lia | lia]]]].
Defined.

(** ** Scale invariance and the percentages *)

(** Multiplying every entry by the same non-zero factor does not change
    the entropy: the vector is normalised first. *)
Lemma entropy_nonempty_scale (c : Q) (pk : list Q) :
  ~ (c == 0)%Q -> entropy_nonempty (map (Qmult c) pk) = entropy_nonempty pk.
Proof.
  intros Hc. pose proof (sumq_map_scale c (fun a => a) pk) as Hs. rewrite map_id in Hs.
  change (map (fun a => c * a)%Q pk) with (map (Qmult c) pk) in Hs.
  apply entropy_nonempty_ext.
  - rewrite Hs. split; intros H; [apply Qmult_integral in H as [H|H]; [contradiction | exact H] |].
    rewrite H. ring.
  - intros Hz. assert (Hs0 : ~ (sumq pk == 0)%Q) by (intros H; apply Hz; rewrite Hs, H; ring).
    unfold normalize. rewrite map_map. apply Forall2_map_Qeq. intros a _.
    rewrite Hs. field. split; assumption.
Qed.

Lemma scipy_entropy_scale (c : Q) (pk : list Q) :
  ~ (c == 0)%Q -> scipy_entropy (map (Qmult c) pk) = scipy_entropy pk.
Proof. destruct pk as [|p pk]; [reflexivity | apply entropy_nonempty_scale]. Qed.

Lemma concat_proportions (count : Z) (g : grid) :
  concat (proportions count g) = map (fun v => inject_Z v * 100 / inject_Z count)%Q (concat g).
Proof.
  unfold proportions. induction g as [|row g IH]; [reflexivity |].
  cbn [map concat]. rewrite IH, map_app. reflexivity.
Qed.

Lemma sumq_inject_Z (l : list Z) : (sumq (map inject_Z l) == inject_Z (sumZ (fun v => v) l))%Q.
Proof.
  induction l as [|v l IH]; cbn [map]; [reflexivity |].
  rewrite sumq_cons, IH. change (sumZ (fun v => v) (v :: l)) with (v + sumZ (fun v => v) l)%Z.
  rewrite inject_Z_plus. reflexivity.
Qed.

(** [get_entropy] sees the grid of percentages, but its result is that of
    the grid of raw counts: dividing by the group's [count] (line 112) does
    not change the entropy. *)
Theorem entropy_of_proportions (count : Z) (g : grid) :
  count <> 0%Z ->
  scipy_entropy (concat (proportions count g)) = scipy_entropy (map inject_Z (concat g)).
Proof.
  intros Hc. rewrite concat_proportions.
  assert (Hc' : ~ (inject_Z count == 0)%Q)
    by (intros H; apply Hc; change 0%Q with (inject_Z 0) in H; rewrite inject_Z_injective in H; exact H).
  rewrite <- (scipy_entropy_scale (100 / inject_Z count) (map inject_Z (concat g))).
  - apply scipy_entropy_proper. rewrite map_map. apply Forall2_map_Qeq. intros a _.
    field. exact Hc'.
  - unfold Qdiv. intros H. apply Qmult_integral in H as [H|H]; [compute in H; discriminate |].
    apply Hc'. rewrite <- (Qinv_involutive (inject_Z count)), H. reflexivity.
Qed.

(** ** Where the entropy is [nan] *)

Lemma entropy_nonempty_nan (pk : list Q) :
  Forall (Qle 0) pk -> entropy_nonempty pk = None <-> (sumq pk == 0)%Q.
Proof.
  intros H0. unfold entropy_nonempty. destruct (Qeq_bool (sumq pk) 0) eqn:E.
  - split; [intros _; apply Qeq_bool_iff, E | reflexivity].
  - apply Qeq_bool_neq in E.
    assert (Hs : (0 < sumq pk)%Q).
    { assert (Hle : (0 <= sumq pk)%Q).
      { rewrite <- (map_id pk). apply sumq_nonneg. intros a Ha.
        exact (proj1 (List.Forall_forall _ _) H0 a Ha). }
      apply Qle_lt_or_eq in Hle as [Hlt|Heq]; [exact Hlt | contradiction E; symmetry; exact Heq]. }
    assert (Hf : forallb (Qle_bool 0) (normalize pk) = true).
    { apply forallb_Qle, List.Forall_forall. intros q Hq.
      unfold normalize in Hq. apply List.in_map_iff in Hq as (p & <- & Hp).
      apply Qle_shift_div_l; [exact Hs |]. rewrite Qmult_0_l.
      exact (proj1 (List.Forall_forall _ _) H0 p Hp). }
    rewrite Hf. split; [discriminate | intros Hz; contradiction].
Qed.

(** The entropy of a non-negative vector is [nan] exactly when the vector
    has an entry and sums to [0]; the empty vector gives [0.0]. *)
Lemma scipy_entropy_nan (pk : list Q) :
  Forall (Qle 0) pk -> scipy_entropy pk = None <-> pk <> [] /\ (sumq pk == 0)%Q.
Proof.
  destruct pk as [|p pk]; intros H0; [split; [discriminate | intros [[] _]; reflexivity] |].
  rewrite <- (entropy_nonempty_nan _ H0). split; [intros E; split; [discriminate | exact E] | intros [_ E]; exact E].
Qed.

Lemma grid_nonneg_Qle (g : grid) : grid_nonneg g -> Forall (Qle 0) (map inject_Z (concat g)).
Proof.
  intros Hg. apply List.Forall_forall. intros q Hq.
  apply List.in_map_iff in Hq as (v & <- & Hv). apply in_concat in Hv as (row & Hrow & Hv).
  assert (Hr := proj1 (List.Forall_forall _ _) Hg row Hrow).
  assert (H0 := proj1 (List.Forall_forall _ _) Hr v Hv).
  change 0%Q with (inject_Z 0). rewrite <- Zle_Qle. exact H0.
Qed.

(** ** One group, and the whole table *)

(** The entropy of one group's grid: [nan] exactly when the grid has a
    cell and none of the group's samples falls in it, otherwise between
    [0] and [log2] of the number of cells ([0] for a grid without cells). *)
Lemma group_entropy_spec {K : Type} `{EqDecision K} (key : sample -> K) (c : grid_config)
    (df : list sample) (k : K) (count : Z) (pg : list (list Q)) :
  count <> 0%Z -> group_grid key c df k count = Some pg ->
  (scipy_entropy (concat pg) = None <->
   (0 < Z.to_nat (m_gridsquares c) * Z.to_nat (n_gridsquares c))%nat /\
   List.filter (counted (size_of_grid_cells c) (n_gridsquares c) (m_gridsquares c)
                        (fun r => bool_decide (key r = k))) df = []) /\
  (forall h, scipy_entropy (concat pg) = Some h ->
   0 <= h <= ln (INR (Z.to_nat (m_gridsquares c) * Z.to_nat (n_gridsquares c))) / ln 2).
Proof.
  intros Hc. unfold group_grid.
  destruct (fill_grid _ _ _ _ df _) as [g|] eqn:E; cbn; [| discriminate]. intros [= <-].
  rewrite entropy_of_proportions by exact Hc.
  destruct (fill_grid_some _ _ _ _ _ _ _ _ _ (zero_grid_shape _ _) E) as [Hsh Ht].
  rewrite zero_grid_total, Z.add_0_l in Ht.
  pose proof (grid_nonneg_Qle _ (fill_grid_nonneg _ _ _ _ _ _ _ (zero_grid_nonneg _ _) E)) as H0.
  split.
  - assert (Hne : map inject_Z (concat g) <> [] <->
                   (0 < Z.to_nat (m_gridsquares c) * Z.to_nat (n_gridsquares c))%nat)
      by (rewrite <- length_zero_iff_nil, length_map, (grid_shape_concat_length _ _ _ Hsh); lia).
    rewrite (scipy_entropy_nan _ H0), Hne, sumq_inject_Z, <- grid_total_concat, Ht.
    change 0%Q with (inject_Z 0). rewrite inject_Z_injective, <- length_zero_iff_nil. lia.
  - intros h Eh. pose proof (scipy_entropy_bounds _ _ Eh) as Hb.
    rewrite length_map, (grid_shape_concat_length _ _ _ Hsh) in Hb. exact Hb.
Qed.

(** What each row of the result promises: [count] is the size of the
    group, the entropy is [nan] exactly when the grid has a cell and none
    of the group's samples is in the grid, and otherwise lies between [0]
    and [log2] of the number of cells. *)
Definition entropy_row_ok {K : Type} `{EqDecision K} (key : sample -> K) (c : grid_config)
    (df : list sample) (row : K * Z * list (list Q) * option R) : Prop :=
  let '(k, count, _, e) := row in
  let sel := fun r => bool_decide (key r = k) in
  count = Z.of_nat (length (List.filter sel df)) /\ (0 < count)%Z /\
  (e = None <->
   (0 < Z.to_nat (m_gridsquares c) * Z.to_nat (n_gridsquares c))%nat /\
   List.filter (counted (size_of_grid_cells c) (n_gridsquares c) (m_gridsquares c) sel) df = []) /\
  (forall h, e = Some h ->
   0 <= h <= ln (INR (Z.to_nat (m_gridsquares c) * Z.to_nat (n_gridsquares c))) / ln 2).

(** The rows returned for any grouping key. *)
Lemma entropy_rows_spec {K : Type} `{EqDecision K} (key : sample -> K) (ltb : K -> K -> bool)
    (c : grid_config) (df : list sample) (rows : list (K * Z * list (list Q))) :
  grids key ltb c df = Some rows -> Forall (entropy_row_ok key c df) (get_entropy rows).
Proof.
  unfold grids. intros E. apply mapM_Some_1 in E.
  unfold get_entropy. apply List.Forall_map.
  apply (Forall2_Forall_in _ _ _ _ E). intros [k count] row Hin Hrow.
  destruct (group_grid key c df k count) as [pg|] eqn:Eg; cbn in Hrow; [| discriminate].
  injection Hrow as <-. destruct (group_counts_in key ltb df k count Hin) as [Hcnt Hpos].
  destruct (group_entropy_spec key c df k count pg ltac:(lia) Eg) as [Hnan Hb].
  split; [exact Hcnt | split; [exact Hpos | split; [exact Hnan | exact Hb]]].
Qed.

(** C16. [calculate_entropy_session_tracker_phase] raises
    [ZeroDivisionError] exactly when the cells have size [0]; when it
    returns, it returns one row per (session, tracker, phase) group: its
    [count] is the group's size, its entropy is [nan] exactly when the grid
    has at least one cell and none of the group's samples lies in it, and
    otherwise lies between [0] and [log2(m * n)] bits ([0.0] for a grid of
    no cell, the entropy scipy gives an empty vector). *)
Theorem calculate_entropy_session_tracker_phase_spec (c : grid_config) (df : list sample) :
  (calculate_entropy_session_tracker_phase c df = inl ZeroDivisionError <-> (size_of_grid_cells c == 0)%Q)
  /\ (forall rows, calculate_entropy_session_tracker_phase c df = inr rows ->
      Forall (entropy_row_ok key_stp c df) rows).
Proof.
  unfold calculate_entropy_session_tracker_phase, entropy_entry.
  destruct (Qeq_bool (size_of_grid_cells c) 0) eqn:Ez.
  - split; [split; [intros _; apply Qeq_bool_iff, Ez | reflexivity] | discriminate].
  - apply Qeq_bool_neq in Ez.
    destruct (grids key_stp lex3_ltb c df) as [rows0|] eqn:E; (split; [split; [discriminate | tauto] |]).
    + intros rows [= <-]. exact (entropy_rows_spec _ _ _ _ _ E).
    + discriminate.
Qed.

Definition df_two_trackers : list sample := [smp_xy 1 500 500; smp_xy 1 1500 500; smp_xy 2 2200 500].

Lemma calculate_entropy_session_tracker_phase_spec_witness :
  exists rows, calculate_entropy_session_tracker_phase room_2500 df_two_trackers = inr rows /\
  Forall (entropy_row_ok key_stp room_2500 df_two_trackers) rows.
Proof.
  eexists. split; [reflexivity |].
  apply (proj2 (calculate_entropy_session_tracker_phase_spec room_2500 df_two_trackers)). reflexivity.
Defined.

(** With a 2500 mm room and 1000 mm cells the grid has two columns, so
    tracker 2, whose only sample is at [x = 2200], has a grid of zeros and
    its entropy is [nan], while tracker 1 gets a number. *)
Example entropy_nan_outside_grid :
  match calculate_entropy_session_tracker_phase room_2500 df_two_trackers with
  | inr rows => Some (map (fun '(k, count, _, e) => (k, count, match e with None => false | Some _ => true end)) rows)
  | inl _ => None
  end
  = Some [((1, 1, 1), 2, true); ((1, 2, 1), 1, false)]%Z.
Proof. vm_compute. reflexivity. Qed.

(** A room narrower than half a cell has a grid of no column: every
    group gets the entropy [0.0] of the empty vector.  Cells of size [0]
    make the division of line 75 raise. *)
Example entropy_grid_edges :
  match calculate_entropy_session_tracker_phase (mk_grid_config 400 3000 1000) df_two_trackers with
  | inr rows => Some (map (fun '(k, count, _, e) => (k, count, e)) rows)
  | inl _ => None
  end
  = Some [((1, 1, 1), 2, Some 0%R); ((1, 2, 1), 1, Some 0%R)]%Z
  /\ calculate_entropy_session_tracker_phase (mk_grid_config 2500 3000 0) df_two_trackers = inl ZeroDivisionError.
Proof. split; vm_compute; reflexivity. Qed.
