(* ===== verification/FixedPoints.v ===== *)
(** * Fixed points and the Gini index per group ([_classroomObjects.py])

    [generate_fixed_points_stats] (lines 35-157) joins the stops of the
    engine's output with the fixed points of the classroom (students,
    zones) of the same session, keeps for every stop the fixed points at
    the smallest distance ([get_closer_fixedpoint_stop], lines 271-319),
    drops those farther than [distance_tracker_fixed_point], and counts per
    (session, tracker, phase, tag) the stops and their total duration.  The
    table it returns has a row for every fixed point and every (phase,
    tracker) of its session, with [0] where the tracker never stopped near
    it.  [calculate_gini_by_tracker] and [calculate_gini_trackers_together]
    (lines 159-235) compute the Gini index of the visit counts of the
    student points per (session, tracker, phase) and per (session, phase).

    Distances are kept squared: [np.sqrt] is monotone, so the minimum, the
    equality test of [isin] and the threshold test are the same on squares
    ([Geometry.within]).  Durations are whole seconds.  The three sorts
    by [session] alone (lines 110, 115 and 312) use pandas' default
    quicksort, which is not stable: they are the methods of the type class
    [SessionSort], and every theorem holds for all its instances. *)

From Stdlib Require Import ZArith QArith Qminmax Lqa Lia List.
From stdpp Require Import base list decidable strings sorting.
From S2P Require Import Prelude Geometry Samples ClusterBuilder Classifier BlockMerger.
From S2P Require Import Summarizer QSum Gini.

(** ** Tables *)

(** A row of [df_fixed_points]. *)
Record fixed_point := mk_fixed {
  fp_session : Z;
  fp_tag : string;
  fp_x : Q;
  fp_y : Q;
  fp_obj_type : string
}.

(** A row of [df_dist] (lines 92 and 97). *)
Record dist_row := mk_dist {
  d_block : Z;
  d_tracker : Z;
  d_session : Z;
  d_tag : string;
  d_dist : Q;            (** square of [dist_student] *)
  d_timestamp : Z;
  d_obj_type : string
}.

(** A row of [summary] (line 127). *)
Record summary_row := mk_summary {
  sm_session : Z;
  sm_tracker : Z;
  sm_phase : Z;
  sm_tag : string;
  sm_sum : Z;
  sm_count : Z
}.

(** A row of [df_fixed_points_stats] (lines 134-144). *)
Record stat_row := mk_stat {
  st_session : Z;
  st_tracker : Z;
  st_phase : Z;
  st_tag : string;
  st_sum : Z;
  st_count : Z;
  st_obj_type : string
}.

(** ** Sorting by one column *)

(** A stable insertion sort by one key: what numpy's quicksort does on
    fewer than 17 rows, and one of the orders it may leave otherwise. *)
Section SortBy.
Context {A : Type} (k : A -> Z).

Fixpoint insert_sorted (a : A) (l : list A) : list A :=
  match l with
  | [] => [a]
  | b :: l' => if k b <? k a then b :: insert_sorted a l' else a :: l
  end.

Definition sort_by_key (l : list A) : list A := fold_right insert_sorted [] l.
End SortBy.

Lemma insert_sorted_perm {A : Type} (k : A -> Z) (a : A) (l : list A) :
  Permutation (insert_sorted k a l) (a :: l).
Proof.
  induction l as [|b l IH]; cbn; [reflexivity |].
  destruct (k b <? k a); [| reflexivity]. rewrite IH. apply perm_swap.
Qed.

Lemma sort_by_key_perm {A : Type} (k : A -> Z) (l : list A) : Permutation (sort_by_key k l) l.
Proof.
  induction l as [|a l IH]; cbn; [reflexivity |]. rewrite insert_sorted_perm, IH. reflexivity.
Qed.

Lemma insert_sorted_sorted {A : Type} (k : A -> Z) (a : A) (l : list A) :
  Sorted (fun x y => (k x <= k y)%Z) l -> Sorted (fun x y => (k x <= k y)%Z) (insert_sorted k a l).
Proof.
  induction 1 as [|b l Hl IH Hb]; cbn; [repeat constructor |].
  destruct (Z.ltb_spec (k b) (k a)).
  - constructor; [exact IH |]. destruct l as [|c l]; cbn; [constructor; lia |].
    inversion Hb; subst. destruct (k c <? k a); constructor; lia.
  - constructor; [constructor; assumption | constructor; lia].
Qed.

Lemma sort_by_key_sorted {A : Type} (k : A -> Z) (l : list A) :
  Sorted (fun x y => (k x <= k y)%Z) (sort_by_key k l).
Proof. induction l as [|a l IH]; cbn; [constructor | apply insert_sorted_sorted, IH]. Qed.

(** [sort_values(by=[c], inplace=True)] with pandas' default
    [kind='quicksort']: numpy's introsort, which leaves the order of equal
    keys unspecified.  The interface states what every such sort does: it
    permutes the rows and orders them by the key.  The theorems on
    [generate_fixed_points_stats] hold for every instance. *)
Class SessionSort := {
  sort_values : forall {A : Type}, (A -> Z) -> list A -> list A;
  sort_values_perm : forall {A : Type} (k : A -> Z) (l : list A), Permutation (sort_values k l) l;
  sort_values_sorted : forall {A : Type} (k : A -> Z) (l : list A),
    Sorted (fun x y => (k x <= k y)%Z) (sort_values k l)
}.

#[export] Instance insertion_sort : SessionSort :=
  {| sort_values A := @sort_by_key A;
     sort_values_perm A := @sort_by_key_perm A;
     sort_values_sorted A := @sort_by_key_sorted A |}.

(** ** [generate_fixed_points_stats] *)

Definition out_session (r : out_row) : Z :=
  match r with
  | out_stop s => sr_session s
  | out_transition b _ => bss b
  end.

(** [df[df['type'] == 'stop']] (lines 83 and 113). *)
Definition stop_rows (out : list out_row) : list stop_record :=
  omap (fun r => match r with out_stop s => Some s | out_transition _ _ => None end) out.

(** [pd.merge(df1_fix, df_fixed_points, on='session')] (line 86). *)
Definition merge_session (stops : list stop_record) (fps : list fixed_point)
    : list (stop_record * fixed_point) :=
  flat_map (fun s => map (pair s) (List.filter (fun f => bool_decide (fp_session f = sr_session s)) fps))
    stops.

(** [df_fixed_points.loc[(session ==) & (tag ==)]['obj_type'].values[0]]
    (lines 95-96): [IndexError] when no fixed point matches. *)
Definition obj_type_of (fps : list fixed_point) (ss : Z) (tag : string) : option string :=
  fp_obj_type <$> head (List.filter (fun f => bool_decide (fp_session f = ss /\ fp_tag f = tag)) fps).

(** One row of [df_dist]: the distance of line 89, squared. *)
Definition dist_of (p : stop_record * fixed_point) (ot : string) : dist_row :=
  let '(s, f) := p in
  mk_dist (sr_block s) (sr_tracker s) (sr_session s) (fp_tag f)
    (sqdist (sr_x s) (sr_y s) (fp_x f) (fp_y f)) (sr_timestamp s) ot.

(** Lines 86-97: [df_dist], or the [IndexError] of line 96. *)
Definition distances (stops : list stop_record) (fps : list fixed_point) : option (list dist_row) :=
  mapM (fun p => ot ← obj_type_of fps (sr_session p.1) (fp_tag p.2); Some (dist_of p ot))
    (merge_session stops fps).

Definition dkey (d : dist_row) : Z * Z * Z := (d_block d, d_tracker d, d_session d).

(** The smallest distance of a (block, tracker, session) group. *)
Definition group_min (dd : list dist_row) (k : Z * Z * Z) : Q :=
  match map d_dist (List.filter (fun d => bool_decide (dkey d = k)) dd) with
  | [] => 0
  | v :: vs => fold_right Qmin v vs
  end.

(** [df_dist.groupby(('block','tracker','session')).min()['dist_student'].values]
    (line 310). *)
Definition group_mins (dd : list dist_row) : list Q := map (group_min dd) (unique (map dkey dd)).

(** [Series.isin(values)]. *)
Definition isin (v : Q) (vs : list Q) : bool := existsb (Qeq_bool v) vs.

(** [df_dist[df_dist['dist_student'].isin(...)]] (line 310). *)
Definition min_rows (dd : list dist_row) : list dist_row :=
  List.filter (fun d => isin (d_dist d) (group_mins dd)) dd.

(** [pd.merge(df_min_dis, df_stops, on=['tracker','session','block'])]
    (line 316). *)
Definition merge_stops (dd : list dist_row) (stops : list stop_record) : list (dist_row * stop_record) :=
  flat_map (fun d => map (pair d)
    (List.filter (fun s => bool_decide ((sr_block s, sr_tracker s, sr_session s) = dkey d)) stops)) dd.

(** [get_closer_fixedpoint_stop] (lines 271-319). *)
Definition get_closer_fixedpoint_stop `{SessionSort} (dd : list dist_row) (stops : list stop_record)
    : list (dist_row * stop_record) :=
  merge_stops (sort_values d_session (min_rows dd)) stops.

(** Line 124: [dist_student <= distance_tracker_fixed_point]. *)
Definition close_rows (D : Q) (nr : list (dist_row * stop_record)) : list (dist_row * stop_record) :=
  List.filter (fun n => within (d_dist n.1) D) nr.

Definition skey (n : dist_row * stop_record) : Z * Z * Z * string :=
  (d_session n.1, d_tracker n.1, sr_phase n.2, d_tag n.1).

Definition skey_ltb (a b : Z * Z * Z * string) : bool :=
  lex3_ltb a.1 b.1 || (bool_decide (a.1 = b.1) && bool_decide (String.compare a.2 b.2 = Lt)).

(** The keys of [groupby(['session','tracker','phase','tag'])] (line 127),
    in ascending order ([sort=True] by default). *)
Definition groupby_keys (nr : list (dist_row * stop_record)) : list (Z * Z * Z * string) :=
  fold_right (insert_by skey_ltb) [] (unique (map skey nr)).

(** [groupby(['session','tracker','phase','tag'])['max_duration_sec']
    .agg(['sum','count'])] (line 127). *)
Definition summary (nr : list (dist_row * stop_record)) : list summary_row :=
  map (fun k =>
         let g := List.filter (fun n => bool_decide (skey n = k)) nr in
         mk_summary k.1.1.1 k.1.1.2 k.1.2 k.2 (sumZ (fun n => sr_max_duration n.2) g) (Z.of_nat (length g)))
    (groupby_keys nr).

(** Lines 138-144: for every fixed point, a zero row per phase and tracker
    of its session in [summary]. *)
Definition init_stats (sm : list summary_row) (fps : list fixed_point) : list stat_row :=
  flat_map (fun f =>
    let here := List.filter (fun r => bool_decide (sm_session r = fp_session f)) sm in
    flat_map (fun ph => map (fun tr => mk_stat (fp_session f) tr ph (fp_tag f) 0 0 (fp_obj_type f))
                            (unique (map sm_tracker here)))
             (unique (map sm_phase here))) fps.

Definition sm_key (r : summary_row) : Z * Z * Z * string :=
  (sm_session r, sm_tracker r, sm_phase r, sm_tag r).

Definition stat_key (g : stat_row) : Z * Z * Z * string :=
  (st_session g, st_tracker g, st_phase g, st_tag g).

(** Lines 148-152 for one pair of rows. *)
Definition set_counts (r : summary_row) (g : stat_row) : stat_row :=
  if bool_decide (sm_key r = stat_key g)
  then mk_stat (st_session g) (st_tracker g) (st_phase g) (st_tag g) (sm_sum r) (sm_count r) (st_obj_type g)
  else g.

(** Lines 146-154: every summary row against every row of the table. *)
Definition fill_stats (sm : list summary_row) (st : list stat_row) : list stat_row :=
  fold_left (fun st r => map (set_counts r) st) sm st.

(** [generate_fixed_points_stats]: the caller's table, sorted in place by
    session (line 110), and the statistics, or the [IndexError] of line 96. *)
Definition generate_fixed_points_stats `{SessionSort} (D : Q) (out : list out_row) (fps : list fixed_point)
    : option (list out_row * list stat_row) :=
  dd ← distances (stop_rows out) fps;
  let out' := sort_values out_session out in
  let stops := sort_values sr_session (stop_rows out') in
  let sm := summary (close_rows D (get_closer_fixedpoint_stop dd stops)) in
  Some (out', fill_stats sm (init_stats sm fps)).

(** ** The Gini index per group *)

(** [df_fixed_points_stats.loc[obj_type == 'student']] (lines 192, 230). *)
Definition students (st : list stat_row) : list stat_row :=
  List.filter (fun g => bool_decide (st_obj_type g = "student"%string)) st.

(** [.groupby(keys)['count'].agg([gini])] (lines 194, 232). *)
Definition gini_groups {K : Type} `{EqDecision K} (key : stat_row -> K) (ltb : K -> K -> bool)
    (st : list stat_row) : list (K * option Q) :=
  let s := students st in
  map (fun k => (k, gini (map (fun g => inject_Z (st_count g))
                              (List.filter (fun g => bool_decide (key g = k)) s))))
      (fold_right (insert_by ltb) [] (unique (map key s))).

(** [calculate_gini_by_tracker] (lines 159-197). *)
Definition calculate_gini_by_tracker (st : list stat_row) : list (Z * Z * Z * option Q) :=
  gini_groups (fun g => (st_session g, st_tracker g, st_phase g)) lex3_ltb st.

(** [calculate_gini_trackers_together] (lines 199-235). *)
Definition calculate_gini_trackers_together (st : list stat_row) : list (Z * Z * option Q) :=
  gini_groups (fun g => (st_session g, st_phase g)) lex2_ltb st.

(** ** The summary *)

Lemma sm_key_mk (k : Z * Z * Z * string) (s c : Z) :
  sm_key (mk_summary k.1.1.1 k.1.1.2 k.1.2 k.2 s c) = k.
Proof. destruct k as [[[a b] c'] d]. reflexivity. Qed.

Lemma in_groupby_keys (nr : list (dist_row * stop_record)) (k : Z * Z * Z * string) :
  In k (groupby_keys nr) <-> In k (map skey nr).
Proof. unfold groupby_keys. rewrite ?in_fold_insert_by. apply in_unique. Qed.

Lemma summary_keys (nr : list (dist_row * stop_record)) : map sm_key (summary nr) = groupby_keys nr.
Proof.
  unfold summary. rewrite map_map. erewrite map_ext by (intros k; apply sm_key_mk). apply map_id.
Qed.

Lemma summary_NoDup (nr : list (dist_row * stop_record)) : List.NoDup (map sm_key (summary nr)).
Proof. rewrite summary_keys. unfold groupby_keys. auto with mmla. Qed.

(** Every summary row counts and sums exactly the rows of its key. *)
Lemma summary_row_spec (nr : list (dist_row * stop_record)) (r : summary_row) :
  In r (summary nr) ->
  let g := List.filter (fun n => bool_decide (skey n = sm_key r)) nr in
  sm_count r = Z.of_nat (length g) /\ sm_sum r = sumZ (fun n => sr_max_duration n.2) g.
Proof.
  unfold summary. rewrite List.in_map_iff. intros (k & <- & _). rewrite sm_key_mk.
  split; reflexivity.
Qed.

(** Every key of the rows has its summary row. *)
Lemma summary_complete (nr : list (dist_row * stop_record)) (n : dist_row * stop_record) :
  In n nr -> exists r, In r (summary nr) /\ sm_key r = skey n.
Proof.
  intros Hn. assert (Hk : In (skey n) (map sm_key (summary nr))).
  { rewrite summary_keys, in_groupby_keys. apply in_map, Hn. }
  apply List.in_map_iff in Hk as (r & Hr & Hin). exists r. split; assumption.
Qed.

(** ** The update loop *)

Lemma stat_key_set_counts (r : summary_row) (g : stat_row) : stat_key (set_counts r g) = stat_key g.
Proof. unfold set_counts. case_bool_decide; reflexivity. Qed.

Lemma fill_stats_map (sm : list summary_row) (st : list stat_row) :
  fill_stats sm st = map (fun g => fold_left (fun g r => set_counts r g) sm g) st.
Proof.
  unfold fill_stats. revert st. induction sm as [|r sm IH]; intros st; cbn.
  - symmetry. apply map_id.
  - rewrite IH, map_map. reflexivity.
Qed.

(** A row no summary row matches keeps its values. *)
Lemma fold_set_counts_none (sm : list summary_row) (g : stat_row) :
  (forall r, In r sm -> sm_key r <> stat_key g) ->
  fold_left (fun g r => set_counts r g) sm g = g.
Proof.
  revert g. induction sm as [|r sm IH]; intros g H; [reflexivity |]. cbn.
  unfold set_counts at 2. rewrite bool_decide_false by (apply H; left; reflexivity).
  apply IH. intros r' Hr'. apply H. right. exact Hr'.
Qed.

(** With distinct keys, a row takes the values of the one summary row of
    its key. *)
Lemma fold_set_counts_some (sm : list summary_row) (g : stat_row) (r : summary_row) :
  List.NoDup (map sm_key sm) -> In r sm -> sm_key r = stat_key g ->
  st_count (fold_left (fun g r => set_counts r g) sm g) = sm_count r /\
  st_sum (fold_left (fun g r => set_counts r g) sm g) = sm_sum r.
Proof.
  revert g. induction sm as [|r' sm IH]; intros g Hnd Hin Hk; [destruct Hin |].
  cbn in Hnd |- *. apply NoDup_cons_iff in Hnd as [Hnot Hnd].
  destruct Hin as [<-|Hin].
  - rewrite fold_set_counts_none.
    + unfold set_counts. rewrite bool_decide_true by exact Hk. split; reflexivity.
    + intros r2 Hr2 E. apply Hnot. rewrite stat_key_set_counts, <- Hk in E.
      rewrite <- E. apply in_map, Hr2.
  - apply IH; [exact Hnd | exact Hin |]. rewrite stat_key_set_counts. exact Hk.
Qed.

Lemma stat_key_fold (sm : list summary_row) (g : stat_row) :
  stat_key (fold_left (fun g r => set_counts r g) sm g) = stat_key g.
Proof.
  revert g. induction sm as [|r sm IH]; intros g; [reflexivity |]. cbn.
  rewrite IH. apply stat_key_set_counts.
Qed.

Lemma init_stats_zero (sm : list summary_row) (fps : list fixed_point) (g : stat_row) :
  In g (init_stats sm fps) -> st_count g = 0%Z /\ st_sum g = 0%Z.
Proof.
  unfold init_stats. rewrite in_flat_map. intros (f & _ & Hg).
  rewrite in_flat_map in Hg. destruct Hg as (ph & _ & Hg).
  apply List.in_map_iff in Hg as (tr & <- & _). split; reflexivity.
Qed.

(** The stops of a (session, tracker, phase, tag) key among the rows
    kept. *)
Definition visits (close : list (dist_row * stop_record)) (k : Z * Z * Z * string)
    : list (dist_row * stop_record) :=
  List.filter (fun n => bool_decide (skey n = k)) close.

(** What a row of the statistics should hold: the number and the total
    duration of the visits of its key. *)
Definition stat_ok (close : list (dist_row * stop_record)) (g : stat_row) : Prop :=
  st_count g = Z.of_nat (length (visits close (stat_key g))) /\
  st_sum g = sumZ (fun n => sr_max_duration n.2) (visits close (stat_key g)).

(** The update loop gives every zero row the count and the sum of its
    key. *)
Lemma fill_stats_ok (close : list (dist_row * stop_record)) (fps : list fixed_point) :
  Forall (stat_ok close) (fill_stats (summary close) (init_stats (summary close) fps)).
Proof.
  rewrite fill_stats_map. apply List.Forall_map, List.Forall_forall. intros g0 Hg0.
  destruct (init_stats_zero _ _ _ Hg0) as [Hc0 Hs0].
  unfold stat_ok. rewrite stat_key_fold.
  destruct (existsb (fun r => bool_decide (sm_key r = stat_key g0)) (summary close)) eqn:E.
  - apply existsb_exists in E as (r & Hr & Hk). apply bool_decide_eq_true in Hk.
    destruct (fold_set_counts_some _ g0 r (summary_NoDup close) Hr Hk) as [-> ->].
    destruct (summary_row_spec close r Hr) as [Hc Hs]. unfold visits. rewrite <- Hk. split; assumption.
  - assert (Hnone : forall r, In r (summary close) -> sm_key r <> stat_key g0).
    { intros r Hr Hk. assert (Hex : existsb (fun r => bool_decide (sm_key r = stat_key g0)) (summary close) = true)
        by (apply existsb_exists; exists r; split; [exact Hr | apply bool_decide_eq_true, Hk]).
      congruence. }
    assert (Hv : visits close (stat_key g0) = []).
    { destruct (visits close (stat_key g0)) as [|n ns] eqn:Ev; [reflexivity | exfalso].
      assert (Hn : In n (visits close (stat_key g0))) by (rewrite Ev; left; reflexivity).
      unfold visits in Hn. apply filter_In in Hn as [Hn Hk]. apply bool_decide_eq_true in Hk.
      destruct (summary_complete close n Hn) as (r & Hr & Hkr). apply (Hnone r Hr). congruence. }
    rewrite fold_set_counts_none by exact Hnone. rewrite Hv, Hc0, Hs0. split; reflexivity.
Qed.

(** C20. [generate_fixed_points_stats] gives every row of its table the
    number of stops, and their total duration, of the row's tracker in the
    row's session and phase that were kept near the row's fixed point:
    the zero rows of lines 138-144 take the values of [summary] exactly
    where the keys match. *)
Theorem fixed_points_stats_counts `{SessionSort} (D : Q) (out : list out_row) (fps : list fixed_point)
    (out' : list out_row) (st : list stat_row) :
  generate_fixed_points_stats D out fps = Some (out', st) ->
  exists dd, distances (stop_rows out) fps = Some dd /\
  Forall (stat_ok (close_rows D (get_closer_fixedpoint_stop dd (sort_values sr_session (stop_rows out'))))) st.
Proof.
  unfold generate_fixed_points_stats.
  destruct (distances (stop_rows out) fps) as [dd|] eqn:Hd; cbn; [| discriminate].
  intros [= <- <-]. exists dd. split; [reflexivity | apply fill_stats_ok].
Qed.

(** Two stops of session 1: tracker 1 at the origin for 30 s, tracker 2 at
    [(100, 0)] for 20 s; two students at distances 1 and 2 from the first,
    and a zone at distance 2 from the second. *)
Definition stop_A : stop_record := mk_stop 1 1 1 30 1 1 0 0 0 0 0 30.
Definition stop_B : stop_record := mk_stop 2 1 1 20 1 1 100 0 0 0 0 20.
Definition two_stops : list out_row := [out_stop stop_A; out_stop stop_B].
Definition room_points : list fixed_point :=
  [mk_fixed 1 "s1" 1 0 "student"; mk_fixed 1 "s2" 0 2 "student"; mk_fixed 1 "z" 102 0 "zone"].

Lemma fixed_points_stats_counts_witness :
  exists out' st, generate_fixed_points_stats 1000 two_stops room_points = Some (out', st) /\
  exists dd, distances (stop_rows two_stops) room_points = Some dd /\
  Forall (stat_ok (close_rows 1000 (get_closer_fixedpoint_stop dd (sort_values sr_session (stop_rows out'))))) st.
Proof.
  do 2 eexists. split; [reflexivity |].
  apply (fixed_points_stats_counts 1000 two_stops room_points). reflexivity.
Defined.

(** [isin] tests a stop's distances against the minima of all stops:
    the 30 s stop of tracker 1 is counted at [s1] (distance 1) and also at
    [s2] (distance 2), because [2^2] is the minimum of tracker 2's stop.
    One stop of 30 s gives 60 s of visits. *)
Example isin_counts_farther_point :
  option_map (fun p => map (fun g => (st_tracker g, st_tag g, st_sum g, st_count g)) p.2)
    (generate_fixed_points_stats 1000 two_stops room_points)
  = Some [(1, "s1", 30, 1); (2, "s1", 0, 0); (1, "s2", 30, 1);
          (2, "s2", 0, 0); (1, "z", 0, 0); (2, "z", 20, 1)]%Z.
Proof. vm_compute. reflexivity. Qed.

(** ** The nearest fixed points are kept *)

Lemma fold_Qmin_le (v : Q) (vs : list Q) (a : Q) : In a (v :: vs) -> fold_right Qmin v vs <= a.
Proof.
  revert a. induction vs as [|w vs IH]; intros a Ha; cbn.
  - destruct Ha as [<-|[]]. apply Qle_refl.
  - destruct Ha as [<-|[<-|Ha]].
    + eapply Qle_trans; [apply Q.le_min_r | apply IH; left; reflexivity].
    + apply Q.le_min_l.
    + eapply Qle_trans; [apply Q.le_min_r | apply IH; right; exact Ha].
Qed.

Lemma fold_Qmin_in (v : Q) (vs : list Q) : In (fold_right Qmin v vs) (v :: vs).
Proof.
  induction vs as [|w vs IH]; cbn; [left; reflexivity |].
  revert IH. generalize (fold_right Qmin v vs). intros m IH.
  unfold Qmin, GenericMinMax.gmin. destruct (w ?= m).
  1, 2: right; left; reflexivity.
  destruct IH as [H|H]; [left; exact H | right; right; exact H].
Qed.

(** The minimum of a group is the distance of one of its rows and is at
    most the distance of each. *)
Lemma group_min_spec (dd : list dist_row) (d : dist_row) :
  In d dd ->
  group_min dd (dkey d) <= d_dist d /\
  exists d', In d' dd /\ dkey d' = dkey d /\ d_dist d' = group_min dd (dkey d).
Proof.
  intros Hd. unfold group_min.
  assert (Hin : In (d_dist d) (map d_dist (List.filter (fun d' => bool_decide (dkey d' = dkey d)) dd)))
    by (apply in_map, filter_In; split; [exact Hd | apply bool_decide_eq_true; reflexivity]).
  destruct (map d_dist _) as [|v vs] eqn:E; [destruct Hin |].
  split; [apply fold_Qmin_le, Hin |].
  pose proof (fold_Qmin_in v vs) as Hm. rewrite <- E in Hm.
  apply List.in_map_iff in Hm as (d' & Hd' & Hf). apply filter_In in Hf as [Hf Hk].
  apply bool_decide_eq_true in Hk. exists d'. auto.
Qed.

(** [get_closer_fixedpoint_stop] never loses the nearest fixed point
    of a stop: a row whose distance is the smallest of its (block,
    tracker, session) group passes the [isin] filter of line 310. *)
Theorem nearest_row_kept (dd : list dist_row) (d : dist_row) :
  In d dd -> (forall d', In d' dd -> dkey d' = dkey d -> d_dist d <= d_dist d') ->
  In d (min_rows dd).
Proof.
  intros Hd Hmin. unfold min_rows. apply filter_In. split; [exact Hd |].
  destruct (group_min_spec dd d Hd) as [Hle (d' & Hd' & Hk & Heq)].
  unfold isin. apply existsb_exists. exists (group_min dd (dkey d)). split.
  - unfold group_mins. apply in_map, in_unique, in_map, Hd.
  - apply Qeq_bool_iff. apply Qle_antisym; [| exact Hle].
    rewrite <- Heq. apply Hmin; assumption.
Qed.

Lemma nearest_row_kept_witness :
  In (mk_dist 1 1 1 "s1" 1 0 "student") (min_rows [mk_dist 1 1 1 "s1" 1 0 "student"; mk_dist 1 1 1 "s2" 4 0 "student"]).
Proof.
  apply nearest_row_kept; [left; reflexivity |].
  intros d' [<-|[<-|[]]] _; unfold Qle; cbn; lia.
Defined.

(** ** No [IndexError], and the caller's table *)

Lemma obj_type_of_some (fps : list fixed_point) (f : fixed_point) :
  In f fps -> is_Some (obj_type_of fps (fp_session f) (fp_tag f)).
Proof.
  intros Hf. unfold obj_type_of.
  destruct (List.filter _ fps) as [|f' l] eqn:E; [| eexists; reflexivity].
  assert (Hin : In f (List.filter (fun f0 => bool_decide (fp_session f0 = fp_session f /\ fp_tag f0 = fp_tag f)) fps))
    by (apply filter_In; split; [exact Hf | apply bool_decide_eq_true; split; reflexivity]).
  rewrite E in Hin. destruct Hin.
Qed.

Lemma distances_some (stops : list stop_record) (fps : list fixed_point) :
  is_Some (distances stops fps).
Proof.
  unfold distances. apply mapM_is_Some_2, List.Forall_forall. intros [s f] Hp.
  unfold merge_session in Hp. apply in_flat_map in Hp as (s' & _ & Hp).
  apply List.in_map_iff in Hp as (f' & [= -> ->] & Hf). apply filter_In in Hf as [Hf Hs].
  apply bool_decide_eq_true in Hs. cbn. rewrite <- Hs.
  destruct (obj_type_of_some fps f Hf) as [ot ->]. eexists. reflexivity.
Qed.

(** [generate_fixed_points_stats] never raises: the lookup of line 96
    always finds the fixed point the row was joined with.  It reorders the
    caller's table in place (line 110), keeping every row. *)
Theorem generate_fixed_points_stats_total `{SessionSort} (D : Q) (out : list out_row) (fps : list fixed_point) :
  exists out' st, generate_fixed_points_stats D out fps = Some (out', st) /\ Permutation out' out.
Proof.
  unfold generate_fixed_points_stats. destruct (distances_some (stop_rows out) fps) as [dd ->].
  do 2 eexists. split; [reflexivity | apply sort_values_perm].
Qed.

(** ** The Gini index per group *)

Lemma gini_groups_bounds {K : Type} `{EqDecision K} (key : stat_row -> K) (ltb : K -> K -> bool)
    (st : list stat_row) :
  Forall (fun '(k, og) =>
    let n := length (List.filter (fun g => bool_decide (key g = k)) (students st)) in
    (0 < n)%nat /\ exists v, og = Some v /\ 0 <= v /\ v <= 1 - 1 / inject_Z (Z.of_nat n))
    (gini_groups key ltb st).
Proof.
  unfold gini_groups. apply List.Forall_map, List.Forall_forall. intros k Hk.
  apply in_fold_insert_by, in_unique, List.in_map_iff in Hk as (g & Hg & Hin).
  set (grp := List.filter (fun g => bool_decide (key g = k)) (students st)).
  assert (Hne : grp <> []).
  { intros E. assert (Hg' : In g grp) by (apply filter_In; split; [exact Hin | apply bool_decide_eq_true, Hg]).
    rewrite E in Hg'. destruct Hg'. }
  split; [destruct grp; [congruence | cbn; lia] |].
  destruct (gini_bounds (map (fun g => inject_Z (st_count g)) grp)) as (v & Hv & H0 & H1).
  { destruct grp; [congruence | discriminate]. }
  rewrite length_map in H1. exists v. auto.
Qed.

(** ** One count per student point *)

Lemma length_filter_flat_map {A B : Type} (P : B -> bool) (h : A -> list B) (l : list A) :
  length (List.filter P (flat_map h l)) = list_sum (map (fun a => length (List.filter P (h a))) l).
Proof.
  induction l as [|a l IH]; [reflexivity |]. cbn [flat_map map list_sum].
  rewrite List.filter_app, length_app, IH. reflexivity.
Qed.

Lemma list_sum_indicator {A : Type} (P : A -> bool) (l : list A) :
  list_sum (map (fun a => if P a then 1%nat else 0%nat) l) = length (List.filter P l).
Proof.
  induction l as [|a l IH]; [reflexivity |]. cbn [map List.filter].
  destruct (P a); cbn [length]; rewrite <- IH; reflexivity.
Qed.

Lemma length_filter_eq_NoDup {A : Type} `{EqDecision A} (x : A) (l : list A) :
  List.NoDup l -> In x l -> length (List.filter (fun y => bool_decide (y = x)) l) = 1%nat.
Proof.
  induction 1 as [|a l Hnot Hnd IH]; intros Hx; [destruct Hx |]. cbn.
  case_bool_decide as E.
  - subst a. cbn. f_equal. apply length_zero_iff_nil.
    destruct (List.filter _ l) as [|b l'] eqn:F; [reflexivity | exfalso].
    assert (Hb : In b (List.filter (fun y => bool_decide (y = x)) l)) by (rewrite F; left; reflexivity).
    apply filter_In in Hb as [Hb Hbx]. apply bool_decide_eq_true in Hbx. subst b. contradiction.
  - destruct Hx as [Hx|Hx]; [congruence | apply IH, Hx].
Qed.

Lemma filter_filter_andb {A : Type} (P R : A -> bool) (l : list A) :
  List.filter P (List.filter R l) = List.filter (fun a => R a && P a) l.
Proof. induction l as [|a l IH]; [reflexivity |]. cbn. destruct (R a); cbn; [destruct (P a) |]; rewrite ?IH; reflexivity. Qed.

Lemma filter_map_inv {A : Type} (P : A -> bool) (F : A -> A) (l : list A) :
  (forall a, P (F a) = P a) -> List.filter P (map F l) = map F (List.filter P l).
Proof. intros H. induction l as [|a l IH]; [reflexivity |]. cbn. rewrite H. destruct (P a); cbn; rewrite IH; reflexivity. Qed.

Lemma obj_type_fold (sm : list summary_row) (g : stat_row) :
  st_obj_type (fold_left (fun g r => set_counts r g) sm g) = st_obj_type g.
Proof.
  revert g. induction sm as [|r sm IH]; intros g; [reflexivity |]. cbn.
  rewrite IH. unfold set_counts. case_bool_decide; reflexivity.
Qed.

Definition key3 (g : stat_row) : Z * Z * Z := (st_session g, st_tracker g, st_phase g).

Lemma key3_fold (sm : list summary_row) (g : stat_row) :
  key3 (fold_left (fun g r => set_counts r g) sm g) = key3 g.
Proof.
  pose proof (stat_key_fold sm g) as H. unfold stat_key in H. unfold key3. congruence.
Qed.

Definition is_student (g : stat_row) : bool := bool_decide (st_obj_type g = "student"%string).

Definition session_students (fps : list fixed_point) (s : Z) : list fixed_point :=
  List.filter (fun f => bool_decide (fp_session f = s /\ fp_obj_type f = "student"%string)) fps.

Lemma length_filter_map {A B : Type} (P : B -> bool) (h : A -> B) (l : list A) :
  length (List.filter P (map h l)) = length (List.filter (fun a => P (h a)) l).
Proof. induction l as [|a l IH]; [reflexivity |]. cbn. destruct (P (h a)); cbn; rewrite IH; reflexivity. Qed.

Lemma length_filter_false {A : Type} (P : A -> bool) (l : list A) :
  (forall a, P a = false) -> length (List.filter P l) = 0%nat.
Proof. intros H. induction l as [|a l IH]; [reflexivity |]. cbn. rewrite H. exact IH. Qed.

Lemma list_sum_zeros {A : Type} (l : list A) : list_sum (map (fun _ => 0%nat) l) = 0%nat.
Proof. induction l as [|a l IH]; [reflexivity | exact IH]. Qed.

(** In the zero table of lines 138-144, a (session, tracker, phase) of
    the session's summary has one student row per student point of the
    session. *)
Lemma init_stats_group_length (sm : list summary_row) (fps : list fixed_point) (s tr ph : Z) :
  let here := List.filter (fun r => bool_decide (sm_session r = s)) sm in
  In ph (unique (map sm_phase here)) -> In tr (unique (map sm_tracker here)) ->
  length (List.filter (fun g => bool_decide (key3 g = (s, tr, ph))) (List.filter is_student (init_stats sm fps)))
  = length (session_students fps s).
Proof.
  intros here Hph Htr. rewrite filter_filter_andb. unfold init_stats.
  rewrite length_filter_flat_map. unfold session_students. rewrite <- list_sum_indicator.
  f_equal. apply map_ext. intros f. rewrite length_filter_flat_map.
  case_bool_decide as Hf.
  - destruct Hf as [Hs Hst]. rewrite Hs. fold here.
    transitivity (list_sum (map (fun ph' => if bool_decide (ph' = ph) then 1%nat else 0%nat)
                                (unique (map sm_phase here)))).
    + f_equal. apply map_ext. intros ph'. rewrite length_filter_map. case_bool_decide as Hp.
      * subst ph'. rewrite <- (length_filter_eq_NoDup tr (unique (map sm_tracker here)) (NoDup_unique _) Htr).
        f_equal. apply filter_ext. intros tr'. unfold is_student, key3. cbn [st_session st_tracker st_phase st_obj_type].
        rewrite bool_decide_true by exact Hst. cbn [andb].
        apply bool_decide_ext. split; [congruence | intros ->; reflexivity].
      * apply length_filter_false. intros tr'. apply andb_false_intro2, bool_decide_eq_false_2.
        unfold key3. cbn [st_session st_tracker st_phase]. congruence.
    + rewrite list_sum_indicator. apply length_filter_eq_NoDup; [apply NoDup_unique | exact Hph].
  - erewrite map_ext; [apply list_sum_zeros |]. intros ph'. rewrite length_filter_map.
    apply length_filter_false. intros tr'. unfold is_student, key3. cbn [st_session st_tracker st_phase st_obj_type].
    destruct (decide (fp_obj_type f = "student"%string)) as [Ho|Ho].
    + rewrite (bool_decide_eq_true_2 _ Ho). apply bool_decide_eq_false_2.
      intros [= Hs _ _]. apply Hf. split; assumption.
    + rewrite (bool_decide_eq_false_2 _ Ho). reflexivity.
Qed.

Lemma init_stats_key (sm : list summary_row) (fps : list fixed_point) (g : stat_row) :
  In g (init_stats sm fps) ->
  let here := List.filter (fun r => bool_decide (sm_session r = st_session g)) sm in
  In (st_phase g) (unique (map sm_phase here)) /\ In (st_tracker g) (unique (map sm_tracker here)).
Proof.
  unfold init_stats. rewrite in_flat_map. intros (f & _ & Hg).
  rewrite in_flat_map in Hg. destruct Hg as (ph & Hph & Hg).
  apply List.in_map_iff in Hg as (tr & <- & Htr). cbn. split; assumption.
Qed.

Lemma gini_groups_keys {K : Type} `{EqDecision K} (key : stat_row -> K) (ltb : K -> K -> bool)
    (st : list stat_row) (k : K) (og : option Q) :
  In (k, og) (gini_groups key ltb st) -> exists g, In g (students st) /\ key g = k.
Proof.
  unfold gini_groups. rewrite List.in_map_iff. intros (k' & [= <- _] & Hk).
  apply in_fold_insert_by, in_unique, List.in_map_iff in Hk as (g & Hg & Hin). eauto.
Qed.

(** The student rows of a group of the final table are those of the zero
    table: the update loop only changes [sum] and [count]. *)
Lemma fill_stats_group_length (sm : list summary_row) (fps : list fixed_point) (k : Z * Z * Z) :
  length (List.filter (fun g => bool_decide (key3 g = k)) (students (fill_stats sm (init_stats sm fps))))
  = length (List.filter (fun g => bool_decide (key3 g = k)) (List.filter is_student (init_stats sm fps))).
Proof.
  rewrite fill_stats_map. unfold students. fold is_student.
  rewrite (filter_map_inv is_student) by (intros g; unfold is_student; rewrite obj_type_fold; reflexivity).
  rewrite (filter_map_inv (fun g => bool_decide (key3 g = k))) by (intros g; rewrite key3_fold; reflexivity).
  apply length_map.
Qed.

(** C22. Through [generate_fixed_points_stats], [calculate_gini_by_tracker]
    gives every (session, tracker, phase) a Gini index over exactly one
    visit count per student point of the session (the zero rows included),
    and the index lies between [0] and [1 - 1/n], [n] the number of
    student points of the session. *)
Theorem gini_by_tracker_per_student `{SessionSort} (D : Q) (out : list out_row) (fps : list fixed_point)
    (out' : list out_row) (st : list stat_row) :
  generate_fixed_points_stats D out fps = Some (out', st) ->
  Forall (fun '(k, og) =>
    let n := length (session_students fps k.1.1) in
    (0 < n)%nat /\ exists v, og = Some v /\ 0 <= v /\ v <= 1 - 1 / inject_Z (Z.of_nat n))
    (calculate_gini_by_tracker st).
Proof.
  unfold generate_fixed_points_stats.
  destruct (distances (stop_rows out) fps) as [dd|]; cbn; [| discriminate]. intros [= _ <-].
  set (sm := summary _).
  pose proof (gini_groups_bounds key3 lex3_ltb (fill_stats sm (init_stats sm fps))) as Hb.
  apply List.Forall_forall. intros [k og] Hk.
  assert (Hn : length (List.filter (fun g => bool_decide (key3 g = k)) (students (fill_stats sm (init_stats sm fps))))
               = length (session_students fps k.1.1)).
  { destruct (gini_groups_keys key3 lex3_ltb _ k og Hk) as (g & Hg & Hgk).
    rewrite fill_stats_map in Hg. unfold students in Hg. apply filter_In in Hg as [Hg _].
    apply List.in_map_iff in Hg as (g0 & <- & Hg0). rewrite key3_fold in Hgk.
    destruct (init_stats_key sm fps g0 Hg0) as [Hph Htr].
    rewrite fill_stats_group_length, <- Hgk. apply init_stats_group_length; assumption. }
  exact (eq_rect _ (fun n => (0 < n)%nat /\ exists v, og = Some v /\ 0 <= v /\ v <= 1 - 1 / inject_Z (Z.of_nat n))
           (proj1 (List.Forall_forall _ _) Hb (k, og) Hk) _ Hn).
Qed.

Lemma gini_by_tracker_per_student_witness :
  exists out' st, generate_fixed_points_stats 1000 two_stops room_points = Some (out', st) /\
  Forall (fun '(k, og) =>
    let n := length (session_students room_points k.1.1) in
    (0 < n)%nat /\ exists v, og = Some v /\ 0 <= v /\ v <= 1 - 1 / inject_Z (Z.of_nat n))
    (calculate_gini_by_tracker st).
Proof.
  do 2 eexists. split; [reflexivity |].
  eapply (gini_by_tracker_per_student 1000 two_stops room_points). reflexivity.
Defined.
