(* ===== verification/Metrics.v ===== *)
(** * The metrics of a session ([_metricsMain.py])

    [get_metrics] (lines 30-237) aggregates the outputs of the other
    scripts per (session, tracker, phase): stop counts and durations, the
    distance walked and the speed during transitions, the attention given
    to student and zone points, entropy and Gini indices; it merges them,
    keeps the selected phase, and can weight every metric by the ratio of
    the shortest duration of the phase to the phase's duration in the
    session.

    The model follows the script's loops over the rows of the engine's
    output ([Summarizer.out_row]) and of the fixed-point statistics
    ([FixedPoints.stat_row]).  Values are rationals, a missing value
    ([NaN]) is [None].  [np.sqrt] is a parameter [sqrt] of the Section:
    the theorems hold whatever function computes it.  The columns and
    orders it leaves in its arguments are modelled in [MetricsFrames]. *)

From Stdlib Require Import ZArith QArith Qminmax Lqa Lia List.
From stdpp Require Import base list decidable strings.
From S2P Require Import Prelude Geometry Samples ClusterBuilder Classifier BlockMerger.
From S2P Require Import Summarizer QSum Gini FixedPoints.

(** ** Reading a row of [df_fs] *)

Definition o_session (r : out_row) : Z :=
  match r with out_stop s => sr_session s | out_transition b _ => bss b end.
Definition o_tracker (r : out_row) : Z :=
  match r with out_stop s => sr_tracker s | out_transition b _ => btr b end.
Definition o_block (r : out_row) : Z :=
  match r with out_stop s => sr_block s | out_transition b _ => block b end.
Definition o_phase (r : out_row) : Z :=
  match r with out_stop s => sr_phase s | out_transition b _ => bphase b end.
Definition o_x (r : out_row) : Q :=
  match r with out_stop s => sr_x s | out_transition b _ => bx b end.
Definition o_y (r : out_row) : Q :=
  match r with out_stop s => sr_y s | out_transition b _ => by_ b end.
Definition o_max_duration (r : out_row) : Z :=
  match r with out_stop s => sr_max_duration s | out_transition _ d => d end.
Definition o_is_stop (r : out_row) : bool :=
  match r with out_stop _ => true | out_transition _ _ => false end.

(** Lines 72-77: [duration_minutes]. *)
Definition duration_minutes (r : out_row) : Q := inject_Z (o_max_duration r) / 60.

(** ** Sorting by several columns *)

(** [sort_values(by=[c1, c2, ...])]: pandas sorts on several columns with
    a stable lexicographic sort. *)
Definition sort_lex {A : Type} (k : A -> Z * Z * Z) (l : list A) : list A :=
  fold_right (insert_by (fun a b => lex3_ltb (k a) (k b))) [] l.

(** The order of line 134: [session], then [obj_type]. *)
Definition session_obj_type_ltb (a b : stat_row) : bool :=
  (st_session a <? st_session b)
  || ((st_session a =? st_session b) && bool_decide (String.compare (st_obj_type a) (st_obj_type b) = Lt)).

(** Line 134: [df_points.sort_values(by=['session','obj_type'], inplace=True)]. *)
Definition sort_points {A : Type} (k : A -> stat_row) (l : list A) : list A :=
  fold_right (insert_by (fun a b => session_obj_type_ltb (k a) (k b))) [] l.

Definition o_stb (r : out_row) : Z * Z * Z := (o_session r, o_tracker r, o_block r).

Definition o_stp (r : out_row) : Z * Z * Z := (o_session r, o_tracker r, o_phase r).

(** ** The distance walked *)

Section Walk.
Variable sqrt : Q -> Q.

(** Line 109: [np.sqrt(dx ** 2 + dy ** 2) / 1000]. *)
Definition step_meters (p r : out_row) : Q := sqrt (sqdist (o_x p) (o_y p) (o_x r) (o_y r)) / 1000.

(** Lines 100-114: the distance to the previous row of the table when it
    has the same session and tracker, [0] otherwise and on the first row. *)
Fixpoint walk (prev : option out_row) (rows : list out_row) : list Q :=
  match rows with
  | [] => []
  | r :: rs =>
      match prev with
      | None => 0
      | Some p => if (o_session p =? o_session r) && (o_tracker p =? o_tracker r)
                  then step_meters p r else 0
      end :: walk (Some r) rs
  end.

(** Lines 96-115: the table sorted by (session, tracker, block), each row
    with [distance_previous_point_meter]. *)
Definition with_distances (fs : list out_row) : list (out_row * Q) :=
  let sorted := sort_lex o_stb fs in
  combine sorted (walk None sorted).

Definition o_stpb (r : out_row) : Z * Z * Z * Z := (o_session r, o_tracker r, o_phase r, o_block r).

Definition lex4_ltb (a b : Z * Z * Z * Z) : bool :=
  lex3_ltb a.1 b.1 || (bool_decide (a.1 = b.1) && (a.2 <? b.2)).

(** Lines 118-122: per (session, tracker, phase, block) of transition rows,
    the distance walked (sum) and the speed (mean). *)
Definition transition_blocks (fs : list out_row) : list (Z * Z * Z * Z * Q * Q) :=
  let tr := List.filter (fun rd => negb (o_is_stop rd.1)) (with_distances fs) in
  map (fun k => let ds := map snd (List.filter (fun rd => bool_decide (o_stpb rd.1 = k)) tr) in
                (k, sumq ds, sumq ds / inject_Z (Z.of_nat (length ds))))
      (fold_right (insert_by lex4_ltb) [] (unique (map (fun rd => o_stpb rd.1) tr))).

(** Lines 124-128: per (session, tracker, phase), the number of transition
    blocks, the distance walked and the mean of the blocks' speeds. *)
Definition df_transitions (fs : list out_row) : list (Z * Z * Z * Z * Q * Q) :=
  let tb := transition_blocks fs in
  map (fun k => let g := List.filter (fun t => bool_decide (t.1.1.1 = k)) tb in
                (k, Z.of_nat (length g), sumq (map (fun t => t.1.2) g),
                 sumq (map snd g) / inject_Z (Z.of_nat (length g))))
      (fold_right (insert_by lex3_ltb) [] (unique (map (fun t => t.1.1.1) tb))).
End Walk.

(** ** Aggregates *)

(** [median]: the middle value of the sorted list, or the mean of the two
    middle values. *)
Definition median (l : list Q) : Q :=
  let s := sort_q l in
  let n := length s in
  if Nat.even n then (nth (n / 2 - 1) s 0 + nth (n / 2) s 0) / 2 else nth (n / 2) s 0.

Definition qmax_list (l : list Q) : Q :=
  match l with [] => 0 | v :: vs => fold_right Qmax v vs end.

Definition mean (l : list Q) : Q := sumq l / inject_Z (Z.of_nat (length l)).

(** The sample variance (ddof 1); [NaN] below two values. *)
Definition sample_var (l : list Q) : option Q :=
  match l with
  | [] | [_] => None
  | _ => let m := mean l in
         Some (sumq (map (fun v => (v - m) * (v - m)) l) / inject_Z (Z.of_nat (length l) - 1))
  end.

(** Skipping [NaN], as pandas' [sum], [mean] and [std] do. *)
Definition present (l : list (option Q)) : list Q := omap (fun v => v) l.

Definition sum_skipna (l : list (option Q)) : Q := sumq (present l).

Definition mean_skipna (l : list (option Q)) : option Q :=
  match present l with [] => None | p => Some (mean p) end.

Section Metrics.
Variable sqrt : Q -> Q.

Definition std_skipna (l : list (option Q)) : option Q := sqrt <$> sample_var (present l).

(** Lines 82-89: per (session, tracker, phase) of stop rows: number of
    stops, total, longest, mean and median stop, standard deviation. *)
Definition df_stops (fs : list out_row) : list (Z * Z * Z * list (option Q)) :=
  let st := List.filter o_is_stop fs in
  map (fun k => let d := map duration_minutes (List.filter (fun r => bool_decide (o_stp r = k)) st) in
                (k, [Some (inject_Z (Z.of_nat (length d))); Some (sumq d); Some (qmax_list d);
                     Some (mean d); Some (median d); sqrt <$> sample_var d]))
      (fold_right (insert_by lex3_ltb) [] (unique (map o_stp st))).

(** Line 135: [time_per_stop_min], [NaN] for a point never visited. *)
Definition time_per_stop_min (g : stat_row) : option Q :=
  if st_count g =? 0 then None else Some (inject_Z (st_sum g) / inject_Z (st_count g) / 60).

(** Line 136. *)
Definition total_attention_time_min (g : stat_row) : Q := inject_Z (st_sum g) / 60.

(** Lines 139-146: per (session, tracker, phase) of student points. *)
Definition df_students (pts : list stat_row) : list (Z * Z * Z * list (option Q)) :=
  let s := students pts in
  map (fun k => let g := List.filter (fun p => bool_decide (key3 p = k)) s in
                let c := map (fun p => inject_Z (st_count p)) g in
                let t := map time_per_stop_min g in
                (k, [Some (sumq (map total_attention_time_min g)); Some (sumq c);
                     mean_skipna t; std_skipna t; Some (mean c); sqrt <$> sample_var c]))
      (fold_right (insert_by lex3_ltb) [] (unique (map key3 s))).

(** Lines 149-157: per (session, tracker, phase), for every zone tag of
    the table (the columns of the pivot table), the attention time and the
    visits of that zone, [NaN] where the group has no row for it. *)
Definition df_objects (pts : list stat_row) : list (Z * Z * Z * list (option Q)) :=
  let z := List.filter (fun p => bool_decide (st_obj_type p = "zone"%string)) pts in
  let tags := fold_right (insert_by (fun a b => bool_decide (String.compare a b = Lt))) []
                (unique (map st_tag z)) in
  let cell (k : Z * Z * Z) (tag : string) (f : stat_row -> Q) : option Q :=
    match List.filter (fun p => bool_decide (key3 p = k /\ st_tag p = tag)) z with
    | [] => None
    | g => Some (sumq (map f g))
    end in
  map (fun k => (k, map (fun tag => cell k tag total_attention_time_min) tags ++
                    map (fun tag => cell k tag (fun p => inject_Z (st_count p))) tags))
      (fold_right (insert_by lex3_ltb) [] (unique (map key3 z))).
End Metrics.

(** Lines 169-182: [groupby(...).agg(sum)] of a column that has one row per
    group; [sum] skips [NaN] and gives [0] on a group of [NaN]s. *)
Definition sum_by {K : Type} `{EqDecision K} (ltb : K -> K -> bool) (rows : list (K * option Q))
    : list (K * Q) :=
  map (fun k => (k, sum_skipna (map snd (List.filter (fun r => bool_decide (r.1 = k)) rows))))
      (fold_right (insert_by ltb) [] (unique (map fst rows))).

(** [pd.merge(left, right, on=keys)]: the inner join on the keys. *)
Definition merge_on {K A B : Type} `{EqDecision K} (l : list (K * A)) (r : list (K * B))
    : list (K * (A * B)) :=
  flat_map (fun '(k, a) => map (fun '(_, b) => (k, (a, b))) (List.filter (fun kb => bool_decide (kb.1 = k)) r)) l.

(** ** Merging, the phase and the weighting *)

(** A row of [df_phases]: times in seconds. *)
Record phase_span := mk_phase_span {
  ps_session : Z;
  ps_phase : Z;
  ps_start : Z;
  ps_end : Z
}.

(** Line 206: [diff], the duration of the phase in minutes. *)
Definition phase_minutes (ph : phase_span) : Q := inject_Z (ps_end ph - ps_start ph) / 60.

(** Lines 209-214: the shortest duration of a phase over the sessions. *)
Definition min_phase_duration (phs : list phase_span) (p : Z) : option Q :=
  match map phase_minutes (List.filter (fun ph => bool_decide (ps_phase ph = p)) phs) with
  | [] => None
  | v :: vs => Some (fold_right Qmin v vs)
  end.

(** Lines 221-227: [factor = min_phase_duration.values[0] /
    phase_duration.values[0]]; [values[0]] of an empty selection raises
    [IndexError] (outer [None]); a phase of length [0] gives [inf] or
    [NaN] (inner [None]). *)
Definition weight_factor (phs : list phase_span) (k : Z * Z * Z) : option (option Q) :=
  d ← head (map phase_minutes
              (List.filter (fun ph => bool_decide (ps_phase ph = k.2 /\ ps_session ph = k.1.1)) phs));
  m ← min_phase_duration phs k.2;
  Some (if Qeq_bool d 0 then None else Some (m / d)).

(** Lines 229-232: every column from the fourth on multiplied by the
    factor. *)
Definition weight_row (f : option Q) (cols : list (option Q)) : list (option Q) :=
  firstn 3 cols ++ map (fun v => w ← v; c ← f; Some (w * c)) (skipn 3 cols).

(** [row[col] * factor]: [NaN] when either is. *)
Definition scale (f : option Q) (v : option Q) : option Q := w ← v; c ← f; Some (w * c).

(** Lines 228-231, the [while] loop itself, with [fuel] iterations at
    most: [None] when the fuel runs out.  [Output.iloc[i, col]] is written
    at position [col] of the output row, [row[col]] read from the row as
    it was before the loop. *)
Fixpoint weight_while (fuel : nat) (f : option Q) (row : list (option Q)) (col : nat)
    (out : list (option Q)) : option (list (option Q)) :=
  if (col <? length row)%nat then
    match fuel with
    | O => None
    | S fuel' => weight_while fuel' f row (S col) (<[col := scale f (nth col row None)]> out)
    end
  else Some out.

(** The row of [Merge5]: the three key columns, then the metrics in the
    order of the merges of lines 186-193. *)
Definition metric_row (k : Z * Z * Z) (cols : list (option Q)) : Z * Z * Z * list (option Q) :=
  (k, [Some (inject_Z k.1.1); Some (inject_Z k.1.2); Some (inject_Z k.2)] ++ cols).

(** Lines 70-193: the merged table [Merge5]. *)
Definition merged_rows (sqrt : Q -> Q) (fs : list out_row) (pts : list stat_row)
    (df_entropy df_giniT : list (Z * Z * Z * option Q)) (df_giniSession : list (Z * Z * option Q))
    : list (Z * Z * Z * list (option Q)) :=
  let pts := sort_points (fun g => g) pts in
  let tr := map (fun t => (t.1.1.1, [Some (inject_Z t.1.1.2); Some t.1.2; Some t.2])) (df_transitions sqrt fs) in
  let merge1 := merge_on (df_stops sqrt fs) tr in
  let merge2 := merge_on (df_students sqrt pts) (df_objects pts) in
  let merge3 := merge_on (sum_by lex3_ltb df_entropy) (sum_by lex3_ltb df_giniT) in
  let merge5 := merge_on (merge_on merge1 merge2) merge3 in
  let gs := sum_by lex2_ltb df_giniSession in
  flat_map (fun '(k, (((a, b), (c, d)), (e, g))) =>
              map (fun '(_, h) => metric_row k (a ++ b ++ c ++ d ++ [Some e; Some g; Some h]))
                  (List.filter (fun sg => bool_decide (sg.1 = (k.1.1, k.2))) gs)) merge5.

(** Lines 196-199: [selectedPhase = -99] keeps every phase. *)
Definition select_phase (selectedPhase : Z) (rows : list (Z * Z * Z * list (option Q)))
    : list (Z * Z * Z * list (option Q)) :=
  if selectedPhase =? -99 then rows else List.filter (fun r => r.1.2 =? selectedPhase) rows.

(** Lines 218-234: the weighting loop, or its [IndexError]. *)
Definition weight_rows (phs : list phase_span) (rows : list (Z * Z * Z * list (option Q)))
    : option (list (Z * Z * Z * list (option Q))) :=
  mapM (fun '(k, cols) => f ← weight_factor phs k; Some (k, weight_row f cols)) rows.

(** [get_metrics] (lines 30-237), with [weighted] read from the
    configuration. *)
Definition get_metrics (sqrt : Q -> Q) (fs : list out_row) (pts : list stat_row)
    (df_entropy df_giniT : list (Z * Z * Z * option Q)) (df_giniSession : list (Z * Z * option Q))
    (phs : list phase_span) (selectedPhase weighted : Z) : option (list (Z * Z * Z * list (option Q))) :=
  let output := select_phase selectedPhase (merged_rows sqrt fs pts df_entropy df_giniT df_giniSession) in
  if weighted =? 1 then weight_rows phs output else Some output.

(** ** The distance walked *)

Section WalkProofs.
Variable sqrt : Q -> Q.

Lemma walk_app (prev : option out_row) (l1 l2 : list out_row) :
  walk sqrt prev (l1 ++ l2) = walk sqrt prev l1 ++ walk sqrt (from_option Some prev (last l1)) l2.
Proof.
  revert prev. induction l1 as [|r l1 IH]; intros prev; [reflexivity |].
  cbn [app walk]. rewrite IH. cbn [app]. f_equal. f_equal. f_equal.
  destruct l1 as [|o l1]; [reflexivity |]. rewrite last_cons_cons.
  destruct (last (o :: l1)) eqn:E; [reflexivity |]. apply last_None in E. discriminate.
Qed.

(** C23. The distance loop restarts at every change of session or
    tracker: no distance is counted between the last row of one tracker
    and the first row of the next, and the distances of the table are
    those of its runs put end to end. *)
Theorem walk_restarts (l1 : list out_row) (p r : out_row) (rs : list out_row) :
  (o_session p, o_tracker p) <> (o_session r, o_tracker r) ->
  walk sqrt None (l1 ++ p :: r :: rs) = walk sqrt None (l1 ++ [p]) ++ walk sqrt None (r :: rs).
Proof.
  intros Hpr. replace (l1 ++ p :: r :: rs) with ((l1 ++ [p]) ++ r :: rs) by (rewrite <- app_assoc; reflexivity).
  rewrite walk_app, last_snoc. cbn [walk from_option]. f_equal. f_equal.
  destruct (Z.eqb_spec (o_session p) (o_session r)), (Z.eqb_spec (o_tracker p) (o_tracker r));
    cbn; [congruence | reflexivity ..].
Qed.
End WalkProofs.

(** An exact square root on rationals whose numerator and denominator are
    squares. *)
Definition qsqrt (q : Q) : Q := Z.sqrt (Qnum q) # Z.to_pos (Z.sqrt (Zpos (Qden q))).

(** A transition row of tracker 1, session 1, block 2. *)
Definition tr_row (ts : Z) (x0 y0 : Q) : out_row :=
  out_transition (mk_brow (mk_lrow (mk_crow 2 (mk_sample 1 1 ts x0 y0 1 1) 0 0 None) 0 1 transition) 2 0) 1.

Definition stop_then_move : list out_row :=
  [out_stop (mk_stop 1 1 1 60 1 1 0 0 0 0 0 60); tr_row 61 3000 4000; tr_row 62 6000 8000].

Lemma walk_restarts_witness :
  (o_session (tr_row 62 6000 8000), o_tracker (tr_row 62 6000 8000)) <> (2%Z, 1%Z) /\
  walk qsqrt None (stop_then_move ++ out_stop (mk_stop 1 2 1 5 1 1 0 0 0 0 0 5) :: []) =
  walk qsqrt None stop_then_move ++ walk qsqrt None [out_stop (mk_stop 1 2 1 5 1 1 0 0 0 0 0 5)].
Proof.
  split; [cbn; congruence |].
  change (stop_then_move ++ [out_stop (mk_stop 1 2 1 5 1 1 0 0 0 0 0 5)])
    with ([out_stop (mk_stop 1 1 1 60 1 1 0 0 0 0 0 60); tr_row 61 3000 4000]
          ++ tr_row 62 6000 8000 :: out_stop (mk_stop 1 2 1 5 1 1 0 0 0 0 0 5) :: []).
  rewrite walk_restarts by (cbn; congruence). reflexivity.
Defined.

(** The first row of a transition block is measured from the row
    before it, the centroid of the preceding stop: two transition samples
    5 m apart give the block a distance walked of 10 m. *)
Example transition_counts_jump_from_stop :
  map (fun t => (t.1.1, Qeq_bool t.1.2 10, Qeq_bool t.2 5)) (transition_blocks qsqrt stop_then_move)
  = [((1, 1, 1, 2)%Z, true, true)].
Proof. vm_compute. reflexivity. Qed.

(** ** The weighting *)

Lemma firstn_weight_row (f : option Q) (cols : list (option Q)) :
  firstn 3 (weight_row f cols) = firstn 3 cols.
Proof.
  unfold weight_row. destruct cols as [|a [|b [|c cols]]]; reflexivity.
Qed.

Lemma skipn_weight_row (f : option Q) (cols : list (option Q)) :
  skipn 3 (weight_row f cols) = map (fun v => w ← v; c ← f; Some (w * c)) (skipn 3 cols).
Proof.
  unfold weight_row. destruct cols as [|a [|b [|c cols]]]; reflexivity.
Qed.

Lemma fold_Qmin_le_all (v : Q) (vs : list Q) (a : Q) : In a (v :: vs) -> fold_right Qmin v vs <= a.
Proof.
  revert a. induction vs as [|w vs IH]; intros a Ha; cbn.
  - destruct Ha as [<-|[]]. apply Qle_refl.
  - destruct Ha as [<-|[<-|Ha]].
    + eapply Qle_trans; [apply Q.le_min_r | apply IH; left; reflexivity].
    + apply Q.le_min_l.
    + eapply Qle_trans; [apply Q.le_min_r | apply IH; right; exact Ha].
Qed.

Lemma fold_Qmin_pos (v : Q) (vs : list Q) : (forall a, In a (v :: vs) -> 0 < a) -> 0 < fold_right Qmin v vs.
Proof.
  induction vs as [|w vs IH]; intros H; cbn; [apply H; left; reflexivity |].
  apply Q.min_glb_lt; [apply H; right; left; reflexivity |].
  apply IH. intros a [<-|Ha]; apply H; [left; reflexivity | right; right; exact Ha].
Qed.

(** When every phase lasts some time, the factor of a row lies in
    [(0, 1]]. *)
Lemma weight_factor_bounds (phs : list phase_span) (k : Z * Z * Z) (fo : option Q) :
  Forall (fun ph => ps_start ph < ps_end ph)%Z phs -> weight_factor phs k = Some fo ->
  exists f, fo = Some f /\ 0 < f /\ f <= 1.
Proof.
  intros Hpos. unfold weight_factor.
  destruct (map phase_minutes _) as [|d ds] eqn:Ed; cbn; [discriminate |].
  assert (Hd : In d (map phase_minutes (List.filter (fun ph => bool_decide (ps_phase ph = k.2 /\ ps_session ph = k.1.1)) phs)))
    by (rewrite Ed; left; reflexivity).
  apply List.in_map_iff in Hd as (ph & <- & Hph). apply filter_In in Hph as [Hph Hk].
  apply bool_decide_eq_true in Hk as [Hp _].
  assert (Hmin : forall a, In a (map phase_minutes (List.filter (fun ph => bool_decide (ps_phase ph = k.2)) phs)) -> 0 < a).
  { intros a Ha. apply List.in_map_iff in Ha as (ph' & <- & Ha). apply filter_In in Ha as [Ha _].
    pose proof (proj1 (List.Forall_forall _ _) Hpos ph' Ha) as Hl. unfold phase_minutes.
    apply Qlt_shift_div_l; [reflexivity |]. rewrite Qmult_0_l.
    change 0%Q with (inject_Z 0). rewrite <- Zlt_Qlt. cbv beta in Hl. lia. }
  assert (Hin : In (phase_minutes ph) (map phase_minutes (List.filter (fun ph => bool_decide (ps_phase ph = k.2)) phs)))
    by (apply in_map, filter_In; split; [exact Hph | apply bool_decide_eq_true, Hp]).
  unfold min_phase_duration.
  destruct (map phase_minutes (List.filter (fun ph => bool_decide (ps_phase ph = k.2)) phs)) as [|m ms] eqn:Em;
    [destruct Hin |]. cbn.
  pose proof (Hmin _ Hin) as Hdpos.
  destruct (Qeq_bool (phase_minutes ph) 0) eqn:E0.
  { apply Qeq_bool_iff in E0. rewrite E0 in Hdpos. discriminate. }
  intros [= <-]. exists (fold_right Qmin m ms / phase_minutes ph). split; [reflexivity |].
  pose proof (fold_Qmin_pos m ms Hmin) as Hmpos. pose proof (fold_Qmin_le_all m ms _ Hin) as Hle.
  split.
  - apply Qlt_shift_div_l; [exact Hdpos |]. rewrite Qmult_0_l. exact Hmpos.
  - apply Qle_shift_div_r; [exact Hdpos |]. rewrite Qmult_1_l. exact Hle.
Qed.

(** C26. When every phase lasts some time, the weighting keeps every row
    and its three key columns and multiplies every other column by one
    factor in [(0, 1]]: the counts and times, and also the averages, the
    speed, the entropy and the Gini indices. *)
Theorem weight_rows_scale (phs : list phase_span) (rows out : list (Z * Z * Z * list (option Q))) :
  Forall (fun ph => ps_start ph < ps_end ph)%Z phs -> weight_rows phs rows = Some out ->
  Forall2 (fun '(k, cols) '(k', cols') =>
    k' = k /\ firstn 3 cols' = firstn 3 cols /\
    exists f, 0 < f /\ f <= 1 /\ skipn 3 cols' = map (fun v => (fun w => w * f) <$> v) (skipn 3 cols))
    rows out.
Proof.
  intros Hpos E. apply mapM_Some_1 in E. refine (Forall2_impl _ _ _ _ E _).
  intros [k cols] [k' cols'] Hr.
  destruct (weight_factor phs k) as [fo|] eqn:Ef; cbn in Hr; [| discriminate].
  injection Hr as <- <-. destruct (weight_factor_bounds phs k fo Hpos Ef) as (f & -> & H0 & H1).
  split; [reflexivity | split; [apply firstn_weight_row |]].
  exists f. split; [exact H0 | split; [exact H1 |]].
  rewrite skipn_weight_row. apply map_ext. intros [w|]; reflexivity.
Qed.

Definition two_sessions : list phase_span := [mk_phase_span 1 1 0 600; mk_phase_span 2 1 0 1200].

Lemma weight_rows_scale_witness :
  exists out, weight_rows two_sessions [((2, 1, 1)%Z, [Some 2; Some 1; Some 1; Some 10])] = Some out /\
  Forall2 (fun '(k, cols) '(k', cols') =>
    k' = k /\ firstn 3 cols' = firstn 3 cols /\
    exists f, 0 < f /\ f <= 1 /\ skipn 3 cols' = map (fun v => (fun w => w * f) <$> v) (skipn 3 cols))
    [((2, 1, 1)%Z, [Some 2; Some 1; Some 1; Some 10])] out.
Proof.
  eexists. split; [reflexivity |]. apply (weight_rows_scale two_sessions); [| reflexivity].
  repeat constructor; cbn; lia.
Defined.

Lemma weight_factor_none (phs : list phase_span) (k : Z * Z * Z) :
  weight_factor phs k = None <-> Forall (fun ph => ~ (ps_phase ph = k.2 /\ ps_session ph = k.1.1)) phs.
Proof.
  unfold weight_factor. rewrite List.Forall_forall. split.
  - intros E ph Hph Hk.
    assert (Hin : In ph (List.filter (fun ph => bool_decide (ps_phase ph = k.2 /\ ps_session ph = k.1.1)) phs))
      by (apply filter_In; split; [exact Hph | apply bool_decide_eq_true, Hk]).
    destruct (List.filter _ phs) as [|ph0 l] eqn:F; [destruct Hin |]. cbn in E.
    unfold min_phase_duration in E.
    assert (Hin' : In ph0 (List.filter (fun ph => bool_decide (ps_phase ph = k.2)) phs)).
    { assert (Hf : In ph0 (ph0 :: l)) by (left; reflexivity). rewrite <- F in Hf.
      apply filter_In in Hf as [Hf Hk0]. apply bool_decide_eq_true in Hk0 as [Hp _].
      apply filter_In. split; [exact Hf | apply bool_decide_eq_true, Hp]. }
    destruct (List.filter (fun ph => bool_decide (ps_phase ph = k.2)) phs) as [|ph1 l1]; [destruct Hin' |].
    discriminate.
  - intros H. destruct (List.filter _ phs) as [|ph0 l] eqn:F; [reflexivity | exfalso].
    assert (Hf : In ph0 (ph0 :: l)) by (left; reflexivity). rewrite <- F in Hf.
    apply filter_In in Hf as [Hf Hk0]. apply bool_decide_eq_true in Hk0. exact (H ph0 Hf Hk0).
Qed.

(** C28. The weighting raises [IndexError] (line 227) exactly when some row
    of the output has a (session, phase) that [df_phases] does not list. *)
Theorem weight_rows_index_error (phs : list phase_span) (rows : list (Z * Z * Z * list (option Q))) :
  weight_rows phs rows = None <->
  Exists (fun r => Forall (fun ph => ~ (ps_phase ph = r.1.2 /\ ps_session ph = r.1.1.1)) phs) rows.
Proof.
  unfold weight_rows. rewrite mapM_None. split; intros Hex; (eapply Exists_impl; [exact Hex |]);
    intros [k cols]; cbn.
  - destruct (weight_factor phs k) eqn:E; cbn; [discriminate |]. intros _. apply weight_factor_none, E.
  - intros H. apply weight_factor_none in H. rewrite H. reflexivity.
Qed.

(** ** An entropy of [NaN] *)

(** A student point visited once for a minute and a zone never visited,
    for tracker 1 in phase 1 of session 1. *)
Definition one_student : list stat_row :=
  [mk_stat 1 1 1 "s1" 60 1 "student"; mk_stat 1 1 1 "z" 0 0 "zone"].

(** A group whose entropy is [NaN] (none of its samples in the grid)
    gets the entropy 0 in the metrics table: [agg(sum)] skips [NaN]
    (lines 169-171), so the table reports a tracker that never left one
    cell.  Column 20 of the row is the entropy. *)
Example nan_entropy_reported_as_zero :
  map (fun r => (r.1, nth 20 r.2 None))
    (merged_rows qsqrt stop_then_move one_student [((1, 1, 1)%Z, None)] [((1, 1, 1)%Z, Some 0)]
                 [((1, 1)%Z, Some 0)])
  = [((1, 1, 1)%Z, Some 0)].
Proof. vm_compute. reflexivity. Qed.

(** ** The keys of the result *)

Lemma merge_on_keys {K A B : Type} `{EqDecision K} (l : list (K * A)) (r : list (K * B)) (k : K) v :
  In (k, v) (merge_on l r) -> exists a, In (k, a) l.
Proof.
  unfold merge_on. intros ([k0 a0] & Hl & Hm)%in_flat_map.
  apply in_map_iff in Hm as ([k1 b] & [= <- _] & _). eauto.
Qed.

Lemma df_stops_keys (sqrt : Q -> Q) (fs : list out_row) (k : Z * Z * Z) v :
  In (k, v) (df_stops sqrt fs) -> exists o, In o fs /\ o_is_stop o = true /\ o_stp o = k.
Proof.
  unfold df_stops. intros (k' & [= -> _] & Hk)%in_map_iff.
  apply in_fold_insert_by, in_unique, in_map_iff in Hk as (o & <- & Ho).
  apply filter_In in Ho. exists o. tauto.
Qed.

(** Every row of the metrics is the key of a stop of [df_fs]: the
    merges are inner joins that start from the stop aggregates. *)
Lemma get_metrics_keys (sqrt : Q -> Q) (fs : list out_row) (pts : list stat_row)
    (df_entropy df_giniT : list (Z * Z * Z * option Q)) (df_giniSession : list (Z * Z * option Q))
    (phs : list phase_span) (selectedPhase weighted : Z) out :
  get_metrics sqrt fs pts df_entropy df_giniT df_giniSession phs selectedPhase weighted = Some out ->
  Forall (fun r => exists o, In o fs /\ o_is_stop o = true /\ o_stp o = r.1) out.
Proof.
  assert (Hm : forall r, In r (select_phase selectedPhase (merged_rows sqrt fs pts df_entropy df_giniT df_giniSession)) ->
                 exists o, In o fs /\ o_is_stop o = true /\ o_stp o = r.1).
  { intros [k cols] Hr. unfold select_phase in Hr.
    assert (Hr' : In (k, cols) (merged_rows sqrt fs pts df_entropy df_giniT df_giniSession))
      by (destruct (selectedPhase =? -99); [exact Hr | apply filter_In in Hr; tauto]).
    unfold merged_rows in Hr'. apply in_flat_map in Hr' as ([k' [[[a b] [c d]] [e g]]] & H5 & Hk).
    apply in_map_iff in Hk as ([? h] & [= <- _] & _). cbn.
    apply merge_on_keys in H5 as [? H5]. apply merge_on_keys in H5 as [? H5].
    apply merge_on_keys in H5 as [? H5]. eapply df_stops_keys, H5. }
  unfold get_metrics. destruct (weighted =? 1).
  - unfold weight_rows. intros E. apply mapM_Some_1 in E.
    induction E as [|[k cols] r rows out' Hf _ IH]; constructor;
      [| apply IH; intros r' Hr'; apply Hm; right; exact Hr'].
    destruct (weight_factor phs k); [| discriminate]. cbn in Hf. injection Hf as <-.
    exact (Hm (k, cols) (or_introl eq_refl)).
  - intros [= <-]. apply List.Forall_forall, Hm.
Qed.

(** ** The weighting loop *)

Lemma firstn_snoc_nth {A : Type} (l : list A) (n : nat) (d : A) :
  (n < length l)%nat -> firstn (S n) l = firstn n l ++ [nth n l d].
Proof.
  revert n. induction l as [|a l IH]; intros [|n] Hn; cbn in *; try lia; [reflexivity |].
  rewrite (IH n) by lia. reflexivity.
Qed.

Lemma insert_prefix {A : Type} (t l : list A) (n : nat) (v : A) :
  length t = length l -> (n < length l)%nat ->
  <[n := v]> (firstn n t ++ skipn n l) = firstn n t ++ v :: skipn (S n) l.
Proof.
  revert t l. induction n as [|n IH]; intros [|a t] [|b l] Ht Hn; cbn in *; try lia; [reflexivity |].
  f_equal. apply IH; lia.
Qed.

Lemma length_weight_row (f : option Q) (row : list (option Q)) : length (weight_row f row) = length row.
Proof. unfold weight_row. rewrite length_app, length_firstn, length_map, length_skipn. lia. Qed.

Lemma weight_row_nth (f : option Q) (row : list (option Q)) (col : nat) :
  (3 <= col < length row)%nat -> nth col (weight_row f row) None = scale f (nth col row None).
Proof.
  intros Hc. unfold weight_row. rewrite app_nth2 by (rewrite length_firstn; lia).
  rewrite length_firstn, Nat.min_l by lia.
  change None with (scale f None) at 1. rewrite map_nth, nth_skipn. f_equal. f_equal. lia.
Qed.

(** The loop from column [col], the columns before it already weighted:
    it returns the weighted row after [length row - col] iterations. *)
Lemma weight_while_from (f : option Q) (row : list (option Q)) (col : nat) (out : list (option Q)) :
  (3 <= col <= length row)%nat -> out = firstn col (weight_row f row) ++ skipn col row ->
  weight_while (length row - col) f row col out = Some (weight_row f row).
Proof.
  remember (length row - col)%nat as k eqn:Ek. revert col out Ek.
  induction k as [|k IH]; intros col out Ek Hc ->; cbn [weight_while].
  - replace col with (length row) by lia. rewrite (proj2 (Nat.ltb_ge _ _)) by lia.
    rewrite skipn_all, app_nil_r, <- (length_weight_row f row), firstn_all. reflexivity.
  - rewrite (proj2 (Nat.ltb_lt _ _)) by lia. apply IH; [lia | lia |].
    rewrite insert_prefix by (rewrite ?length_weight_row; lia).
    rewrite (firstn_snoc_nth _ col None) by (rewrite length_weight_row; lia).
    rewrite weight_row_nth by lia. rewrite <- app_assoc. reflexivity.
Qed.

Lemma weight_while_short (fuel : nat) (f : option Q) (row : list (option Q)) (col : nat) out :
  (fuel < length row - col)%nat -> weight_while fuel f row col out = None.
Proof.
  revert col out. induction fuel as [|fuel IH]; intros col out Hf; cbn [weight_while];
    rewrite (proj2 (Nat.ltb_lt _ _)) by lia; [reflexivity |]. apply IH. lia.
Qed.

(** C27. Termination of the [while] loop of the weighting (lines
    228-231): on a row of [n] columns it stops after exactly [n - 3]
    iterations, fewer are not enough, and it leaves the three key columns
    and scales every other one ([weight_row]). *)
Theorem weight_while_terminates (f : option Q) (row : list (option Q)) :
  weight_while (length row - 3) f row 3 row = Some (weight_row f row)
  /\ (forall fuel, (fuel < length row - 3)%nat -> weight_while fuel f row 3 row = None).
Proof.
  split; [| intros fuel Hf; apply weight_while_short, Hf].
  destruct (Nat.le_gt_cases 3 (length row)) as [Hl | Hl].
  - apply weight_while_from; [lia |]. rewrite firstn_weight_row. symmetry. apply firstn_skipn.
  - replace (length row - 3)%nat with 0%nat by lia. cbn [weight_while].
    rewrite (proj2 (Nat.ltb_ge _ _)) by lia. unfold weight_row.
    rewrite firstn_all2, skipn_all2 by lia. now rewrite app_nil_r.
Qed.
