(* ===== verification/SessionOrder.v ===== *)
(** * The order of equal sessions ([_classroomObjects.py], lines 110, 115 and 312)

    [generate_fixed_points_stats] sorts three tables by [session] alone,
    with pandas' default [quicksort], which leaves the rows of one session
    in an order numpy does not specify ([FixedPoints.SessionSort]).  This
    file shows that the statistics it returns are the same for every such
    order: every aggregate is a sum or a count over a group, and the
    groups come out of [groupby] in ascending key order.  The table it
    sorts in place is another matter: [get_metrics] reads it in the order
    the sort left, and [Metrics] shows that the distance walked depends on
    that order. *)

From Stdlib Require Import ZArith QArith List String Lia.
From Stdlib Require Import Structures.OrdersEx.
From stdpp Require Import base list decidable strings.
From S2P Require Import Prelude Summarizer FixedPoints Metrics.

Local Open Scope Z_scope.

(** ** The orders of the [groupby] keys are strict and total *)

(** [String.compare] is the order of [OrdersEx.String_as_OT]: the two
    definitions are the same fixpoint. *)
Lemma string_compare_OT (s1 s2 : string) : String.compare s1 s2 = String_as_OT.compare s1 s2.
Proof. reflexivity. Qed.

Lemma string_lt_trans (a b c : string) :
  String.compare a b = Lt -> String.compare b c = Lt -> String.compare a c = Lt.
Proof.
  rewrite !string_compare_OT. apply (StrictOrder_Transitive (R := String_as_OT.lt)).
Qed.

Lemma string_lt_irrefl (a : string) : String.compare a a <> Lt.
Proof. rewrite string_compare_OT. apply (StrictOrder_Irreflexive (R := String_as_OT.lt)). Qed.

Lemma string_lt_total (a b : string) : a <> b -> String.compare a b = Lt \/ String.compare b a = Lt.
Proof.
  intros Hne. rewrite (String.compare_antisym b a).
  destruct (String.compare a b) eqn:E; auto. apply String.compare_eq_iff in E. contradiction.
Qed.

Lemma skey_ltb_spec (a b : Z * Z * Z * string) :
  skey_ltb a b = true <-> lex3_ltb a.1 b.1 = true \/ (a.1 = b.1 /\ String.compare a.2 b.2 = Lt).
Proof. unfold skey_ltb. rewrite orb_true_iff, andb_true_iff, !bool_decide_eq_true. reflexivity. Qed.

Ltac lex3_cases :=
  repeat match goal with
  | p : Z * Z * Z * string |- _ => destruct p as [[[? ?] ?] ?]
  end; cbn in *; rewrite ?skey_ltb_spec in *; cbn in *;
  repeat match goal with
  | H : context [lex3_ltb (_, _, _) (_, _, _) = true] |- _ => setoid_rewrite lex3_ltb_spec in H
  end; try setoid_rewrite lex3_ltb_spec.

Lemma skey_ltb_irrefl (a : Z * Z * Z * string) : skey_ltb a a = false.
Proof.
  destruct (skey_ltb a a) eqn:E; [exfalso | reflexivity]. lex3_cases.
  destruct E as [? | [_ E]]; [lia | exact (string_lt_irrefl _ E)].
Qed.

Lemma skey_ltb_trans (a b c : Z * Z * Z * string) :
  skey_ltb a b = true -> skey_ltb b c = true -> skey_ltb a c = true.
Proof.
  lex3_cases. intros [H1 | [E1 S1]] [H2 | [E2 S2]].
  - left. lia.
  - injection E2 as <- <- <-. left. exact H1.
  - injection E1 as -> -> ->. left. exact H2.
  - right. split; [congruence | eapply string_lt_trans; eassumption].
Qed.

Lemma skey_ltb_total (a b : Z * Z * Z * string) : a <> b -> skey_ltb a b = true \/ skey_ltb b a = true.
Proof.
  intros Hne. lex3_cases.
  destruct (Z.lt_trichotomy z z2) as [? | [<- | ?]]; [lia | | lia].
  destruct (Z.lt_trichotomy z0 z3) as [? | [<- | ?]]; [lia | | lia].
  destruct (Z.lt_trichotomy z1 z4) as [? | [<- | ?]]; [lia | | lia].
  destruct (string_lt_total s s0) as [? | ?]; [congruence | auto | auto].
Qed.

(** ** The summary does not depend on the order of its rows *)

Lemma unique_Permutation {A : Type} `{EqDecision A} (l1 l2 : list A) :
  Permutation l1 l2 -> Permutation (unique l1) (unique l2).
Proof.
  intros Hp. apply Stdlib.Sorting.Permutation.NoDup_Permutation; [apply NoDup_unique | apply NoDup_unique |].
  intros x. rewrite !in_unique. split; apply Permutation_in; [| symmetry]; exact Hp.
Qed.

Lemma summary_Permutation (nr1 nr2 : list (dist_row * stop_record)) :
  Permutation nr1 nr2 -> summary nr1 = summary nr2.
Proof.
  intros Hp. unfold summary, groupby_keys.
  rewrite (fold_insert_by_unique skey_ltb skey_ltb_irrefl skey_ltb_trans skey_ltb_total
             (unique (map skey nr1)) (unique (map skey nr2)));
    [| apply NoDup_unique | apply unique_Permutation, Permutation_map, Hp].
  apply map_ext. intros k.
  assert (Hf : Permutation (List.filter (fun n => bool_decide (skey n = k)) nr1)
                           (List.filter (fun n => bool_decide (skey n = k)) nr2))
    by (rewrite Hp; reflexivity).
  rewrite Hf. reflexivity.
Qed.

(** ** The stops kept near a fixed point, up to order *)

Lemma flat_map_Permutation {A B : Type} (f g : A -> list B) (l1 l2 : list A) :
  (forall a, Permutation (f a) (g a)) -> Permutation l1 l2 -> Permutation (flat_map f l1) (flat_map g l2).
Proof.
  intros Hfg Hp. transitivity (flat_map f l2).
  - induction Hp as [| x l1 l2 _ IH | x y l | l1 l2 l3 _ IH1 _ IH2]; cbn.
    + reflexivity.
    + apply Permutation_app_head, IH.
    + rewrite !app_assoc. apply Permutation_app_tail, Permutation_app_comm.
    + rewrite IH1. exact IH2.
  - clear Hp. induction l2 as [|a l IH]; cbn; [reflexivity |]. apply Permutation_app; [apply Hfg | exact IH].
Qed.

Lemma omap_Permutation {A B : Type} (f : A -> option B) (l1 l2 : list A) :
  Permutation l1 l2 -> Permutation (omap f l1) (omap f l2).
Proof.
  induction 1 as [| x l1 l2 _ IH | x y l | l1 l2 l3 _ IH1 _ IH2]; cbn.
  - reflexivity.
  - destruct (f x); [constructor |]; exact IH.
  - destruct (f x), (f y); try constructor; reflexivity.
  - rewrite IH1. exact IH2.
Qed.

Lemma merge_stops_Permutation (dd1 dd2 : list dist_row) (s1 s2 : list stop_record) :
  Permutation dd1 dd2 -> Permutation s1 s2 -> Permutation (merge_stops dd1 s1) (merge_stops dd2 s2).
Proof.
  intros Hd Hs. unfold merge_stops. apply flat_map_Permutation; [| exact Hd].
  intros d. apply Permutation_map. rewrite Hs. reflexivity.
Qed.

(** Whatever order the sorts leave, the stops kept near a fixed point are
    the same rows. *)
Lemma kept_rows_Permutation (S1 S2 : SessionSort) (D : Q) (dd : list dist_row) (out : list out_row) :
  Permutation
    (close_rows D (@get_closer_fixedpoint_stop S1 dd
       (@sort_values S1 _ sr_session (stop_rows (@sort_values S1 _ out_session out)))))
    (close_rows D (@get_closer_fixedpoint_stop S2 dd
       (@sort_values S2 _ sr_session (stop_rows (@sort_values S2 _ out_session out))))).
Proof.
  unfold close_rows, get_closer_fixedpoint_stop. apply filter_Permutation, merge_stops_Permutation.
  - rewrite !sort_values_perm. reflexivity.
  - assert (Hs : forall S : SessionSort,
              Permutation (@sort_values S _ sr_session (stop_rows (@sort_values S _ out_session out)))
                          (stop_rows out))
      by (intros S; rewrite sort_values_perm; apply omap_Permutation, sort_values_perm).
    rewrite (Hs S1), (Hs S2). reflexivity.
Qed.

(** C21. The statistics of [generate_fixed_points_stats] do not depend on
    the order in which pandas' quicksort leaves the rows of one session
    (lines 110, 115 and 312): for any two sorts by [session], the tables of
    statistics are equal, row for row and in the same order. *)
Theorem fixed_points_stats_any_order (S1 S2 : SessionSort) (D : Q) (out : list out_row)
    (fps : list fixed_point) :
  option_map snd (@generate_fixed_points_stats S1 D out fps)
  = option_map snd (@generate_fixed_points_stats S2 D out fps).
Proof.
  unfold generate_fixed_points_stats. destruct (distances (stop_rows out) fps) as [dd|]; [| reflexivity].
  cbn. rewrite (summary_Permutation _ _ (kept_rows_Permutation S1 S2 D dd out)). reflexivity.
Qed.

(** ** The table sorted in place does depend on the order *)

(** The first row moved to the end, then sorted: an order a quicksort may
    leave the rows of one session in. *)
Definition rotate {A : Type} (l : list A) : list A :=
  match l with [] => [] | a :: l' => l' ++ [a] end.

Lemma rotate_perm {A : Type} (l : list A) : Permutation (rotate l) l.
Proof. destruct l as [|a l]; cbn; [reflexivity |]. symmetry. apply Permutation_cons_append. Qed.

#[local] Instance rotating_sort : SessionSort :=
  {| sort_values A k l := sort_by_key k (rotate l);
     sort_values_perm A k l := Permutation_trans (sort_by_key_perm k (rotate l)) (rotate_perm l);
     sort_values_sorted A k l := sort_by_key_sorted k (rotate l) |}.

(** Three samples of one transition block, one metre apart. *)
Definition three_steps : list out_row := [tr_row 1 0 0; tr_row 2 1000 0; tr_row 3 2000 0].

(** [get_metrics] walks the table [generate_fixed_points_stats] sorted in
    place in the order the sort left it: the stable order gives the block
    a distance walked of 2 m, another order the quicksort may produce
    gives 3 m for the same samples. *)
Example distance_walked_depends_on_sort :
  option_map (fun r => map (fun t => Qeq_bool t.1.2 2) (transition_blocks qsqrt r.1))
    (@generate_fixed_points_stats insertion_sort 1000 three_steps room_points) = Some [true]
  /\ option_map (fun r => map (fun t => Qeq_bool t.1.2 3) (transition_blocks qsqrt r.1))
    (@generate_fixed_points_stats rotating_sort 1000 three_steps room_points) = Some [true].
Proof. split; vm_compute; reflexivity. Qed.
