(* ===== verification/MetricsFrames.v ===== *)
(** * What [get_metrics] does to the frames it is given ([_metricsMain.py])

    [get_metrics] changes three of its arguments in place, before it may
    raise: it adds the column [duration_minutes] to [df_fs] (line 77),
    sorts [df_fs] by (session, tracker, block) (line 96) and adds
    [distance_previous_point_meter] (line 115); it sorts [df_points] by
    (session, obj_type) (line 134) and adds [time_per_stop_min] and
    [total_attention_time_min] (lines 135-136); with [weighted = 1] it adds
    [diff] to [df_phases] (line 206).  The caller's frames are modelled
    with the columns added to each row ([columns]); [get_metrics_inplace]
    returns the frames as the caller holds them afterwards and the result
    of [get_metrics].  Assigning a column that exists replaces its values
    where it is, a new column goes last. *)

From Stdlib Require Import ZArith QArith List String Lia Sorted.
From stdpp Require Import base list decidable strings.
From S2P Require Import Prelude Summarizer FixedPoints Metrics.

Local Open Scope Z_scope.

(** ** Frames with added columns *)

(** The columns added to a row, in the order they were added; [None] is
    [NaN]. *)
Definition columns := list (string * option Q).

(** [df[name] = values] for one row. *)
Fixpoint set_col (name : string) (v : option Q) (cs : columns) : columns :=
  match cs with
  | [] => [(name, v)]
  | (n, w) :: cs' => if String.eqb n name then (name, v) :: cs' else (n, w) :: set_col name v cs'
  end.

(** [row[name]]: the value of the column, [None] when it is absent. *)
Fixpoint col (name : string) (cs : columns) : option (option Q) :=
  match cs with
  | [] => None
  | (n, w) :: cs' => if String.eqb n name then Some w else col name cs'
  end.

(** The three frames [get_metrics] changes, as the caller holds them. *)
Record frames := mk_frames {
  f_fs : list (out_row * columns);
  f_points : list (stat_row * columns);
  f_phases : list (phase_span * columns)
}.

Definition set_each {A : Type} (name : string) (f : A -> option Q) (l : list (A * columns)) : list (A * columns) :=
  map (fun '(r, cs) => (r, set_col name (f r) cs)) l.

(** Line 115: [df_fs['distance_previous_point_meter'] = distances]. *)
Definition set_distances (fs : list (out_row * columns)) (ds : list Q) : list (out_row * columns) :=
  map (fun '((r, cs), d) => (r, set_col "distance_previous_point_meter" (Some d) cs)) (combine fs ds).

(** Lines 96-115 on the caller's [df_fs]: sorted in place, then each row
    given the distance to the row before it. *)
Definition with_distance_column (sqrt : Q -> Q) (fs : list (out_row * columns)) : list (out_row * columns) :=
  let sorted := sort_lex (fun p => o_stb p.1) fs in
  set_distances sorted (walk sqrt None (map fst sorted)).

(** [get_metrics] (lines 30-237) with its effects on [df_fs], [df_points]
    and [df_phases]: the frames afterwards, and the table it returns, or
    [None] where it raises (after changing the frames). *)
Definition get_metrics_inplace (sqrt : Q -> Q) (fr : frames)
    (df_entropy df_giniT : list (Z * Z * Z * option Q)) (df_giniSession : list (Z * Z * option Q))
    (selectedPhase weighted : Z) : frames * option (list (Z * Z * Z * list (option Q))) :=
  let fs := set_each "duration_minutes" (fun r => Some (duration_minutes r)) (f_fs fr) in
  let fs := with_distance_column sqrt fs in
  let pts := sort_points fst (f_points fr) in
  let pts := set_each "time_per_stop_min" time_per_stop_min pts in
  let pts := set_each "total_attention_time_min" (fun g => Some (total_attention_time_min g)) pts in
  let phs := if weighted =? 1 then set_each "diff" (fun ph => Some (phase_minutes ph)) (f_phases fr)
             else f_phases fr in
  (mk_frames fs pts phs,
   get_metrics sqrt (map fst (f_fs fr)) (map fst (f_points fr)) df_entropy df_giniT df_giniSession
     (map fst (f_phases fr)) selectedPhase weighted).

(** ** Columns *)

Lemma col_set_same (n : string) (v : option Q) (cs : columns) : col n (set_col n v cs) = Some v.
Proof.
  induction cs as [|[m w] cs IH]; cbn; [rewrite String.eqb_refl; reflexivity |].
  destruct (String.eqb_spec m n) as [-> | Hne]; cbn; rewrite ?String.eqb_refl; [reflexivity |].
  rewrite (proj2 (String.eqb_neq m n) Hne). exact IH.
Qed.

Lemma col_set_other (n m : string) (v : option Q) (cs : columns) :
  m <> n -> col n (set_col m v cs) = col n cs.
Proof.
  intros H. induction cs as [|[k w] cs IH]; cbn; [rewrite (proj2 (String.eqb_neq m n) H); reflexivity |].
  destruct (String.eqb_spec k m) as [-> | Hk]; cbn; [rewrite (proj2 (String.eqb_neq m n) H); reflexivity |].
  destruct (k =? n)%string; [reflexivity | exact IH].
Qed.

Lemma set_col_id (n : string) (v : option Q) (cs : columns) : col n cs = Some v -> set_col n v cs = cs.
Proof.
  induction cs as [|[k w] cs IH]; cbn; [discriminate |].
  destruct (String.eqb_spec k n) as [-> | Hk]; [intros [= ->]; reflexivity | intros H; rewrite IH by exact H; reflexivity].
Qed.

Lemma map_fst_set_each {A : Type} (n : string) (f : A -> option Q) (l : list (A * columns)) :
  map fst (set_each n f l) = map fst l.
Proof. unfold set_each. rewrite map_map. apply map_ext. intros [? ?]; reflexivity. Qed.

Lemma set_each_col {A : Type} (n : string) (f : A -> option Q) (l : list (A * columns)) :
  Forall (fun p => col n p.2 = Some (f p.1)) (set_each n f l).
Proof. unfold set_each. apply List.Forall_map, List.Forall_forall. intros [r cs] _. apply col_set_same. Qed.

Lemma set_each_other {A : Type} (n m : string) (f : A -> option Q) (X : A -> option (option Q))
    (l : list (A * columns)) :
  m <> n -> Forall (fun p => col n p.2 = X p.1) l -> Forall (fun p => col n p.2 = X p.1) (set_each m f l).
Proof.
  intros Hmn H. unfold set_each. apply List.Forall_map. revert H. apply List.Forall_impl.
  intros [r cs] H. cbn in *. rewrite col_set_other by exact Hmn. exact H.
Qed.

Lemma set_each_id {A : Type} (n : string) (f : A -> option Q) (l : list (A * columns)) :
  Forall (fun p => col n p.2 = Some (f p.1)) l -> set_each n f l = l.
Proof.
  induction 1 as [|[r cs] l H _ IH]; [reflexivity |]. cbn in *. rewrite set_col_id by exact H.
  unfold set_each in IH. rewrite IH. reflexivity.
Qed.

(** ** The distance column *)

Lemma length_walk (sqrt : Q -> Q) (p : option out_row) (l : list out_row) : length (walk sqrt p l) = length l.
Proof. revert p. induction l as [|r l IH]; intros p; cbn; [reflexivity | f_equal; apply IH]. Qed.

Lemma map_fst_set_distances (fs : list (out_row * columns)) (ds : list Q) :
  length ds = length fs -> map fst (set_distances fs ds) = map fst fs.
Proof.
  revert ds. induction fs as [|[r cs] fs IH]; intros [|d ds]; cbn; try discriminate; [reflexivity |].
  intros [= H]. f_equal. apply IH, H.
Qed.

Lemma set_distances_col (fs : list (out_row * columns)) (ds : list Q) :
  map (fun p => (p.1, col "distance_previous_point_meter" p.2)) (set_distances fs ds)
  = map (fun '(r, d) => (r, Some (Some d))) (combine (map fst fs) ds).
Proof.
  revert ds. induction fs as [|[r cs] fs IH]; intros [|d ds]; cbn; [reflexivity.. |].
  rewrite col_set_same. f_equal. apply IH.
Qed.

Lemma set_distances_id (fs : list (out_row * columns)) (ds : list Q) :
  map (fun p => col "distance_previous_point_meter" p.2) fs = map (fun d => Some (Some d)) ds ->
  set_distances fs ds = fs.
Proof.
  revert ds. induction fs as [|[r cs] fs IH]; intros [|d ds]; cbn; try discriminate; [reflexivity |].
  intros [= Hd Hl]. rewrite set_col_id by exact Hd. f_equal. apply IH, Hl.
Qed.

Lemma set_distances_other (n : string) (X : out_row -> option (option Q)) (fs : list (out_row * columns))
    (ds : list Q) :
  n <> "distance_previous_point_meter" -> Forall (fun p => col n p.2 = X p.1) fs ->
  Forall (fun p => col n p.2 = X p.1) (set_distances fs ds).
Proof.
  intros Hn H. revert ds. induction H as [|[r cs] fs Hp _ IH]; intros [|d ds]; cbn; constructor; [| apply IH].
  cbn in *. rewrite col_set_other by congruence. exact Hp.
Qed.

Lemma map_fst_sort_lex {A : Type} (k : out_row -> Z * Z * Z) (l : list (out_row * A)) :
  map fst (sort_lex (fun p => k p.1) l) = sort_lex k (map fst l).
Proof. unfold sort_lex. apply fold_insert_by_map. reflexivity. Qed.

Lemma map_fst_distance_column (sqrt : Q -> Q) (fs : list (out_row * columns)) :
  map fst (with_distance_column sqrt fs) = sort_lex o_stb (map fst fs).
Proof.
  unfold with_distance_column. rewrite map_fst_set_distances by (rewrite length_walk, length_map; reflexivity).
  apply map_fst_sort_lex.
Qed.

(** The caller's [df_fs] holds the rows in the order the transition
    metrics read them, each with the distance they summed. *)
Lemma distance_column_spec (sqrt : Q -> Q) (fs : list (out_row * columns)) :
  map (fun p => (p.1, col "distance_previous_point_meter" p.2)) (with_distance_column sqrt fs)
  = map (fun '(r, d) => (r, Some (Some d))) (with_distances sqrt (map fst fs)).
Proof.
  unfold with_distance_column, with_distances. rewrite set_distances_col, map_fst_sort_lex. reflexivity.
Qed.

Lemma lex3_o_stb_asym (a b : out_row) :
  lex3_ltb (o_stb a) (o_stb b) = true -> lex3_ltb (o_stb b) (o_stb a) = false.
Proof. apply lex3_ltb_asym. Qed.

Lemma sort_lex_sorted (l : list out_row) :
  Sorted (fun a b => lex3_ltb (o_stb b) (o_stb a) = false) (sort_lex o_stb l).
Proof. apply (fold_insert_by_sorted_le (fun a b => lex3_ltb (o_stb a) (o_stb b))), lex3_o_stb_asym. Qed.

(** ** The points table *)

Lemma session_obj_type_asym (a b : stat_row) :
  session_obj_type_ltb a b = true -> session_obj_type_ltb b a = false.
Proof.
  intros H. apply not_true_is_false. intros H'. revert H H'. unfold session_obj_type_ltb.
  rewrite !orb_true_iff, !andb_true_iff, !Z.ltb_lt, !Z.eqb_eq, !bool_decide_eq_true.
  intros [H | [He H]] [H' | [He' H']]; try lia.
  rewrite String.compare_antisym, H in H'. discriminate.
Qed.

Lemma map_fst_sort_points {A : Type} (l : list (stat_row * A)) :
  map fst (sort_points fst l) = fold_right (insert_by session_obj_type_ltb) [] (map fst l).
Proof. unfold sort_points. apply fold_insert_by_map. reflexivity. Qed.

Lemma sort_points_sorted {A : Type} (l : list (stat_row * A)) :
  Sorted (fun a b => session_obj_type_ltb b a = false) (map fst (sort_points fst l)).
Proof. rewrite map_fst_sort_points. apply fold_insert_by_sorted_le, session_obj_type_asym. Qed.

Lemma map_snd_combine {A B : Type} (l : list A) (k : list B) :
  length k = length l -> map snd (combine l k) = k.
Proof. revert k. induction l as [|a l IH]; intros [|b k]; cbn; try discriminate; [reflexivity |]. intros [= H]. f_equal. apply IH, H. Qed.

Lemma distance_column_other (sqrt : Q -> Q) (n : string) (X : out_row -> option (option Q))
    (fs : list (out_row * columns)) :
  n <> "distance_previous_point_meter" -> Forall (fun p => col n p.2 = X p.1) fs ->
  Forall (fun p => col n p.2 = X p.1) (with_distance_column sqrt fs).
Proof.
  intros Hn H. unfold with_distance_column. apply set_distances_other; [exact Hn |]. unfold sort_lex.
  exact (Permutation_Forall (Permutation_sym (fold_insert_by_perm (fun a b => lex3_ltb (o_stb a.1) (o_stb b.1)) _)) H).
Qed.

Lemma distance_column_sorted (sqrt : Q -> Q) (fs : list (out_row * columns)) :
  Sorted (fun a b => lex3_ltb (o_stb b.1) (o_stb a.1) = false) (with_distance_column sqrt fs).
Proof.
  apply (Sorted_map_key (fun a b => lex3_ltb (o_stb b) (o_stb a) = false) fst).
  rewrite map_fst_distance_column. apply sort_lex_sorted.
Qed.

(** Sorting [df_fs] and assigning its distances a second time changes
    nothing. *)
Lemma distance_column_idem (sqrt : Q -> Q) (fs : list (out_row * columns)) :
  with_distance_column sqrt (with_distance_column sqrt fs) = with_distance_column sqrt fs.
Proof.
  set (fs1 := with_distance_column sqrt fs).
  unfold with_distance_column at 1. unfold sort_lex.
  rewrite (fold_insert_by_id (fun a b => lex3_ltb (o_stb a.1) (o_stb b.1))) by apply distance_column_sorted.
  apply set_distances_id.
  pose proof (f_equal (map snd) (distance_column_spec sqrt fs)) as H. rewrite !map_map in H.
  cbn in H. unfold fs1. rewrite H, map_fst_distance_column. unfold with_distances.
  rewrite <- (map_snd_combine (sort_lex o_stb (map fst fs)) (walk sqrt None (sort_lex o_stb (map fst fs))))
    at 2 by apply length_walk.
  rewrite map_map. apply map_ext. intros [? ?]. reflexivity.
Qed.

Lemma points_sorted_id (l : list (stat_row * columns)) :
  Sorted (fun a b => session_obj_type_ltb b.1 a.1 = false) l -> sort_points fst l = l.
Proof. intros H. apply (fold_insert_by_id (fun a b => session_obj_type_ltb a.1 b.1)), H. Qed.

(** ** The frames after the call *)

(** C24. What [get_metrics] leaves in the caller's frames: [df_fs] holds
    its rows sorted by (session, tracker, block), each with its duration
    in minutes and with the distance to the row before it, exactly the
    rows and distances the transition metrics were computed from;
    [df_points] holds its rows sorted by (session, obj_type) with the two
    derived columns; [df_phases] has the column [diff] when the output is
    weighted, and is unchanged otherwise.  This happens also when the
    weighting then raises. *)
Theorem get_metrics_frames (sqrt : Q -> Q) (fr : frames)
    (df_entropy df_giniT : list (Z * Z * Z * option Q)) (df_giniSession : list (Z * Z * option Q))
    (selectedPhase weighted : Z) :
  let fr' := fst (get_metrics_inplace sqrt fr df_entropy df_giniT df_giniSession selectedPhase weighted) in
  map (fun p => (p.1, col "distance_previous_point_meter" p.2)) (f_fs fr')
    = map (fun '(r, d) => (r, Some (Some d))) (with_distances sqrt (map fst (f_fs fr)))
  /\ Forall (fun p => col "duration_minutes" p.2 = Some (Some (duration_minutes p.1))) (f_fs fr')
  /\ Permutation (map fst (f_points fr')) (map fst (f_points fr))
  /\ Sorted (fun a b => session_obj_type_ltb b a = false) (map fst (f_points fr'))
  /\ Forall (fun p => col "time_per_stop_min" p.2 = Some (time_per_stop_min p.1)
                      /\ col "total_attention_time_min" p.2 = Some (Some (total_attention_time_min p.1)))
       (f_points fr')
  /\ (weighted = 1 -> Forall (fun p => col "diff" p.2 = Some (Some (phase_minutes p.1))) (f_phases fr'))
  /\ (weighted <> 1 -> f_phases fr' = f_phases fr).
Proof.
  cbn zeta. unfold get_metrics_inplace. cbn [fst f_fs f_points f_phases].
  split; [rewrite distance_column_spec, map_fst_set_each; reflexivity |].
  split.
  { apply (distance_column_other sqrt "duration_minutes" (fun r => Some (Some (duration_minutes r))));
      [discriminate | exact (set_each_col "duration_minutes" (fun r => Some (duration_minutes r)) _)]. }
  split; [rewrite !map_fst_set_each, map_fst_sort_points, fold_insert_by_perm; reflexivity |].
  split; [rewrite !map_fst_set_each; apply sort_points_sorted |].
  split.
  { apply List.Forall_and;
      [| exact (set_each_col "total_attention_time_min" (fun g => Some (total_attention_time_min g)) _)].
    apply (set_each_other "time_per_stop_min" _ _ (fun g => Some (time_per_stop_min g)));
      [discriminate | exact (set_each_col "time_per_stop_min" time_per_stop_min _)]. }
  split; intros Hw.
  - rewrite (proj2 (Z.eqb_eq _ _) Hw). exact (set_each_col "diff" (fun ph => Some (phase_minutes ph)) _).
  - rewrite (proj2 (Z.eqb_neq _ _) Hw). reflexivity.
Qed.

Lemma get_metrics_frames_witness :
  let fr := mk_frames (map (fun r => (r, [])) [tr_row 1 0 0; tr_row 2 3000 4000]) [] [] in
  let fr' := fst (get_metrics_inplace qsqrt fr [] [] [] 0 1) in
  map (fun p => (p.1, col "distance_previous_point_meter" p.2)) (f_fs fr')
    = map (fun '(r, d) => (r, Some (Some d))) (with_distances qsqrt (map fst (f_fs fr)))
  /\ Forall (fun p => col "duration_minutes" p.2 = Some (Some (duration_minutes p.1))) (f_fs fr')
  /\ Permutation (map fst (f_points fr')) (map fst (f_points fr))
  /\ Sorted (fun a b => session_obj_type_ltb b a = false) (map fst (f_points fr'))
  /\ Forall (fun p => col "time_per_stop_min" p.2 = Some (time_per_stop_min p.1)
                      /\ col "total_attention_time_min" p.2 = Some (Some (total_attention_time_min p.1)))
       (f_points fr')
  /\ (1 = 1 -> Forall (fun p => col "diff" p.2 = Some (Some (phase_minutes p.1))) (f_phases fr'))
  /\ (1 <> 1 -> f_phases fr' = f_phases fr).
Proof. exact (get_metrics_frames qsqrt _ [] [] [] 0 1). Defined.

(** C25. Calling [get_metrics] a second time on the frames the first call
    left changes none of them: [df_fs] and [df_points] are already in the
    order of their sorts and every column the call assigns already holds
    the value it assigns. *)
Theorem get_metrics_inplace_idem (sqrt : Q -> Q) (fr : frames)
    (df_entropy df_giniT : list (Z * Z * Z * option Q)) (df_giniSession : list (Z * Z * option Q))
    (selectedPhase weighted : Z) :
  let fr' := fst (get_metrics_inplace sqrt fr df_entropy df_giniT df_giniSession selectedPhase weighted) in
  fst (get_metrics_inplace sqrt fr' df_entropy df_giniT df_giniSession selectedPhase weighted) = fr'.
Proof.
  cbn zeta. unfold get_metrics_inplace. cbn [fst f_fs f_points f_phases]. f_equal.
  - rewrite set_each_id; [apply distance_column_idem |].
    apply (distance_column_other sqrt "duration_minutes" (fun r => Some (Some (duration_minutes r))));
      [discriminate | exact (set_each_col "duration_minutes" (fun r => Some (duration_minutes r)) _)].
  - rewrite points_sorted_id.
    + rewrite (set_each_id "time_per_stop_min"), set_each_id; [reflexivity |
        exact (set_each_col "total_attention_time_min" (fun g => Some (total_attention_time_min g)) _) |].
      apply (set_each_other "time_per_stop_min" _ _ (fun g => Some (time_per_stop_min g)));
        [discriminate | exact (set_each_col "time_per_stop_min" time_per_stop_min _)].
    + apply (Sorted_map_key (fun a b => session_obj_type_ltb b a = false) fst).
      rewrite !map_fst_set_each. apply sort_points_sorted.
  - destruct (weighted =? 1); [| reflexivity].
    apply set_each_id. exact (set_each_col "diff" (fun ph => Some (phase_minutes ph)) _).
Qed.

