(* ===== verification/PyString.v ===== *)
(** * Python's decimal strings of integers

    [str(n)] for an integer [n], as the scripts use it to build file names
    ([_entropy.py], line 342 and following): an optional minus sign and
    the decimal digits, without leading zeros.  [read_int] reads such a
    number back from the front of a string, stopping at the first
    character that is not a digit; [read_int_str] is the round trip. *)

From Stdlib Require Import ZArith String Ascii Decimal DecimalZ.

Local Open Scope string_scope.

Fixpoint uint_to_string (d : uint) : string :=
  match d with
  | Nil => EmptyString
  | D0 d => String "0" (uint_to_string d)
  | D1 d => String "1" (uint_to_string d)
  | D2 d => String "2" (uint_to_string d)
  | D3 d => String "3" (uint_to_string d)
  | D4 d => String "4" (uint_to_string d)
  | D5 d => String "5" (uint_to_string d)
  | D6 d => String "6" (uint_to_string d)
  | D7 d => String "7" (uint_to_string d)
  | D8 d => String "8" (uint_to_string d)
  | D9 d => String "9" (uint_to_string d)
  end.

(** [str(n)]. *)
Definition str_Z (z : Z) : string :=
  match Z.to_int z with
  | Pos u => uint_to_string u
  | Neg u => String "-" (uint_to_string u)
  end.

Definition digit_of (c : ascii) : option (uint -> uint) :=
  match c with
  | "0"%char => Some D0 | "1"%char => Some D1 | "2"%char => Some D2 | "3"%char => Some D3
  | "4"%char => Some D4 | "5"%char => Some D5 | "6"%char => Some D6 | "7"%char => Some D7
  | "8"%char => Some D8 | "9"%char => Some D9
  | _ => None
  end.

(** The longest run of digits at the front of a string, and the rest. *)
Fixpoint read_uint (s : string) : uint * string :=
  match s with
  | String c s' =>
      match digit_of c with
      | Some d => let '(u, r) := read_uint s' in (d u, r)
      | None => (Nil, s)
      end
  | EmptyString => (Nil, EmptyString)
  end.

(** An integer at the front of a string: an optional minus sign and at
    least one digit. *)
Definition read_int (s : string) : option (Z * string) :=
  match s with
  | String "-"%char s' =>
      let '(u, r) := read_uint s' in
      match u with Nil => None | _ => Some (Z.of_int (Neg u), r) end
  | _ =>
      let '(u, r) := read_uint s in
      match u with Nil => None | _ => Some (Z.of_int (Pos u), r) end
  end.

(** [s] does not start with a digit. *)
Definition no_digit_head (s : string) : Prop :=
  match s with
  | String c _ => digit_of c = None
  | EmptyString => True
  end.

Lemma read_uint_app (u : uint) (rest : string) :
  no_digit_head rest -> read_uint (uint_to_string u ++ rest) = (u, rest).
Proof.
  intros Hr. induction u; cbn [uint_to_string append read_uint digit_of];
    try (rewrite IHu; reflexivity).
  destruct rest as [|c rest]; [reflexivity |]. cbn in Hr |- *. rewrite Hr. reflexivity.
Qed.

Lemma to_int_not_nil (z : Z) : Z.to_int z <> Pos Nil /\ Z.to_int z <> Neg Nil.
Proof.
  pose proof (DecimalZ.of_to z) as H.
  split; intros E; rewrite E in H; cbn in H; subst z; cbn in E; discriminate.
Qed.

(** Reading back what [str] printed gives the number and the rest. *)
Lemma read_int_str (z : Z) (rest : string) :
  no_digit_head rest -> read_int (str_Z z ++ rest) = Some (z, rest).
Proof.
  intros Hr. unfold str_Z. pose proof (DecimalZ.of_to z) as Hz.
  pose proof (to_int_not_nil z) as [Hp Hn]. revert Hz Hp Hn.
  destruct (Z.to_int z) as [u|u]; intros Hz Hp Hn;
    (destruct u; [contradiction | ..]); unfold read_int;
    cbn [uint_to_string append read_uint digit_of]; rewrite read_uint_app by exact Hr;
    rewrite Hz; reflexivity.
Qed.
