(* ===== verification/Plot.v ===== *)
(** * The charts of [plot_charts_per_tracker] ([_entropy.py], lines 268-410)

    The function draws, for every (session, tracker, phase) with more than
    two stops, a Voronoi diagram, the same diagram coloured by the
    durations of the stops, the convex hull and the Delaunay triangulation
    of the stops, and saves each one as a PNG file of [output_figures]
    whose name is built from the session, the tracker and the phase.  The
    drawing is done by scipy and matplotlib and is not modelled: the model
    is the list of effects the function performs (the directory it
    creates, the files it saves with their axis limits, and the colour
    levels of the coloured diagram), and how the function ends: it returns
    nothing, unless [Voronoi] raises [QhullError] on a group whose stops
    all lie on one line (Qhull's initial simplex is flat), which ends the
    loop before any chart of that group is saved. *)

From Stdlib Require Import ZArith QArith Qminmax Lqa Lia String Ascii List FinFun.
From stdpp Require Import base list decidable.
From S2P Require Import Prelude PyString Geometry Samples ClusterBuilder Classifier BlockMerger.
From S2P Require Import Summarizer Metrics.

Local Open Scope Q_scope.

(** ** Configuration and effects *)

Record plot_config := mk_plot_config {
  room_x : Q;
  room_y : Q;
  HorizonalZero : string;
  VerticalZero : string
}.

(** Lines 334-341: the axes, reversed to put the origin where the room's
    zero is. *)
Definition plot_xlim (c : plot_config) : Q * Q :=
  if String.eqb (HorizonalZero c) "right" then (room_x c, 0) else (0, room_x c).

Definition plot_ylim (c : plot_config) : Q * Q :=
  if String.eqb (VerticalZero c) "down" then (0, room_y c) else (room_y c, 0).

Inductive chart := Voronoi | VoronoiColoured | ConvexHull | Delaunay.

Definition chart_suffix (c : chart) : string :=
  match c with
  | Voronoi => "_VORONOI.png"
  | VoronoiColoured => "_VORONOI_COLOURED.png"
  | ConvexHull => "_CONVEXHULL.png"
  | Delaunay => "_DELAUNAY.png"
  end.

(** [plt.savefig('output_figures/Session_'+str(s)+'-Tracker_'+str(t)+
    '-Phase_'+str(p)+suffix)] (lines 342, 376, 391, 405). *)
Definition figure_name (k : Z * Z * Z) (c : chart) : string :=
  ("output_figures/Session_" ++ str_Z k.1.1 ++ "-Tracker_" ++ str_Z k.1.2 ++ "-Phase_" ++ str_Z k.2
   ++ chart_suffix c)%string.

Inductive effect :=
| MkDir (path : string)
| SaveFig (path : string) (xlim ylim : Q * Q)
| SaveColoured (path : string) (xlim ylim : Q * Q) (levels : list Q).

(** [mpl.colors.Normalize(vmin, vmax, clip=True)] (line 357): [0] when
    [vmin = vmax]. *)
Definition normalize_level (vmin vmax v : Q) : Q :=
  if Qeq_bool vmin vmax then 0 else Qmax 0 (Qmin 1 ((v - vmin) / (vmax - vmin))).

(** ** The function *)

(** Line 295: the stops. *)
Definition plot_stops (out : list out_row) : list out_row := List.filter o_is_stop out.

(** Line 298: the groups, in ascending order. *)
Definition plot_groups (out : list out_row) : list (Z * Z * Z) :=
  fold_right (insert_by lex3_ltb) [] (unique (map o_stp (plot_stops out))).

Definition group_stops (out : list out_row) (k : Z * Z * Z) : list out_row :=
  List.filter (fun r => bool_decide (o_stp r = k)) (plot_stops out).

(** Lines 327-405 for one group with more than two stops. *)
Definition group_charts (c : plot_config) (out : list out_row) (k : Z * Z * Z) : list effect :=
  let d := map (fun r => inject_Z (o_max_duration r)) (group_stops out k) in
  let mn := match d with [] => 0 | v :: vs => fold_right Qmin v vs end in
  let mx := match d with [] => 0 | v :: vs => fold_right Qmax v vs end in
  [SaveFig (figure_name k Voronoi) (plot_xlim c) (plot_ylim c);
   SaveColoured (figure_name k VoronoiColoured) (plot_xlim c) (plot_ylim c) (map (normalize_level mn mx) d);
   SaveFig (figure_name k ConvexHull) (plot_xlim c) (plot_ylim c);
   SaveFig (figure_name k Delaunay) (plot_xlim c) (plot_ylim c)].

(** Line 315: [sub_fixations_coordinates], the [x] and [y] of the stops
    of a group. *)
Definition group_points (out : list out_row) (k : Z * Z * Z) : list (Q * Q) :=
  map (fun r => (o_x r, o_y r)) (group_stops out k).

(** Twice the signed area of the triangle [a b c]. *)
Definition cross (a b c : Q * Q) : Q := (b.1 - a.1) * (c.2 - a.2) - (b.2 - a.2) * (c.1 - a.1).

(** All the points on one line (equal points included): Qhull cannot build
    its initial simplex, and [Voronoi] (line 329) raises [QhullError]
    before anything of the group is drawn.  The same points make
    [ConvexHull] and [Delaunay] raise, so [Voronoi] is the call that
    fails. *)
Definition collinear (ps : list (Q * Q)) : bool :=
  forallb (fun a => forallb (fun b => forallb (fun c => Qeq_bool (cross a b c) 0) ps) ps) ps.

(** How the function ends: it returns [None], or the [QhullError] of a
    group escapes the loop. *)
Inductive plot_result := PlotDone | QhullError (k : Z * Z * Z).

(** The loop over the groups (lines 309-405): a group of more than two
    stops draws its four charts, unless its stops are on one line, which
    ends the loop with the exception. *)
Fixpoint plot_loop (c : plot_config) (out : list out_row) (ks : list (Z * Z * Z)) : list effect * plot_result :=
  match ks with
  | [] => ([], PlotDone)
  | k :: ks' =>
      if (2 <? length (group_stops out k))%nat then
        if collinear (group_points out k) then ([], QhullError k)
        else let '(es, r) := plot_loop c out ks' in (group_charts c out k ++ es, r)
      else plot_loop c out ks'
  end.

(** [plot_charts_per_tracker] (lines 268-410): its effects, in order, and
    how it ends. *)
Definition plot_charts_per_tracker (c : plot_config) (out : list out_row) : list effect * plot_result :=
  let '(es, r) := plot_loop c out (plot_groups out) in (MkDir "output_figures" :: es, r).

Definition saved_path (e : effect) : option string :=
  match e with
  | MkDir _ => None
  | SaveFig p _ _ | SaveColoured p _ _ _ => Some p
  end.

(** ** Reading a file name back *)

Fixpoint strip (p s : string) : option string :=
  match p, s with
  | EmptyString, _ => Some s
  | String a p', String b s' => if Ascii.eqb a b then strip p' s' else None
  | String _ _, EmptyString => None
  end.

Definition chart_of_suffix (s : string) : option chart :=
  if String.eqb s "_VORONOI.png" then Some Voronoi
  else if String.eqb s "_VORONOI_COLOURED.png" then Some VoronoiColoured
  else if String.eqb s "_CONVEXHULL.png" then Some ConvexHull
  else if String.eqb s "_DELAUNAY.png" then Some Delaunay
  else None.

Definition parse_figure_name (path : string) : option (Z * Z * Z * chart) :=
  r0 ← strip "output_figures/Session_" path;
  '(s, r1) ← read_int r0;
  r2 ← strip "-Tracker_" r1;
  '(t, r3) ← read_int r2;
  r4 ← strip "-Phase_" r3;
  '(p, r5) ← read_int r4;
  ch ← chart_of_suffix r5;
  Some (s, t, p, ch).

(** ** What the loop does, group by group *)

(** A group on which [Voronoi] raises: more than two stops, all on one
    line (lines 327-329). *)
Definition degenerate (out : list out_row) (k : Z * Z * Z) : bool :=
  (2 <? length (group_stops out k))%nat && collinear (group_points out k).

(** The charts one group draws when [Voronoi] does not raise. *)
Definition charts_of (c : plot_config) (out : list out_row) (k : Z * Z * Z) : list effect :=
  if (2 <? length (group_stops out k))%nat then group_charts c out k else [].

Fixpoint take_while {A : Type} (P : A -> bool) (l : list A) : list A :=
  match l with [] => [] | a :: l' => if P a then a :: take_while P l' else [] end.

(** The groups the loop goes through before it raises, or all of them. *)
Definition drawn_groups (out : list out_row) : list (Z * Z * Z) :=
  take_while (fun k => negb (degenerate out k)) (plot_groups out).

(** ** File names *)

Lemma strip_app (p s : string) : strip p (p ++ s) = Some s.
Proof. induction p as [|a p IH]; [reflexivity |]. simpl. rewrite Ascii.eqb_refl. exact IH. Qed.

Lemma chart_of_suffix_ok (ch : chart) : chart_of_suffix (chart_suffix ch) = Some ch.
Proof. destruct ch; reflexivity. Qed.

(** A file name gives back the group and the chart it was built from. *)
Lemma parse_figure_name_ok (k : Z * Z * Z) (ch : chart) :
  parse_figure_name (figure_name k ch) = Some (k.1.1, k.1.2, k.2, ch).
Proof.
  unfold parse_figure_name, figure_name.
  rewrite strip_app. cbn [mbind option_bind].
  rewrite read_int_str by reflexivity. cbn [mbind option_bind].
  rewrite strip_app. cbn [mbind option_bind].
  rewrite read_int_str by reflexivity. cbn [mbind option_bind].
  rewrite strip_app. cbn [mbind option_bind].
  rewrite read_int_str by (destruct ch; reflexivity). cbn [mbind option_bind].
  rewrite chart_of_suffix_ok. reflexivity.
Qed.

Lemma figure_name_inj (k k' : Z * Z * Z) (ch ch' : chart) :
  figure_name k ch = figure_name k' ch' -> k = k' /\ ch = ch'.
Proof.
  intros E. pose proof (parse_figure_name_ok k ch) as H. rewrite E, parse_figure_name_ok in H.
  destruct k as [[a b] c], k' as [[a' b'] c']. cbn in H. injection H as -> -> -> ->. auto.
Qed.

Definition all_charts : list chart := [Voronoi; VoronoiColoured; ConvexHull; Delaunay].

(** ** The loop *)

Lemma take_while_all {A : Type} (P : A -> bool) (l : list A) :
  Forall (fun a => P a = true) l -> take_while P l = l.
Proof. induction 1 as [|a l Ha _ IH]; cbn; [reflexivity | now rewrite Ha, IH]. Qed.

Lemma take_while_stop {A : Type} (P : A -> bool) (pre post : list A) (a : A) :
  Forall (fun a => P a = true) pre -> P a = false -> take_while P (pre ++ a :: post) = pre.
Proof. induction 1 as [|b pre Hb _ IH]; intros Ha; cbn; [now rewrite Ha | now rewrite Hb, IH]. Qed.

Lemma take_while_prefix {A : Type} (P : A -> bool) (l : list A) : exists rest, l = take_while P l ++ rest.
Proof.
  induction l as [|a l [rest IH]]; cbn; [exists []; reflexivity |].
  destruct (P a); [exists rest; cbn; congruence | exists (a :: l); reflexivity].
Qed.

Lemma find_none_Forall {A : Type} (P : A -> bool) (l : list A) :
  find P l = None <-> Forall (fun a => P a = false) l.
Proof.
  induction l as [|a l IH]; cbn; [split; constructor |]. rewrite Forall_cons_iff, <- IH.
  destruct (P a); [split; [discriminate | intros [[=] _]] | tauto].
Qed.

Lemma find_first {A : Type} (P : A -> bool) (pre post : list A) (a : A) :
  Forall (fun a => P a = false) pre -> P a = true -> find P (pre ++ a :: post) = Some a.
Proof. induction 1 as [|b pre Hb _ IH]; intros Ha; cbn; [now rewrite Ha | now rewrite Hb, IH]. Qed.

(** The loop draws the charts of the groups before the first one on
    which [Voronoi] raises, and raises there. *)
Lemma plot_loop_spec (c : plot_config) (out : list out_row) (ks : list (Z * Z * Z)) :
  plot_loop c out ks
  = (flat_map (charts_of c out) (take_while (fun k => negb (degenerate out k)) ks),
     match find (degenerate out) ks with Some k => QhullError k | None => PlotDone end).
Proof.
  induction ks as [|k ks IH]; [reflexivity |]. cbn [plot_loop take_while find].
  assert (Hd : degenerate out k = (2 <? length (group_stops out k))%nat && collinear (group_points out k))
    by reflexivity.
  assert (Hc : charts_of c out k = if (2 <? length (group_stops out k))%nat then group_charts c out k else [])
    by reflexivity.
  rewrite Hd. destruct (2 <? length (group_stops out k))%nat eqn:E1; cbn [andb negb].
  - destruct (collinear (group_points out k)); cbn [negb]; [reflexivity |]. rewrite IH. cbn [flat_map]. rewrite Hc. reflexivity.
  - rewrite IH. cbn [flat_map]. rewrite Hc. reflexivity.
Qed.

Lemma plot_charts_spec (c : plot_config) (out : list out_row) :
  plot_charts_per_tracker c out
  = (MkDir "output_figures" :: flat_map (charts_of c out) (drawn_groups out),
     match find (degenerate out) (plot_groups out) with Some k => QhullError k | None => PlotDone end).
Proof. unfold plot_charts_per_tracker, drawn_groups. now rewrite plot_loop_spec. Qed.

(** The files saved, group by group: the four charts of every group drawn
    that has more than two stops. *)
Lemma saved_paths_spec (c : plot_config) (out : list out_row) :
  omap saved_path (fst (plot_charts_per_tracker c out))
  = map (fun kc => figure_name kc.1 kc.2)
      (List.filter (fun kc => (2 <? length (group_stops out kc.1))%nat) (list_prod (drawn_groups out) all_charts)).
Proof.
  rewrite plot_charts_spec. cbn [fst]. change (omap saved_path (MkDir _ :: ?l)) with (omap saved_path l).
  generalize (drawn_groups out) as ks.
  induction ks as [|k ks IH]; [reflexivity |]. cbn [flat_map list_prod].
  rewrite List.filter_app, map_app, omap_app, IH. f_equal. unfold charts_of.
  cbn [List.filter map all_charts fst]. destruct (2 <? length (group_stops out k))%nat; reflexivity.
Qed.

Lemma NoDup_plot_groups (out : list out_row) : List.NoDup (plot_groups out).
Proof. apply NoDup_fold_insert_by, NoDup_unique. Qed.

Lemma drawn_groups_incl (out : list out_row) (k : Z * Z * Z) : In k (drawn_groups out) -> In k (plot_groups out).
Proof.
  unfold drawn_groups. destruct (take_while_prefix (fun k => negb (degenerate out k)) (plot_groups out)) as [rest E].
  intros Hk. rewrite E. apply in_or_app. left. exact Hk.
Qed.

Lemma NoDup_drawn_groups (out : list out_row) : List.NoDup (drawn_groups out).
Proof.
  unfold drawn_groups. destruct (take_while_prefix (fun k => negb (degenerate out k)) (plot_groups out)) as [rest E].
  pose proof (NoDup_plot_groups out) as H. rewrite E in H. exact (List.NoDup_app_remove_r _ _ H).
Qed.

Lemma figure_name_pair_inj : Injective (fun kc : Z * Z * Z * chart => figure_name kc.1 kc.2).
Proof.
  intros [k ch] [k' ch'] E. cbn in E. apply figure_name_inj in E as [-> ->]. reflexivity.
Qed.

Lemma filter_prod_length {A B : Type} (P : A -> bool) (ks : list A) (cs : list B) :
  length (List.filter (fun kc => P kc.1) (list_prod ks cs)) = (length cs * length (List.filter P ks))%nat.
Proof.
  induction ks as [|k ks IH]; cbn [list_prod List.filter length]; [lia |].
  rewrite List.filter_app, length_app, IH.
  destruct (P k) eqn:E; cbn [length].
  - rewrite (List.filter_ext_in _ (fun _ => true)), filter_true, length_map; [lia |].
    intros kc (b & <- & _)%in_map_iff. exact E.
  - rewrite (List.filter_ext_in _ (fun _ => false)), filter_false; [cbn; lia |].
    intros kc (b & <- & _)%in_map_iff. exact E.
Qed.

Lemma normalize_level_bounds (mn mx v : Q) : 0 <= normalize_level mn mx v <= 1.
Proof.
  unfold normalize_level. destruct (Qeq_bool mn mx); [lra |]. split.
  - apply Q.le_max_l.
  - apply Q.max_lub; [lra | apply Q.le_min_l].
Qed.

Lemma in_group_charts (c : plot_config) (out : list out_row) (k : Z * Z * Z) (p : string) xl yl lv :
  In (SaveColoured p xl yl lv) (group_charts c out k) ->
  p = figure_name k VoronoiColoured /\ length lv = length (group_stops out k)
  /\ Forall (fun v => 0 <= v <= 1) lv /\ xl = plot_xlim c /\ yl = plot_ylim c.
Proof.
  unfold group_charts. cbn [In]. intros [E|[E|[E|[E|[]]]]]; try discriminate.
  injection E as <- <- <- <-. rewrite !length_map. do 2 (split; [reflexivity |]).
  split; [| auto]. apply Forall_forall. intros v (w & <- & _)%in_map_iff. apply normalize_level_bounds.
Qed.

Lemma in_saved_paths (c : plot_config) (out : list out_row) (path : string) :
  In path (omap saved_path (fst (plot_charts_per_tracker c out))) <->
  exists k ch, path = figure_name k ch /\ In k (drawn_groups out) /\ (2 < length (group_stops out k))%nat.
Proof.
  rewrite saved_paths_spec, in_map_iff. split.
  - intros ([k ch] & <- & [Hin Hp]%List.filter_In). apply in_prod_iff in Hin as [Hk _].
    apply Nat.ltb_lt in Hp. eauto.
  - intros (k & ch & -> & Hk & Hp). exists (k, ch). split; [reflexivity |].
    apply List.filter_In. split; [apply in_prod; [exact Hk | destruct ch; cbn; tauto] |].
    apply Nat.ltb_lt, Hp.
Qed.

Lemma in_plot_groups (out : list out_row) (k : Z * Z * Z) :
  In k (plot_groups out) <-> exists r, In r out /\ o_is_stop r = true /\ o_stp r = k.
Proof.
  unfold plot_groups, plot_stops. rewrite in_fold_insert_by, in_unique, in_map_iff. split.
  - intros (r & <- & [Hr Hs]%List.filter_In). eauto.
  - intros (r & Hr & Hs & <-). exists r. split; [reflexivity |]. apply List.filter_In. auto.
Qed.

Lemma in_plot_charts_coloured (c : plot_config) (out : list out_row) (p : string) xl yl lv :
  In (SaveColoured p xl yl lv) (fst (plot_charts_per_tracker c out)) ->
  exists k, In k (plot_groups out) /\ In (SaveColoured p xl yl lv) (group_charts c out k).
Proof.
  rewrite plot_charts_spec. intros [E|Hin]; [discriminate |]. apply in_flat_map in Hin as (k & Hk & Hin).
  unfold charts_of in Hin. destruct (_ <? _)%nat; [| destruct Hin]. exists k. split; [| exact Hin].
  apply drawn_groups_incl, Hk.
Qed.

(** ** Properties *)

(** C29. Round trip of the file names: every file the function saves is
    named after a (session, tracker, phase) of the stops that has more
    than two stops, and reading the name back gives that group and the
    chart drawn in it. *)
Theorem saved_figure_parses (c : plot_config) (out : list out_row) (path : string) :
  In path (omap saved_path (fst (plot_charts_per_tracker c out))) ->
  exists s t p ch, parse_figure_name path = Some (s, t, p, ch) /\ path = figure_name (s, t, p) ch
    /\ (exists r, In r out /\ o_is_stop r = true /\ o_stp r = (s, t, p))
    /\ (2 < length (group_stops out (s, t, p)))%nat.
Proof.
  intros (k & ch & -> & Hk & Hp)%in_saved_paths. destruct k as [[s t] p].
  exists s, t, p, ch. rewrite parse_figure_name_ok. apply drawn_groups_incl, in_plot_groups in Hk. auto.
Qed.

(** C30. No chart overwrites another, and the loop stops at the first
    group whose stops lie on one line: the saved file names are pairwise
    distinct, four (Voronoi, coloured Voronoi, convex hull, Delaunay) per
    group with more than two stops that the loop reached; the function
    returns normally exactly when no group of more than two stops has all
    its stops on one line, and then every chart of every such group is
    saved; otherwise [Voronoi] raises [QhullError] on the first such group
    in the order of [groupby], after the charts of exactly the groups
    before it. *)
Theorem saved_figures_distinct (c : plot_config) (out : list out_row) :
  List.NoDup (omap saved_path (fst (plot_charts_per_tracker c out)))
  /\ length (omap saved_path (fst (plot_charts_per_tracker c out)))
     = (4 * length (List.filter (fun k => 2 <? length (group_stops out k))%nat (drawn_groups out)))%nat
  /\ (snd (plot_charts_per_tracker c out) = PlotDone
      <-> Forall (fun k => degenerate out k = false) (plot_groups out))
  /\ (snd (plot_charts_per_tracker c out) = PlotDone ->
      forall k ch, In k (plot_groups out) -> (2 < length (group_stops out k))%nat ->
        In (figure_name k ch) (omap saved_path (fst (plot_charts_per_tracker c out))))
  /\ (forall pre k post, plot_groups out = pre ++ k :: post ->
        Forall (fun k' => degenerate out k' = false) pre -> degenerate out k = true ->
        snd (plot_charts_per_tracker c out) = QhullError k /\ drawn_groups out = pre).
Proof.
  assert (Hdone : snd (plot_charts_per_tracker c out) = PlotDone
                  <-> Forall (fun k => degenerate out k = false) (plot_groups out)).
  { rewrite plot_charts_spec, <- find_none_Forall. cbn [snd]. destruct (find _ _); split; congruence. }
  split; [| split; [| split; [exact Hdone | split]]].
  - rewrite saved_paths_spec. apply Injective_map_NoDup; [exact figure_name_pair_inj |].
    apply NoDup_filter, NoDup_list_prod; [apply NoDup_drawn_groups |].
    repeat constructor; cbn; intuition discriminate.
  - rewrite saved_paths_spec, length_map.
    exact (filter_prod_length (fun k => 2 <? length (group_stops out k))%nat _ _).
  - intros Hd k ch Hk Hp. apply in_saved_paths. exists k, ch. split; [reflexivity | split; [| exact Hp]].
    unfold drawn_groups. rewrite take_while_all; [exact Hk |].
    apply Forall_impl with (2 := proj1 Hdone Hd). intros k' ->. reflexivity.
  - intros pre k post E Hpre Hk. rewrite plot_charts_spec. cbn [snd]. unfold drawn_groups. rewrite E.
    rewrite (find_first _ _ _ _ Hpre Hk). split; [reflexivity |].
    apply take_while_stop; [| rewrite Hk; reflexivity].
    apply Forall_impl with (2 := Hpre). intros k' ->. reflexivity.
Qed.

(** The coloured Voronoi diagram of a group gives every stop of the
    group one colour level, its duration normalised between the group's
    shortest and longest stop and clipped, so that every level lies in
    [0, 1]; like every chart it is drawn in the axes of the room's
    configuration. *)
Theorem coloured_levels_bounds (c : plot_config) (out : list out_row) (p : string) xl yl lv :
  In (SaveColoured p xl yl lv) (fst (plot_charts_per_tracker c out)) ->
  exists k, p = figure_name k VoronoiColoured /\ length lv = length (group_stops out k)
    /\ Forall (fun v => 0 <= v <= 1) lv /\ xl = plot_xlim c /\ yl = plot_ylim c.
Proof.
  intros (k & _ & Hin)%in_plot_charts_coloured. exists k. apply (in_group_charts c out k), Hin.
Qed.

(** ** Examples *)

Definition room_8x6 : plot_config := mk_plot_config 8 6 "left" "up".

(** Session 1: tracker 2 stops three times in phase 1 (5, 10 and 20
    seconds), tracker 3 once. *)
Definition three_stops : list out_row :=
  [out_stop (mk_stop 2 1 1 5 1 1 1 1 0 0 0 5);
   out_stop (mk_stop 2 1 2 10 1 1 4 2 0 0 10 20);
   out_stop (mk_stop 2 1 3 20 1 1 2 5 0 0 30 50);
   out_stop (mk_stop 3 1 1 7 1 1 6 3 0 0 0 7)].

Lemma saved_figure_parses_witness :
  In "output_figures/Session_1-Tracker_2-Phase_1_DELAUNAY.png"%string
     (omap saved_path (fst (plot_charts_per_tracker room_8x6 three_stops)))
  /\ exists s t p ch, parse_figure_name "output_figures/Session_1-Tracker_2-Phase_1_DELAUNAY.png"
       = Some (s, t, p, ch)
    /\ "output_figures/Session_1-Tracker_2-Phase_1_DELAUNAY.png"%string = figure_name (s, t, p) ch
    /\ (exists r, In r three_stops /\ o_is_stop r = true /\ o_stp r = (s, t, p))
    /\ (2 < length (group_stops three_stops (s, t, p)))%nat.
Proof.
  assert (H : In "output_figures/Session_1-Tracker_2-Phase_1_DELAUNAY.png"%string
                 (omap saved_path (fst (plot_charts_per_tracker room_8x6 three_stops))))
    by (vm_compute; tauto).
  split; [exact H | exact (saved_figure_parses room_8x6 three_stops _ H)].
Defined.

Lemma coloured_levels_bounds_witness :
  In (SaveColoured "output_figures/Session_1-Tracker_2-Phase_1_VORONOI_COLOURED.png"
        (0, 8) (6, 0) (map (normalize_level 5 20) [5; 10; 20]))
     (fst (plot_charts_per_tracker room_8x6 three_stops))
  /\ exists k, "output_figures/Session_1-Tracker_2-Phase_1_VORONOI_COLOURED.png"%string
                = figure_name k VoronoiColoured
    /\ length (map (normalize_level 5 20) [5; 10; 20]) = length (group_stops three_stops k)
    /\ Forall (fun v => 0 <= v <= 1) (map (normalize_level 5 20) [5; 10; 20])
    /\ (0, 8) = plot_xlim room_8x6 /\ (6, 0) = plot_ylim room_8x6.
Proof.
  assert (H : In (SaveColoured "output_figures/Session_1-Tracker_2-Phase_1_VORONOI_COLOURED.png"
                    (0, 8) (6, 0) (map (normalize_level 5 20) [5; 10; 20]))
                 (fst (plot_charts_per_tracker room_8x6 three_stops)))
    by (vm_compute; tauto).
  split; [exact H | exact (coloured_levels_bounds room_8x6 three_stops _ _ _ _ H)].
Defined.

(** The file names of the example: tracker 3, with a single stop, has no
    chart. *)
Example three_stops_figures :
  omap saved_path (fst (plot_charts_per_tracker room_8x6 three_stops)) =
  ["output_figures/Session_1-Tracker_2-Phase_1_VORONOI.png";
   "output_figures/Session_1-Tracker_2-Phase_1_VORONOI_COLOURED.png";
   "output_figures/Session_1-Tracker_2-Phase_1_CONVEXHULL.png";
   "output_figures/Session_1-Tracker_2-Phase_1_DELAUNAY.png"]%string.
Proof. vm_compute. reflexivity. Qed.

(** Three stops of tracker 2 on the diagonal of the room: [Voronoi]
    raises before any chart of the group is saved, and the function ends
    with the exception, having only created the directory. *)
Definition diagonal_stops : list out_row :=
  [out_stop (mk_stop 2 1 1 5 1 1 1 1 0 0 0 5);
   out_stop (mk_stop 2 1 2 10 1 1 2 2 0 0 10 20);
   out_stop (mk_stop 2 1 3 20 1 1 3 3 0 0 30 50)].

Lemma saved_figures_distinct_witness :
  plot_groups diagonal_stops = [] ++ (1, 2, 1)%Z :: []
  /\ Forall (fun k' => degenerate diagonal_stops k' = false) []
  /\ degenerate diagonal_stops (1, 2, 1)%Z = true
  /\ snd (plot_charts_per_tracker room_8x6 diagonal_stops) = QhullError (1, 2, 1)%Z
  /\ drawn_groups diagonal_stops = [].
Proof.
  assert (E : plot_groups diagonal_stops = [] ++ (1, 2, 1)%Z :: []) by (vm_compute; reflexivity).
  assert (Hd : degenerate diagonal_stops (1, 2, 1)%Z = true) by (vm_compute; reflexivity).
  do 3 (split; [first [exact E | constructor | exact Hd] |]).
  exact (proj2 (proj2 (proj2 (proj2 (saved_figures_distinct room_8x6 diagonal_stops)))) [] _ [] E
           (Forall_nil _) Hd).
Defined.

Example diagonal_stops_raise :
  plot_charts_per_tracker room_8x6 diagonal_stops = ([MkDir "output_figures"], QhullError (1, 2, 1)%Z).
Proof. vm_compute. reflexivity. Qed.
