(* ===== verification/Diarizer.v ===== *)
(** * The diarization batch runner ([whisper-diarization-main/run_diarizer.py])

    [run_diarization] lists a folder, keeps the files whose extension
    (lower-cased) is one of five audio extensions, and for each runs
    [diarize.py] through PowerShell, printing its output, or the error when
    the command fails.  The subprocess and the console are the
    environment: the model takes the outcome of the [i]-th call to
    [subprocess.run] as a function [env i], and returns the trace of
    events (lines printed, commands run) and whether the loop ran to its
    end or an exception escaped it.

    The script runs on Windows (it calls [powershell]), so [os.path] is
    [ntpath]: [splitext] takes [\] and [/] as separators, and [join]
    inserts a backslash. *)

From Stdlib Require Import ZArith String Ascii List Bool Lia.
Import ListNotations.

Local Open Scope string_scope.

(** ** [os.path.splitext] and [str.lower] *)

(** Index of the last occurrence of [c], [-1] when absent ([str.rfind]). *)
Fixpoint rfind_from (c : ascii) (l : list ascii) (i acc : Z) : Z :=
  match l with
  | [] => acc
  | a :: l' => rfind_from c l' (i + 1) (if Ascii.eqb a c then i else acc)
  end.

Definition rfind (c : ascii) (l : list ascii) : Z := rfind_from c l 0 (-1).

(** [genericpath._splitext(p, '\\', '/', '.')], the extension part: from
    the last dot, when it comes after the last separator and some
    character other than a dot precedes it in the file name. *)
Definition splitext_ext (p : string) : string :=
  let l := list_ascii_of_string p in
  let sepi := Z.max (rfind "\" l) (rfind "/" l) in
  let doti := rfind "." l in
  if (sepi <? doti)%Z then
    if existsb (fun a => negb (Ascii.eqb a "."))
         (firstn (Z.to_nat (doti - sepi - 1)) (skipn (Z.to_nat (sepi + 1)) l))
    then string_of_list_ascii (skipn (Z.to_nat doti) l)
    else EmptyString
  else EmptyString.

Definition ascii_lower (c : ascii) : ascii :=
  let n := nat_of_ascii c in
  if (65 <=? n)%nat && (n <=? 90)%nat then ascii_of_nat (n + 32) else c.

(** [str.lower] on ASCII text. *)
Fixpoint lower (s : string) : string :=
  match s with
  | EmptyString => EmptyString
  | String c s' => String (ascii_lower c) (lower s')
  end.

(** ** The batch *)

(** Line 9. *)
Definition audio_extensions : list string := [".m4a"; ".mp4"; ".wav"; ".ogg"; ".flac"].

Definition is_audio (f : string) : bool :=
  existsb (String.eqb (lower (splitext_ext f))) audio_extensions.

(** Line 10. *)
Definition audio_files (files : list string) : list string := filter is_audio files.

(** [ntpath.join(folder, name)] for a file name of the listing (no drive,
    no separator): a backslash is inserted unless the folder, past its
    drive letter, is empty or ends with a separator. *)
Definition join_path (folder name : string) : string :=
  let l := list_ascii_of_string folder in
  let '(drive, path) :=
    match l with
    | d :: ":"%char :: rest => ([d; ":"%char], rest)
    | _ => ([], l)
    end in
  let path' :=
    match rev path with
    | [] => path
    | c :: _ => if Ascii.eqb c "\" || Ascii.eqb c "/" then path else app path ["\"%char]
    end in
  string_of_list_ascii (app drive path') ++ name.

(** The double quote, character 34. *)
Definition dq : string := String (ascii_of_nat 34) EmptyString.

(** Line 16. *)
Definition command (full_path whisper_model device language : string) : string :=
  "python diarize.py -a " ++ dq ++ full_path ++ dq ++ " --whisper-model " ++ whisper_model
  ++ " --device " ++ device ++ " --language " ++ language.

Definition argv (cmd : string) : list string := ["powershell"; "-Command"; cmd].

(** The outcome of [subprocess.run(..., check=True)]: it returns, raises
    [CalledProcessError] (caught, with the text of the exception and the
    captured standard error), or raises anything else (not caught). *)
Inductive outcome :=
| Completed (stdout : string)
| Failed (message stderr : string)
| Raised.

Inductive event :=
| Print (line : string)
| Run (args : list string).

Section Batch.

Variables folder_path whisper_model device language : string.

(** The outcome of the [i]-th call. *)
Variable env : nat -> outcome.

(** Lines 12-28, from the [i]-th call on: the events, and [true] when the
    loop ends normally. *)
Fixpoint process (i : nat) (fs : list string) : list event * bool :=
  match fs with
  | [] => ([], true)
  | f :: fs' =>
      let args := argv (command (join_path folder_path f) whisper_model device language) in
      let pre := [Print ("Processing: " ++ f); Run args] in
      match env i with
      | Completed out =>
          let '(evs, ok) := process (S i) fs' in (app pre (Print ("Output: " ++ out) :: evs), ok)
      | Failed msg err =>
          let '(evs, ok) := process (S i) fs' in
          (app pre (Print ("Error processing " ++ f ++ ": " ++ msg) :: Print ("Error output: " ++ err) :: evs), ok)
      | Raised => (pre, false)
      end
  end.

(** [run_diarization] on the listing [files] of the folder. *)
Definition run_diarization (files : list string) : list event * bool :=
  process 0 (audio_files files).

End Batch.

(** The commands a trace runs. *)
Definition runs (evs : list event) : list (list string) :=
  flat_map (fun e => match e with Run a => [a] | Print _ => [] end) evs.

(** Lines 29-30: the folder of the script, and the call with the default
    arguments. *)
Definition script_folder : string := "C:\\Work\\Research\\tools\\peninsula-2024-students-interview-data".

Definition main (env : nat -> outcome) (files : list string) : list event * bool :=
  run_diarization script_folder "large-v2" "cuda" "en" env files.

(** ** The trace *)

Lemma runs_app (e1 e2 : list event) : runs (app e1 e2) = app (runs e1) (runs e2).
Proof. apply flat_map_app. Qed.

Section Trace.

Variables folder_path whisper_model device language : string.
Variable env : nat -> outcome.

Definition file_args (f : string) : list string :=
  argv (command (join_path folder_path f) whisper_model device language).

(** One step of the loop: the file is announced and its command run, and
    the loop goes on unless the call raised. *)
Lemma process_cons (i : nat) (f : string) (fs : list string) :
  runs (fst (process folder_path whisper_model device language env i (f :: fs)))
  = file_args f :: (if env i is Raised then [] else runs (fst (process folder_path whisper_model device language env (S i) fs)))
  /\ snd (process folder_path whisper_model device language env i (f :: fs))
     = (if env i is Raised then false else snd (process folder_path whisper_model device language env (S i) fs)).
Proof.
  cbn [process]. destruct (env i); [| | split; reflexivity];
    destruct (process _ _ _ _ _ (S i) fs) as [evs ok]; cbn; auto.
Qed.

Lemma process_no_raise (fs : list string) (i : nat) :
  (forall j, (i <= j < i + length fs)%nat -> env j <> Raised) ->
  runs (fst (process folder_path whisper_model device language env i fs)) = map file_args fs
  /\ snd (process folder_path whisper_model device language env i fs) = true.
Proof.
  revert i. induction fs as [|f fs IH]; intros i Hr; [split; reflexivity |].
  destruct (process_cons i f fs) as [E1 E2]. rewrite E1, E2.
  destruct (env i) eqn:Ei; [| | exfalso; apply (Hr i); [cbn; lia | exact Ei]];
    (destruct (IH (S i)) as [-> ->]; [intros j Hj; apply Hr; cbn; lia | split; reflexivity]).
Qed.

Lemma process_first_raise (fs : list string) (i k : nat) :
  (forall j, (i <= j < i + k)%nat -> env j <> Raised) -> env (i + k)%nat = Raised -> (k < length fs)%nat ->
  runs (fst (process folder_path whisper_model device language env i fs)) = map file_args (firstn (S k) fs)
  /\ snd (process folder_path whisper_model device language env i fs) = false.
Proof.
  revert i k. induction fs as [|f fs IH]; intros i k Hr Hk Hl; [cbn in Hl; lia |].
  destruct (process_cons i f fs) as [E1 E2]. rewrite E1, E2.
  destruct k as [|k].
  - rewrite Nat.add_0_r in Hk. rewrite Hk. split; reflexivity.
  - assert (Hi : env i <> Raised) by (apply Hr; lia).
    destruct (IH (S i) k) as [-> ->]; [intros j Hj; apply Hr; lia | rewrite <- Hk; f_equal; lia | cbn in Hl; lia |].
    destruct (env i); [| | contradiction]; split; reflexivity.
Qed.

End Trace.

(** ** File names *)

Definition is_sep (a : ascii) : bool := Ascii.eqb a "\" || Ascii.eqb a "/".

Lemma list_ascii_of_string_app (s1 s2 : string) :
  list_ascii_of_string (s1 ++ s2) = app (list_ascii_of_string s1) (list_ascii_of_string s2).
Proof. induction s1 as [|a s1 IH]; cbn; [reflexivity | now rewrite IH]. Qed.

Lemma rfind_from_app (c : ascii) (l1 l2 : list ascii) (i acc : Z) :
  rfind_from c (app l1 l2) i acc = rfind_from c l2 (i + Z.of_nat (length l1)) (rfind_from c l1 i acc).
Proof.
  revert i acc. induction l1 as [|a l1 IH]; intros i acc; cbn [app rfind_from length].
  - now rewrite Z.add_0_r.
  - rewrite IH. f_equal. lia.
Qed.

Lemma rfind_from_none (c : ascii) (l : list ascii) (i acc : Z) :
  forallb (fun a => negb (Ascii.eqb a c)) l = true -> rfind_from c l i acc = acc.
Proof.
  revert i. induction l as [|a l IH]; intros i H; [reflexivity |].
  cbn in H |- *. apply andb_prop in H as [Ha H]. apply negb_true_iff in Ha. rewrite Ha. auto.
Qed.

Lemma forallb_sep (c : ascii) (l : list ascii) :
  (c = "\"%char \/ c = "/"%char) -> forallb (fun a => negb (is_sep a)) l = true ->
  forallb (fun a => negb (Ascii.eqb a c)) l = true.
Proof.
  intros Hc H. rewrite forallb_forall in *. intros a Ha. specialize (H a Ha).
  unfold is_sep in H. destruct Hc as [-> | ->];
    destruct (Ascii.eqb a "\"), (Ascii.eqb a "/"); cbn in *; congruence.
Qed.

(** [splitext] of a file name [b.e] whose extension [e] has no dot and no
    separator, and whose stem [b] has no separator and is not only dots,
    is [.e]. *)
Lemma splitext_ext_name (b e : string) :
  forallb (fun a => negb (is_sep a)) (list_ascii_of_string b) = true ->
  existsb (fun a => negb (Ascii.eqb a ".")) (list_ascii_of_string b) = true ->
  forallb (fun a => negb (Ascii.eqb a ".") && negb (is_sep a)) (list_ascii_of_string e) = true ->
  splitext_ext (b ++ String "." e) = String "." e.
Proof.
  intros Hb Hd He. unfold splitext_ext. rewrite list_ascii_of_string_app.
  cbn [list_ascii_of_string]. set (lb := list_ascii_of_string b) in *. set (le := list_ascii_of_string e) in *.
  assert (He1 : forallb (fun a => negb (Ascii.eqb a ".")) le = true /\ forallb (fun a => negb (is_sep a)) le = true).
  { rewrite !forallb_forall in *. split; intros a Ha; specialize (He a Ha); apply andb_prop in He; tauto. }
  destruct He1 as [Hed Hes].
  assert (Hsep : forall c, (c = "\"%char \/ c = "/"%char) -> rfind c (app lb ("."%char :: le)) = (-1)%Z).
  { intros c Hc. unfold rfind. rewrite rfind_from_app, rfind_from_none by (apply forallb_sep; auto).
    cbn [rfind_from]. destruct Hc as [-> | ->]; cbn [Ascii.eqb Bool.eqb];
      apply rfind_from_none, forallb_sep; auto. }
  rewrite (Hsep "\"%char), (Hsep "/"%char) by auto.
  assert (Hdot : rfind "." (app lb ("."%char :: le)) = Z.of_nat (length lb)).
  { unfold rfind. rewrite rfind_from_app. cbn [rfind_from Ascii.eqb Bool.eqb]. rewrite rfind_from_none; [lia | exact Hed]. }
  rewrite Hdot. change (Z.max (-1) (-1)) with (-1)%Z.
  destruct (Z.ltb_spec (-1) (Z.of_nat (length lb))) as [_ | ?]; [| lia].
  replace (Z.of_nat (length lb) - -1 - 1)%Z with (Z.of_nat (length lb)) by lia.
  rewrite Nat2Z.id. change (Z.to_nat (-1 + 1)) with 0%nat. cbn [skipn].
  rewrite firstn_app, Nat.sub_diag, firstn_all. cbn [firstn]. rewrite app_nil_r, Hd.
  rewrite skipn_app, skipn_all, Nat.sub_diag. cbn. f_equal. apply string_of_list_ascii_of_string.
Qed.

(** ** Properties *)

(** C31. Liveness of the batch: as long as no call raises anything but
    [CalledProcessError], every audio file of the listing gets its
    [diarize.py] command run, in the order of the listing, whatever
    commands fail, and the loop runs to its end. *)
Theorem run_diarization_processes_all (folder m d l : string) (env : nat -> outcome) (files : list string) :
  (forall j, (j < length (audio_files files))%nat -> env j <> Raised) ->
  runs (fst (run_diarization folder m d l env files)) = map (file_args folder m d l) (audio_files files)
  /\ snd (run_diarization folder m d l env files) = true.
Proof. intros H. apply process_no_raise. intros j Hj. apply H. lia. Qed.

(** C32. An exception other than [CalledProcessError] escapes the loop:
    when the first such exception comes from the [k]-th call, the files
    after the [k]-th audio file are never processed. *)
Theorem run_diarization_stops_at_raise (folder m d l : string) (env : nat -> outcome) (files : list string) (k : nat) :
  (forall j, (j < k)%nat -> env j <> Raised) -> env k = Raised -> (k < length (audio_files files))%nat ->
  runs (fst (run_diarization folder m d l env files)) = map (file_args folder m d l) (firstn (S k) (audio_files files))
  /\ snd (run_diarization folder m d l env files) = false.
Proof. intros H Hk Hl. apply (process_first_raise _ _ _ _ _ _ 0 k); auto. intros j Hj. apply H. lia. Qed.

(** A file [b.e] of the listing, whose stem has a character other
    than a dot, is processed exactly when its lower-cased extension [.e]
    is one of [.m4a], [.mp4], [.wav], [.ogg], [.flac]. *)
Theorem is_audio_name (b e : string) :
  forallb (fun a => negb (is_sep a)) (list_ascii_of_string b) = true ->
  existsb (fun a => negb (Ascii.eqb a ".")) (list_ascii_of_string b) = true ->
  forallb (fun a => negb (Ascii.eqb a ".") && negb (is_sep a)) (list_ascii_of_string e) = true ->
  is_audio (b ++ String "." e) = true <-> In (lower (String "." e)) audio_extensions.
Proof.
  intros Hb Hd He. unfold is_audio. rewrite splitext_ext_name by assumption.
  rewrite existsb_exists. split.
  - intros (x & Hx & E). apply String.eqb_eq in E. rewrite E. exact Hx.
  - intros H. exists (lower (String "." e)). split; [exact H | apply String.eqb_refl].
Qed.

(** ** Examples *)

Definition listing : list string := ["a.wav"; "notes.txt"; "B.FLAC"; ".ogg"].

Definition all_fail (i : nat) : outcome := Failed "exit status 1" "CUDA out of memory".

Lemma run_diarization_processes_all_witness :
  (forall j, (j < length (audio_files listing))%nat -> all_fail j <> Raised)
  /\ runs (fst (main all_fail listing))
     = map (file_args script_folder "large-v2" "cuda" "en") ["a.wav"; "B.FLAC"]
  /\ snd (main all_fail listing) = true.
Proof.
  assert (H : forall j, (j < length (audio_files listing))%nat -> all_fail j <> Raised)
    by (intros j _; discriminate).
  split; [exact H | exact (run_diarization_processes_all _ _ _ _ all_fail listing H)].
Defined.

Definition second_raises (i : nat) : outcome :=
  match i with 1%nat => Raised | _ => Completed "done" end.

Lemma run_diarization_stops_at_raise_witness :
  (forall j, (j < 1)%nat -> second_raises j <> Raised) /\ second_raises 1 = Raised
  /\ (1 < length (audio_files listing))%nat
  /\ runs (fst (main second_raises listing))
     = map (file_args script_folder "large-v2" "cuda" "en") (firstn 2 (audio_files listing))
  /\ snd (main second_raises listing) = false.
Proof.
  assert (H1 : forall j, (j < 1)%nat -> second_raises j <> Raised)
    by (intros [|j] Hj; [discriminate | lia]).
  assert (H2 : second_raises 1 = Raised) by reflexivity.
  assert (H3 : (1 < length (audio_files listing))%nat) by (vm_compute; lia).
  do 3 (split; [assumption |]). exact (run_diarization_stops_at_raise _ _ _ _ _ listing 1 H1 H2 H3).
Defined.

Lemma is_audio_name_witness :
  forallb (fun a => negb (is_sep a)) (list_ascii_of_string "B") = true
  /\ existsb (fun a => negb (Ascii.eqb a ".")) (list_ascii_of_string "B") = true
  /\ forallb (fun a => negb (Ascii.eqb a ".") && negb (is_sep a)) (list_ascii_of_string "FLAC") = true
  /\ (is_audio ("B" ++ String "." "FLAC") = true <-> In (lower (String "." "FLAC")) audio_extensions).
Proof.
  assert (H1 : forallb (fun a => negb (is_sep a)) (list_ascii_of_string "B") = true) by reflexivity.
  assert (H2 : existsb (fun a => negb (Ascii.eqb a ".")) (list_ascii_of_string "B") = true) by reflexivity.
  assert (H3 : forallb (fun a => negb (Ascii.eqb a ".") && negb (is_sep a)) (list_ascii_of_string "FLAC") = true)
    by reflexivity.
  do 3 (split; [assumption |]). exact (is_audio_name "B" "FLAC" H1 H2 H3).
Defined.

(** A hidden file [.ogg] has no extension for [splitext] and is skipped;
    the file names reach PowerShell inside double quotes, unescaped. *)
Example listing_commands :
  audio_files listing = ["a.wav"; "B.FLAC"]
  /\ command (join_path script_folder "a$(hostname).wav") "large-v2" "cuda" "en"
     = ("python diarize.py -a " ++ dq ++ "C:\\Work\\Research\\tools\\peninsula-2024-students-interview-data\a$(hostname).wav"
        ++ dq ++ " --whisper-model large-v2 --device cuda --language en")%string.
Proof. split; reflexivity. Qed.
