(* ===== verification/ErrorResponse.v ===== *)
(** * [build_error_response] ([py-server-main/util/error_handling_util.py])

    The function validates its two arguments with
    [validate_string_argument] and [validate_http_status_code], logs the
    message at level INFO and returns the pair.  The two validators come
    from [util.validation_util], which is not part of the repository: they
    are the interface [Validation], whose laws are only that each one
    either returns or raises [ValueError] with a message.  The theorems on
    [build_error_response] hold for every implementation of the interface;
    [docstring_validation] is the instance the docstring describes (a
    non-empty message, a status code of the HTTP range). *)

From Stdlib Require Import ZArith String List Bool.
Import ListNotations.

Local Open Scope Z_scope.

(** A validator returns, or raises [ValueError] with a message. *)
Inductive checked := Valid | ValueError (message : string).

Class Validation := {
  validate_string_argument : string -> checked;
  validate_http_status_code : Z -> checked
}.

(** The records of [logging.info]. *)
Inductive log_record := Info (message : string).

Section Build.

Context `{Validation}.

(** Lines 7-29: the log records written, and the pair returned or the
    error raised. *)
Definition build_error_response (error_message : string) (status_code : Z)
  : list log_record * (checked + string * Z) :=
  match validate_string_argument error_message with
  | ValueError m => ([], inl (ValueError m))
  | Valid =>
      match validate_http_status_code status_code with
      | ValueError m => ([], inl (ValueError m))
      | Valid => ([Info error_message], inr (error_message, status_code))
      end
  end.

End Build.

(** The validators as the docstring of [build_error_response] describes
    them: the message is a non-empty string, and the status code is a
    valid HTTP status code, from 100 to 599. *)
#[export] Instance docstring_validation : Validation := {
  validate_string_argument s :=
    if String.eqb s EmptyString then ValueError "error_message must be a non-empty string" else Valid;
  validate_http_status_code c :=
    if ((100 <=? c) && (c <=? 599))%bool then Valid else ValueError "invalid HTTP status code"
}.

(** C36. For every implementation of the validators, [build_error_response]
    returns its arguments unchanged and logs the message once exactly when
    both validators accept them; otherwise it logs nothing and raises the
    error of the first validator that rejects, the message being checked
    before the status code. *)
Theorem build_error_response_spec `{Validation} (msg : string) (code : Z) :
  (snd (build_error_response msg code) = inr (msg, code)
   <-> validate_string_argument msg = Valid /\ validate_http_status_code code = Valid)
  /\ fst (build_error_response msg code)
     = (if snd (build_error_response msg code) is inr _ then [Info msg] else [])
  /\ (forall m, validate_string_argument msg = ValueError m ->
        snd (build_error_response msg code) = inl (ValueError m)).
Proof.
  unfold build_error_response.
  destruct (validate_string_argument msg) as [|m]; [destruct (validate_http_status_code code) as [|m] |];
    cbn; repeat split; try discriminate; try (intros [? ?]; discriminate); try (intros ? [=]; subst; reflexivity); auto.
Qed.

(** With the validators of the docstring, an empty message is rejected
    whatever the status code, and a status code of 700 is rejected. *)
Example docstring_errors :
  snd (build_error_response EmptyString 999) = inl (ValueError "error_message must be a non-empty string")
  /\ snd (build_error_response "not found" 700) = inl (ValueError "invalid HTTP status code")
  /\ build_error_response "not found" 404 = ([Info "not found"], inr ("not found"%string, 404)).
Proof. repeat split. Qed.
