(* ===== verification/Util.v ===== *)
(** * The readers of [scripts/_util.py]: [open_csv], [open_csv_gui], [gui_open_file]

    [open_csv] reads a CSV file with [pd.read_csv], parsing the listed
    date columns; [open_csv_gui] reads the file the user picks in the
    dialog of [gui_open_file], with the date column [timestamp].  The file
    system and the Qt dialog are the interfaces [FileSystem] and [Dialog]:
    a file is given by its header cells and its text columns, the CSV
    syntax itself is not modelled.  [read_csv] is that of pandas 0.25,
    the version the scripts need ([pd.NamedAgg] appeared in 0.25,
    [as_matrix] went in 1.0): the C parser names the header ([Unnamed: i],
    [x.1] for a repeated [x]), looks the names of [parse_dates] up in it,
    raising [ValueError] for the first missing one, and converts the
    columns in the order of the list.  The theorems on the readers hold
    for every file system and dialog.

    Both readers parse their date columns with
    [pd.datetime.strptime(x, "%d/%m/%Y %H:%M:%S")] (lines 33 and 54).
    [strptime] compiles the format to a regular expression whose fields
    are, in CPython's [_strptime]:
    - [%d]: [3[0-1]|[1-2]\d|0[1-9]|[1-9]| [1-9]];
    - [%m]: [1[0-2]|0[1-9]|[1-9]];
    - [%Y]: [\d\d\d\d];
    - [%H]: [2[0-3]|[0-1]\d|\d];
    - [%M]: [[0-5]\d|\d];
    - [%S]: [6[0-1]|[0-5]\d|\d];
    the space of the format becomes [\s+], and the whole string must be
    consumed.  The fields are then built into a [datetime], which rejects
    a day beyond the end of its month, the year 0 and the seconds 60 and
    61.  No field can contain a [/], a [:] or a white space, so the
    matched text of a field is the text up to the next separator: the
    model splits the string there and tests each field against its
    alternatives, which is what the backtracking of the regular expression
    amounts to.

    [to_seconds] is the number of seconds since 0001-01-01 00:00:00 that
    [datetime] arithmetic uses ([_ymd2ord]); the engine's timestamps are
    such whole seconds.  Digits and white space are ASCII here: Python's
    [\d] and [\s] also match other Unicode digits and spaces. *)

From Stdlib Require Import ZArith String Ascii List Bool Lia.
Import ListNotations.
From S2P Require Import PyString.

Local Open Scope Z_scope.

Record datetime := mk_datetime {
  year : Z; month : Z; day : Z; hour : Z; minute : Z; second : Z
}.

(** ** The calendar of [datetime] *)

Definition is_leap (y : Z) : bool := (y mod 4 =? 0) && (negb (y mod 100 =? 0) || (y mod 400 =? 0)).

Definition days_in_month (y m : Z) : Z :=
  if (m =? 2) then (if is_leap y then 29 else 28)
  else if (m =? 4) || (m =? 6) || (m =? 9) || (m =? 11) then 30
  else 31.

(** [_days_before_year] and [_days_before_month]. *)
Definition days_before_year (y : Z) : Z :=
  let y' := y - 1 in y' * 365 + y' / 4 - y' / 100 + y' / 400.

Definition days_before_month (y m : Z) : Z :=
  nth (Z.to_nat m) [0; 0; 31; 59; 90; 120; 151; 181; 212; 243; 273; 304; 334] 0
  + (if (2 <? m) && is_leap y then 1 else 0).

(** [_ymd2ord]: the day number, 1 for 0001-01-01. *)
Definition ymd2ord (y m d : Z) : Z := days_before_year y + days_before_month y m + d.

Definition to_seconds (t : datetime) : Z :=
  (ymd2ord (year t) (month t) (day t) - 1) * 86400 + hour t * 3600 + minute t * 60 + second t.

(** The checks of [datetime(year, month, day, hour, minute, second)]. *)
Definition valid_datetime (t : datetime) : bool :=
  (1 <=? year t) && (year t <=? 9999) && (1 <=? month t) && (month t <=? 12)
  && (1 <=? day t) && (day t <=? days_in_month (year t) (month t))
  && (0 <=? hour t) && (hour t <=? 23) && (0 <=? minute t) && (minute t <=? 59)
  && (0 <=? second t) && (second t <=? 59).

(** ** Fields *)

Definition digit_val (c : ascii) : option Z :=
  let n := Z.of_nat (nat_of_ascii c) in
  if (48 <=? n) && (n <=? 57) then Some (n - 48) else None.

Definition is_digit (c : ascii) : bool := if digit_val c is Some _ then true else false.

Definition in_range (lo hi : Z) (c : ascii) : bool :=
  match digit_val c with Some v => (lo <=? v) && (v <=? hi) | None => false end.

(** The white space of [\s] in the ASCII range: tab to carriage return,
    the four separators 28-31, and the space. *)
Definition is_space (c : ascii) : bool :=
  let n := nat_of_ascii c in ((9 <=? n) && (n <=? 13))%nat || ((28 <=? n) && (n <=? 32))%nat.

(** The value of a string of digits. *)
Definition digits_val (l : list ascii) : Z :=
  fold_left (fun acc c => acc * 10 + match digit_val c with Some v => v | None => 0 end) l 0.

Definition field_d (l : list ascii) : bool :=
  match l with
  | [a; b] => (Ascii.eqb a "3" && in_range 0 1 b) || (in_range 1 2 a && is_digit b)
              || (Ascii.eqb a "0" && in_range 1 9 b) || (Ascii.eqb a " " && in_range 1 9 b)
  | [a] => in_range 1 9 a
  | _ => false
  end.

Definition field_m (l : list ascii) : bool :=
  match l with
  | [a; b] => (Ascii.eqb a "1" && in_range 0 2 b) || (Ascii.eqb a "0" && in_range 1 9 b)
  | [a] => in_range 1 9 a
  | _ => false
  end.

Definition field_Y (l : list ascii) : bool :=
  match l with [a; b; c; d] => is_digit a && is_digit b && is_digit c && is_digit d | _ => false end.

Definition field_H (l : list ascii) : bool :=
  match l with
  | [a; b] => (Ascii.eqb a "2" && in_range 0 3 b) || (in_range 0 1 a && is_digit b)
  | [a] => is_digit a
  | _ => false
  end.

Definition field_M (l : list ascii) : bool :=
  match l with
  | [a; b] => in_range 0 5 a && is_digit b
  | [a] => is_digit a
  | _ => false
  end.

Definition field_S (l : list ascii) : bool :=
  match l with
  | [a; b] => (Ascii.eqb a "6" && in_range 0 1 b) || (in_range 0 5 a && is_digit b)
  | [a] => is_digit a
  | _ => false
  end.

(** [int(text)] of a matched field ([int] ignores the leading space a
    day may have). *)
Definition field_val (l : list ascii) : Z := digits_val (filter is_digit l).

(** The text up to the first [c], and the rest after it. *)
Fixpoint split_at (c : ascii) (l : list ascii) : option (list ascii * list ascii) :=
  match l with
  | [] => None
  | a :: l' => if Ascii.eqb a c then Some ([], l')
               else match split_at c l' with Some (x, r) => Some (a :: x, r) | None => None end
  end.

Fixpoint drop_spaces (l : list ascii) : list ascii :=
  match l with a :: l' => if is_space a then drop_spaces l' else l | [] => [] end.

(** ** The parser *)

(** [datetime.strptime(x, "%d/%m/%Y %H:%M:%S")]: [None] where it raises
    [ValueError]. *)
Definition strptime_dmY_HMS (x : string) : option datetime :=
  let l := list_ascii_of_string x in
  match split_at "/" l with None => None | Some (d, r1) =>
  match split_at "/" r1 with None => None | Some (m, r2) =>
  let y := firstn 4 r2 in
  let r3 := skipn 4 r2 in
  match r3 with
  | s :: _ =>
    if negb (is_space s) then None else
    match split_at ":" (drop_spaces r3) with None => None | Some (h, r4) =>
    match split_at ":" r4 with None => None | Some (mi, se) =>
    if field_d d && field_m m && field_Y y && field_H h && field_M mi && field_S se then
      let t := mk_datetime (field_val y) (field_val m) (field_val d)
                           (field_val h) (field_val mi) (field_val se) in
      if valid_datetime t then Some t else None
    else None
    end end
  | [] => None
  end end end.

(** [pd.read_csv(..., parse_dates=cols, date_parser=mydateparser)] on one
    date column: the parser is applied to every cell, a
    missing cell (read as the string ['nan']) gives [NaT], and a cell the
    parser rejects makes [read_csv] raise. *)
Definition parse_date_column (cells : list string) : option (list (option datetime)) :=
  fold_right (fun c acc =>
    match acc with
    | None => None
    | Some ts =>
        if String.eqb c "nan" then Some (None :: ts)
        else match strptime_dmY_HMS c with Some t => Some (Some t :: ts) | None => None end
    end) (Some []) cells.

(** ** The readers *)

(** A column of the data frame the readers return: the text [read_csv]
    read, or the dates the parser made of it ([None] is [NaT]).  The cells
    are the strings [read_csv] hands to the date parser, a missing cell
    being the string ["nan"]. *)
Inductive column := Text (cells : list string) | Dates (ts : list (option datetime)).

Definition frame := list (string * column).

(** The exceptions the readers raise: [MissingDateColumn c] is the
    [ValueError: 'c' is not in list] of the C parser for the first name of
    [parse_dates] that is not in the header. *)
Inductive read_error :=
  | FileNotFoundError (path : string)
  | MissingDateColumn (name : string)
  | DateParseError (name : string).

(** The file system as [read_csv] sees it: the columns of a CSV file,
    each with the text of its header cell (empty for a column without a
    name) and its cells, or [None] where there is no such file. *)
Class FileSystem := { read_file : string -> option (list (string * list string)) }.

(** [QFileDialog.getOpenFileName(parent, caption, directory, filter)]:
    the pair (file name, filter), [("", "")] when the user cancels. *)
Class Dialog := { getOpenFileName : string -> string -> string -> string * string }.

Fixpoint map_option {A B : Type} (f : A -> option B) (l : list A) : option (list B) :=
  match l with
  | [] => Some []
  | a :: l' =>
      match f a with
      | Some b => option_map (cons b) (map_option f l')
      | None => None
      end
  end.

(** The [converter] of [_make_date_converter] for a column of
    [parse_dates] with a [date_parser]: the parser on every cell of a text
    column ([try_parse_dates], then [generic_parser] when a cell raises).
    A column converted already (a name listed twice) reaches [strptime]
    as the strings of [Timestamp]s, then as [Timestamp]s, which it
    rejects, unless the column has no cell. *)
Definition convert_column (c : column) : option column :=
  match c with
  | Text cells => option_map Dates (parse_date_column cells)
  | Dates [] => Some (Dates [])
  | Dates _ => None
  end.

(** [data_dict[colspec] = converter(data_dict[colspec])]. *)
Definition convert_if (name : string) (x : string * column) : option (string * column) :=
  let '(n, c) := x in
  if String.eqb n name then option_map (pair n) (convert_column c) else Some (n, c).

Definition convert_named (name : string) (fr : frame) : option frame :=
  map_option (convert_if name) fr.

(** [_process_date_conversion]: the names of [parse_dates] in order. *)
Fixpoint convert_dates (cols : list string) (fr : frame) : read_error + frame :=
  match cols with
  | [] => inr fr
  | c :: cols' =>
      match convert_named c fr with
      | Some fr' => convert_dates cols' fr'
      | None => inl (DateParseError c)
      end
  end.

(** ** The header of the C parser

    [TextReader._get_header] (pandas 0.25, [parsers.pyx]) names the
    columns: a column whose header cell is empty is named [Unnamed: i]
    after its position [i], and with [mangle_dupe_cols=True] a name
    already taken, [x], becomes [x.1] (or [x.2], ..., after the number of
    times [x] was seen), the loop going on while the new name is taken
    too.  [counts] is the dictionary of the loop, as an association
    list. *)

(** [counts.get(name, 0)]. *)
Fixpoint count_of (counts : list (string * nat)) (name : string) : nat :=
  match counts with
  | [] => O
  | (n, c) :: counts' => if String.eqb n name then c else count_of counts' name
  end.

(** [counts[name] = c]. *)
Fixpoint set_count (counts : list (string * nat)) (name : string) (c : nat) : list (string * nat) :=
  match counts with
  | [] => [(name, c)]
  | (n, c') :: counts' =>
      if String.eqb n name then (name, c) :: counts' else (n, c') :: set_count counts' name c
  end.

(** The length of the longest name of [counts]: every name the loop
    meets while it goes on is a key of [counts] and each is longer than
    the one before, so [S (max_len counts)] rounds are enough
    ([mangle_free]). *)
Definition max_len (counts : list (string * nat)) : nat :=
  fold_right (fun '(n, _) m => Nat.max (String.length n) m) O counts.

(** [while count > 0: counts[name] = count + 1; name = '%s.%d' % (name,
    count); count = counts.get(name, 0)], with [fuel] rounds. *)
Fixpoint mangle (fuel : nat) (counts : list (string * nat)) (name : string) (count : nat)
    : list (string * nat) * string * nat :=
  match fuel, count with
  | S fuel', S _ =>
      let counts' := set_count counts name (S count) in
      let name' := (name ++ "." ++ str_Z (Z.of_nat count))%string in
      mangle fuel' counts' name' (count_of counts' name')
  | _, _ => (counts, name, count)
  end.

(** The loop over the header cells, from position [i]. *)
Fixpoint header_from (i : nat) (counts : list (string * nat)) (names : list string) : list string :=
  match names with
  | [] => []
  | old :: names' =>
      let name := if String.eqb old EmptyString then ("Unnamed: " ++ str_Z (Z.of_nat i))%string else old in
      let '(counts', name', count) := mangle (S (max_len counts)) counts name (count_of counts name) in
      name' :: header_from (S i) (set_count counts' name' (S count)) names'
  end.

Definition header_names (names : list string) : list string := header_from O [] names.

(** The columns of a file under the names of its header. *)
Definition header (f : list (string * list string)) : list (string * list string) :=
  combine (header_names (map fst f)) (map snd f).

(** [pd.read_csv(source_file, low_memory=False, parse_dates=cols,
    date_parser=mydateparser)] on the columns of a file (pandas 0.25, C
    engine): the header is named, then [_set_noconvert_columns] looks
    every name of [parse_dates] up in it and the first missing one raises
    [ValueError], before any cell is parsed; then the columns are
    converted. *)
Definition read_csv (f : list (string * list string)) (cols : list string) : read_error + frame :=
  let f := header f in
  match List.find (fun c => negb (existsb (String.eqb c) (map fst f))) cols with
  | None => convert_dates cols (map (fun '(n, cells) => (n, Text cells)) f)
  | Some c => inl (MissingDateColumn c)
  end.

Section Readers.

Context `{FileSystem} `{Dialog}.

(** [open_csv] (lines 37-56). *)
Definition open_csv (source_file : string) (list_of_date_columns : list string) : read_error + frame :=
  match read_file source_file with
  | None => inl (FileNotFoundError source_file)
  | Some f => read_csv f list_of_date_columns
  end.

(** [gui_open_file] (lines 59-76): the directory defaults to ['./'], and
    the first component of the dialog's pair is returned. *)
Definition gui_open_file (dir : option string) : string :=
  let dir := match dir with None => "./"%string | Some d => d end in
  fst (getOpenFileName "Select data file..." dir "All files (*);; SM Files (*.sm)").

(** [open_csv_gui] (lines 22-35): the file the user picks, with the date
    column [timestamp]. *)
Definition open_csv_gui : read_error + frame :=
  open_csv (gui_open_file None) ["timestamp"%string].

End Readers.

(** The lexicographic order of the fields. *)
Definition datetime_ltb (a b : datetime) : bool :=
  (year a <? year b) || (year a =? year b) && (
  (month a <? month b) || (month a =? month b) && (
  (day a <? day b) || (day a =? day b) && (
  (hour a <? hour b) || (hour a =? hour b) && (
  (minute a <? minute b) || (minute a =? minute b) && (second a <? second b))))).

(** ** The calendar *)

(** Checking a property of every integer of a range by evaluation. *)
Definition zrange_check (P : Z -> bool) (lo n : Z) : bool :=
  forallb P (map (fun i => lo + Z.of_nat i) (seq 0 (Z.to_nat n))).

Lemma zrange_check_ok (P : Z -> bool) (lo n x : Z) :
  zrange_check P lo n = true -> lo <= x < lo + n -> P x = true.
Proof.
  intros H Hx. unfold zrange_check in H. rewrite forallb_forall in H. apply H, in_map_iff.
  exists (Z.to_nat (x - lo)). split; [lia |]. apply in_seq. lia.
Qed.

Definition leap_bit (y : Z) : Z := if is_leap y then 1 else 0.

Lemma div_pred (k y : Z) : 0 < k -> (y - 1) / k = (if y mod k =? 0 then y / k - 1 else y / k).
Proof.
  intros Hk. pose proof (Z.div_mod y k ltac:(lia)) as Hy. pose proof (Z.mod_pos_bound y k Hk) as Hb.
  destruct (Z.eqb_spec (y mod k) 0) as [E | E]; symmetry;
    [apply (Z.div_unique _ _ _ (k - 1)) | apply (Z.div_unique _ _ _ (y mod k - 1))]; lia.
Qed.

Lemma mod_divides (a b y : Z) : 0 < a -> 0 < b -> (a | b) -> y mod b = 0 -> y mod a = 0.
Proof.
  intros Ha Hb Hab Hy. apply Z.mod_divide in Hy; [| lia]. apply Z.mod_divide; [lia |].
  exact (Z.divide_trans _ _ _ Hab Hy).
Qed.

Lemma days_before_year_succ (y : Z) :
  days_before_year (y + 1) = days_before_year y + 365 + leap_bit y.
Proof.
  unfold days_before_year, leap_bit, is_leap. replace (y + 1 - 1) with y by lia.
  rewrite !div_pred by lia.
  pose proof (mod_divides 4 100 y ltac:(lia) ltac:(lia) ltac:(exists 25; lia)).
  pose proof (mod_divides 100 400 y ltac:(lia) ltac:(lia) ltac:(exists 4; lia)).
  destruct (Z.eqb_spec (y mod 4) 0), (Z.eqb_spec (y mod 100) 0), (Z.eqb_spec (y mod 400) 0);
    cbn; lia.
Qed.

Lemma days_before_year_mono (a b : Z) : a <= b -> days_before_year a + 365 * (b - a) <= days_before_year b.
Proof.
  intros Hab. replace b with (a + Z.of_nat (Z.to_nat (b - a))) by lia.
  generalize (Z.to_nat (b - a)) as n. intros n. induction n as [|n IH]; [rewrite Nat2Z.inj_0, Z.add_0_r; lia |].
  replace (a + Z.of_nat (S n)) with ((a + Z.of_nat n) + 1) by lia.
  rewrite days_before_year_succ. unfold leap_bit. destruct (is_leap _); lia.
Qed.

(** The month tables, for a leap year ([b = true]) or not. *)
Definition dbm_b (b : bool) (m : Z) : Z :=
  nth (Z.to_nat m) [0; 0; 31; 59; 90; 120; 151; 181; 212; 243; 273; 304; 334] 0
  + (if (2 <? m) && b then 1 else 0).

Definition dim_b (b : bool) (m : Z) : Z :=
  if (m =? 2) then (if b then 29 else 28)
  else if (m =? 4) || (m =? 6) || (m =? 9) || (m =? 11) then 30
  else 31.

Lemma days_before_month_b (y m : Z) : days_before_month y m = dbm_b (is_leap y) m.
Proof. reflexivity. Qed.

Lemma days_in_month_b (y m : Z) : days_in_month y m = dim_b (is_leap y) m.
Proof. reflexivity. Qed.

(** A month ends before the next one starts, and the last one at the
    end of the year. *)
Definition month_table_ok (b : bool) : bool :=
  zrange_check (fun m1 =>
    (0 <=? dbm_b b m1) && (dbm_b b m1 + dim_b b m1 <=? 365 + (if b then 1 else 0))
    && zrange_check (fun m2 => implb (m1 <? m2) (dbm_b b m1 + dim_b b m1 <=? dbm_b b m2)) 1 12) 1 12.

Lemma month_table (b : bool) (m1 : Z) :
  1 <= m1 <= 12 ->
  0 <= dbm_b b m1 /\ dbm_b b m1 + dim_b b m1 <= 365 + (if b then 1 else 0)
  /\ (forall m2, m1 < m2 <= 12 -> dbm_b b m1 + dim_b b m1 <= dbm_b b m2).
Proof.
  intros Hm. assert (H : month_table_ok b = true) by (destruct b; vm_compute; reflexivity).
  apply (zrange_check_ok _ 1 12 m1) in H; [| lia].
  apply andb_prop in H as [H H3]. apply andb_prop in H as [H1 H2].
  apply Z.leb_le in H1, H2. repeat split; try lia.
  intros m2 Hm2. apply (zrange_check_ok _ 1 12 m2) in H3; [| lia].
  assert (Hlt : (m1 <? m2) = true) by (apply Z.ltb_lt; lia). cbv beta in H3. rewrite Hlt in H3. apply Z.leb_le, H3.
Qed.

(** The day number of a valid date lies in its year. *)
Lemma ymd2ord_bounds (y m d : Z) :
  1 <= m <= 12 -> 1 <= d <= days_in_month y m ->
  days_before_year y + 1 <= ymd2ord y m d <= days_before_year (y + 1).
Proof.
  intros Hm Hd. rewrite days_before_year_succ. unfold ymd2ord, leap_bit.
  rewrite days_before_month_b. rewrite days_in_month_b in Hd.
  destruct (month_table (is_leap y) m Hm) as (H0 & H1 & _). destruct (is_leap y); lia.
Qed.

Lemma ymd2ord_lt (y1 m1 d1 y2 m2 d2 : Z) :
  1 <= m1 <= 12 -> 1 <= d1 <= days_in_month y1 m1 ->
  1 <= m2 <= 12 -> 1 <= d2 <= days_in_month y2 m2 ->
  (y1 < y2 \/ y1 = y2 /\ (m1 < m2 \/ m1 = m2 /\ d1 < d2)) ->
  ymd2ord y1 m1 d1 < ymd2ord y2 m2 d2.
Proof.
  intros Hm1 Hd1 Hm2 Hd2 [Hy | [<- [Hm | [<- Hd]]]].
  - pose proof (ymd2ord_bounds y1 m1 d1 Hm1 Hd1). pose proof (ymd2ord_bounds y2 m2 d2 Hm2 Hd2).
    pose proof (days_before_year_mono (y1 + 1) y2 ltac:(lia)). lia.
  - unfold ymd2ord. rewrite !days_before_month_b. rewrite days_in_month_b in Hd1.
    destruct (month_table (is_leap y1) m1 Hm1) as (_ & _ & H). specialize (H m2 ltac:(lia)). lia.
  - unfold ymd2ord. lia.
Qed.

Lemma valid_datetime_iff (t : datetime) :
  valid_datetime t = true <->
  1 <= year t <= 9999 /\ 1 <= month t <= 12 /\ 1 <= day t <= days_in_month (year t) (month t)
  /\ 0 <= hour t <= 23 /\ 0 <= minute t <= 59 /\ 0 <= second t <= 59.
Proof. unfold valid_datetime. rewrite !andb_true_iff, !Z.leb_le. tauto. Qed.

(** Later fields of the lexicographic order weigh less than one unit of
    the earlier ones: [to_seconds] is strictly increasing. *)
Lemma to_seconds_lt (t1 t2 : datetime) :
  valid_datetime t1 = true -> valid_datetime t2 = true ->
  datetime_ltb t1 t2 = true -> to_seconds t1 < to_seconds t2.
Proof.
  rewrite !valid_datetime_iff. destruct t1 as [y1 m1 d1 h1 i1 s1], t2 as [y2 m2 d2 h2 i2 s2]; cbn.
  intros (Hy1 & Hm1 & Hd1 & Hh1 & Hi1 & Hs1) (Hy2 & Hm2 & Hd2 & Hh2 & Hi2 & Hs2).
  unfold datetime_ltb, to_seconds; cbn. rewrite !orb_true_iff, !andb_true_iff, !Z.ltb_lt, !Z.eqb_eq.
  intros H.
  assert (Hc : (y1 < y2 \/ y1 = y2 /\ (m1 < m2 \/ m1 = m2 /\ d1 < d2))
               \/ (y1 = y2 /\ m1 = m2 /\ d1 = d2 /\ h1 * 3600 + i1 * 60 + s1 < h2 * 3600 + i2 * 60 + s2))
    by lia.
  destruct Hc as [Hc | (<- & <- & <- & Hc)]; [| lia].
  pose proof (ymd2ord_lt y1 m1 d1 y2 m2 d2 Hm1 Hd1 Hm2 Hd2 Hc). lia.
Qed.

Lemma datetime_ltb_total (t1 t2 : datetime) :
  datetime_ltb t1 t2 = true \/ t1 = t2 \/ datetime_ltb t2 t1 = true.
Proof.
  destruct t1 as [y1 m1 d1 h1 i1 s1], t2 as [y2 m2 d2 h2 i2 s2]. unfold datetime_ltb; cbn.
  rewrite !orb_true_iff, !andb_true_iff, !Z.ltb_lt, !Z.eqb_eq.
  destruct (Z.eq_dec y1 y2) as [<- | Hy]; [| apply Z.lt_gt_cases in Hy; lia].
  destruct (Z.eq_dec m1 m2) as [<- | Hm]; [| apply Z.lt_gt_cases in Hm; lia].
  destruct (Z.eq_dec d1 d2) as [<- | Hd]; [| apply Z.lt_gt_cases in Hd; lia].
  destruct (Z.eq_dec h1 h2) as [<- | Hh]; [| apply Z.lt_gt_cases in Hh; lia].
  destruct (Z.eq_dec i1 i2) as [<- | Hi]; [| apply Z.lt_gt_cases in Hi; lia].
  destruct (Z.eq_dec s1 s2) as [<- | Hs]; [auto | apply Z.lt_gt_cases in Hs; lia].
Qed.

(** ** Printing *)

Definition digit_char (v : Z) : ascii := ascii_of_nat (Z.to_nat v + 48).

Definition pad2 (v : Z) : list ascii := [digit_char (v / 10); digit_char (v mod 10)].

Definition pad4 (v : Z) : list ascii :=
  [digit_char (v / 1000); digit_char (v / 100 mod 10); digit_char (v / 10 mod 10); digit_char (v mod 10)].

(** The zero-padded form [DD/MM/YYYY HH:MM:SS] of a time, as
    [strftime] prints it for years from 1000. *)
Definition format_dmY_HMS (t : datetime) : string :=
  string_of_list_ascii
    (pad2 (day t) ++ "/"%char :: pad2 (month t) ++ "/"%char :: pad4 (year t) ++ " "%char ::
     pad2 (hour t) ++ ":"%char :: pad2 (minute t) ++ ":"%char :: pad2 (second t)).

(** [to_csv(filename, date_format="%d/%m/%Y %H:%M:%S")] (the demos, e.g.
    [demo1_preprocessing.py] line 26), as the next [read_csv] reads the
    file back: the index first (its labels as printed), under an empty
    header cell since the index has no name, then the columns; a date is
    printed in the format, [NaT] as an empty field, which [read_csv]
    reads as missing, and a text cell as it is. *)
Definition to_csv_dates (ts : list (option datetime)) : list string :=
  map (fun o => match o with Some t => format_dmY_HMS t | None => "nan"%string end) ts.

Definition csv_columns (fr : frame) : list (string * list string) :=
  map (fun '(n, c) => (n, match c with Text cells => cells | Dates ts => to_csv_dates ts end)) fr.

Definition to_csv (index : list string) (fr : frame) : list (string * list string) :=
  (EmptyString, index) :: csv_columns fr.










(** ** Properties *)


Lemma strptime_valid (x : string) (t : datetime) :
  strptime_dmY_HMS x = Some t -> valid_datetime t = true.
Proof.
  unfold strptime_dmY_HMS.
  repeat match goal with
  | |- (if valid_datetime ?u then _ else _) = Some t -> _ => destruct (valid_datetime u) eqn:?
  | |- match ?e with _ => _ end = Some t -> _ => destruct e
  | |- (let _ := _ in _) = Some t -> _ => cbv zeta
  end; try discriminate. now intros [= <-].
Qed.

(** C35. The timestamps the readers parse are ordered as the whole
    seconds [datetime] arithmetic gives them: of two parsed times, one
    comes before the other (field by field) exactly when it has fewer
    seconds since 0001-01-01, and two parsed times are equal exactly when
    their seconds are.  Whole seconds ([Z]) are therefore a faithful
    model of the [timestamp] column. *)
Theorem parsed_times_order (x1 x2 : string) (t1 t2 : datetime) :
  strptime_dmY_HMS x1 = Some t1 -> strptime_dmY_HMS x2 = Some t2 ->
  (datetime_ltb t1 t2 = true <-> to_seconds t1 < to_seconds t2)
  /\ (to_seconds t1 = to_seconds t2 <-> t1 = t2).
Proof.
  intros H1 H2. apply strptime_valid in H1, H2.
  pose proof (to_seconds_lt t1 t2 H1 H2). pose proof (to_seconds_lt t2 t1 H2 H1).
  destruct (datetime_ltb_total t1 t2) as [E | [<- | E]].
  - rewrite E. specialize (H E). split; split; intros; try congruence; lia.
  - split; split; intros; try reflexivity; try lia.
    destruct (datetime_ltb t1 t1) eqn:E; [specialize (H eq_refl); lia | discriminate].
  - specialize (H0 E). destruct (datetime_ltb t1 t2) eqn:E'; [specialize (H eq_refl); lia |].
    split; split; intros; try discriminate; try lia. subst. lia.
Qed.

(** ** Examples *)

Lemma parsed_times_order_witness :
  strptime_dmY_HMS "28/02/2020 23:59:59" = Some (mk_datetime 2020 2 28 23 59 59)
  /\ strptime_dmY_HMS "29/02/2020 00:00:00" = Some (mk_datetime 2020 2 29 0 0 0)
  /\ (datetime_ltb (mk_datetime 2020 2 28 23 59 59) (mk_datetime 2020 2 29 0 0 0) = true
      <-> to_seconds (mk_datetime 2020 2 28 23 59 59) < to_seconds (mk_datetime 2020 2 29 0 0 0))
  /\ (to_seconds (mk_datetime 2020 2 28 23 59 59) = to_seconds (mk_datetime 2020 2 29 0 0 0)
      <-> mk_datetime 2020 2 28 23 59 59 = mk_datetime 2020 2 29 0 0 0).
Proof.
  assert (H1 : strptime_dmY_HMS "28/02/2020 23:59:59" = Some (mk_datetime 2020 2 28 23 59 59))
    by (vm_compute; reflexivity).
  assert (H2 : strptime_dmY_HMS "29/02/2020 00:00:00" = Some (mk_datetime 2020 2 29 0 0 0))
    by (vm_compute; reflexivity).
  split; [exact H1 | split; [exact H2 | exact (parsed_times_order _ _ _ _ H1 H2)]].
Defined.


(** What the readers accept and reject: unpadded fields, a day
    padded with a space and several spaces before the hour are accepted;
    29 February of 1900, the second 60, the ISO form [2019-01-01] and a
    two-digit year make the whole [read_csv] raise, while a missing cell
    is [NaT]. *)
Example date_column_errors :
  strptime_dmY_HMS " 5/3/2019   7:5:9" = Some (mk_datetime 2019 3 5 7 5 9)
  /\ strptime_dmY_HMS "29/02/1900 10:00:00" = None
  /\ strptime_dmY_HMS "01/01/2019 10:00:60" = None
  /\ parse_date_column ["01/01/2019 10:00:00"; "nan"]%string
     = Some [Some (mk_datetime 2019 1 1 10 0 0); None]
  /\ parse_date_column ["01/01/2019 10:00:00"; "2019-01-01 10:00:01"]%string = None
  /\ parse_date_column ["01/01/19 10:00:00"]%string = None.
Proof. vm_compute. repeat split. Qed.

(** ** What the readers return *)











(** ** The header *)















(** ** The names of [parse_dates] *)










(** ** Examples of the readers *)

(** A file with a tracker, a timestamp with a missing cell, and an x
    column, as [demo1_preprocessing.py] writes it, with its index [0, 1]. *)
Definition demo_frame : frame :=
  [("tracker"%string, Text ["1"; "1"]%string);
   ("timestamp"%string, Dates [Some (mk_datetime 2019 3 5 7 5 9); None]);
   ("x"%string, Text ["100"; "200"]%string)].

Definition demo_index : list string := ["0"; "1"]%string.

Definition demo_fs : FileSystem :=
  {| read_file p := if String.eqb p "demo.csv" then Some (to_csv demo_index demo_frame) else None |}.

(** The dialog when the user presses Cancel. *)
Definition cancelled : Dialog := {| getOpenFileName _ _ _ := (EmptyString, EmptyString) |}.



(** A date column listed twice is converted twice, and the second
    conversion hands [Timestamp]s to [strptime]: [read_csv] raises.
    Cancelling the dialog of [open_csv_gui] gives the file name [''],
    which [read_csv] cannot open. *)
Example readers_errors :
  @open_csv demo_fs "demo.csv" ["timestamp"; "timestamp"]%string = inl (DateParseError "timestamp")
  /\ @open_csv_gui demo_fs cancelled = inl (FileNotFoundError EmptyString).
Proof. vm_compute. repeat split. Qed.

(** The C parser's names for a header [",x,x,x.1"]: the empty cell is
    [Unnamed: 0], the second [x] becomes [x.1], which makes the last
    [x.1] become [x.1.1]. *)
Example header_mangled :
  header_names [EmptyString; "x"; "x"; "x.1"]%string = ["Unnamed: 0"; "x"; "x.1"; "x.1.1"]%string.
Proof. vm_compute. reflexivity. Qed.
