(* ===== verification/Demo.v ===== *)
(** * The whole analysis ([test/demoMAIN.py])

    [demoMAIN.py] runs every module on one dataset: [preprocessing]
    (with [_fill_NaN_Values = 1] and [_include_all_data = 0]),
    [stops_transitions], [generate_fixed_points_stats], the two Gini
    tables, [calculate_entropy_session_tracker_phase],
    [plot_charts_per_tracker] and [get_metrics] with [selectedPhase = -99].

    Two of the calls share a data frame with an earlier one, and the model
    keeps the sharing:
    - [add_phases] assigns the phase column of the frame it is given
      ([df['phase'] = phases], [_preprocessing.py] line 263) before
      filtering a copy, so the [df] of the script, which the entropy is
      then computed on, has a phase for every raw row, [-100] included
      ([shared_df]);
    - [generate_fixed_points_stats] sorts [df_stops_transitions] in place,
      and the plots and the metrics read the sorted frame.

    The reading of the CSV files, the time stamp of the output file and
    [to_csv] are I/O and not modelled: the script's tables are the
    arguments.  [np.sqrt] is a parameter, as in [Metrics], and so is the
    float that pandas stores for an entropy ([entropy_float]): the
    entropies are real numbers and floating-point rounding is not
    modelled. *)

From Stdlib Require Import ZArith QArith Reals List Lia String.
From stdpp Require Import base list decidable.
From S2P Require Import Prelude Samples ClusterBuilder Classifier BlockMerger Summarizer Pipeline.
From S2P Require Import Preprocessing QSum Gini EntropyGrid EntropyReal FixedPoints Metrics PyString Plot.

Local Open Scope Z_scope.

(** The columns of the preprocessed frame that the engine and the
    entropy read. *)
Definition to_sample (r : prow) : sample :=
  mk_sample (p_tracker r) (p_session r) (p_timestamp r) (p_x r) (p_y r) (p_phase r) (p_quantile r).

(** [dfPhases] as [get_metrics] reads it. *)
Definition to_span (p : phase_row) : phase_span :=
  mk_phase_span (ph_session p) (ph_phase p) (ph_start p) (ph_end p).

(** Line 263 of [_preprocessing.py]: the script's [df] after
    [preprocessing] returns, with the phase column [add_phases] wrote into
    it. *)
Definition shared_df (dfPhases : list phase_row) (df : list prow) : list prow :=
  map (fun r => set_phase (phase_of dfPhases r) r) df.

(** The parameters of [info.ini] the modules read. *)
Record demo_config := mk_demo_config {
  dc_prep : config;
  dc_distance : Q;
  dc_duration : Z;
  dc_distance_tracker_fixed_point : Q;
  dc_grid : grid_config;
  dc_plot : plot_config;
  dc_weighted : Z
}.

(** The tables the script computes. *)
Record demo_result := mk_demo_result {
  fixed_points_stats : list stat_row;
  gini_output_separate_trackers : list (Z * Z * Z * option Q);
  gini_output_joint_trackers : list (Z * Z * option Q);
  entropy_output : list (Z * Z * Z * Z * list (list Q) * option R);
  figures : list effect;
  Output : list (Z * Z * Z * list (option Q))
}.

Section Demo.

Context `{SessionSort}.
Variable sqrt : Q -> Q.
Variable entropy_float : option R -> option Q.

(** A call that returns, or raises an exception of type [E]. *)
Definition returned {E A : Type} (r : E + A) : option A := match r with inl _ => None | inr a => Some a end.

(** The plotting call of the script: its effects, or [None] when
    [QhullError] escapes it. *)
Definition plotted (r : list effect * plot_result) : option (list effect) :=
  match r.2 with PlotDone => Some r.1 | QhullError _ => None end.

(** Lines 46-73: [None] where a call raises. *)
Definition demo_main (dc : demo_config) (df : list prow) (dfPhases : list phase_row)
    (dfFixedPoints : list fixed_point) : option demo_result :=
  match preprocessing (dc_prep dc) df dfPhases 1 0 with
  | Err _ => None
  | Ok df_preprocessed =>
      df_stops_transitions ←
        stops_transitions (dc_distance dc) (dc_duration dc) (map to_sample df_preprocessed);
      '(df_sorted, fps) ← generate_fixed_points_stats (dc_distance_tracker_fixed_point dc)
                             df_stops_transitions dfFixedPoints;
      let gsep := calculate_gini_by_tracker fps in
      let gjoint := calculate_gini_trackers_together fps in
      ent ← returned (calculate_entropy_session_tracker_phase (dc_grid dc) (map to_sample (shared_df dfPhases df)));
      figs ← plotted (plot_charts_per_tracker (dc_plot dc) df_sorted);
      let df_entropy := map (fun '(k, _, _, e) => (k, entropy_float e)) ent in
      out ← get_metrics sqrt df_sorted fps df_entropy gsep gjoint (map to_span dfPhases) (-99) (dc_weighted dc);
      Some (mk_demo_result fps gsep gjoint ent figs out)
  end.

(** [test/demo5_generateMetrics.py], lines 41-53: [get_metrics] on the
    tables of the earlier demos, with the script's own [weighted = 1]
    choosing the name of the output file, and the [weighted] of
    [info.ini] ([config_weighted]), which [get_metrics] reads at its line
    202, choosing the weighting. *)
Definition demo5 (config_weighted : Z) (df_phases : list phase_row) (df_fs : list out_row)
    (df_points : list stat_row) (df_entropy df_giniT : list (Z * Z * Z * option Q))
    (df_giniSession : list (Z * Z * option Q)) : option (string * list (Z * Z * Z * list (option Q))) :=
  let selectedPhase := -99 in
  let weighted := 1 in
  out ← get_metrics sqrt df_fs df_points df_entropy df_giniT df_giniSession (map to_span df_phases)
          selectedPhase config_weighted;
  Some (if weighted =? 1 then "Output_NOTEBOOK10_metrics_per_tracker_WEIGHTED_"%string
        else "Output_NOTEBOOK10_metrics_per_tracker_"%string, out).

End Demo.

(** ** The stages *)

Lemma generate_fixed_points_stats_perm `{SessionSort} (D : Q) (out : list out_row) (fps : list fixed_point) out' st :
  generate_fixed_points_stats D out fps = Some (out', st) -> Permutation out' out.
Proof.
  unfold generate_fixed_points_stats. destruct (distances _ fps); [| discriminate].
  intros [= <- _]. apply sort_values_perm.
Qed.

Lemma o_phase_out_phase (o : out_row) : o_phase o = out_phase o.
Proof. destruct o; reflexivity. Qed.

(** ** Properties *)

(** C5. In the whole analysis of [demoMAIN.py], with
    [_include_all_data = 0], no row of the final metrics table is for the
    unassigned phase [-100]: the preprocessing drops the rows outside
    every phase, a stop's phase is the smallest phase of its samples, the
    in-place sort keeps the rows, and every merge of [get_metrics] is an
    inner join from the stop aggregates.  This holds although the entropy
    table, computed on the shared [df], has such groups
    ([demo_entropy_unassigned]). *)
Theorem demo_output_assigned_phases `{SessionSort} (sqrt : Q -> Q) (entropy_float : option R -> option Q)
    (dc : demo_config) (df : list prow) (dfPhases : list phase_row) (dfFixedPoints : list fixed_point)
    (res : demo_result) :
  demo_main sqrt entropy_float dc df dfPhases dfFixedPoints = Some res ->
  Forall (fun r => r.1.2 <> -100) (Output res).
Proof.
  unfold demo_main. destruct (preprocessing _ df dfPhases 1 0) as [dfp|] eqn:Ep; [| discriminate].
  apply preprocessing_assigned in Ep.
  destruct (stops_transitions _ _ (map to_sample dfp)) as [st|] eqn:Est; [| discriminate]. cbn [mbind option_bind].
  assert (Hst : Forall (fun o => out_phase o <> -100) st).
  { apply (stops_transitions_columns (fun _ p => p <> -100) _ _ _ _ Est). apply List.Forall_map. exact Ep. }
  destruct (generate_fixed_points_stats _ _ dfFixedPoints) as [[dfs fps]|] eqn:Eg; [| discriminate].
  apply generate_fixed_points_stats_perm in Eg. cbn [mbind option_bind].
  destruct (calculate_entropy_session_tracker_phase _ _) as [e|ent]; [discriminate |]. cbn.
  destruct (plotted _) as [figs|]; [| discriminate]. cbn.
  destruct (get_metrics _ _ _ _ _ _ _ _ _) as [out|] eqn:Em; [| discriminate]. intros [= <-]. cbn.
  apply get_metrics_keys in Em. revert Em. apply List.Forall_impl.
  intros r (o & Ho & _ & <-). cbn. rewrite o_phase_out_phase.
  rewrite List.Forall_forall in Hst. apply Hst. eapply Permutation_in; [exact Eg | exact Ho].
Qed.

(** ** Example *)

(** One tracker standing for six seconds, walking three seconds, and one
    more sample after the only phase of the session has ended. *)
Definition demo_rows : list prow :=
  map (fun t => mk_prow 1 1 t 100 100 0 0 0 1 1 0 false) [0; 1; 2; 3; 4; 5; 6]
  ++ map (fun t => mk_prow 1 1 t (inject_Z (3000 * (t - 6))) 100 0 0 0 1 1 0 false) [7; 8; 9]
  ++ [mk_prow 1 1 200 2000 2000 0 0 0 1 1 0 false].

Definition demo_phases : list phase_row := [mk_phase_row 1 1 0 100].

Definition demo_cfg : demo_config :=
  mk_demo_config (mk_config axis_yaw 0 4) 1000 3 1000 (mk_grid_config 2500 3000 1000) room_8x6 1.

Definition demo_sqrt (q : Q) : Q := q.

Definition no_float (e : option R) : option Q := None.

Lemma demo_output_assigned_phases_witness :
  exists res, demo_main demo_sqrt no_float demo_cfg demo_rows demo_phases room_points = Some res
    /\ Forall (fun r => r.1.2 <> -100) (Output res).
Proof.
  destruct (demo_main demo_sqrt no_float demo_cfg demo_rows demo_phases room_points) as [res|] eqn:E.
  - exists res. split; [reflexivity | exact (demo_output_assigned_phases _ _ _ _ _ _ res E)].
  - vm_compute in E. discriminate.
Defined.

(** The entropy of the example has a group for the phase [-100] (the
    sample after the phase), which the metrics do not have. *)
Example demo_entropy_unassigned :
  option_map (fun r => (map (fun '(k, _, _, _) => k) (entropy_output r), map fst (Output r)))
    (demo_main demo_sqrt no_float demo_cfg demo_rows demo_phases room_points)
  = Some ([(1, 1, -100); (1, 1, 1)], [(1, 1, 1)]).
Proof. vm_compute. reflexivity. Qed.

(** With [weighted = 0] in [info.ini], [demo5] names its file
    [WEIGHTED] although the metrics it writes are not weighted: they are
    the merged rows of every phase. *)
Example demo5_unweighted_file :
  forall df_phases df_fs df_points df_entropy df_giniT df_giniSession,
  demo5 demo_sqrt 0 df_phases df_fs df_points df_entropy df_giniT df_giniSession
  = Some ("Output_NOTEBOOK10_metrics_per_tracker_WEIGHTED_"%string,
          merged_rows demo_sqrt df_fs df_points df_entropy df_giniT df_giniSession).
Proof. reflexivity. Qed.
