(* ===== verification/Scripts.v ===== *)
(** * The demo scripts [test/demo1_preprocessing.py] to [test/demo4_entropy.py]

    Each script reads CSV files with [open_csv], calls the modules and
    writes the tables they return with [to_csv].  A script runs here in a
    small monad of its own ([script]): the files written so far, and the
    exception that stopped the script, if one did.  The file system is
    the interface [FileSystem] of [Util].  How pandas types the text
    columns of a frame it read ([int64], [float64]) is not modelled: it is
    a parameter of the section, one decoder per kind of table.  The names
    of the output files are kept as the patterns the scripts give
    [time.strftime], whose expansion depends on the clock; the printing
    of the frames is not modelled.

    [demo4_entropy.py] calls [entropy.plot_charts], a name [_entropy.py]
    does not define: the script raises [AttributeError] after it has
    written the entropy table, and never draws a chart
    ([demo4_plot_charts_missing]). *)

From Stdlib Require Import ZArith QArith Reals List String Bool.
From S2P Require Import Samples Summarizer Pipeline Preprocessing EntropyGrid EntropyReal.
From S2P Require Import FixedPoints Plot Util Demo.
Import ListNotations.

Local Open Scope string_scope.

(** The tables the scripts write. *)
Inductive table :=
  | T_prows (l : list prow)
  | T_out (l : list out_row)
  | T_stats (l : list stat_row)
  | T_gini_tracker (l : list (Z * Z * Z * option Q))
  | T_gini_session (l : list (Z * Z * option Q))
  | T_entropy (l : list (Z * Z * Z * Z * list (list Q) * option R)).

(** What a script does that outlives it: a table written by [to_csv]
    to a file named by a [time.strftime] pattern, and the effects of a
    plotting call. *)
Inductive output :=
  | Written (pattern : string) (t : table)
  | Plotted (e : list effect).

(** The exceptions that stop a script. *)
Inductive script_error :=
  | ReadFailed (e : read_error)
  | PreprocessingFailed (e : prep_error)
  | IndexError
  | EntropyFailed (e : entropy_error)
  | AttributeError (obj attr : string)
  | TypeError (name : string)
  | QhullFailed (k : Z * Z * Z).

(** ** The script monad *)

Definition script (A : Type) : Type := list output * (script_error + A).

Definition sret {A : Type} (a : A) : script A := ([], inr a).

Definition sraise {A : Type} (e : script_error) : script A := ([], inl e).

Definition sbind {A B : Type} (m : script A) (k : A -> script B) : script B :=
  match m with
  | (w, inl e) => (w, inl e)
  | (w, inr a) => let '(w', r) := k a in (app w w', r)
  end.

Declare Scope script_scope.
Delimit Scope script_scope with script.
Notation "x <- m ;; k" := (sbind m (fun x => k))
  (at level 61, m at next level, right associativity) : script_scope.
Notation "m ;; k" := (sbind m (fun _ : unit => k))
  (at level 61, right associativity) : script_scope.
Local Open Scope script_scope.

Definition write (pattern : string) (t : table) : script unit := ([Written pattern t], inr tt).

(** A reader's result, its exception stopping the script. *)
Definition read (r : read_error + frame) : script frame :=
  match r with inl e => sraise (ReadFailed e) | inr f => sret f end.

(** A call of [_entropy.py], its exception stopping the script. *)
Definition entropy_call {A : Type} (r : entropy_error + A) : script A :=
  match r with inl e => sraise (EntropyFailed e) | inr a => sret a end.

(** A call that returns [None] where it raises [e]. *)
Definition call {A : Type} (e : script_error) (o : option A) : script A :=
  match o with None => sraise e | Some a => sret a end.

(** ** The attributes of [_entropy] *)

(** The functions [_entropy.py] defines (lines 36, 133, 233, 268). *)
Definition entropy_names : list string :=
  ["calculate_entropy_session_tracker_phase"; "calculate_entropy_session_tracker";
   "get_entropy"; "plot_charts_per_tracker"].

(** Those of them that take one table of stops and transitions. *)
Definition entropy_plotters (c : plot_config) : list (string * (list out_row -> list effect * plot_result)) :=
  [("plot_charts_per_tracker", plot_charts_per_tracker c)].

(** [entropy.<name>] called on a table of stops: [AttributeError] for a
    name the module does not define, [TypeError] for a function of
    another arity. *)
Definition getattr_entropy (c : plot_config) (name : string)
    : script (list out_row -> list effect * plot_result) :=
  if existsb (String.eqb name) entropy_names then
    match find (fun p => String.eqb (fst p) name) (entropy_plotters c) with
    | Some (_, f) => sret f
    | None => sraise (TypeError name)
    end
  else sraise (AttributeError "_entropy" name).

Section Scripts.

Context `{FileSystem} `{SessionSort}.

(** The typed tables pandas makes of the frames the scripts read. *)
Variable decode_prows : frame -> list prow.
Variable decode_phases : frame -> list phase_row.
Variable decode_samples : frame -> list sample.
Variable decode_out : frame -> list out_row.
Variable decode_fixed_points : frame -> list fixed_point.
(** Python's [str] of a float. *)
Variable str_float : Q -> string.
(** The parameters of [info.ini]. *)
Variable dc : demo_config.

Definition preprocessed_file : string :=
  "sample_output_files/PartialDatasets_NOTEBOOK1_classroom_data_V2_2020-08-11-09-56.csv".

Definition stops_file : string :=
  "sample_output_files/Output_NOTEBOOK3_classroom_data2_stop_transitions_2020-08-11-15-49.csv".

(** [demo1_preprocessing.py], lines 17-26. *)
Definition demo1 : script unit :=
  df <- read (open_csv "Merged dataset 2018-2019/demo_dataset_2019.csv" ["timestamp"]);;
  dfPhases <- read (open_csv "Merged dataset 2018-2019/demo_phases_2019.csv" ["start"; "end"]);;
  df2 <- (match preprocessing (dc_prep dc) (decode_prows df) (decode_phases dfPhases) 1 0 with
          | Err e => sraise (PreprocessingFailed e)
          | Ok df2 => sret df2
          end);;
  write "PartialDatasets_NOTEBOOK1_classroom_data_V2_%Y-%m-%d-%H-%M.csv" (T_prows df2).

(** [demo2_stopsAndTransitions.py], lines 19-25: [stops_transitions]
    raises [AttributeError] at [df_dur.tracker] on a table without rows. *)
Definition demo2 : script unit :=
  df_preprocessed <- read (open_csv preprocessed_file ["timestamp"]);;
  df_stops_transitions <- call (AttributeError "df_dur" "tracker")
    (stops_transitions (dc_distance dc) (dc_duration dc) (decode_samples df_preprocessed));;
  write "Output_NOTEBOOK3_classroom_data2_stop_transitions_%Y-%m-%d-%H-%M.csv" (T_out df_stops_transitions).

(** [demo3_fixedPoints.py], lines 19-39. *)
Definition demo3 : script unit :=
  df_stops <- read (open_csv stops_file ["timestamp"]);;
  df_fixed_points <- read (open_csv "Merged dataset 2018-2019/demo_fixed_points_2019.csv" ["time_start"]);;
  r <- call IndexError (generate_fixed_points_stats (dc_distance_tracker_fixed_point dc)
                          (decode_out df_stops) (decode_fixed_points df_fixed_points));;
  let fixed_points_stats := snd r in
  write "Output_NOTEBOOK9_fixed_points_stats_%Y-%m-%d-%H-%M.csv" (T_stats fixed_points_stats);;
  write "Output_NOTEBOOK9_gini_grouping_by_tracker_%Y-%m-%d-%H-%M.csv"
    (T_gini_tracker (calculate_gini_by_tracker fixed_points_stats));;
  write "Output_NOTEBOOK9_gini_grouping_by_session_%Y-%m-%d-%H-%M.csv"
    (T_gini_session (calculate_gini_trackers_together fixed_points_stats)).

(** The name of the entropy file (line 35). *)
Definition entropy_file : string :=
  "Output_NOTEBOOK7_entropy_BY_PHASE_grouping_gridsize_" ++ str_float (size_of_grid_cells (dc_grid dc))
  ++ "mm_%Y-%m-%d-%H-%M.csv".

(** [demo4_entropy.py], lines 24-43. *)
Definition demo4 : script unit :=
  df <- read (open_csv preprocessed_file ["timestamp"]);;
  df3 <- entropy_call (calculate_entropy_session_tracker_phase (dc_grid dc) (decode_samples df));;
  write entropy_file (T_entropy df3);;
  df_st <- read (open_csv stops_file ["timestamp"]);;
  plot_charts <- getattr_entropy (dc_plot dc) "plot_charts";;
  let '(es, r) := plot_charts (decode_out df_st) in
  ([Plotted es], match r with PlotDone => inr tt | QhullError k => inl (QhullFailed k) end).

(** ** What the scripts do *)

Lemma sbind_inr {A B : Type} (w : list output) (a : A) (k : A -> script B) :
  sbind (w, inr a) k = (app w (fst (k a)), snd (k a)).
Proof. cbn. destruct (k a); reflexivity. Qed.

Lemma sbind_sret {A B : Type} (a : A) (k : A -> script B) : sbind (sret a) k = k a.
Proof. unfold sret. rewrite sbind_inr. destruct (k a); reflexivity. Qed.

(** [demo2_stopsAndTransitions.py] on a file it can read writes the
    stops and transitions of its table, and raises [AttributeError]
    instead when the table has no row. *)
Lemma demo2_spec (df : frame) :
  open_csv preprocessed_file ["timestamp"] = inr df ->
  (decode_samples df = [] -> demo2 = ([], inl (AttributeError "df_dur" "tracker")))
  /\ (decode_samples df <> [] -> exists out,
        stops_transitions (dc_distance dc) (dc_duration dc) (decode_samples df) = Some out
        /\ demo2 = ([Written "Output_NOTEBOOK3_classroom_data2_stop_transitions_%Y-%m-%d-%H-%M.csv" (T_out out)],
                    inr tt)).
Proof.
  intros Hr. unfold demo2. rewrite Hr. cbn [read]. rewrite sbind_sret. split.
  - intros ->. reflexivity.
  - intros Hne. destruct (stops_transitions_some (dc_distance dc) (dc_duration dc) _ Hne) as [out E].
    exists out. split; [exact E |]. rewrite E. reflexivity.
Qed.

(** C6. [demo4_entropy.py] never draws a chart: whatever the files hold,
    it ends with an exception and plots nothing, and when both files are
    read and the entropy computed, it has written the entropy table and
    then raises [AttributeError: module '_entropy' has no attribute
    'plot_charts'] (line 43). *)
Theorem demo4_plot_charts_missing :
  (forall e, ~ In (Plotted e) (fst demo4)) /\ (exists err, snd demo4 = inl err)
  /\ (forall df df3 df_st,
        open_csv preprocessed_file ["timestamp"] = inr df ->
        calculate_entropy_session_tracker_phase (dc_grid dc) (decode_samples df) = inr df3 ->
        open_csv stops_file ["timestamp"] = inr df_st ->
        demo4 = ([Written entropy_file (T_entropy df3)], inl (AttributeError "_entropy" "plot_charts"))).
Proof.
  assert (Hall : forall df df3 df_st,
        open_csv preprocessed_file ["timestamp"] = inr df ->
        calculate_entropy_session_tracker_phase (dc_grid dc) (decode_samples df) = inr df3 ->
        open_csv stops_file ["timestamp"] = inr df_st ->
        demo4 = ([Written entropy_file (T_entropy df3)], inl (AttributeError "_entropy" "plot_charts"))).
  { intros df df3 df_st E1 E2 E3. unfold demo4. rewrite E1. cbn [read]. rewrite sbind_sret, E2.
    cbn [entropy_call]. rewrite sbind_sret. unfold write at 1. rewrite sbind_inr. cbv beta. rewrite E3. reflexivity. }
  assert (Hend : exists w err, demo4 = (w, inl err) /\ forall e, ~ In (Plotted e) w).
  { destruct (open_csv preprocessed_file ["timestamp"]) as [e1 | df] eqn:E1.
    { unfold demo4. rewrite E1. cbn. eexists _, _. split; [reflexivity | intros ? []]. }
    destruct (calculate_entropy_session_tracker_phase (dc_grid dc) (decode_samples df)) as [e2 | df3] eqn:E2.
    1: { unfold demo4. rewrite E1. cbn [read]. rewrite sbind_sret, E2. cbn.
         eexists _, _. split; [reflexivity | intros ? []]. }
    destruct (open_csv stops_file ["timestamp"]) as [e3 | df_st] eqn:E3.
    2: { rewrite (Hall df df3 df_st eq_refl E2 eq_refl). eexists _, _. split; [reflexivity | intros ? [[=] | []]]. }
    unfold demo4. rewrite E1. cbn [read]. rewrite sbind_sret, E2. cbn [entropy_call]. rewrite sbind_sret.
    unfold write at 1. rewrite sbind_inr. cbv beta. rewrite E3. cbn.
    eexists _, _. split; [reflexivity | intros ? [[=] | []]]. }
  destruct Hend as (w & err & Hd & Hw).
  split; [rewrite Hd; exact Hw | split; [rewrite Hd; eauto | exact Hall]].
Qed.

End Scripts.

(** ** Example *)

(** A file system in which every path holds the frame of [Util], written
    with its index. *)
Definition demo_read : frame := ("Unnamed: 0"%string, Text demo_index) :: demo_frame.

Definition one_file_fs : FileSystem := {| read_file _ := Some (to_csv demo_index demo_frame) |}.

Lemma demo4_plot_charts_missing_witness :
  @open_csv one_file_fs preprocessed_file ["timestamp"] = inr demo_read
  /\ calculate_entropy_session_tracker_phase (dc_grid demo_cfg) [] = inr []
  /\ @open_csv one_file_fs stops_file ["timestamp"] = inr demo_read
  /\ @demo4 one_file_fs (fun _ => []) (fun _ => []) (fun _ => "1000.0") demo_cfg
     = ([Written (entropy_file (fun _ => "1000.0") demo_cfg) (T_entropy [])],
        inl (AttributeError "_entropy" "plot_charts")).
Proof.
  assert (E1 : @open_csv one_file_fs preprocessed_file ["timestamp"] = inr demo_read)
    by (vm_compute; reflexivity).
  assert (E2 : calculate_entropy_session_tracker_phase (dc_grid demo_cfg) [] = inr [])
    by (vm_compute; reflexivity).
  assert (E3 : @open_csv one_file_fs stops_file ["timestamp"] = inr demo_read)
    by (vm_compute; reflexivity).
  split; [exact E1 | split; [exact E2 | split; [exact E3 |]]].
  exact (proj2 (proj2 (@demo4_plot_charts_missing one_file_fs (fun _ => []) (fun _ => [])
                          (fun _ => "1000.0") demo_cfg)) demo_read [] demo_read E1 E2 E3).
Defined.
